(** * cypress-aurora-report: telemetry store, analytics and real-time hub

    A shallow embedding of the persistence layer
    ([TestRunRepositoryImpl] of [src/database/TestRunRepository.ts],
    [TestResultRepositoryImpl] of [src/database/index.ts], the schema,
    [DatabaseManager] and [SqliteConnection] of
    [src/database/DatabaseSchema.ts]), of the Mocha reporter
    ([src/reporter/index.ts]) and of the room hub
    ([src/server/WebSocketManager.ts]), followed by the properties proved
    about them.

    Conventions of the embedding.
    - A timestamp is the number of milliseconds since the epoch.  The
      code stores [Date.toISOString()] text; for years 0000-9999 that
      fixed-width text is ordered like the instant it denotes, so text
      comparison in SQL is comparison of instants here.
    - A row keeps the value of a JSON [TEXT] column; the text of the
      column is [JSON.stringify] of that value ([JSON_text],
      [JSON_stringify_strings]); the code that reads the column goes
      through [JSON_parse] of that text, and the SQL condition that
      inspects the column (the tag filter) works on the text.
    - A property of an entity that may be absent is an [Optional]:
      [undefined], [null] or a value; a column that may be [NULL] is an
      [option].
    - JavaScript numbers that the code uses as counters and durations are
      integers ([Z]); SQLite [REAL] ratios are exact rationals ([Q]).
    - A text is the list of the bytes of its UTF-8 encoding; where SQL
      works on characters ([LIKE]), the bytes are grouped into characters
      first.
    - Local time is a parameter: a [TimeZone] gives the offset of local
      time from UTC at an instant. *)

From Stdlib Require Import ZArith QArith Qround List String Ascii Bool Lia Lqa.
From Stdlib Require Import Sorting.Sorted Sorting.Permutation.
From stdpp Require Import base gmap strings pretty.
Import ListNotations.

Open Scope string_scope.
Open Scope list_scope.
Open Scope Z_scope.

(** ** Values shared by all components *)

Definition Timestamp := Z.

Definition day_ms : Z := 24 * 60 * 60 * 1000.

(** [enum TestStatus] of [src/types/index.ts]. *)
Inductive TestStatus := PASSED | FAILED | SKIPPED | PENDING | RETRIED.

(** ['running' | 'completed' | 'failed' | 'cancelled']. *)
Inductive RunStatus := Running | Completed | Failed | Cancelled.

#[global] Instance TestStatus_eq_dec : EqDecision TestStatus.
Proof. solve_decision. Defined.

#[global] Instance RunStatus_eq_dec : EqDecision RunStatus.
Proof. solve_decision. Defined.

(** A JavaScript property that is absent ([undefined]), [null], or holds
    a value.  The entity types declare such properties with [?]; [null]
    is what a row read back from the store carries for a [NULL] column. *)
Inductive Optional (A : Type) :=
| Undefined
| Null
| Defined (a : A).

Arguments Undefined {A}.
Arguments Null {A}.
Arguments Defined {A} a.

#[global] Instance Optional_eq_dec {A} `{EqDecision A} : EqDecision (Optional A).
Proof. solve_decision. Defined.

(** The value of a property, if it has one: [undefined] and [null] have
    none (both are falsy, and [?.] yields [undefined] on both). *)
Definition defined {A} (o : Optional A) : option A :=
  match o with
  | Defined a => Some a
  | _ => None
  end.

(** A property copied from a source that may lack it. *)
Definition optional {A} (o : option A) : Optional A :=
  match o with
  | Some a => Defined a
  | None => Undefined
  end.

(** A nullable column read into a property. *)
Definition nullable {A} (o : option A) : Optional A :=
  match o with
  | Some a => Defined a
  | None => Null
  end.

(** A boolean property: [true] and [false], or the number 1 and 0 under
    which SQLite keeps a boolean and hands it back. *)
Inductive Flag :=
| FlagBool (b : bool)
| FlagBit (b : bool).

Definition truthy (f : Flag) : bool :=
  match f with
  | FlagBool b => b
  | FlagBit b => b
  end.

#[global] Instance Flag_eq_dec : EqDecision Flag.
Proof. solve_decision. Defined.

(** A JSON document (the free-form [config: any] snapshot). *)
#[local] Unset Elimination Schemes.
Inductive Json :=
| JNull
| JBool (b : bool)
| JNum (n : Z)
| JStr (s : string)
| JArr (items : list Json)
| JObj (members : list (string * Json)).
#[local] Set Elimination Schemes.

Record CIInfo := mkCIInfo {
  branch : option string;
  commit : option string;
  buildNumber : option string;
  buildUrl : option string;
  provider : option string;
  isPR : option bool;
  prNumber : option string }.

Record CodeFrame := mkCodeFrame {
  cf_frame : string;
  cf_line : Z;
  cf_column : Z }.

(** [message] is declared a [string]; a row read back carries [null]
    there when the column is [NULL], and likewise for the [version] of a
    browser and the [height] of a viewport. *)
Record TestError := mkTestError {
  err_name : string;
  err_message : Optional string;
  err_stack : Optional string;
  err_codeFrame : option CodeFrame;
  err_diff : Optional string }.

Record BrowserInfo := mkBrowserInfo {
  br_name : string;
  br_version : Optional string;
  br_family : option string;
  br_channel : option string;
  br_displayName : option string;
  br_majorVersion : option string;
  br_path : option string;
  br_isHeadless : option bool;
  br_isHeaded : option bool }.

Record ViewportInfo := mkViewportInfo {
  vp_width : Z;
  vp_height : Optional Z }.

(** ** Entities ([src/types/index.ts]) *)

Module TestResult.
Record t := mk {
  id : string;
  runId : string;
  title : string;
  fullTitle : string;
  state : TestStatus;
  duration : Z;
  error : option TestError;
  screenshot : Optional string;
  retries : Z;
  currentRetry : Z;
  pending : Flag;
  file : string;
  parent : string;
  context : Optional string;
  tags : option (list string);
  startTime : Timestamp;
  endTime : option Timestamp;
  browser : option BrowserInfo;
  viewport : option ViewportInfo }.
End TestResult.

Module TestRun.
Record t := mk {
  id : string;
  startTime : Timestamp;
  endTime : option Timestamp;
  duration : Optional Z;
  totalTests : Z;
  passed : Z;
  failed : Z;
  skipped : Z;
  pending : Z;
  retries : Z;
  browserName : string;
  browserVersion : string;
  cypressVersion : string;
  specFiles : list string;
  config : Json;
  ciInfo : option CIInfo;
  status : RunStatus;
  results : list TestResult.t }.
End TestRun.

(** [interface TestFilter]. *)
Record DurationFilter := mkDurationFilter {
  df_min : option Z;
  df_max : option Z }.

Record DateRange := mkDateRange {
  dr_start : Timestamp;
  dr_end : Timestamp }.

Module TestFilter.
Record t := mk {
  status : option (list TestStatus);
  specFiles : option (list string);
  dateRange : option DateRange;
  duration : option DurationFilter;
  search : option string;
  tags : option (list string);
  browser : option (list string);
  retries : option bool;
  hasScreenshots : option bool }.
Definition empty : t := mk None None None None None None None None None.
End TestFilter.

Module FlakyTest.
Record t := mk {
  testTitle : string;
  specFile : string;
  flakyRate : Q;
  totalRuns : Z;
  failures : Z;
  lastFailure : Timestamp }.
End FlakyTest.

(** ** The relational store ([DatabaseSchema.ts])

    One record per table row, columns as in the [CREATE TABLE]
    statements; a table is the list of its rows in insertion order. *)

Module RunRow.
Record t := mk {
  id : string;
  start_time : Timestamp;
  end_time : option Timestamp;
  duration : option Z;
  total_tests : Z;
  passed : Z;
  failed : Z;
  skipped : Z;
  pending : Z;
  retries : Z;
  browser_name : string;
  browser_version : string;
  cypress_version : string;
  spec_files : option (list string);
  config : option Json;
  ci_info : option CIInfo;
  status : RunStatus;
  created_at : Timestamp;
  updated_at : Timestamp }.
End RunRow.

Module ResultRow.
Record t := mk {
  id : string;
  run_id : string;
  title : string;
  full_title : string;
  state : TestStatus;
  duration : Z;
  error_name : option string;
  error_message : option string;
  error_stack : option string;
  error_diff : option string;
  screenshot_path : option string;
  retries : Z;
  current_retry : Z;
  pending : bool;
  file : string;
  parent : string;
  context : option string;
  tags : option (list string);
  start_time : Timestamp;
  end_time : option Timestamp;
  browser_name : option string;
  browser_version : option string;
  viewport_width : option Z;
  viewport_height : option Z;
  created_at : Timestamp;
  updated_at : Timestamp }.
End ResultRow.

Module ScreenshotRow.
Record t := mk {
  id : string;
  test_result_id : string;
  name : string;
  path : string;
  thumbnail_path : option string;
  width : option Z;
  height : option Z;
  size : option Z;
  format : option string;
  taken_at : Timestamp;
  created_at : Timestamp }.
End ScreenshotRow.

Record Store := mkStore {
  test_runs : list RunRow.t;
  test_results : list ResultRow.t;
  screenshots : list ScreenshotRow.t }.

Definition empty_store : Store := mkStore [] [] [].

(** ** Failures and the store monad

    [NotFound] is the [Error('... not found: id')] the repositories throw;
    [SqliteError] is a rejection coming from the engine.  A computation
    threads the store; a failed statement leaves the store as it was
    (statement atomicity) and the failure propagates like a rejected
    promise. *)

Inductive DbError :=
| NotFound (message : string)
| SqliteError (message : string).

Inductive result (A : Type) :=
| Ok (a : A)
| Err (e : DbError).

Arguments Ok {A} a.
Arguments Err {A} e.

Definition DB (A : Type) : Type := Store -> result A * Store.

Definition db_ret {A} (a : A) : DB A := fun st => (Ok a, st).

Definition db_fail {A} (e : DbError) : DB A := fun st => (Err e, st).

Definition db_bind {A B} (m : DB A) (k : A -> DB B) : DB B :=
  fun st =>
    match m st with
    | (Ok a, st') => k a st'
    | (Err e, st') => (Err e, st')
    end.

Notation "'let*' x ':=' m 'in' k" := (db_bind m (fun x => k))
  (at level 10, x name, m at level 100, k at level 200).

(** ** SQL values and column access by name *)

Inductive SqlValue :=
| VNull
| VInt (n : Z)
| VText (s : string)
| VBool (b : bool)
| VTime (t : Timestamp)
| VRunStatus (s : RunStatus)
| VState (s : TestStatus)
| VJsonStrings (l : list string)
| VJson (j : Json)
| VJsonCI (c : CIInfo)
| VOpaque.

Definition opt_value {A} (inj : A -> SqlValue) (o : option A) : SqlValue :=
  match o with
  | Some a => inj a
  | None => VNull
  end.

(** A property bound as a statement parameter: [undefined] and [null]
    bind as [NULL]. *)
Definition optional_value {A} (inj : A -> SqlValue) (o : Optional A) : SqlValue :=
  opt_value inj (defined o).

(** Columns of [test_runs]. *)
Inductive RunCol :=
| rc_id | rc_start_time | rc_end_time | rc_duration | rc_total_tests
| rc_passed | rc_failed | rc_skipped | rc_pending | rc_retries
| rc_browser_name | rc_browser_version | rc_cypress_version
| rc_spec_files | rc_config | rc_ci_info | rc_status
| rc_created_at | rc_updated_at.

#[global] Instance RunCol_eq_dec : EqDecision RunCol.
Proof. solve_decision. Defined.

Definition run_cols : list RunCol :=
  [rc_id; rc_start_time; rc_end_time; rc_duration; rc_total_tests;
   rc_passed; rc_failed; rc_skipped; rc_pending; rc_retries;
   rc_browser_name; rc_browser_version; rc_cypress_version;
   rc_spec_files; rc_config; rc_ci_info; rc_status;
   rc_created_at; rc_updated_at].

Definition run_col_name (c : RunCol) : string :=
  match c with
  | rc_id => "id"
  | rc_start_time => "start_time"
  | rc_end_time => "end_time"
  | rc_duration => "duration"
  | rc_total_tests => "total_tests"
  | rc_passed => "passed"
  | rc_failed => "failed"
  | rc_skipped => "skipped"
  | rc_pending => "pending"
  | rc_retries => "retries"
  | rc_browser_name => "browser_name"
  | rc_browser_version => "browser_version"
  | rc_cypress_version => "cypress_version"
  | rc_spec_files => "spec_files"
  | rc_config => "config"
  | rc_ci_info => "ci_info"
  | rc_status => "status"
  | rc_created_at => "created_at"
  | rc_updated_at => "updated_at"
  end.

Definition run_col_of_name (n : string) : option RunCol :=
  List.find (fun c => bool_decide (run_col_name c = n)) run_cols.


Definition run_set (c : RunCol) (v : SqlValue) (r : RunRow.t) : RunRow.t :=
  let 'RunRow.mk i st en du tot pa fa sk pe re bn bv cv sf cf ci ss ca ua := r in
  match c, v with
  | rc_id, VText x => RunRow.mk x st en du tot pa fa sk pe re bn bv cv sf cf ci ss ca ua
  | rc_start_time, VTime x => RunRow.mk i x en du tot pa fa sk pe re bn bv cv sf cf ci ss ca ua
  | rc_end_time, VTime x => RunRow.mk i st (Some x) du tot pa fa sk pe re bn bv cv sf cf ci ss ca ua
  | rc_end_time, VNull => RunRow.mk i st None du tot pa fa sk pe re bn bv cv sf cf ci ss ca ua
  | rc_duration, VInt x => RunRow.mk i st en (Some x) tot pa fa sk pe re bn bv cv sf cf ci ss ca ua
  | rc_duration, VNull => RunRow.mk i st en None tot pa fa sk pe re bn bv cv sf cf ci ss ca ua
  | rc_total_tests, VInt x => RunRow.mk i st en du x pa fa sk pe re bn bv cv sf cf ci ss ca ua
  | rc_passed, VInt x => RunRow.mk i st en du tot x fa sk pe re bn bv cv sf cf ci ss ca ua
  | rc_failed, VInt x => RunRow.mk i st en du tot pa x sk pe re bn bv cv sf cf ci ss ca ua
  | rc_skipped, VInt x => RunRow.mk i st en du tot pa fa x pe re bn bv cv sf cf ci ss ca ua
  | rc_pending, VInt x => RunRow.mk i st en du tot pa fa sk x re bn bv cv sf cf ci ss ca ua
  | rc_retries, VInt x => RunRow.mk i st en du tot pa fa sk pe x bn bv cv sf cf ci ss ca ua
  | rc_browser_name, VText x => RunRow.mk i st en du tot pa fa sk pe re x bv cv sf cf ci ss ca ua
  | rc_browser_version, VText x => RunRow.mk i st en du tot pa fa sk pe re bn x cv sf cf ci ss ca ua
  | rc_cypress_version, VText x => RunRow.mk i st en du tot pa fa sk pe re bn bv x sf cf ci ss ca ua
  | rc_spec_files, VJsonStrings x => RunRow.mk i st en du tot pa fa sk pe re bn bv cv (Some x) cf ci ss ca ua
  | rc_spec_files, VNull => RunRow.mk i st en du tot pa fa sk pe re bn bv cv None cf ci ss ca ua
  | rc_config, VJson x => RunRow.mk i st en du tot pa fa sk pe re bn bv cv sf (Some x) ci ss ca ua
  | rc_config, VNull => RunRow.mk i st en du tot pa fa sk pe re bn bv cv sf None ci ss ca ua
  | rc_ci_info, VJsonCI x => RunRow.mk i st en du tot pa fa sk pe re bn bv cv sf cf (Some x) ss ca ua
  | rc_ci_info, VNull => RunRow.mk i st en du tot pa fa sk pe re bn bv cv sf cf None ss ca ua
  | rc_status, VRunStatus x => RunRow.mk i st en du tot pa fa sk pe re bn bv cv sf cf ci x ca ua
  | rc_created_at, VTime x => RunRow.mk i st en du tot pa fa sk pe re bn bv cv sf cf ci ss x ua
  | rc_updated_at, VTime x => RunRow.mk i st en du tot pa fa sk pe re bn bv cv sf cf ci ss ca x
  | _, _ => r
  end.


(** Columns of [test_results]. *)
Inductive ResCol :=
| tc_id | tc_run_id | tc_title | tc_full_title | tc_state | tc_duration
| tc_error_name | tc_error_message | tc_error_stack | tc_error_diff
| tc_screenshot_path | tc_retries | tc_current_retry | tc_pending
| tc_file | tc_parent | tc_context | tc_tags | tc_start_time | tc_end_time
| tc_browser_name | tc_browser_version | tc_viewport_width
| tc_viewport_height | tc_created_at | tc_updated_at.

#[global] Instance ResCol_eq_dec : EqDecision ResCol.
Proof. solve_decision. Defined.

Definition res_cols : list ResCol :=
  [tc_id; tc_run_id; tc_title; tc_full_title; tc_state; tc_duration;
   tc_error_name; tc_error_message; tc_error_stack; tc_error_diff;
   tc_screenshot_path; tc_retries; tc_current_retry; tc_pending;
   tc_file; tc_parent; tc_context; tc_tags; tc_start_time; tc_end_time;
   tc_browser_name; tc_browser_version; tc_viewport_width;
   tc_viewport_height; tc_created_at; tc_updated_at].

Definition res_col_name (c : ResCol) : string :=
  match c with
  | tc_id => "id"
  | tc_run_id => "run_id"
  | tc_title => "title"
  | tc_full_title => "full_title"
  | tc_state => "state"
  | tc_duration => "duration"
  | tc_error_name => "error_name"
  | tc_error_message => "error_message"
  | tc_error_stack => "error_stack"
  | tc_error_diff => "error_diff"
  | tc_screenshot_path => "screenshot_path"
  | tc_retries => "retries"
  | tc_current_retry => "current_retry"
  | tc_pending => "pending"
  | tc_file => "file"
  | tc_parent => "parent"
  | tc_context => "context"
  | tc_tags => "tags"
  | tc_start_time => "start_time"
  | tc_end_time => "end_time"
  | tc_browser_name => "browser_name"
  | tc_browser_version => "browser_version"
  | tc_viewport_width => "viewport_width"
  | tc_viewport_height => "viewport_height"
  | tc_created_at => "created_at"
  | tc_updated_at => "updated_at"
  end.

Definition res_col_of_name (n : string) : option ResCol :=
  List.find (fun c => bool_decide (res_col_name c = n)) res_cols.


Definition res_set (c : ResCol) (v : SqlValue) (r : ResultRow.t) : ResultRow.t :=
  let 'ResultRow.mk i ri ti ft sa du en em es ed sp re cr pe fi pa co tg st et bn bv vw vh ca ua := r in
  match c, v with
  | tc_id, VText x => ResultRow.mk x ri ti ft sa du en em es ed sp re cr pe fi pa co tg st et bn bv vw vh ca ua
  | tc_run_id, VText x => ResultRow.mk i x ti ft sa du en em es ed sp re cr pe fi pa co tg st et bn bv vw vh ca ua
  | tc_title, VText x => ResultRow.mk i ri x ft sa du en em es ed sp re cr pe fi pa co tg st et bn bv vw vh ca ua
  | tc_full_title, VText x => ResultRow.mk i ri ti x sa du en em es ed sp re cr pe fi pa co tg st et bn bv vw vh ca ua
  | tc_state, VState x => ResultRow.mk i ri ti ft x du en em es ed sp re cr pe fi pa co tg st et bn bv vw vh ca ua
  | tc_duration, VInt x => ResultRow.mk i ri ti ft sa x en em es ed sp re cr pe fi pa co tg st et bn bv vw vh ca ua
  | tc_error_name, VText x => ResultRow.mk i ri ti ft sa du (Some x) em es ed sp re cr pe fi pa co tg st et bn bv vw vh ca ua
  | tc_error_name, VNull => ResultRow.mk i ri ti ft sa du None em es ed sp re cr pe fi pa co tg st et bn bv vw vh ca ua
  | tc_error_message, VText x => ResultRow.mk i ri ti ft sa du en (Some x) es ed sp re cr pe fi pa co tg st et bn bv vw vh ca ua
  | tc_error_message, VNull => ResultRow.mk i ri ti ft sa du en None es ed sp re cr pe fi pa co tg st et bn bv vw vh ca ua
  | tc_error_stack, VText x => ResultRow.mk i ri ti ft sa du en em (Some x) ed sp re cr pe fi pa co tg st et bn bv vw vh ca ua
  | tc_error_stack, VNull => ResultRow.mk i ri ti ft sa du en em None ed sp re cr pe fi pa co tg st et bn bv vw vh ca ua
  | tc_error_diff, VText x => ResultRow.mk i ri ti ft sa du en em es (Some x) sp re cr pe fi pa co tg st et bn bv vw vh ca ua
  | tc_error_diff, VNull => ResultRow.mk i ri ti ft sa du en em es None sp re cr pe fi pa co tg st et bn bv vw vh ca ua
  | tc_screenshot_path, VText x => ResultRow.mk i ri ti ft sa du en em es ed (Some x) re cr pe fi pa co tg st et bn bv vw vh ca ua
  | tc_screenshot_path, VNull => ResultRow.mk i ri ti ft sa du en em es ed None re cr pe fi pa co tg st et bn bv vw vh ca ua
  | tc_retries, VInt x => ResultRow.mk i ri ti ft sa du en em es ed sp x cr pe fi pa co tg st et bn bv vw vh ca ua
  | tc_current_retry, VInt x => ResultRow.mk i ri ti ft sa du en em es ed sp re x pe fi pa co tg st et bn bv vw vh ca ua
  | tc_pending, VBool x => ResultRow.mk i ri ti ft sa du en em es ed sp re cr x fi pa co tg st et bn bv vw vh ca ua
  | tc_file, VText x => ResultRow.mk i ri ti ft sa du en em es ed sp re cr pe x pa co tg st et bn bv vw vh ca ua
  | tc_parent, VText x => ResultRow.mk i ri ti ft sa du en em es ed sp re cr pe fi x co tg st et bn bv vw vh ca ua
  | tc_context, VText x => ResultRow.mk i ri ti ft sa du en em es ed sp re cr pe fi pa (Some x) tg st et bn bv vw vh ca ua
  | tc_context, VNull => ResultRow.mk i ri ti ft sa du en em es ed sp re cr pe fi pa None tg st et bn bv vw vh ca ua
  | tc_tags, VJsonStrings x => ResultRow.mk i ri ti ft sa du en em es ed sp re cr pe fi pa co (Some x) st et bn bv vw vh ca ua
  | tc_tags, VNull => ResultRow.mk i ri ti ft sa du en em es ed sp re cr pe fi pa co None st et bn bv vw vh ca ua
  | tc_start_time, VTime x => ResultRow.mk i ri ti ft sa du en em es ed sp re cr pe fi pa co tg x et bn bv vw vh ca ua
  | tc_end_time, VTime x => ResultRow.mk i ri ti ft sa du en em es ed sp re cr pe fi pa co tg st (Some x) bn bv vw vh ca ua
  | tc_end_time, VNull => ResultRow.mk i ri ti ft sa du en em es ed sp re cr pe fi pa co tg st None bn bv vw vh ca ua
  | tc_browser_name, VText x => ResultRow.mk i ri ti ft sa du en em es ed sp re cr pe fi pa co tg st et (Some x) bv vw vh ca ua
  | tc_browser_name, VNull => ResultRow.mk i ri ti ft sa du en em es ed sp re cr pe fi pa co tg st et None bv vw vh ca ua
  | tc_browser_version, VText x => ResultRow.mk i ri ti ft sa du en em es ed sp re cr pe fi pa co tg st et bn (Some x) vw vh ca ua
  | tc_browser_version, VNull => ResultRow.mk i ri ti ft sa du en em es ed sp re cr pe fi pa co tg st et bn None vw vh ca ua
  | tc_viewport_width, VInt x => ResultRow.mk i ri ti ft sa du en em es ed sp re cr pe fi pa co tg st et bn bv (Some x) vh ca ua
  | tc_viewport_width, VNull => ResultRow.mk i ri ti ft sa du en em es ed sp re cr pe fi pa co tg st et bn bv None vh ca ua
  | tc_viewport_height, VInt x => ResultRow.mk i ri ti ft sa du en em es ed sp re cr pe fi pa co tg st et bn bv vw (Some x) ca ua
  | tc_viewport_height, VNull => ResultRow.mk i ri ti ft sa du en em es ed sp re cr pe fi pa co tg st et bn bv vw None ca ua
  | tc_created_at, VTime x => ResultRow.mk i ri ti ft sa du en em es ed sp re cr pe fi pa co tg st et bn bv vw vh x ua
  | tc_updated_at, VTime x => ResultRow.mk i ri ti ft sa du en em es ed sp re cr pe fi pa co tg st et bn bv vw vh ca x
  | _, _ => r
  end.


(** ** JavaScript values and helpers *)

(** The values a patch object can carry under its keys. *)
Inductive JsValue :=
| JsNull
| JsString (s : string)
| JsNumber (n : Z)
| JsBoolean (b : bool)
| JsDate (t : Timestamp)
| JsRunStatus (s : RunStatus)
| JsTestStatus (s : TestStatus)
| JsStrings (l : list string)
| JsJson (j : Json)
| JsCIInfo (c : CIInfo)
| JsResults (l : list TestResult.t)
| JsError (e : TestError)
| JsBrowser (b : BrowserInfo)
| JsViewport (v : ViewportInfo).

(** A value handed to the driver as a statement parameter as it is:
    strings, numbers and booleans bind by value, a [Date] binds as its
    millisecond count, any other object binds as its [toString] text. *)
Definition bind_param (v : JsValue) : SqlValue :=
  match v with
  | JsNull => VNull
  | JsString s => VText s
  | JsNumber n => VInt n
  | JsBoolean b => VBool b
  | JsDate t => VInt t
  | JsRunStatus s => VRunStatus s
  | JsTestStatus s => VState s
  | _ => VOpaque
  end.

(** [JSON.stringify(value)] bound as a parameter. *)
Definition JSON_stringify (v : JsValue) : SqlValue :=
  match v with
  | JsNull => VJson JNull
  | JsStrings l => VJsonStrings l
  | JsJson j => VJson j
  | JsCIInfo c => VJsonCI c
  | JsString s => VJson (JStr s)
  | JsNumber n => VJson (JNum n)
  | JsBoolean b => VJson (JBool b)
  | _ => VOpaque
  end.

(** ** JSON text: [JSON.stringify] and [JSON.parse]

    A JSON document is a [Json]: numbers are the integers that a double
    holds exactly, strings are UTF-8 texts, and an object is the list of
    its properties in the order in which JavaScript enumerates them. *)

Definition dquote : ascii := ascii_of_nat 34.
Definition backslash : ascii := ascii_of_nat 92.

Definition hex_digit (n : nat) : ascii :=
  nth n ["0"; "1"; "2"; "3"; "4"; "5"; "6"; "7"; "8"; "9";
         "a"; "b"; "c"; "d"; "e"; "f"]%char "0"%char.

(** The escape [JSON.stringify] writes for one character of a string. *)
Definition JSON_escape_char (c : ascii) : string :=
  let n := nat_of_ascii c in
  if bool_decide (c = dquote) then String backslash (String dquote EmptyString)
  else if bool_decide (c = backslash) then String backslash (String backslash EmptyString)
  else if Nat.eqb n 8 then String backslash "b"
  else if Nat.eqb n 9 then String backslash "t"
  else if Nat.eqb n 10 then String backslash "n"
  else if Nat.eqb n 12 then String backslash "f"
  else if Nat.eqb n 13 then String backslash "r"
  else if Nat.ltb n 32 then
    String backslash
      (String "u" (String "0" (String "0"
         (String (hex_digit (n / 16)) (String (hex_digit (n mod 16)) EmptyString)))))
  else String c EmptyString.

Fixpoint JSON_escape (s : string) : string :=
  match s with
  | EmptyString => EmptyString
  | String c rest => JSON_escape_char c +:+ JSON_escape rest
  end.

Definition JSON_quote (s : string) : string :=
  String dquote (JSON_escape s +:+ String dquote EmptyString).

Fixpoint join (sep : string) (l : list string) : string :=
  match l with
  | [] => EmptyString
  | [x] => x
  | x :: rest => x +:+ sep +:+ join sep rest
  end.

(** [JSON.stringify(tags)] for an array of strings. *)
Definition JSON_stringify_strings (l : list string) : string :=
  "[" +:+ join "," (map JSON_quote l) +:+ "]".

(** [JSON.stringify(j)], without indentation. *)
Fixpoint JSON_text (j : Json) : string :=
  match j with
  | JNull => "null"
  | JBool true => "true"
  | JBool false => "false"
  | JNum n => pretty n
  | JStr s => JSON_quote s
  | JArr items => "[" +:+ join "," (map JSON_text items) +:+ "]"
  | JObj members =>
      "{" +:+ join ","
                (map (fun kv => JSON_quote (fst kv) +:+ ":" +:+ JSON_text (snd kv))
                   members)
          +:+ "}"
  end.

(** White space between the tokens of a JSON text. *)
Definition is_ws (c : ascii) : bool :=
  let n := nat_of_ascii c in
  Nat.eqb n 32 || Nat.eqb n 9 || Nat.eqb n 10 || Nat.eqb n 13.

Fixpoint skip_ws (s : string) : string :=
  match s with
  | String c rest => if is_ws c then skip_ws rest else s
  | EmptyString => EmptyString
  end.

Definition digit_of (c : ascii) : option N :=
  let n := nat_of_ascii c in
  if (48 <=? n)%nat && (n <=? 57)%nat then Some (N.of_nat (n - 48)) else None.

(** The number the leading digits of [s] denote after [acc], and what
    follows them. *)
Fixpoint take_digits (s : string) (acc : N) : N * string :=
  match s with
  | String c rest =>
      match digit_of c with
      | Some d => take_digits rest (10 * acc + d)%N
      | None => (acc, s)
      end
  | EmptyString => (acc, s)
  end.

(** An integer literal without sign: [0], or digits that do not begin
    with [0]. *)
Definition parse_natural (s : string) : option (N * string) :=
  match s with
  | String c rest =>
      match digit_of c with
      | Some d => if N.eqb d 0 then Some (0%N, rest) else Some (take_digits s 0)
      | None => None
      end
  | EmptyString => None
  end.

(** A number literal.  A fraction or an exponent is left unread, and then
    fails whatever reads on: numbers other than integers are outside the
    embedding. *)
Definition parse_number (s : string) : option (Z * string) :=
  match s with
  | String c rest =>
      if bool_decide (c = "-"%char)
      then option_map (fun nr => (- Z.of_N (fst nr), snd nr)) (parse_natural rest)
      else option_map (fun nr => (Z.of_N (fst nr), snd nr)) (parse_natural s)
  | EmptyString => None
  end.

Definition hex_value (c : ascii) : option N :=
  let n := nat_of_ascii c in
  if (48 <=? n)%nat && (n <=? 57)%nat then Some (N.of_nat (n - 48))
  else if (97 <=? n)%nat && (n <=? 102)%nat then Some (N.of_nat (n - 87))
  else if (65 <=? n)%nat && (n <=? 70)%nat then Some (N.of_nat (n - 55))
  else None.

(** The code unit of [\uXXXX]. *)
Definition code_unit (h1 h2 h3 h4 : ascii) : option N :=
  match hex_value h1, hex_value h2, hex_value h3, hex_value h4 with
  | Some a, Some b, Some c, Some d => Some (((a * 16 + b) * 16 + c) * 16 + d)%N
  | _, _, _, _ => None
  end.

Definition byte (n : N) : ascii := ascii_of_N n.

(** The UTF-8 text of a code point. *)
Definition utf8_encode (n : N) : string :=
  if (n <? 128)%N then String (byte n) EmptyString
  else if (n <? 2048)%N then
    String (byte (192 + n / 64)) (String (byte (128 + n mod 64)) EmptyString)
  else if (n <? 65536)%N then
    String (byte (224 + n / 4096))
      (String (byte (128 + (n / 64) mod 64))
         (String (byte (128 + n mod 64)) EmptyString))
  else
    String (byte (240 + n / 262144))
      (String (byte (128 + (n / 4096) mod 64))
         (String (byte (128 + (n / 64) mod 64))
            (String (byte (128 + n mod 64)) EmptyString))).

Definition is_high_surrogate (u : N) : bool := (55296 <=? u)%N && (u <? 56320)%N.

Definition is_low_surrogate (u : N) : bool := (56320 <=? u)%N && (u <? 57344)%N.

(** The character of a two-character escape. *)
Definition simple_escape (e : ascii) : option ascii :=
  if bool_decide (e = dquote) then Some dquote
  else if bool_decide (e = backslash) then Some backslash
  else if bool_decide (e = "/"%char) then Some "/"%char
  else if bool_decide (e = "b"%char) then Some (ascii_of_nat 8)
  else if bool_decide (e = "f"%char) then Some (ascii_of_nat 12)
  else if bool_decide (e = "n"%char) then Some (ascii_of_nat 10)
  else if bool_decide (e = "r"%char) then Some (ascii_of_nat 13)
  else if bool_decide (e = "t"%char) then Some (ascii_of_nat 9)
  else None.

Definition prepend (prefix : string) (parsed : option (string * string))
  : option (string * string) :=
  option_map (fun sr => (prefix +:+ fst sr, snd sr)) parsed.

(** The characters of a string literal after its opening quote, up to
    the closing quote, and what follows it.  A control character must be
    escaped; a surrogate that is not half of a pair has no UTF-8 text. *)
Fixpoint parse_chars (s : string) : option (string * string) :=
  match s with
  | EmptyString => None
  | String c rest =>
      if bool_decide (c = dquote) then Some (EmptyString, rest)
      else if bool_decide (c = backslash) then
        match rest with
        | String e rest1 =>
            match simple_escape e with
            | Some ch => prepend (String ch EmptyString) (parse_chars rest1)
            | None =>
                if bool_decide (e = "u"%char) then
                  match rest1 with
                  | String h1 (String h2 (String h3 (String h4 rest2))) =>
                      match code_unit h1 h2 h3 h4 with
                      | Some u =>
                          if is_high_surrogate u then
                            match rest2 with
                            | String b (String v (String l1 (String l2
                                (String l3 (String l4 rest3))))) =>
                                if bool_decide (b = backslash)
                                   && bool_decide (v = "u"%char)
                                then
                                  match code_unit l1 l2 l3 l4 with
                                  | Some w =>
                                      if is_low_surrogate w
                                      then prepend
                                             (utf8_encode
                                                (65536 + (u - 55296) * 1024
                                                 + (w - 56320))%N)
                                             (parse_chars rest3)
                                      else None
                                  | None => None
                                  end
                                else None
                            | _ => None
                            end
                          else if is_low_surrogate u then None
                          else prepend (utf8_encode u) (parse_chars rest2)
                      | None => None
                      end
                  | _ => None
                  end
                else None
            end
        | EmptyString => None
        end
      else if (nat_of_ascii c <? 32)%nat then None
      else prepend (String c EmptyString) (parse_chars rest)
  end.

(** [null], [true] and [false]. *)
Definition parse_keyword (s : string) : option (Json * string) :=
  match s with
  | String "n" (String "u" (String "l" (String "l" rest))) => Some (JNull, rest)
  | String "t" (String "r" (String "u" (String "e" rest))) => Some (JBool true, rest)
  | String "f" (String "a" (String "l" (String "s" (String "e" rest)))) =>
      Some (JBool false, rest)
  | _ => None
  end.

(** An integer in canonical decimal form below [2^32 - 1]: the keys that
    JavaScript enumerates first, in ascending order. *)
Definition is_array_index (key : string) : option N :=
  match take_digits key 0 with
  | (n, EmptyString) =>
      if bool_decide (pretty n = key) && (n <? 4294967295)%N then Some n else None
  | _ => None
  end.

(** [key] is enumerated before [other] wherever the two were defined. *)
Definition comes_before (key other : string) : bool :=
  match is_array_index key with
  | Some n =>
      match is_array_index other with
      | Some m => (n <? m)%N
      | None => true
      end
  | None => false
  end.

Definition has_key (key : string) (members : list (string * Json)) : bool :=
  existsb (fun kv => bool_decide (fst kv = key)) members.

Fixpoint replace_key (key : string) (value : Json) (members : list (string * Json))
  : list (string * Json) :=
  match members with
  | [] => []
  | (k, v) :: rest =>
      if bool_decide (k = key) then (k, value) :: rest
      else (k, v) :: replace_key key value rest
  end.

Fixpoint insert_key (key : string) (value : Json) (members : list (string * Json))
  : list (string * Json) :=
  match members with
  | [] => [(key, value)]
  | (k, v) :: rest =>
      if comes_before key k then (key, value) :: members
      else (k, v) :: insert_key key value rest
  end.

(** Defining a property of an object: a key that is present keeps its
    place and takes the value; a new array index goes to its place among
    the array indices, any other new key to the end. *)
Definition object_set (key : string) (value : Json) (members : list (string * Json))
  : list (string * Json) :=
  if has_key key members then replace_key key value members
  else insert_key key value members.

(** The object that results from defining the properties in text
    order. *)
Definition object_of (members : list (string * Json)) : list (string * Json) :=
  fold_left (fun object kv => object_set (fst kv) (snd kv) object) members [].

(** [parse_value fuel s] reads one value at the beginning of [s] and
    returns it with what follows; [parse_elements] reads the elements of
    an array up to its closing bracket, [parse_members] the properties of
    an object up to its closing brace.  [fuel] bounds the number of
    nested calls. *)
Fixpoint parse_value (fuel : nat) (s : string) : option (Json * string) :=
  match fuel with
  | O => None
  | S fuel' =>
      match skip_ws s with
      | EmptyString => None
      | String c rest =>
          if bool_decide (c = "{"%char) then
            match skip_ws rest with
            | String d rest' =>
                if bool_decide (d = "}"%char) then Some (JObj [], rest')
                else
                  match parse_members fuel' rest with
                  | Some (members, rest'') => Some (JObj (object_of members), rest'')
                  | None => None
                  end
            | EmptyString => None
            end
          else if bool_decide (c = "["%char) then
            match skip_ws rest with
            | String d rest' =>
                if bool_decide (d = "]"%char) then Some (JArr [], rest')
                else
                  match parse_elements fuel' rest with
                  | Some (items, rest'') => Some (JArr items, rest'')
                  | None => None
                  end
            | EmptyString => None
            end
          else if bool_decide (c = dquote) then
            match parse_chars rest with
            | Some (text, rest') => Some (JStr text, rest')
            | None => None
            end
          else
            match parse_keyword (String c rest) with
            | Some found => Some found
            | None =>
                match parse_number (String c rest) with
                | Some (n, rest') => Some (JNum n, rest')
                | None => None
                end
            end
      end
  end
with parse_elements (fuel : nat) (s : string) : option (list Json * string) :=
  match fuel with
  | O => None
  | S fuel' =>
      match parse_value fuel' s with
      | Some (item, rest) =>
          match skip_ws rest with
          | String c rest' =>
              if bool_decide (c = ","%char) then
                match parse_elements fuel' rest' with
                | Some (items, rest'') => Some (item :: items, rest'')
                | None => None
                end
              else if bool_decide (c = "]"%char) then Some ([item], rest')
              else None
          | EmptyString => None
          end
      | None => None
      end
  end
with parse_members (fuel : nat) (s : string)
  : option (list (string * Json) * string) :=
  match fuel with
  | O => None
  | S fuel' =>
      match skip_ws s with
      | String q rest =>
          if bool_decide (q = dquote) then
            match parse_chars rest with
            | Some (key, rest1) =>
                match skip_ws rest1 with
                | String colon rest2 =>
                    if bool_decide (colon = ":"%char) then
                      match parse_value fuel' rest2 with
                      | Some (value, rest3) =>
                          match skip_ws rest3 with
                          | String c rest4 =>
                              if bool_decide (c = ","%char) then
                                match parse_members fuel' rest4 with
                                | Some (members, rest5) =>
                                    Some ((key, value) :: members, rest5)
                                | None => None
                                end
                              else if bool_decide (c = "}"%char)
                              then Some ([(key, value)], rest4)
                              else None
                          | EmptyString => None
                          end
                      | None => None
                      end
                    else None
                | EmptyString => None
                end
            | None => None
            end
          else None
      | EmptyString => None
      end
  end.

(** [JSON.parse(text)]: [None] is a text it rejects. *)
Definition JSON_parse (text : string) : option Json :=
  match parse_value (2 * String.length text) text with
  | Some (j, rest) => if bool_decide (skip_ws rest = EmptyString) then Some j else None
  | None => None
  end.

(** A document as JavaScript can hold it: numbers are safe integers, and
    the keys of an object are distinct and in enumeration order. *)
Fixpoint keys_ok (keys : list string) : bool :=
  match keys with
  | [] => true
  | k :: rest =>
      forallb (fun k' => negb (bool_decide (k' = k)) && negb (comes_before k' k)) rest
      && keys_ok rest
  end.

Fixpoint json_ok (j : Json) : bool :=
  match j with
  | JNum n => Z.leb (Z.abs n) 9007199254740991
  | JArr items => forallb json_ok items
  | JObj members =>
      keys_ok (map fst members) && forallb (fun kv => json_ok (snd kv)) members
  | _ => true
  end.

(** The document [JSON.parse] returns for the text of [j]: [j] with the
    properties of every object defined in order. *)
Fixpoint normalize (j : Json) : Json :=
  match j with
  | JArr items => JArr (map normalize items)
  | JObj members =>
      JObj (object_of (map (fun kv => (fst kv, normalize (snd kv))) members))
  | _ => j
  end.

(** [parse_value] reads [j] back from its text, given fuel twice the
    length of the text, whatever follows that cannot be taken for a part
    of the value. *)
Definition parses_back_from (ends : string -> Prop) (j : Json) : Prop :=
  forall fuel rest,
    ends rest ->
    (2 * String.length (JSON_text j) <= fuel)%nat ->
    parse_value fuel (JSON_text j +:+ rest) = Some (normalize j, rest).

(** What follows a value in a text: nothing, or a character that is no
    digit. *)
Definition delimited (rest : string) : Prop :=
  match rest with
  | EmptyString => True
  | String c _ => digit_of c = None
  end.

Definition parses_back (j : Json) : Prop := parses_back_from delimited j.

(** The documents of a list of strings and of a [CIInfo], and the
    values read from such documents. *)
Definition json_of_strings (l : list string) : Json := JArr (map JStr l).

Fixpoint strings_of_items (items : list Json) : option (list string) :=
  match items with
  | [] => Some []
  | JStr s :: rest => option_map (cons s) (strings_of_items rest)
  | _ :: _ => None
  end.

Definition strings_of_json (j : Json) : option (list string) :=
  match j with
  | JArr items => strings_of_items items
  | _ => None
  end.

Definition member {A} (key : string) (inj : A -> Json) (o : option A)
  : list (string * Json) :=
  match o with
  | Some a => [(key, inj a)]
  | None => []
  end.

(** Properties that are [undefined] are left out by [JSON.stringify]. *)
Definition json_of_CIInfo (c : CIInfo) : Json :=
  JObj (member "branch" JStr (branch c)
        ++ member "commit" JStr (commit c)
        ++ member "buildNumber" JStr (buildNumber c)
        ++ member "buildUrl" JStr (buildUrl c)
        ++ member "provider" JStr (provider c)
        ++ member "isPR" JBool (isPR c)
        ++ member "prNumber" JStr (prNumber c)).

Fixpoint property (key : string) (members : list (string * Json)) : option Json :=
  match members with
  | [] => None
  | (k, v) :: rest => if bool_decide (k = key) then Some v else property key rest
  end.

(** A property read as text, or as a boolean: absent, or of that type. *)
Definition text_property (key : string) (members : list (string * Json))
  : option (option string) :=
  match property key members with
  | None => Some None
  | Some (JStr s) => Some (Some s)
  | Some _ => None
  end.

Definition bool_property (key : string) (members : list (string * Json))
  : option (option bool) :=
  match property key members with
  | None => Some None
  | Some (JBool b) => Some (Some b)
  | Some _ => None
  end.

Definition CIInfo_of_json (j : Json) : option CIInfo :=
  match j with
  | JObj members =>
      b ← text_property "branch" members;
      c ← text_property "commit" members;
      n ← text_property "buildNumber" members;
      u ← text_property "buildUrl" members;
      p ← text_property "provider" members;
      i ← bool_property "isPR" members;
      r ← text_property "prNumber" members;
      Some (mkCIInfo b c n u p i r)
  | _ => None
  end.

(** What [JSON.parse] returns for the text of a JSON column.  The row
    types keep such a column as the value whose [JSON.stringify] text it
    holds (every writer of the column writes such a text), and for such a
    text [JSON.parse] neither throws nor returns a value of another
    shape; [otherwise] stands for that case. *)
Definition JSON_parse_as {A} (decode : Json -> option A) (otherwise : A)
    (text : string) : A :=
  default otherwise (JSON_parse text ≫= decode).

(** [s || null] and [n || null]: the empty string and zero are falsy. *)
Definition string_or_null (o : option string) : option string :=
  match o with
  | Some s => if bool_decide (s = "") then None else Some s
  | None => None
  end.

Definition number_or_null (o : option Z) : option Z :=
  match o with
  | Some n => if Z.eqb n 0 then None else Some n
  | None => None
  end.

Definition is_upper (c : ascii) : bool :=
  let n := nat_of_ascii c in (65 <=? n)%nat && (n <=? 90)%nat.

Definition to_lower (c : ascii) : ascii :=
  if is_upper c then ascii_of_nat (nat_of_ascii c + 32) else c.

(** [str.replace(/[A-Z]/g, letter => `_${letter.toLowerCase()}`)]. *)
Fixpoint camelToSnakeCase (str : string) : string :=
  match str with
  | EmptyString => EmptyString
  | String c rest =>
      if is_upper c
      then String "_" (String (to_lower c) (camelToSnakeCase rest))
      else String c (camelToSnakeCase rest)
  end.

(** [[...new Set(l)]] and SQL [DISTINCT]: first occurrences, in order. *)
Fixpoint unique {A} `{EqDecision A} (l : list A) : list A :=
  match l with
  | [] => []
  | x :: l' => x :: List.filter (fun y => negb (bool_decide (y = x))) (unique l')
  end.

(** [l.includes(x)] and SQL [x IN (l)]. *)
Definition includes {A} `{EqDecision A} (l : list A) (x : A) : bool :=
  existsb (fun y => bool_decide (y = x)) l.

(** [ORDER BY]: a stable insertion sort; [before x y] tells that [x] may
    precede [y]. *)
Fixpoint insert_by {A} (before : A -> A -> bool) (x : A) (l : list A) : list A :=
  match l with
  | [] => [x]
  | y :: l' => if before x y then x :: l else y :: insert_by before x l'
  end.

Definition order_by {A} (before : A -> A -> bool) (l : list A) : list A :=
  fold_right (insert_by before) [] l.

(** [LIMIT ? OFFSET ?]. *)
Definition limit_offset {A} (limit offset : nat) (l : list A) : list A :=
  firstn limit (skipn offset l).

(** ** SQL statements over the store *)

Definition has_run (id : string) (st : Store) : bool :=
  existsb (fun r => bool_decide (RunRow.id r = id)) (test_runs st).

Definition has_result (id : string) (st : Store) : bool :=
  existsb (fun r => bool_decide (ResultRow.id r = id)) (test_results st).

(** [INSERT INTO test_runs]: [id] is the primary key. *)
Definition insert_test_run (row : RunRow.t) : DB unit :=
  fun st =>
    if has_run (RunRow.id row) st
    then (Err (SqliteError "UNIQUE constraint failed: test_runs.id"), st)
    else (Ok tt, mkStore (test_runs st ++ [row]) (test_results st) (screenshots st)).

(** [INSERT INTO test_results]: primary key, and the foreign key on
    [run_id] ([PRAGMA foreign_keys = ON]). *)
Definition insert_test_result (row : ResultRow.t) : DB unit :=
  fun st =>
    if has_result (ResultRow.id row) st
    then (Err (SqliteError "UNIQUE constraint failed: test_results.id"), st)
    else if negb (has_run (ResultRow.run_id row) st)
    then (Err (SqliteError "FOREIGN KEY constraint failed"), st)
    else (Ok tt, mkStore (test_runs st) (test_results st ++ [row]) (screenshots st)).

(** Rows of [screenshots] owned by one of the given results. *)
Definition owned_by_result (gone : list ResultRow.t) (s : ScreenshotRow.t) : bool :=
  existsb (fun r => bool_decide (ResultRow.id r = ScreenshotRow.test_result_id s)) gone.

(** Rows of [test_results] owned by one of the given runs. *)
Definition owned_by_run (gone : list RunRow.t) (r : ResultRow.t) : bool :=
  existsb (fun g => bool_decide (RunRow.id g = ResultRow.run_id r)) gone.

(** [DELETE FROM test_results WHERE ...]; [ON DELETE CASCADE] (and the
    trigger [trg_test_results_delete_screenshots]) removes the screenshots
    of the deleted rows.  The result is [changes]: the rows the statement
    itself deleted. *)
Definition delete_test_results (where_ : ResultRow.t -> bool) : DB Z :=
  fun st =>
    let gone := List.filter where_ (test_results st) in
    (Ok (Z.of_nat (length gone)),
     mkStore (test_runs st)
             (List.filter (fun r => negb (where_ r)) (test_results st))
             (List.filter (fun s => negb (owned_by_result gone s)) (screenshots st))).

(** [DELETE FROM test_runs WHERE ...] with both cascades. *)
Definition delete_test_runs (where_ : RunRow.t -> bool) : DB Z :=
  fun st =>
    let gone := List.filter where_ (test_runs st) in
    let results_gone := List.filter (owned_by_run gone) (test_results st) in
    (Ok (Z.of_nat (length gone)),
     mkStore (List.filter (fun r => negb (where_ r)) (test_runs st))
             (List.filter (fun r => negb (owned_by_run gone r)) (test_results st))
             (List.filter (fun s => negb (owned_by_result results_gone s)) (screenshots st))).

(** [DELETE FROM screenshots WHERE ...]. *)
Definition delete_screenshots (where_ : ScreenshotRow.t -> bool) : DB Z :=
  fun st =>
    (Ok (Z.of_nat (length (List.filter where_ (screenshots st)))),
     mkStore (test_runs st) (test_results st)
             (List.filter (fun s => negb (where_ s)) (screenshots st))).

(** Column names of a [SET] clause are resolved when the statement is
    prepared: an unknown name fails the statement whatever the rows. *)
Fixpoint resolve_sets {C} (of_name : string -> option C)
    (sets : list (string * SqlValue)) : result (list (C * SqlValue)) :=
  match sets with
  | [] => Ok []
  | (n, v) :: rest =>
      match of_name n with
      | None => Err (SqliteError ("no such column: " +:+ n))
      | Some c =>
          match resolve_sets of_name rest with
          | Ok l => Ok ((c, v) :: l)
          | Err e => Err e
          end
      end
  end.

Definition apply_sets {C R} (set : C -> SqlValue -> R -> R)
    (assigns : list (C * SqlValue)) (r : R) : R :=
  fold_left (fun r cv => set (fst cv) (snd cv) r) assigns r.

(** [UPDATE test_runs SET ... WHERE ...], then the trigger
    [trg_test_runs_updated_at] stamps the updated rows with
    [CURRENT_TIMESTAMP] ([now]). *)
Definition update_test_runs (sets : list (string * SqlValue))
    (where_ : RunRow.t -> bool) (now : Timestamp) : DB Z :=
  fun st =>
    match resolve_sets run_col_of_name sets with
    | Err e => (Err e, st)
    | Ok assigns =>
        let upd r := run_set rc_updated_at (VTime now) (apply_sets run_set assigns r) in
        (Ok (Z.of_nat (length (List.filter where_ (test_runs st)))),
         mkStore (map (fun r => if where_ r then upd r else r) (test_runs st))
                 (test_results st) (screenshots st))
    end.

(** [UPDATE test_results SET ... WHERE ...]: the foreign key on [run_id]
    is checked on the updated rows when the statement assigns [run_id];
    then the trigger [trg_test_results_updated_at]. *)
Definition update_test_results (sets : list (string * SqlValue))
    (where_ : ResultRow.t -> bool) (now : Timestamp) : DB Z :=
  fun st =>
    match resolve_sets res_col_of_name sets with
    | Err e => (Err e, st)
    | Ok assigns =>
        let upd r := res_set tc_updated_at (VTime now) (apply_sets res_set assigns r) in
        let hit := List.filter where_ (test_results st) in
        if negb (existsb (fun cv => bool_decide (fst cv = tc_run_id)) assigns)
           || forallb (fun r => has_run (ResultRow.run_id (upd r)) st) hit
        then (Ok (Z.of_nat (length hit)),
              mkStore (test_runs st)
                      (map (fun r => if where_ r then upd r else r) (test_results st))
                      (screenshots st))
        else (Err (SqliteError "FOREIGN KEY constraint failed"), st)
    end.

(** [SELECT ... FROM table WHERE ...]. *)
Definition select {A} (table : Store -> list A) (where_ : A -> bool) : DB (list A) :=
  fun st => (Ok (List.filter where_ (table st)), st).

(** The part of a [SET] clause one entry of a patch contributes, by the
    per-key rule [rule]: nothing when the value is [undefined] or the key
    is ['id']. *)
Definition entry_sets (rule : string -> JsValue -> list (string * SqlValue))
    (kv : string * option JsValue) : list (string * SqlValue) :=
  match snd kv with
  | Some value => if bool_decide (fst kv <> "id") then rule (fst kv) value else []
  | None => []
  end.

(** [Object.entries(updates).forEach(([key, value]) => { if (value !==
    undefined && key !== 'id') ... })]. *)
Definition build_set_clause (rule : string -> JsValue -> list (string * SqlValue))
    (entries : list (string * option JsValue)) : list (string * SqlValue) :=
  flat_map (entry_sets rule) entries.

Definition entry {A} (key : string) (inj : A -> JsValue) (o : option A)
  : string * option JsValue :=
  (key, option_map inj o).

(** ** [TestRunRepositoryImpl] ([src/database/TestRunRepository.ts]) *)

(** An entry of [Object.entries] for a property that can hold [null]. *)
Definition entry_optional {A} (key : string) (inj : A -> JsValue) (o : Optional A)
  : string * option JsValue :=
  (key, match o with
        | Undefined => None
        | Null => Some JsNull
        | Defined a => Some (inj a)
        end).

(** [Partial<TestRun>]: [None] is a key that is absent or [undefined];
    [duration] can also be the [null] of a run read back from the
    store. *)
Module TestRunPatch.
Record t := mk {
  id : option string;
  startTime : option Timestamp;
  endTime : option Timestamp;
  duration : Optional Z;
  totalTests : option Z;
  passed : option Z;
  failed : option Z;
  skipped : option Z;
  pending : option Z;
  retries : option Z;
  browserName : option string;
  browserVersion : option string;
  cypressVersion : option string;
  specFiles : option (list string);
  config : option Json;
  ciInfo : option CIInfo;
  status : option RunStatus;
  results : option (list TestResult.t) }.

Definition empty : t :=
  mk None None None Undefined None None None None None None None None None None
     None None None None.

(** [Object.entries(updates)]. *)
Definition entries (p : t) : list (string * option JsValue) :=
  [ entry "id" JsString (id p);
    entry "startTime" JsDate (startTime p);
    entry "endTime" JsDate (endTime p);
    entry_optional "duration" JsNumber (duration p);
    entry "totalTests" JsNumber (totalTests p);
    entry "passed" JsNumber (passed p);
    entry "failed" JsNumber (failed p);
    entry "skipped" JsNumber (skipped p);
    entry "pending" JsNumber (pending p);
    entry "retries" JsNumber (retries p);
    entry "browserName" JsString (browserName p);
    entry "browserVersion" JsString (browserVersion p);
    entry "cypressVersion" JsString (cypressVersion p);
    entry "specFiles" JsStrings (specFiles p);
    entry "config" JsJson (config p);
    entry "ciInfo" JsCIInfo (ciInfo p);
    entry "status" JsRunStatus (status p);
    entry "results" JsResults (results p) ].

(** A whole [TestRun] object passed where a patch is expected, as
    [handleRunEnd] does. *)
Definition of_run (r : TestRun.t) : t :=
  mk (Some (TestRun.id r)) (Some (TestRun.startTime r)) (TestRun.endTime r)
     (TestRun.duration r) (Some (TestRun.totalTests r)) (Some (TestRun.passed r))
     (Some (TestRun.failed r)) (Some (TestRun.skipped r)) (Some (TestRun.pending r))
     (Some (TestRun.retries r)) (Some (TestRun.browserName r))
     (Some (TestRun.browserVersion r)) (Some (TestRun.cypressVersion r))
     (Some (TestRun.specFiles r)) (Some (TestRun.config r)) (TestRun.ciInfo r)
     (Some (TestRun.status r)) (Some (TestRun.results r)).
End TestRunPatch.

Module TestRunRepositoryImpl.

(** [{ ...run, id: this.generateId() }]; the generated id is an input. *)
Definition with_id (id : string) (run : TestRun.t) : TestRun.t :=
  TestRun.mk id (TestRun.startTime run) (TestRun.endTime run) (TestRun.duration run)
    (TestRun.totalTests run) (TestRun.passed run) (TestRun.failed run)
    (TestRun.skipped run) (TestRun.pending run) (TestRun.retries run)
    (TestRun.browserName run) (TestRun.browserVersion run)
    (TestRun.cypressVersion run) (TestRun.specFiles run) (TestRun.config run)
    (TestRun.ciInfo run) (TestRun.status run) (TestRun.results run).

Definition create (generateId : string) (now : Timestamp) (run : TestRun.t)
  : DB TestRun.t :=
  let testRun := with_id generateId run in
  let row :=
    RunRow.mk (TestRun.id testRun)
      (TestRun.startTime testRun)
      (TestRun.endTime testRun)
      (number_or_null (defined (TestRun.duration testRun)))
      (TestRun.totalTests testRun)
      (TestRun.passed testRun)
      (TestRun.failed testRun)
      (TestRun.skipped testRun)
      (TestRun.pending testRun)
      (TestRun.retries testRun)
      (TestRun.browserName testRun)
      (TestRun.browserVersion testRun)
      (TestRun.cypressVersion testRun)
      (Some (TestRun.specFiles testRun))
      (Some (TestRun.config testRun))
      (TestRun.ciInfo testRun)
      (TestRun.status testRun)
      now now in
  let* _ := insert_test_run row in
  db_ret testRun.

(** The texts of the JSON columns. *)
Definition spec_files_text (row : RunRow.t) : option string :=
  option_map JSON_stringify_strings (RunRow.spec_files row).

Definition config_text (row : RunRow.t) : option string :=
  option_map JSON_text (RunRow.config row).

Definition ci_info_text (row : RunRow.t) : option string :=
  option_map (fun c => JSON_text (json_of_CIInfo c)) (RunRow.ci_info row).

(** [row.column ? JSON.parse(row.column) : fallback]: [NULL] and the
    empty text are falsy. *)
Definition mapRowToTestRun (row : RunRow.t) : TestRun.t :=
  TestRun.mk (RunRow.id row)
    (RunRow.start_time row)
    (RunRow.end_time row)
    (nullable (RunRow.duration row))
    (RunRow.total_tests row)
    (RunRow.passed row)
    (RunRow.failed row)
    (RunRow.skipped row)
    (RunRow.pending row)
    (RunRow.retries row)
    (RunRow.browser_name row)
    (RunRow.browser_version row)
    (RunRow.cypress_version row)
    (match string_or_null (spec_files_text row) with
     | Some text => JSON_parse_as strings_of_json [] text
     | None => []
     end)
    (match string_or_null (config_text row) with
     | Some text => JSON_parse_as Some (JObj []) text
     | None => JObj []
     end)
    (match string_or_null (ci_info_text row) with
     | Some text => JSON_parse_as (fun j => Some (CIInfo_of_json j)) None text
     | None => None
     end)
    (RunRow.status row)
    [].

Definition findById (id : string) : DB (option TestRun.t) :=
  let* rows := select test_runs (fun r => bool_decide (RunRow.id r = id)) in
  db_ret (option_map mapRowToTestRun (head rows)).

Definition mapTestStatusToRunStatus (testStatuses : list TestStatus) : list RunStatus :=
  let runStatuses := [] in
  let runStatuses :=
    if includes testStatuses FAILED then runStatuses ++ [Failed] else runStatuses in
  let runStatuses :=
    if includes testStatuses PASSED then runStatuses ++ [Completed] else runStatuses in
  unique runStatuses.

(** The [conditions] array of [findAll], one predicate per pushed SQL
    condition. *)
Definition conditions (filters : option TestFilter.t) : list (RunRow.t -> bool) :=
  match filters with
  | None => []
  | Some f =>
      (match TestFilter.dateRange f with
       | Some dr =>
           [fun r => Z.leb (dr_start dr) (RunRow.start_time r)
                     && Z.leb (RunRow.start_time r) (dr_end dr)]
       | None => []
       end)
      ++ (match TestFilter.browser f with
          | Some (b :: bs) => [fun r => includes (b :: bs) (RunRow.browser_name r)]
          | _ => []
          end)
      ++ (match TestFilter.status f with
          | Some (s :: ss) =>
              match mapTestStatusToRunStatus (s :: ss) with
              | [] => []
              | rs => [fun r => includes rs (RunRow.status r)]
              end
          | _ => []
          end)
  end.

Definition start_time_desc (a b : RunRow.t) : bool :=
  Z.leb (RunRow.start_time b) (RunRow.start_time a).

Definition findAll (filters : option TestFilter.t) : DB (list TestRun.t) :=
  let conds := conditions filters in
  let* rows := select test_runs (fun r => forallb (fun c => c r) conds) in
  db_ret (map mapRowToTestRun (order_by start_time_desc rows)).

Definition set_clause_rule (key : string) (value : JsValue) : list (string * SqlValue) :=
  let columnName := camelToSnakeCase key in
  if bool_decide (key = "endTime") || bool_decide (key = "startTime") then
    [(columnName, match value with JsDate t => VTime t | _ => bind_param value end)]
  else if bool_decide (key = "specFiles") || bool_decide (key = "config")
          || bool_decide (key = "ciInfo") then
    [(columnName, JSON_stringify value)]
  else
    [(columnName, bind_param value)].

Definition update (id : string) (updates : TestRunPatch.t) (now : Timestamp) : DB unit :=
  let setClause := build_set_clause set_clause_rule (TestRunPatch.entries updates) in
  match setClause with
  | [] => db_ret tt
  | _ =>
      let* changes :=
        update_test_runs setClause (fun r => bool_decide (RunRow.id r = id)) now in
      if Z.eqb changes 0
      then db_fail (NotFound ("Test run not found: " +:+ id))
      else db_ret tt
  end.

Definition delete (id : string) : DB unit :=
  let* changes := delete_test_runs (fun r => bool_decide (RunRow.id r = id)) in
  if Z.eqb changes 0
  then db_fail (NotFound ("Test run not found: " +:+ id))
  else db_ret tt.

Definition deleteOlderThan (date : Timestamp) : DB Z :=
  delete_test_runs (fun r => Z.ltb (RunRow.start_time r) date).

End TestRunRepositoryImpl.

(** ** SQLite text operators used by the result queries *)


(** [LIKE] reads a text character by character.  Texts are UTF-8, as the
    driver passes JavaScript strings: a byte of value 192 or more starts a
    character, which takes the continuation bytes (128 to 191) that
    follow it, and any other byte is a character of its own
    ([sqlite3Utf8Read]). *)
Definition is_continuation (c : ascii) : bool :=
  let n := nat_of_ascii c in (128 <=? n)%nat && (n <? 192)%nat.

Definition is_lead (c : ascii) : bool := (192 <=? nat_of_ascii c)%nat.

(** The continuation bytes a list of characters begins with, and the
    characters after them. *)
Fixpoint continuation_run (chars : list string) : string * list string :=
  match chars with
  | String d EmptyString :: more =>
      if is_continuation d
      then let (run, others) := continuation_run more in (String d run, others)
      else (EmptyString, chars)
  | _ => (EmptyString, chars)
  end.

(** The characters of a text, in order. *)
Fixpoint characters (s : string) : list string :=
  match s with
  | EmptyString => []
  | String c rest =>
      if is_lead c
      then let (run, others) := continuation_run (characters rest) in
           String c run :: others
      else String c EmptyString :: characters rest
  end.

Fixpoint lower (s : string) : string :=
  match s with
  | EmptyString => EmptyString
  | String c rest => String (to_lower c) (lower rest)
  end.

(** Characters compare in [LIKE] up to ASCII case: only the letters [A]
    to [Z] are folded. *)
Definition like_char_eq (a b : string) : bool :=
  bool_decide (lower a = lower b).

(** [text LIKE pattern] without [ESCAPE], on the characters of both:
    [%] matches any run of characters, [_] exactly one, any other
    character itself up to ASCII case. *)
Fixpoint like_chars (pattern text : list string) : bool :=
  match pattern with
  | [] =>
      match text with
      | [] => true
      | _ :: _ => false
      end
  | p :: pattern' =>
      if bool_decide (p = "%") then
        (fix skip (t : list string) : bool :=
           like_chars pattern' t
           || match t with
              | [] => false
              | _ :: t' => skip t'
              end) text
      else
        match text with
        | [] => false
        | c :: text' =>
            (bool_decide (p = "_") || like_char_eq p c) && like_chars pattern' text'
        end
  end.

Definition sql_like (pattern text : string) : bool :=
  like_chars (characters pattern) (characters text).

(** [column LIKE '%needle%'] on a nullable column: [NULL] never matches. *)
Definition like_contains (needle : string) (column : option string) : bool :=
  match column with
  | Some text => sql_like ("%" +:+ needle +:+ "%") text
  | None => false
  end.

(** ** [TestResultRepositoryImpl] ([src/database/TestResultRepository.ts]) *)

(** [Partial<TestResult>]. *)
Module TestResultPatch.
Record t := mk {
  id : option string;
  runId : option string;
  title : option string;
  fullTitle : option string;
  state : option TestStatus;
  duration : option Z;
  error : option TestError;
  screenshot : option string;
  retries : option Z;
  currentRetry : option Z;
  pending : option bool;
  file : option string;
  parent : option string;
  context : option string;
  tags : option (list string);
  startTime : option Timestamp;
  endTime : option Timestamp;
  browser : option BrowserInfo;
  viewport : option ViewportInfo }.

Definition empty : t :=
  mk None None None None None None None None None None None None None None
     None None None None None.

(** [Object.entries(updates)]. *)
Definition entries (p : t) : list (string * option JsValue) :=
  [ entry "id" JsString (id p);
    entry "runId" JsString (runId p);
    entry "title" JsString (title p);
    entry "fullTitle" JsString (fullTitle p);
    entry "state" JsTestStatus (state p);
    entry "duration" JsNumber (duration p);
    entry "error" JsError (error p);
    entry "screenshot" JsString (screenshot p);
    entry "retries" JsNumber (retries p);
    entry "currentRetry" JsNumber (currentRetry p);
    entry "pending" JsBoolean (pending p);
    entry "file" JsString (file p);
    entry "parent" JsString (parent p);
    entry "context" JsString (context p);
    entry "tags" JsStrings (tags p);
    entry "startTime" JsDate (startTime p);
    entry "endTime" JsDate (endTime p);
    entry "browser" JsBrowser (browser p);
    entry "viewport" JsViewport (viewport p) ].
End TestResultPatch.

(** One row of the grouped query of [findFlaky]. *)
Record FlakyGroup := mkFlakyGroup {
  test_title : string;
  spec_file : string;
  total_runs : Z;
  group_failures : Z;
  last_failure_time : Timestamp;
  flaky_rate : Q }.

Module TestResultRepositoryImpl.

Definition with_id (id : string) (r : TestResult.t) : TestResult.t :=
  TestResult.mk id (TestResult.runId r) (TestResult.title r) (TestResult.fullTitle r)
    (TestResult.state r) (TestResult.duration r) (TestResult.error r)
    (TestResult.screenshot r) (TestResult.retries r) (TestResult.currentRetry r)
    (TestResult.pending r) (TestResult.file r) (TestResult.parent r)
    (TestResult.context r) (TestResult.tags r) (TestResult.startTime r)
    (TestResult.endTime r) (TestResult.browser r) (TestResult.viewport r).

Definition create (generateId : string) (now : Timestamp) (result : TestResult.t)
  : DB TestResult.t :=
  let testResult := with_id generateId result in
  let error := TestResult.error testResult in
  let row :=
    ResultRow.mk (TestResult.id testResult)
      (TestResult.runId testResult)
      (TestResult.title testResult)
      (TestResult.fullTitle testResult)
      (TestResult.state testResult)
      (TestResult.duration testResult)
      (string_or_null (option_map err_name error))
      (string_or_null (error ≫= fun e => defined (err_message e)))
      (string_or_null (error ≫= fun e => defined (err_stack e)))
      (string_or_null (error ≫= fun e => defined (err_diff e)))
      (string_or_null (defined (TestResult.screenshot testResult)))
      (TestResult.retries testResult)
      (TestResult.currentRetry testResult)
      (truthy (TestResult.pending testResult))
      (TestResult.file testResult)
      (TestResult.parent testResult)
      (string_or_null (defined (TestResult.context testResult)))
      (TestResult.tags testResult)
      (TestResult.startTime testResult)
      (TestResult.endTime testResult)
      (string_or_null (option_map br_name (TestResult.browser testResult)))
      (string_or_null (TestResult.browser testResult ≫= fun b => defined (br_version b)))
      (number_or_null (option_map vp_width (TestResult.viewport testResult)))
      (number_or_null (TestResult.viewport testResult ≫= fun v => defined (vp_height v)))
      now now in
  let* _ := insert_test_result row in
  db_ret testResult.

(** The text of the [tags] column. *)
Definition tags_text (row : ResultRow.t) : option string :=
  option_map JSON_stringify_strings (ResultRow.tags row).

(** A [NULL] column is read as [null]; the [pending] column, a boolean
    kept as 1 or 0, is read as that number. *)
Definition mapRowToTestResult (row : ResultRow.t) : TestResult.t :=
  TestResult.mk (ResultRow.id row)
    (ResultRow.run_id row)
    (ResultRow.title row)
    (ResultRow.full_title row)
    (ResultRow.state row)
    (ResultRow.duration row)
    (match string_or_null (ResultRow.error_name row) with
     | Some name =>
         Some (mkTestError name (nullable (ResultRow.error_message row))
                 (nullable (ResultRow.error_stack row)) None
                 (nullable (ResultRow.error_diff row)))
     | None => None
     end)
    (nullable (ResultRow.screenshot_path row))
    (ResultRow.retries row)
    (ResultRow.current_retry row)
    (FlagBit (ResultRow.pending row))
    (ResultRow.file row)
    (ResultRow.parent row)
    (nullable (ResultRow.context row))
    (match string_or_null (tags_text row) with
     | Some text => JSON_parse_as (fun j => Some (strings_of_json j)) None text
     | None => None
     end)
    (ResultRow.start_time row)
    (ResultRow.end_time row)
    (match string_or_null (ResultRow.browser_name row) with
     | Some name =>
         Some (mkBrowserInfo name (nullable (ResultRow.browser_version row))
                 None None None None None None None)
     | None => None
     end)
    (match number_or_null (ResultRow.viewport_width row) with
     | Some width =>
         Some (mkViewportInfo width (nullable (ResultRow.viewport_height row)))
     | None => None
     end).

Definition findById (id : string) : DB (option TestResult.t) :=
  let* rows := select test_results (fun r => bool_decide (ResultRow.id r = id)) in
  db_ret (option_map mapRowToTestResult (head rows)).

Definition start_time_asc (a b : ResultRow.t) : bool :=
  Z.leb (ResultRow.start_time a) (ResultRow.start_time b).

Definition start_time_desc (a b : ResultRow.t) : bool :=
  Z.leb (ResultRow.start_time b) (ResultRow.start_time a).

Definition findByRunId (runId : string) : DB (list TestResult.t) :=
  let* rows := select test_results (fun r => bool_decide (ResultRow.run_id r = runId)) in
  db_ret (map mapRowToTestResult (order_by start_time_asc rows)).

(** [`%"${tag}"%`] without its outer [%]. *)
Definition quoted_tag (tag : string) : string :=
  String dquote (tag +:+ String dquote EmptyString).

(** The [conditions] array of [findWithFilters], one predicate per pushed
    SQL condition. *)
Definition conditions (filters : TestFilter.t) : list (ResultRow.t -> bool) :=
  (match TestFilter.status filters with
   | Some (s :: ss) => [fun r => includes (s :: ss) (ResultRow.state r)]
   | _ => []
   end)
  ++ (match TestFilter.specFiles filters with
      | Some (f :: fs) => [fun r => includes (f :: fs) (ResultRow.file r)]
      | _ => []
      end)
  ++ (match TestFilter.duration filters with
      | Some d =>
          (match df_min d with
           | Some lo => [fun r => Z.leb lo (ResultRow.duration r)]
           | None => []
           end)
          ++ (match df_max d with
              | Some hi => [fun r => Z.leb (ResultRow.duration r) hi]
              | None => []
              end)
      | None => []
      end)
  ++ (match string_or_null (TestFilter.search filters) with
      | Some term =>
          [fun r => like_contains term (Some (ResultRow.title r))
                    || like_contains term (Some (ResultRow.full_title r))
                    || like_contains term (ResultRow.error_message r)]
      | None => []
      end)
  ++ (match TestFilter.tags filters with
      | Some (t :: ts) =>
          [fun r => existsb (fun tag => like_contains (quoted_tag tag) (tags_text r)) (t :: ts)]
      | _ => []
      end)
  ++ (match TestFilter.browser filters with
      | Some (b :: bs) =>
          [fun r => match ResultRow.browser_name r with
                    | Some name => includes (b :: bs) name
                    | None => false
                    end]
      | _ => []
      end)
  ++ (match TestFilter.retries filters with
      | Some true => [fun r => Z.ltb 0 (ResultRow.retries r)]
      | _ => []
      end)
  ++ (match TestFilter.hasScreenshots filters with
      | Some true => [fun r => bool_decide (ResultRow.screenshot_path r <> None)]
      | Some false => [fun r => bool_decide (ResultRow.screenshot_path r = None)]
      | None => []
      end)
  ++ (match TestFilter.dateRange filters with
      | Some dr =>
          [fun r => Z.leb (dr_start dr) (ResultRow.start_time r)
                    && Z.leb (ResultRow.start_time r) (dr_end dr)]
      | None => []
      end).

(** [if (limit) { LIMIT ?; if (offset) { OFFSET ? } }]: zero and
    [undefined] are falsy. *)
Definition paginate {A} (limit offset : option nat) (l : list A) : list A :=
  match limit with
  | Some (S n) =>
      match offset with
      | Some (S m) => limit_offset (S n) (S m) l
      | _ => limit_offset (S n) 0 l
      end
  | _ => l
  end.

Definition findWithFilters (filters : TestFilter.t) (limit offset : option nat)
  : DB (list TestResult.t) :=
  let conds := conditions filters in
  let* rows := select test_results (fun r => forallb (fun c => c r) conds) in
  db_ret (map mapRowToTestResult (paginate limit offset (order_by start_time_desc rows))).

(** [DATE('now', '-30 days')]: the calendar day (UTC) thirty days back,
    which as a text bound is the instant that day begins. *)
Definition window_start (now : Timestamp) : Timestamp :=
  ((now - 30 * day_ms) / day_ms) * day_ms.

Definition group_key (r : ResultRow.t) : string * string :=
  (ResultRow.full_title r, ResultRow.file r).

Definition count_failed (rows : list ResultRow.t) : Z :=
  Z.of_nat (length (List.filter (fun r => bool_decide (ResultRow.state r = FAILED)) rows)).

Definition max_start_time (rows : list ResultRow.t) : Timestamp :=
  match rows with
  | [] => 0
  | r :: rest => fold_left (fun m x => Z.max m (ResultRow.start_time x)) rest (ResultRow.start_time r)
  end.

(** The aggregate row of one [GROUP BY full_title, file] group. *)
Definition aggregate (key : string * string) (rows : list ResultRow.t) : FlakyGroup :=
  let members := List.filter (fun r => bool_decide (group_key r = key)) rows in
  let total := Z.of_nat (length members) in
  mkFlakyGroup (fst key) (snd key) total (count_failed members)
    (max_start_time members)
    (inject_Z (count_failed members) / inject_Z total)%Q.

Definition group_by_title_file (rows : list ResultRow.t) : list FlakyGroup :=
  map (fun key => aggregate key rows) (unique (map group_key rows)).

Definition having (threshold : Q) (g : FlakyGroup) : bool :=
  Z.leb 5 (total_runs g)
  && Qle_bool threshold (flaky_rate g)
  && negb (Qle_bool 1 (flaky_rate g)).

(** [ORDER BY flaky_rate DESC, total_runs DESC]. *)
Definition flaky_order (a b : FlakyGroup) : bool :=
  if Qeq_bool (flaky_rate a) (flaky_rate b)
  then Z.leb (total_runs b) (total_runs a)
  else Qle_bool (flaky_rate b) (flaky_rate a).

(** [Math.round(x * 100) / 100]. *)
Definition round2 (x : Q) : Q :=
  (inject_Z (Qfloor (x * 100 + (1 # 2))) / 100)%Q.

Definition toFlakyTest (row : FlakyGroup) : FlakyTest.t :=
  FlakyTest.mk (test_title row) (spec_file row) (round2 (flaky_rate row))
    (total_runs row) (group_failures row) (last_failure_time row).

(** The rows of the grouped query, before they are mapped to
    [FlakyTest] objects. *)
Definition flaky_groups (threshold : Q) (now : Timestamp) (st : Store) : list FlakyGroup :=
  let recent :=
    List.filter (fun r => Z.leb (window_start now) (ResultRow.start_time r))
      (test_results st) in
  order_by flaky_order (List.filter (having threshold) (group_by_title_file recent)).

(** [findFlaky(threshold: number = 0.1)]; [now] is the clock SQLite reads. *)
Definition findFlaky (threshold : option Q) (now : Timestamp) : DB (list FlakyTest.t) :=
  fun st =>
    (Ok (map toFlakyTest (flaky_groups (default (1 # 10)%Q threshold) now st)), st).

(** The per-key rule of [update].  Under ['error'], ['browser'] and
    ['viewport'] a typed patch carries an object, which is truthy. *)
Definition set_clause_rule (key : string) (value : JsValue) : list (string * SqlValue) :=
  let columnName := camelToSnakeCase key in
  if bool_decide (key = "startTime") || bool_decide (key = "endTime") then
    [(columnName, match value with JsDate t => VTime t | _ => bind_param value end)]
  else if bool_decide (key = "error") then
    match value with
    | JsError errorObj =>
        [("error_name", VText (err_name errorObj));
         ("error_message", optional_value VText (err_message errorObj));
         ("error_stack", optional_value VText (err_stack errorObj));
         ("error_diff", optional_value VText (err_diff errorObj))]
    | _ => []
    end
  else if bool_decide (key = "tags") then
    [(columnName, JSON_stringify value)]
  else if bool_decide (key = "browser") then
    match value with
    | JsBrowser browserObj =>
        [("browser_name", VText (br_name browserObj));
         ("browser_version", optional_value VText (br_version browserObj))]
    | _ => []
    end
  else if bool_decide (key = "viewport") then
    match value with
    | JsViewport viewportObj =>
        [("viewport_width", VInt (vp_width viewportObj));
         ("viewport_height", optional_value VInt (vp_height viewportObj))]
    | _ => []
    end
  else
    [(columnName, bind_param value)].

Definition update (id : string) (updates : TestResultPatch.t) (now : Timestamp) : DB unit :=
  let setClause := build_set_clause set_clause_rule (TestResultPatch.entries updates) in
  match setClause with
  | [] => db_ret tt
  | _ =>
      let* changes :=
        update_test_results setClause (fun r => bool_decide (ResultRow.id r = id)) now in
      if Z.eqb changes 0
      then db_fail (NotFound ("Test result not found: " +:+ id))
      else db_ret tt
  end.

Definition delete (id : string) : DB unit :=
  let* changes := delete_test_results (fun r => bool_decide (ResultRow.id r = id)) in
  if Z.eqb changes 0
  then db_fail (NotFound ("Test result not found: " +:+ id))
  else db_ret tt.

End TestResultRepositoryImpl.

(** ** [DatabaseManager.cleanupOldData] ([src/database/DatabaseManager.ts]) *)

Record CleanupReport := mkCleanupReport {
  deletedRuns : Z;
  deletedResults : Z;
  deletedScreenshots : Z }.

Module DatabaseManager.

(** [SELECT COUNT( * ) as count FROM table WHERE ...]. *)
Definition count {A} (table : Store -> list A) (where_ : A -> bool) : DB Z :=
  let* rows := select table where_ in
  db_ret (Z.of_nat (length rows)).

(** The time zone of the process, as [Date] reads it ([LocalTZA] of
    ECMAScript): [tz t true] is the offset of local time from UTC at the
    instant [t], [tz t false] the offset at the local time value [t]. *)
Definition TimeZone : Type := Z -> bool -> Z.

Definition LocalTime (tz : TimeZone) (t : Timestamp) : Z := t + tz t true.

Definition UTC (tz : TimeZone) (t : Z) : Timestamp := t - tz t false.

Definition Day (t : Z) : Z := t / day_ms.

Definition TimeWithinDay (t : Z) : Z := t mod day_ms.

Definition MakeDate (day time : Z) : Z := day * day_ms + time.

(** [cutoffDate.setDate(cutoffDate.getDate() - retentionDays)] on
    [new Date()], for a whole number of days: [setDate] keeps the local
    time of day and moves the local date, and day [getDate() -
    retentionDays] of the current month is the day that lies
    [retentionDays] days before the current one, in whatever month. *)
Definition cutoffDate (tz : TimeZone) (now : Timestamp) (retentionDays : Z) : Timestamp :=
  let t := LocalTime tz now in
  UTC tz (MakeDate (Day t - retentionDays) (TimeWithinDay t)).

Definition cleanupOldData (tz : TimeZone) (retentionDays : Z) (now : Timestamp)
  : DB CleanupReport :=
  let cutoff := cutoffDate tz now retentionDays in
  let* oldRuns := count test_runs (fun r => Z.ltb (RunRow.start_time r) cutoff) in
  let* oldResults := count test_results (fun r => Z.ltb (ResultRow.start_time r) cutoff) in
  let* oldScreenshots := count screenshots (fun s => Z.ltb (ScreenshotRow.taken_at s) cutoff) in
  let* deletedRuns := TestRunRepositoryImpl.deleteOlderThan cutoff in
  let* _ := delete_screenshots (fun s => Z.ltb (ScreenshotRow.taken_at s) cutoff) in
  db_ret (mkCleanupReport deletedRuns oldResults oldScreenshots).

End DatabaseManager.

(** ** [AuroraReporter] ([src/reporter/index.ts])

    The reporter keeps the current run, the map of collected results
    (a JavaScript [Map] keyed by full title, in insertion order) and the
    start time.  Every repository call it issues is fire-and-forget
    ([.catch] logs), so the calls are recorded, in order, with the
    arguments they were given.  Screenshot capture and report files are
    external collaborators and are left out. *)

(** What the handlers read from a Mocha test. *)
Record MochaTest := mkMochaTest {
  mt_title : string;
  mt_fullTitle : string;
  mt_file : option string;
  mt_currentRetry : Z;
  mt_pending : bool;
  mt_duration : option Z;
  mt_parent : option string }.

(** What [handleTestFail] reads from the error it is given. *)
Record MochaError := mkMochaError {
  me_name : option string;
  me_message : option string;
  me_stack : option string;
  me_diff : option string }.

(** What the reporter reads from its process: environment variables (the
    configuration variable already parsed: [Some None] is text that
    [JSON.parse] rejects) and the Cypress version found in
    [package.json]. *)
Record Env := mkEnv {
  CYPRESS_BROWSER_NAME : option string;
  CYPRESS_BROWSER_VERSION : option string;
  CYPRESS_SPEC_FILES : option string;
  CYPRESS_CONFIG : option (option Json);
  package_cypress : option string }.

Inductive RepositoryCall :=
| CreateRun (run : TestRun.t)
| UpdateRun (id : string) (updates : TestRunPatch.t)
| CreateResult (result : TestResult.t).

Inductive MochaEvent :=
| EvStart (runId : string) (now : Timestamp)
| EvEnd (now : Timestamp)
| EvSuite (title : string)
| EvSuiteEnd (title : string)
| EvHook (title : string)
| EvHookEnd (title : string)
| EvTest (test : MochaTest) (uuid : string) (now : Timestamp)
| EvPass (test : MochaTest) (now : Timestamp)
| EvFail (test : MochaTest) (err : MochaError) (now : Timestamp)
| EvPending (test : MochaTest) (uuid : string) (now : Timestamp)
| EvRetry (test : MochaTest).

Module AuroraReporter.

Record t := mk {
  currentRun : option TestRun.t;
  testResults : list (string * TestResult.t);
  startTime : Timestamp;
  calls : list RepositoryCall }.

(** The fields of a new reporter; [constructed] is the time of
    construction ([startTime: Date = new Date()]). *)
Definition init (constructed : Timestamp) : t := mk None [] constructed [].

(** [Map.prototype.get] and [Map.prototype.set]: a key that is present
    keeps its place. *)
Fixpoint map_get {V} (key : string) (m : list (string * V)) : option V :=
  match m with
  | [] => None
  | (k, v) :: rest => if bool_decide (k = key) then Some v else map_get key rest
  end.

Fixpoint map_set {V} (key : string) (value : V) (m : list (string * V)) : list (string * V) :=
  match m with
  | [] => [(key, value)]
  | (k, v) :: rest =>
      if bool_decide (k = key) then (k, value) :: rest else (k, v) :: map_set key value rest
  end.

Definition map_values {V} (m : list (string * V)) : list V := map snd m.

Definition or_unknown (o : option string) : string :=
  default "unknown" (string_or_null o).

Definition getBrowserName (env : Env) : string := or_unknown (CYPRESS_BROWSER_NAME env).

Definition getBrowserVersion (env : Env) : string := or_unknown (CYPRESS_BROWSER_VERSION env).

Definition getCypressVersion (env : Env) : string := or_unknown (package_cypress env).

(** [s.split(',')]. *)
Fixpoint split_comma (s : string) : list string :=
  match s with
  | EmptyString => [EmptyString]
  | String c rest =>
      if bool_decide (c = ","%char) then EmptyString :: split_comma rest
      else match split_comma rest with
           | [] => [String c EmptyString]
           | w :: ws => String c w :: ws
           end
  end.

Definition getSpecFiles (env : Env) : list string :=
  match string_or_null (CYPRESS_SPEC_FILES env) with
  | Some files => split_comma files
  | None => []
  end.

(** [None] when [JSON.parse] throws. *)
Definition getRunConfig (env : Env) : option Json :=
  match CYPRESS_CONFIG env with
  | Some parsed => parsed
  | None => Some (JObj [])
  end.

Definition getCIInfo : option CIInfo := None.

Definition getTestFile (test : MochaTest) : string := or_unknown (mt_file test).

Definition is_word_char (c : ascii) : bool :=
  let n := nat_of_ascii c in
  ((48 <=? n)%nat && (n <=? 57)%nat)
  || ((65 <=? n)%nat && (n <=? 90)%nat)
  || ((97 <=? n)%nat && (n <=? 122)%nat)
  || (n =? 95)%nat.

Fixpoint take_word (s : string) : string :=
  match s with
  | EmptyString => EmptyString
  | String c rest => if is_word_char c then String c (take_word rest) else EmptyString
  end.

(** The captures of [/@(\w+)/g] over the title.  After a match the
    scan may resume right behind the [@]: the word it skips holds no
    [@]. *)
Fixpoint extractTags (title : string) : list string :=
  match title with
  | EmptyString => []
  | String c rest =>
      if bool_decide (c = "@"%char) then
        match take_word rest with
        | EmptyString => extractTags rest
        | word => word :: extractTags rest
        end
      else extractTags rest
  end.

(** [{ name: this.getBrowserName(), version: this.getBrowserVersion() }]. *)
Definition browser_of (env : Env) : BrowserInfo :=
  mkBrowserInfo (getBrowserName env) (Defined (getBrowserVersion env))
    None None None None None None None.

Definition handleRunStart (env : Env) (runId : string) (now : Timestamp) (st : t) : t :=
  match getRunConfig env with
  | None =>
      (* [getRunConfig] throws after [this.startTime] was assigned *)
      mk (currentRun st) (testResults st) now (calls st)
  | Some runConfig =>
      let run :=
        TestRun.mk runId now None Undefined 0 0 0 0 0 0
          (getBrowserName env) (getBrowserVersion env) (getCypressVersion env)
          (getSpecFiles env) runConfig getCIInfo Running [] in
      mk (Some run) (testResults st) now (calls st ++ [CreateRun run])
  end.

Definition count_state (s : TestStatus) (results : list TestResult.t) : Z :=
  Z.of_nat (length (List.filter (fun r => bool_decide (TestResult.state r = s)) results)).

Definition handleRunEnd (now : Timestamp) (st : t) : t :=
  match currentRun st with
  | None => st
  | Some run =>
      let endTime := now in
      let duration := endTime - startTime st in
      let totalTests := Z.of_nat (length (testResults st)) in
      let results := map_values (testResults st) in
      let passed := count_state PASSED results in
      let failed := count_state FAILED results in
      let skipped := count_state SKIPPED results in
      let pending := count_state PENDING results in
      let status := if Z.ltb 0 failed then Failed else Completed in
      let run' :=
        TestRun.mk (TestRun.id run) (TestRun.startTime run) (Some endTime) (Defined duration)
          totalTests passed failed skipped pending (TestRun.retries run)
          (TestRun.browserName run) (TestRun.browserVersion run)
          (TestRun.cypressVersion run) (TestRun.specFiles run) (TestRun.config run)
          (TestRun.ciInfo run) status results in
      mk (Some run') (testResults st) (startTime st)
         (calls st ++ [UpdateRun (TestRun.id run') (TestRunPatch.of_run run')])
  end.

Definition current_run_id (st : t) : string :=
  match currentRun st with
  | Some run => TestRun.id run
  | None => ""
  end.

Definition handleTestStart (env : Env) (test : MochaTest) (uuid : string)
    (now : Timestamp) (st : t) : t :=
  let testResult :=
    TestResult.mk uuid (current_run_id st) (mt_title test) (mt_fullTitle test)
      PENDING 0 None Undefined (mt_currentRetry test) (mt_currentRetry test)
      (FlagBool (mt_pending test)) (getTestFile test)
      (default "" (string_or_null (mt_parent test)))
      Undefined (Some (extractTags (mt_title test))) now None
      (Some (browser_of env)) None in
  mk (currentRun st) (map_set (mt_fullTitle test) testResult (testResults st))
     (startTime st) (calls st).

Definition finish (r : TestResult.t) (state : TestStatus) (duration : Z)
    (endTime : Timestamp) (error : option TestError) : TestResult.t :=
  TestResult.mk (TestResult.id r) (TestResult.runId r) (TestResult.title r)
    (TestResult.fullTitle r) state duration error (TestResult.screenshot r)
    (TestResult.retries r) (TestResult.currentRetry r) (TestResult.pending r)
    (TestResult.file r) (TestResult.parent r) (TestResult.context r)
    (TestResult.tags r) (TestResult.startTime r) (Some endTime)
    (TestResult.browser r) (TestResult.viewport r).

Definition handleTestPass (test : MochaTest) (now : Timestamp) (st : t) : t :=
  match map_get (mt_fullTitle test) (testResults st) with
  | None => st
  | Some testResult =>
      let testResult' :=
        finish testResult PASSED (default 0 (mt_duration test)) now
          (TestResult.error testResult) in
      mk (currentRun st) (map_set (mt_fullTitle test) testResult' (testResults st))
         (startTime st) (calls st ++ [CreateResult testResult'])
  end.

Definition handleTestFail (test : MochaTest) (err : MochaError) (now : Timestamp)
    (st : t) : t :=
  match map_get (mt_fullTitle test) (testResults st) with
  | None => st
  | Some testResult =>
      let error :=
        mkTestError (default "Error" (string_or_null (me_name err)))
          (Defined (default "Unknown error" (string_or_null (me_message err))))
          (optional (me_stack err)) None (optional (me_diff err)) in
      let testResult' :=
        finish testResult FAILED (default 0 (mt_duration test)) now (Some error) in
      mk (currentRun st) (map_set (mt_fullTitle test) testResult' (testResults st))
         (startTime st) (calls st ++ [CreateResult testResult'])
  end.

Definition handleTestPending (env : Env) (test : MochaTest) (uuid : string)
    (now : Timestamp) (st : t) : t :=
  let testResult :=
    TestResult.mk uuid (current_run_id st) (mt_title test) (mt_fullTitle test)
      PENDING 0 None Undefined 0 0 (FlagBool true) (getTestFile test)
      (default "" (string_or_null (mt_parent test)))
      Undefined (Some (extractTags (mt_title test))) now (Some now)
      (Some (browser_of env)) None in
  mk (currentRun st) (map_set (mt_fullTitle test) testResult (testResults st))
     (startTime st) (calls st ++ [CreateResult testResult]).

Definition bump_result (test : MochaTest) (r : TestResult.t) : TestResult.t :=
  TestResult.mk (TestResult.id r) (TestResult.runId r) (TestResult.title r)
    (TestResult.fullTitle r) (TestResult.state r) (TestResult.duration r)
    (TestResult.error r) (TestResult.screenshot r) (TestResult.retries r + 1)
    (mt_currentRetry test) (TestResult.pending r) (TestResult.file r)
    (TestResult.parent r) (TestResult.context r) (TestResult.tags r)
    (TestResult.startTime r) (TestResult.endTime r) (TestResult.browser r)
    (TestResult.viewport r).

Definition bump_run (run : TestRun.t) : TestRun.t :=
  TestRun.mk (TestRun.id run) (TestRun.startTime run) (TestRun.endTime run)
    (TestRun.duration run) (TestRun.totalTests run) (TestRun.passed run)
    (TestRun.failed run) (TestRun.skipped run) (TestRun.pending run)
    (TestRun.retries run + 1) (TestRun.browserName run) (TestRun.browserVersion run)
    (TestRun.cypressVersion run) (TestRun.specFiles run) (TestRun.config run)
    (TestRun.ciInfo run) (TestRun.status run) (TestRun.results run).

Definition handleTestRetry (test : MochaTest) (st : t) : t :=
  let results :=
    match map_get (mt_fullTitle test) (testResults st) with
    | Some testResult =>
        map_set (mt_fullTitle test) (bump_result test testResult) (testResults st)
    | None => testResults st
    end in
  mk (option_map bump_run (currentRun st)) results (startTime st) (calls st).

(** [setupEventListeners]: the handler bound to each runner event. *)
Definition step (env : Env) (st : t) (ev : MochaEvent) : t :=
  match ev with
  | EvStart runId now => handleRunStart env runId now st
  | EvEnd now => handleRunEnd now st
  | EvSuite _ | EvSuiteEnd _ | EvHook _ | EvHookEnd _ => st
  | EvTest test uuid now => handleTestStart env test uuid now st
  | EvPass test now => handleTestPass test now st
  | EvFail test err now => handleTestFail test err now st
  | EvPending test uuid now => handleTestPending env test uuid now st
  | EvRetry test => handleTestRetry test st
  end.

Definition run_events (env : Env) (st : t) (evs : list MochaEvent) : t :=
  fold_left (step env) evs st.

(** The status of the current run after each event of a trace. *)
Fixpoint status_trace (env : Env) (st : t) (evs : list MochaEvent)
  : list (option RunStatus) :=
  match evs with
  | [] => []
  | ev :: rest =>
      let st' := step env st ev in
      option_map TestRun.status (currentRun st') :: status_trace env st' rest
  end.

Definition is_run_end (ev : MochaEvent) : bool :=
  match ev with
  | EvEnd _ => true
  | _ => false
  end.

Definition is_run_boundary (ev : MochaEvent) : bool :=
  match ev with
  | EvStart _ _ | EvEnd _ => true
  | _ => false
  end.

Definition terminal (s : RunStatus) : bool :=
  match s with
  | Running => false
  | Completed | Failed | Cancelled => true
  end.

End AuroraReporter.

(** ** [WebSocketManager] ([src/server/WebSocketManager.ts])

    The Socket.IO server is represented by what the manager uses of it:
    the set of connected sockets, the rooms of the adapter (room name to
    member socket ids; [socket.join], [socket.leave], and the removal
    from every room when a socket disconnects), and the messages handed
    to each socket, in order.  [io.emit] reaches every connected socket,
    [io.to(room).emit] the members of the room.  The replies a handler
    sends to its own socket after a database read (['welcome'],
    ['test-runs:initial'], ['test-run:details']) are not room events and
    are left out. *)

Inductive Payload :=
| PRun (run : TestRun.t)
| PResult (result : TestResult.t)
| PScreenshot (result : TestResult.t) (screenshotPath : string)
| PAny (data : Json).

(** [interface WebSocketMessage]. *)
Record WebSocketMessage := mkMessage {
  msg_type : string;
  msg_payload : Payload;
  msg_timestamp : Timestamp }.

(** One message handed to one socket; [via] is the room it was sent to,
    [None] for a broadcast to all sockets. *)
Record Delivery := mkDelivery {
  dest : string;
  via : option string;
  event : string;
  message : WebSocketMessage }.

Inductive HubAction :=
| Connect (socketId : string)
| Disconnect (socketId : string)
| SubscribeTestRuns (socketId : string)
| SubscribeTestRun (socketId : string) (runId : string)
| UnsubscribeTestRun (socketId : string) (runId : string)
| Emit (event : string) (data : Payload) (now : Timestamp)
| EmitToRoom (room : string) (event : string) (data : Payload) (now : Timestamp)
| EmitTestRunStarted (testRun : TestRun.t) (now : Timestamp)
| EmitTestRunCompleted (testRun : TestRun.t) (now : Timestamp)
| EmitTestStarted (testResult : TestResult.t) (now : Timestamp)
| EmitTestCompleted (testResult : TestResult.t) (now : Timestamp)
| EmitScreenshotTaken (testResult : TestResult.t) (screenshotPath : string) (now : Timestamp)
| EmitStatisticsUpdate (statistics : Json) (now : Timestamp).

Module WebSocketManager.

Record t := mk {
  connectedClients : gset string;
  rooms : gmap string (gset string);
  delivered : list Delivery }.

Definition init : t := mk ∅ ∅ [].

Definition members (room : string) (st : t) : gset string :=
  default ∅ (rooms st !! room).

(** [`test-run:${runId}`]. *)
Definition run_room (runId : string) : string := "test-run:" +:+ runId.

Definition join (socketId room : string) (st : t) : t :=
  mk (connectedClients st)
     (<[room := {[socketId]} ∪ members room st]> (rooms st))
     (delivered st).

Definition leave (socketId room : string) (st : t) : t :=
  mk (connectedClients st)
     (<[room := members room st ∖ {[socketId]}]> (rooms st))
     (delivered st).

Definition handleClientConnection (socketId : string) (st : t) : t :=
  mk ({[socketId]} ∪ connectedClients st) (rooms st) (delivered st).

(** The socket leaves its rooms, then [handleClientDisconnection]. *)
Definition handleClientDisconnection (socketId : string) (st : t) : t :=
  mk (connectedClients st ∖ {[socketId]})
     ((fun room_members => room_members ∖ {[socketId]}) <$> rooms st)
     (delivered st).

(** Handlers exist for connected sockets only. *)
Definition on_message (socketId : string) (handler : t -> t) (st : t) : t :=
  if bool_decide (socketId ∈ connectedClients st) then handler st else st.

Definition send (recipients : gset string) (room : option string) (event : string)
    (msg : WebSocketMessage) (st : t) : t :=
  mk (connectedClients st) (rooms st)
     (delivered st ++ map (fun s => mkDelivery s room event msg) (elements recipients)).

Definition emit (event : string) (data : Payload) (now : Timestamp) (st : t) : t :=
  send (connectedClients st) None event (mkMessage event data now) st.

Definition emitToRoom (room event : string) (data : Payload) (now : Timestamp) (st : t) : t :=
  send (members room st) (Some room) event (mkMessage event data now) st.

Definition emitTestRunStarted (testRun : TestRun.t) (now : Timestamp) (st : t) : t :=
  emitToRoom "test-runs" "test-runs:update" (PRun testRun) now
    (emit "test-run:started" (PRun testRun) now st).

Definition emitTestRunCompleted (testRun : TestRun.t) (now : Timestamp) (st : t) : t :=
  emitToRoom (run_room (TestRun.id testRun)) "test-run:completed" (PRun testRun) now
    (emitToRoom "test-runs" "test-runs:update" (PRun testRun) now
       (emit "test-run:completed" (PRun testRun) now st)).

Definition emitTestStarted (testResult : TestResult.t) (now : Timestamp) (st : t) : t :=
  emitToRoom (run_room (TestResult.runId testResult)) "test:started"
    (PResult testResult) now st.

Definition emitTestCompleted (testResult : TestResult.t) (now : Timestamp) (st : t) : t :=
  emitToRoom "test-updates" "test:update" (PResult testResult) now
    (emitToRoom (run_room (TestResult.runId testResult)) "test:completed"
       (PResult testResult) now st).

Definition emitScreenshotTaken (testResult : TestResult.t) (screenshotPath : string)
    (now : Timestamp) (st : t) : t :=
  emitToRoom (run_room (TestResult.runId testResult)) "screenshot:taken"
    (PScreenshot testResult screenshotPath) now st.

Definition emitStatisticsUpdate (statistics : Json) (now : Timestamp) (st : t) : t :=
  emit "statistics:update" (PAny statistics) now st.

Definition step (st : t) (a : HubAction) : t :=
  match a with
  | Connect s => handleClientConnection s st
  | Disconnect s => handleClientDisconnection s st
  | SubscribeTestRuns s => on_message s (join s "test-runs") st
  | SubscribeTestRun s runId => on_message s (join s (run_room runId)) st
  | UnsubscribeTestRun s runId => on_message s (leave s (run_room runId)) st
  | Emit event data now => emit event data now st
  | EmitToRoom room event data now => emitToRoom room event data now st
  | EmitTestRunStarted testRun now => emitTestRunStarted testRun now st
  | EmitTestRunCompleted testRun now => emitTestRunCompleted testRun now st
  | EmitTestStarted testResult now => emitTestStarted testResult now st
  | EmitTestCompleted testResult now => emitTestCompleted testResult now st
  | EmitScreenshotTaken testResult path now => emitScreenshotTaken testResult path now st
  | EmitStatisticsUpdate statistics now => emitStatisticsUpdate statistics now st
  end.

Definition run (st : t) (trace : list HubAction) : t := fold_left step trace st.

(** What socket [s] was handed through room [room], in order. *)
Definition received (s room : string) (st : t) : list WebSocketMessage :=
  map message
    (List.filter (fun d => bool_decide (dest d = s) && bool_decide (via d = Some room))
       (delivered st)).

End WebSocketManager.

(** ** The room events of a trace, read off the actions alone *)

(** The messages an action publishes to rooms, in order. *)
Definition published (a : HubAction) : list (string * WebSocketMessage) :=
  match a with
  | EmitToRoom room event data now => [(room, mkMessage event data now)]
  | EmitTestRunStarted testRun now =>
      [("test-runs", mkMessage "test-runs:update" (PRun testRun) now)]
  | EmitTestRunCompleted testRun now =>
      [("test-runs", mkMessage "test-runs:update" (PRun testRun) now);
       (WebSocketManager.run_room (TestRun.id testRun),
        mkMessage "test-run:completed" (PRun testRun) now)]
  | EmitTestStarted testResult now =>
      [(WebSocketManager.run_room (TestResult.runId testResult),
        mkMessage "test:started" (PResult testResult) now)]
  | EmitTestCompleted testResult now =>
      [(WebSocketManager.run_room (TestResult.runId testResult),
        mkMessage "test:completed" (PResult testResult) now);
       ("test-updates", mkMessage "test:update" (PResult testResult) now)]
  | EmitScreenshotTaken testResult path now =>
      [(WebSocketManager.run_room (TestResult.runId testResult),
        mkMessage "screenshot:taken" (PScreenshot testResult path) now)]
  | _ => []
  end.

Definition published_to (room : string) (a : HubAction) : list WebSocketMessage :=
  map snd (List.filter (fun p => bool_decide (fst p = room)) (published a)).

(** The subscription status of socket [s] for [room]: whether [s] is
    connected, and whether it has subscribed to [room] and has neither
    unsubscribed nor disconnected since. *)
Record Subscription := mkSubscription {
  online : bool;
  subscribed : bool }.

Definition track (s room : string) (sub : Subscription) (a : HubAction) : Subscription :=
  match a with
  | Connect s' =>
      if bool_decide (s' = s) then mkSubscription true (subscribed sub) else sub
  | Disconnect s' =>
      if bool_decide (s' = s) then mkSubscription false false else sub
  | SubscribeTestRuns s' =>
      if bool_decide (s' = s) && online sub && bool_decide (room = "test-runs")
      then mkSubscription true true else sub
  | SubscribeTestRun s' runId =>
      if bool_decide (s' = s) && online sub
         && bool_decide (room = WebSocketManager.run_room runId)
      then mkSubscription true true else sub
  | UnsubscribeTestRun s' runId =>
      if bool_decide (s' = s) && online sub
         && bool_decide (room = WebSocketManager.run_room runId)
      then mkSubscription true false else sub
  | _ => sub
  end.

(** The messages published to [room] by the actions of [trace] that
    occur while [s] is subscribed, starting from status [sub]. *)
Fixpoint heard (s room : string) (sub : Subscription) (trace : list HubAction)
  : list WebSocketMessage :=
  match trace with
  | [] => []
  | a :: rest =>
      (if subscribed sub then published_to room a else [])
      ++ heard s room (track s room sub a) rest
  end.

(** * Vocabulary of the properties *)

(** ** Referential integrity of a store *)

Definition referential_integrity (st : Store) : Prop :=
  (forall r, In r (test_results st) ->
     exists run, In run (test_runs st) /\ RunRow.id run = ResultRow.run_id r)
  /\ (forall s, In s (screenshots st) ->
        exists r, In r (test_results st) /\ ResultRow.id r = ScreenshotRow.test_result_id s).

Definition referential_integrityb (st : Store) : bool :=
  forallb (fun r => has_run (ResultRow.run_id r) st) (test_results st)
  && forallb (fun s => has_result (ScreenshotRow.test_result_id s) st) (screenshots st).

(** ** Patches, column by column

    The value a patch supplies for a column, following the names of the
    fields: a field in camel case is the column in snake case, [error]
    is the four [error_*] columns, [browser] and [viewport] two columns
    each, [screenshot] is [screenshot_path]. *)





Definition resolvable {C} (of_name : string -> option C) (sets : list (string * SqlValue))
  : bool :=
  forallb (fun nv => match of_name (fst nv) with Some _ => true | None => false end) sets.




(** A patch defines a field other than [id]. *)
Definition defines_a_field (entries : list (string * option JsValue)) : bool :=
  existsb (fun kv => match snd kv with
                     | Some _ => negb (bool_decide (fst kv = "id"))
                     | None => false
                     end) entries.




(** ** Round trip of a run *)

(** "create then fetch by id yields the created entity". *)
Definition round_trip (expected : TestRun.t -> TestRun.t) (generateId : string)
    (now : Timestamp) (e : TestRun.t) (st : Store) : Prop :=
  forall created st',
    TestRunRepositoryImpl.create generateId now e st = (Ok created, st') ->
    TestRunRepositoryImpl.findById (TestRun.id created) st'
    = (Ok (Some (expected created)), st').

Definition without_results (run : TestRun.t) : TestRun.t :=
  TestRun.mk (TestRun.id run) (TestRun.startTime run) (TestRun.endTime run)
    (TestRun.duration run) (TestRun.totalTests run) (TestRun.passed run)
    (TestRun.failed run) (TestRun.skipped run) (TestRun.pending run)
    (TestRun.retries run) (TestRun.browserName run) (TestRun.browserVersion run)
    (TestRun.cypressVersion run) (TestRun.specFiles run) (TestRun.config run)
    (TestRun.ciInfo run) (TestRun.status run) [].

(** ** Filters *)

Definition status_filter (sts : list TestStatus) : TestFilter.t :=
  TestFilter.mk (Some sts) None None None None None None None None.

Definition without_status (f : TestFilter.t) : TestFilter.t :=
  TestFilter.mk None (TestFilter.specFiles f) (TestFilter.dateRange f)
    (TestFilter.duration f) (TestFilter.search f) (TestFilter.tags f)
    (TestFilter.browser f) (TestFilter.retries f) (TestFilter.hasScreenshots f).

(** The run statuses a list of requested test statuses asks for:
    'failed' when it names 'failed', 'completed' when it names 'passed',
    and every status when it names neither. *)
Definition requested (sts : list TestStatus) (status : RunStatus) : bool :=
  if includes sts FAILED || includes sts PASSED
  then (includes sts FAILED && bool_decide (status = Failed))
       || (includes sts PASSED && bool_decide (status = Completed))
  else true.

(** [needle] occurs in [text], character for character. *)
Fixpoint is_substring (needle text : string) : bool :=
  String.prefix needle text
  || match text with
     | EmptyString => false
     | String _ rest => is_substring needle rest
     end.

(** [pattern] read as a [LIKE] pattern describes [text]: [_] stands for
    any one character, [%] for any run of characters, and every other
    character for itself up to ASCII letter case. *)
Inductive instance_of : list string -> list string -> Prop :=
| instance_end : instance_of [] []
| instance_run (skipped pattern text : list string) :
    instance_of pattern text ->
    instance_of ("%" :: pattern) (skipped ++ text)
| instance_one (ch : string) (pattern text : list string) :
    instance_of pattern text ->
    instance_of ("_" :: pattern) (ch :: text)
| instance_same (a b : string) (pattern text : list string) :
    a <> "%" -> a <> "_" -> lower a = lower b ->
    instance_of pattern text ->
    instance_of (a :: pattern) (b :: text).

(** Readings of "[needle] matches the text of a column"; none holds of a
    [NULL] column.  The first two are containment, exact and up to ASCII
    case; the third is what the query computes; the fourth is containment
    of an instance of [needle] read as a pattern. *)
Definition substring_match (needle : string) (column : option string) : Prop :=
  exists text, column = Some text /\ is_substring needle text = true.

Definition substring_match_ci (needle : string) (column : option string) : Prop :=
  exists text, column = Some text /\ is_substring (lower needle) (lower text) = true.

Definition like_match (needle : string) (column : option string) : Prop :=
  like_contains needle column = true.

Definition wildcard_match (needle : string) (column : option string) : Prop :=
  exists text before mid after,
    column = Some text
    /\ characters text = before ++ mid ++ after
    /\ instance_of (characters needle) mid.

(** A character that is no wildcard, and two characters that are the
    same up to ASCII case. *)
Definition literal (ch : string) : Prop := ch <> "%" /\ ch <> "_".

Definition same_letter (a b : string) : Prop := lower a = lower b.

(** The conjunction of the predicates a filter supplies, for a given
    reading of text matching. *)
Definition satisfies (text_match : string -> option string -> Prop)
    (f : TestFilter.t) (r : ResultRow.t) : Prop :=
  (forall sts, TestFilter.status f = Some sts -> sts <> [] -> In (ResultRow.state r) sts)
  /\ (forall files, TestFilter.specFiles f = Some files -> files <> [] ->
        In (ResultRow.file r) files)
  /\ (forall d lo, TestFilter.duration f = Some d -> df_min d = Some lo ->
        lo <= ResultRow.duration r)
  /\ (forall d hi, TestFilter.duration f = Some d -> df_max d = Some hi ->
        ResultRow.duration r <= hi)
  /\ (forall term, TestFilter.search f = Some term -> term <> "" ->
        text_match term (Some (ResultRow.title r))
        \/ text_match term (Some (ResultRow.full_title r))
        \/ text_match term (ResultRow.error_message r))
  /\ (forall tags, TestFilter.tags f = Some tags -> tags <> [] ->
        exists tag, In tag tags
                    /\ text_match (TestResultRepositoryImpl.quoted_tag tag)
                         (TestResultRepositoryImpl.tags_text r))
  /\ (forall names, TestFilter.browser f = Some names -> names <> [] ->
        exists name, ResultRow.browser_name r = Some name /\ In name names)
  /\ (TestFilter.retries f = Some true -> 0 < ResultRow.retries r)
  /\ (TestFilter.hasScreenshots f = Some true -> ResultRow.screenshot_path r <> None)
  /\ (TestFilter.hasScreenshots f = Some false -> ResultRow.screenshot_path r = None)
  /\ (forall dr, TestFilter.dateRange f = Some dr ->
        dr_start dr <= ResultRow.start_time r <= dr_end dr).

Definition by_start_time_desc (a b : ResultRow.t) : Prop :=
  ResultRow.start_time b <= ResultRow.start_time a.

(** "findWithFilters returns exactly the rows satisfying the conjunction
    of the supplied predicates, ordered by start time descending". *)
Definition filter_spec (text_match : string -> option string -> Prop)
    (f : TestFilter.t) (st : Store) : Prop :=
  exists rows,
    TestResultRepositoryImpl.findWithFilters f None None st
    = (Ok (map TestResultRepositoryImpl.mapRowToTestResult rows), st)
    /\ (forall r, In r rows <-> In r (test_results st) /\ satisfies text_match f r)
    /\ (exists selected,
          (forall r, selected r = true <-> satisfies text_match f r)
          /\ Permutation rows (List.filter selected (test_results st)))
    /\ StronglySorted by_start_time_desc rows.

(** ** Flaky groups *)

(** Two readings of the window: thirty days back from [now] to the
    millisecond, and from the start of the calendar day (UTC) thirty days
    back. *)
Definition last_30_days (now : Timestamp) (r : ResultRow.t) : bool :=
  Z.leb (now - 30 * day_ms) (ResultRow.start_time r).

Definition since_day_30_back (now : Timestamp) (r : ResultRow.t) : bool :=
  Z.leb (((now - 30 * day_ms) / day_ms) * day_ms) (ResultRow.start_time r).

(** The rows the query of [findFlaky] reads. *)
Definition recent_rows (now : Timestamp) (st : Store) : list ResultRow.t :=
  List.filter (fun r => Z.leb (TestResultRepositoryImpl.window_start now)
                          (ResultRow.start_time r))
    (test_results st).

(** The stored results of one test (full title and file) inside a
    window. *)
Definition group_rows (window : ResultRow.t -> bool) (title file : string) (st : Store)
  : list ResultRow.t :=
  List.filter
    (fun r => window r
              && bool_decide (ResultRow.full_title r = title)
              && bool_decide (ResultRow.file r = file))
    (test_results st).

Definition group_total (window : ResultRow.t -> bool) (title file : string) (st : Store) : Z :=
  Z.of_nat (length (group_rows window title file st)).

Definition group_failed (window : ResultRow.t -> bool) (title file : string) (st : Store) : Z :=
  Z.of_nat (length (List.filter (fun r => bool_decide (ResultRow.state r = FAILED))
                      (group_rows window title file st))).

(** failures / total. *)
Definition group_ratio (window : ResultRow.t -> bool) (title file : string) (st : Store) : Q :=
  (inject_Z (group_failed window title file st)
   / inject_Z (group_total window title file st))%Q.

Definition summary (window : ResultRow.t -> bool) (title file : string) (st : Store)
  : FlakyGroup :=
  mkFlakyGroup title file (group_total window title file st)
    (group_failed window title file st)
    (TestResultRepositoryImpl.max_start_time (group_rows window title file st))
    (group_ratio window title file st).

(** Ratio descending, then total descending. *)
Definition flaky_before (a b : FlakyGroup) : Prop :=
  (flaky_rate b < flaky_rate a)%Q
  \/ ((flaky_rate a == flaky_rate b)%Q /\ total_runs b <= total_runs a).

(** "findFlaky(t) returns exactly the groups with at least 5 results in
    the window and t <= ratio < 1, by ratio then total, descending". *)
Definition flaky_spec (window : Timestamp -> ResultRow.t -> bool) (t : Q)
    (now : Timestamp) (st : Store) : Prop :=
  exists groups,
    TestResultRepositoryImpl.findFlaky (Some t) now st
    = (Ok (map TestResultRepositoryImpl.toFlakyTest groups), st)
    /\ (forall g, In g groups -> g = summary (window now) (test_title g) (spec_file g) st)
    /\ (forall title file,
          In (summary (window now) title file st) groups
          <-> 5 <= group_total (window now) title file st
              /\ (t <= group_ratio (window now) title file st)%Q
              /\ (group_ratio (window now) title file st < 1)%Q)
    /\ StronglySorted flaky_before groups
    /\ List.NoDup groups.

(** Whether [findFlaky] reports the test [title] of [file]. *)
Definition reports (t : Q) (now : Timestamp) (st : Store) (title file : string) : Prop :=
  exists tests ft,
    TestResultRepositoryImpl.findFlaky (Some t) now st = (Ok tests, st)
    /\ In ft tests
    /\ FlakyTest.testTitle ft = title
    /\ FlakyTest.specFile ft = file.

(** ** Retention cleanup *)

(** A result of a run that started before [cutoff]. *)
Definition of_old_run (cutoff : Timestamp) (st : Store) (r : ResultRow.t) : Prop :=
  exists run, In run (test_runs st)
              /\ RunRow.start_time run < cutoff
              /\ RunRow.id run = ResultRow.run_id r.

(** A screenshot of such a result. *)
Definition of_old_result (cutoff : Timestamp) (st : Store) (s : ScreenshotRow.t) : Prop :=
  exists r, In r (test_results st)
            /\ ResultRow.id r = ScreenshotRow.test_result_id s
            /\ of_old_run cutoff st r.

(** "The cleanup deletes exactly the runs that started before
    now - retentionDays, with their results and the screenshots of those,
    and returns the number of runs removed"; [also_removed] names the
    screenshots removed besides. *)
Definition cleanup_spec (also_removed : Timestamp -> ScreenshotRow.t -> Prop)
    (tz : DatabaseManager.TimeZone) (retentionDays : Z) (now : Timestamp) (st : Store)
  : Prop :=
  let cutoff := DatabaseManager.cutoffDate tz now retentionDays in
  exists report st',
    DatabaseManager.cleanupOldData tz retentionDays now st = (Ok report, st')
    /\ (forall r, In r (test_runs st') <->
          In r (test_runs st) /\ cutoff <= RunRow.start_time r)
    /\ (forall r, In r (test_results st') <->
          In r (test_results st) /\ ~ of_old_run cutoff st r)
    /\ (forall s, In s (screenshots st') <->
          In s (screenshots st) /\ ~ of_old_result cutoff st s /\ ~ also_removed cutoff s)
    /\ deletedRuns report
       = Z.of_nat (length (test_runs st)) - Z.of_nat (length (test_runs st')).

(** No screenshot was taken before the run of its result started. *)
Definition screenshots_follow_runs (st : Store) : Prop :=
  forall s r run,
    In s (screenshots st) -> In r (test_results st) -> In run (test_runs st) ->
    ResultRow.id r = ScreenshotRow.test_result_id s ->
    RunRow.id run = ResultRow.run_id r ->
    RunRow.start_time run <= ScreenshotRow.taken_at s.

Definition screenshots_follow_runsb (st : Store) : bool :=
  forallb (fun s =>
    forallb (fun r =>
      forallb (fun run =>
        implb (bool_decide (ResultRow.id r = ScreenshotRow.test_result_id s)
               && bool_decide (RunRow.id run = ResultRow.run_id r))
              (Z.leb (RunRow.start_time run) (ScreenshotRow.taken_at s)))
        (test_runs st))
      (test_results st))
    (screenshots st).

(** A zone without clock changes, and one whose clocks were put forward
    by an hour at the start of day 80. *)
Definition fixed_zone (offset : Z) : DatabaseManager.TimeZone := fun _ _ => offset.

Definition summer_zone : DatabaseManager.TimeZone :=
  fun t isUTC =>
    let change := 80 * day_ms in
    if isUTC
    then (if Z.ltb t (change - 3600000) then 3600000 else 7200000)
    else (if Z.ltb t change then 3600000 else 7200000).

(** * Sample data *)

Definition sample_run (id : string) (start : Timestamp) (status : RunStatus) : RunRow.t :=
  RunRow.mk id start None None 0 0 0 0 0 0 "chrome" "100.0.0" "12.0.0"
    (Some ["test.spec.js"]) (Some (JObj [])) None status start start.

Definition sample_result (id runId title : string) (state : TestStatus)
    (start : Timestamp) : ResultRow.t :=
  ResultRow.mk id runId title ("suite " +:+ title) state 10 None None None None None
    0 0 false "a.cy.ts" "suite" None None start (Some (start + 10))
    (Some "chrome") (Some "100.0.0") None None start start.

Definition sample_screenshot (id resultId : string) (taken : Timestamp) : ScreenshotRow.t :=
  ScreenshotRow.mk id resultId "shot" "shots/shot.png" None None None None (Some "png")
    taken taken.

(** Two runs; the first owns two results and one screenshot. *)
Definition sample_store : Store :=
  mkStore
    [sample_run "run-1" 1000 Completed; sample_run "run-2" 2000 Running]
    [sample_result "t-1" "run-1" "logs in" PASSED 1100;
     sample_result "t-2" "run-1" "logs out" FAILED 1200;
     sample_result "t-3" "run-2" "logs in" PASSED 2100]
    [sample_screenshot "s-1" "t-2" 1250; sample_screenshot "s-2" "t-3" 2150].

(** A patch that defines [id] only. *)
Definition id_only_run_patch : TestRunPatch.t :=
  TestRunPatch.mk (Some "run-9") None None Undefined None None None None None None None
    None None None None None None None.

Definition id_only_result_patch : TestResultPatch.t :=
  TestResultPatch.mk (Some "t-9") None None None None None None None None None None
    None None None None None None None None.

(** Runs of every status. *)
Definition four_runs : Store :=
  mkStore
    [sample_run "run-1" 1000 Completed; sample_run "run-2" 2000 Running;
     sample_run "run-3" 3000 Failed; sample_run "run-4" 4000 Cancelled]
    [] [].

(** An old run and a recent one, each with a result and a screenshot
    taken while the result ran. *)
Definition retention_store : Store :=
  mkStore
    [sample_run "run-1" (10 * day_ms) Completed;
     sample_run "run-2" (100 * day_ms) Completed]
    [sample_result "t-1" "run-1" "logs in" FAILED (10 * day_ms + 5);
     sample_result "t-2" "run-2" "logs in" FAILED (100 * day_ms + 5)]
    [sample_screenshot "s-1" "t-1" (10 * day_ms + 9);
     sample_screenshot "s-2" "t-2" (100 * day_ms + 9)].

(** A recent run whose result has a screenshot with an old capture time. *)
Definition old_screenshot_store : Store :=
  mkStore
    [sample_run "run-1" (100 * day_ms) Completed]
    [sample_result "t-1" "run-1" "logs in" FAILED (100 * day_ms + 5)]
    [sample_screenshot "s-1" "t-1" (10 * day_ms)].

(** A run as [handleRunStart] creates it, a finished run with one
    collected result, and a run that finished in the millisecond it
    started. *)
Definition started_run : TestRun.t :=
  TestRun.mk "" 1000 None Undefined 0 0 0 0 0 0 "chrome" "100.0.0" "12.0.0"
    ["a.cy.ts"; "b.cy.ts"] (JObj [("baseUrl", JStr "http://localhost")])
    (Some (mkCIInfo (Some "main") None None None (Some "github") (Some false) None))
    Running [].

Definition collected_result : TestResult.t :=
  TestResult.mk "t-1" "run-1" "logs in" "suite logs in" PASSED 10 None Undefined 0 0
    (FlagBool false) "a.cy.ts" "suite" Undefined (Some []) 1100 (Some 1110) None None.

Definition finished_run : TestRun.t :=
  TestRun.mk "" 1000 (Some 2200) (Defined 1200) 1 1 0 0 0 0 "chrome" "100.0.0" "12.0.0"
    ["a.cy.ts"] (JObj []) None Completed [collected_result].

(** A finished run with spec files whose names need escaping, a nested
    configuration and the information of a CI build. *)
Definition archived_run : TestRun.t :=
  TestRun.mk "" 1000 (Some 2200) (Defined 1200) 1 1 0 0 0 0 "chrome" "100.0.0" "12.0.0"
    ["cypress/e2e/a.cy.ts";
     String dquote (String backslash (String (ascii_of_nat 9) "b.cy.ts"));
     String (ascii_of_nat 195) (String (ascii_of_nat 182) ".cy.ts")]
    (JObj [("baseUrl", JStr "http://localhost:3000");
           ("retries", JNum 2);
           ("viewport", JObj [("width", JNum 1280); ("height", JNum 720)]);
           ("env", JArr [JStr "smoke"; JNull; JBool true; JNum (-1)])])
    (Some (mkCIInfo (Some "main") (Some "0a1b2c3") None None (Some "github")
             (Some false) None))
    Completed [collected_result].

Definition instant_run : TestRun.t :=
  TestRun.mk "" 1000 (Some 1000) (Defined 0) 0 0 0 0 0 0 "chrome" "100.0.0" "12.0.0"
    [] (JObj []) None Completed [].



(** Five results of one test, one of them failed, all started thirty
    days and eleven hours before [flaky_now], on the calendar day thirty
    days back. *)
Definition flaky_now : Timestamp := 100 * day_ms + 12 * 60 * 60 * 1000.

Definition early_morning : Timestamp := 70 * day_ms + 60 * 60 * 1000.

Definition day_30_back_store : Store :=
  mkStore
    [sample_run "run-1" early_morning Completed]
    [sample_result "t-1" "run-1" "logs in" FAILED early_morning;
     sample_result "t-2" "run-1" "logs in" PASSED early_morning;
     sample_result "t-3" "run-1" "logs in" PASSED early_morning;
     sample_result "t-4" "run-1" "logs in" PASSED early_morning;
     sample_result "t-5" "run-1" "logs in" PASSED early_morning]
    [].

(** Ten recent results of one test, two of them failed, and five recent
    results of another, all failed. *)
Definition ten_two_store : Store :=
  mkStore
    [sample_run "run-1" (95 * day_ms) Failed]
    ([sample_result "a-1" "run-1" "logs in" FAILED (95 * day_ms + 1);
      sample_result "a-2" "run-1" "logs in" FAILED (95 * day_ms + 2)]
     ++ map (fun id => sample_result id "run-1" "logs in" PASSED (95 * day_ms + 3))
          ["a-3"; "a-4"; "a-5"; "a-6"; "a-7"; "a-8"; "a-9"; "a-10"]
     ++ map (fun id => sample_result id "run-1" "pays" FAILED (96 * day_ms + 1))
          ["b-1"; "b-2"; "b-3"; "b-4"; "b-5"])
    [].

(** One stored result titled "Login works", and a search for "LOGIN". *)
Definition login_store : Store :=
  mkStore
    [sample_run "run-1" 1000 Completed]
    [sample_result "t-1" "run-1" "Login works" PASSED 1100]
    [].

Definition search_filter (term : string) : TestFilter.t :=
  TestFilter.mk None None None None (Some term) None None None None.

(** A title whose second letter is the two-byte character [U+00F6], and
    a store of two results of which the later one carries it. *)
Definition accented_title : string :=
  String "L" (String (ascii_of_nat 195) (String (ascii_of_nat 182) "gin works")).

Definition accent_store : Store :=
  mkStore
    [sample_run "run-1" 1000 Completed]
    [sample_result "t-1" "run-1" "Logout works" PASSED 1100;
     sample_result "t-2" "run-1" accented_title PASSED 1200]
    [].

(** Three passed and two failed results. *)
Definition three_two_store : Store :=
  mkStore
    [sample_run "run-1" 1000 Failed]
    [sample_result "t-1" "run-1" "logs in" PASSED 1100;
     sample_result "t-2" "run-1" "logs out" FAILED 1200;
     sample_result "t-3" "run-1" "pays" PASSED 1300;
     sample_result "t-4" "run-1" "refunds" FAILED 1400;
     sample_result "t-5" "run-1" "searches" PASSED 1500]
    [].

(** A run of two tests, one failing after a retry. *)
Definition sample_env : Env :=
  mkEnv (Some "chrome") (Some "100.0.0") (Some "a.cy.ts,b.cy.ts") None (Some "12.0.0").

Definition test_a : MochaTest :=
  mkMochaTest "logs in @smoke" "suite logs in @smoke" (Some "a.cy.ts") 0 false (Some 120)
    (Some "suite").

Definition test_b : MochaTest :=
  mkMochaTest "pays" "suite pays" (Some "b.cy.ts") 0 false (Some 300) (Some "suite").

Definition sample_events : list MochaEvent :=
  [EvSuite "suite";
   EvTest test_a "u-1" 1010; EvPass test_a 1130;
   EvTest test_b "u-2" 1140; EvRetry test_b;
   EvFail test_b (mkMochaError (Some "AssertionError") (Some "expected 1") None None) 1450;
   EvSuiteEnd "suite"].

(** * Vocabulary of the reporter's lifecycle *)

(** The current run, if any, is still running. *)
Definition still_running (st : AuroraReporter.t) : Prop :=
  match AuroraReporter.currentRun st with
  | Some run => TestRun.status run = Running
  | None => True
  end.

(** There is a current run and it is running. *)
Definition run_in_progress (st : AuroraReporter.t) : Prop :=
  exists run, AuroraReporter.currentRun st = Some run /\ TestRun.status run = Running.

(** Some collected result failed. *)
Definition some_failed (st : AuroraReporter.t) : Prop :=
  exists r, In r (AuroraReporter.map_values (AuroraReporter.testResults st))
            /\ TestResult.state r = FAILED.

(** * Vocabulary of the hub *)

(** A subscription status that agrees with a state of the hub. *)
Definition tracked (s room : string) (st : WebSocketManager.t) (sub : Subscription) : Prop :=
  (online sub = true <-> s ∈ WebSocketManager.connectedClients st)
  /\ (subscribed sub = true <-> s ∈ WebSocketManager.members room st).

Definition offline : Subscription := mkSubscription false false.

(** The actions of the server that publish, as opposed to the actions of
    a socket (connecting, disconnecting, subscribing, unsubscribing). *)
Definition is_emission (a : HubAction) : bool :=
  match a with
  | Connect _ | Disconnect _ | SubscribeTestRuns _
  | SubscribeTestRun _ _ | UnsubscribeTestRun _ _ => false
  | _ => true
  end.

(** ** What a socket observes

    A socket sees the messages handed to it, in order, and not the path
    they took. *)
Definition observed (s : string) (st : WebSocketManager.t) : list WebSocketMessage :=
  map message
    (List.filter (fun d => bool_decide (dest d = s)) (WebSocketManager.delivered st)).

(** The messages an action sends, in order, each with the room it is
    sent to; [None] is a message to every connected socket. *)
Definition sends (a : HubAction) : list (option string * WebSocketMessage) :=
  match a with
  | Emit event data now => [(None, mkMessage event data now)]
  | EmitToRoom room event data now => [(Some room, mkMessage event data now)]
  | EmitTestRunStarted testRun now =>
      [(None, mkMessage "test-run:started" (PRun testRun) now);
       (Some "test-runs", mkMessage "test-runs:update" (PRun testRun) now)]
  | EmitTestRunCompleted testRun now =>
      [(None, mkMessage "test-run:completed" (PRun testRun) now);
       (Some "test-runs", mkMessage "test-runs:update" (PRun testRun) now);
       (Some (WebSocketManager.run_room (TestRun.id testRun)),
        mkMessage "test-run:completed" (PRun testRun) now)]
  | EmitTestStarted testResult now =>
      [(Some (WebSocketManager.run_room (TestResult.runId testResult)),
        mkMessage "test:started" (PResult testResult) now)]
  | EmitTestCompleted testResult now =>
      [(Some (WebSocketManager.run_room (TestResult.runId testResult)),
        mkMessage "test:completed" (PResult testResult) now);
       (Some "test-updates", mkMessage "test:update" (PResult testResult) now)]
  | EmitScreenshotTaken testResult path now =>
      [(Some (WebSocketManager.run_room (TestResult.runId testResult)),
        mkMessage "screenshot:taken" (PScreenshot testResult path) now)]
  | EmitStatisticsUpdate statistics now =>
      [(None, mkMessage "statistics:update" (PAny statistics) now)]
  | Connect _ | Disconnect _ | SubscribeTestRuns _
  | SubscribeTestRun _ _ | UnsubscribeTestRun _ _ => []
  end.

(** The session of one socket: whether it is connected, and the rooms it
    has subscribed to and has neither unsubscribed from nor left by
    disconnecting. *)
Record Session := mkSession {
  connected : bool;
  joined : gset string }.

Definition signed_off : Session := mkSession false ∅.

Definition follow (s : string) (ses : Session) (a : HubAction) : Session :=
  match a with
  | Connect s' =>
      if bool_decide (s' = s) then mkSession true (joined ses) else ses
  | Disconnect s' =>
      if bool_decide (s' = s) then signed_off else ses
  | SubscribeTestRuns s' =>
      if bool_decide (s' = s) && connected ses
      then mkSession true ({["test-runs"]} ∪ joined ses) else ses
  | SubscribeTestRun s' runId =>
      if bool_decide (s' = s) && connected ses
      then mkSession true ({[WebSocketManager.run_room runId]} ∪ joined ses) else ses
  | UnsubscribeTestRun s' runId =>
      if bool_decide (s' = s) && connected ses
      then mkSession true (joined ses ∖ {[WebSocketManager.run_room runId]}) else ses
  | _ => ses
  end.

(** A message to every socket reaches the connected ones, a message to a
    room its members. *)
Definition reaches (ses : Session) (channel : option string) : bool :=
  match channel with
  | None => connected ses
  | Some room => bool_decide (room ∈ joined ses)
  end.

Definition arrivals (ses : Session) (a : HubAction) : list WebSocketMessage :=
  map snd (List.filter (fun cm => reaches ses (fst cm)) (sends a)).

(** What the session that starts as [ses] is handed over a trace. *)
Fixpoint expected (s : string) (ses : Session) (trace : list HubAction)
  : list WebSocketMessage :=
  match trace with
  | [] => []
  | a :: rest => arrivals ses a ++ expected s (follow s ses a) rest
  end.

(** A session that agrees with a state of the hub. *)
Definition session_of (s : string) (st : WebSocketManager.t) (ses : Session) : Prop :=
  (connected ses = true <-> s ∈ WebSocketManager.connectedClients st)
  /\ (forall room, room ∈ joined ses <-> s ∈ WebSocketManager.members room st).

(** An action that sends to [room] only. *)
Definition sends_to_only (room : string) (a : HubAction) : Prop :=
  is_emission a = true /\ forall cm, In cm (sends a) -> fst cm = Some room.

(** The session of [s] in a state of the hub. *)
Definition session_at (s : string) (st : WebSocketManager.t) : Session :=
  mkSession (bool_decide (s ∈ WebSocketManager.connectedClients st))
    (dom (filter (fun entry => s ∈ entry.2) (WebSocketManager.rooms st))).

(** "An event published to [room] is delivered to [s] only if it was
    published while [s] was a member of [room]." *)
Definition delivered_as_member_only (s room : string) (trace : list HubAction) : Prop :=
  forall m,
    In (Some room, m) (flat_map sends trace) ->
    In m (observed s (WebSocketManager.run WebSocketManager.init trace)) ->
    In m (heard s room offline trace).

(** A completed run under the id "run-1". *)
Definition completed_run : TestRun.t :=
  TestRunRepositoryImpl.with_id "run-1" finished_run.

(** Two events of a run. *)
Definition event_1 : HubAction :=
  EmitTestStarted collected_result 1100.

Definition event_2 : HubAction :=
  EmitTestCompleted collected_result 1110.

(** * Further operations of the persistence layer *)

(** [LIMIT ?] with a bound integer: a negative limit is no limit. *)
Definition sql_limit {A} (limit : Z) (l : list A) : list A :=
  if Z.ltb limit 0 then l else firstn (Z.to_nat limit) l.

(** [Math.round] on an exact ratio: the nearest integer, halves upwards. *)
Definition Math_round (x : Q) : Z := Qfloor (x + (1 # 2)).

(** [SUM(column)] over integers, with the [|| 0] the callers apply to the
    [NULL] of an empty selection. *)
Definition sum_of {A} (column : A -> Z) (rows : list A) : Z :=
  fold_right (fun r acc => column r + acc) 0 rows.

(** [AVG(column)] over the values that are not [NULL]; [None] is the
    [NULL] of a selection without such a value. *)
Definition avg_of (values : list Z) : option Q :=
  match values with
  | [] => None
  | _ => Some (inject_Z (sum_of (fun v => v) values) / inject_Z (Z.of_nat (length values)))%Q
  end.

(** [Math.round(avg || 0)]. *)
Definition rounded_avg (values : list Z) : Z :=
  Math_round (default 0%Q (avg_of values)).

(** The values of a nullable column that are not [NULL]. *)
Definition non_null {A B} (column : A -> option B) (rows : list A) : list B :=
  omap column rows.

Record RunStatistics := mkRunStatistics {
  totalRuns : Z;
  completedRuns : Z;
  failedRuns : Z;
  averageDuration : Z;
  passRate : Q }.

(** One row of [getTrendData]; [trend_date] is the calendar day (UTC),
    counted in days since the epoch: the ['YYYY-MM-DD'] text the query
    returns is ordered like that number. *)
Record TrendPoint := mkTrendPoint {
  trend_date : Z;
  trend_runs : Z;
  trend_passed : Z;
  trend_failed : Z;
  trend_duration : Z }.

(** [getStatistics], [getTrendData] and [search] of
    [TestRunRepositoryImpl] ([src/database/TestRunRepository.ts]). *)
Module TestRunReports.

Definition count_status (s : RunStatus) (rows : list RunRow.t) : Z :=
  Z.of_nat (length (List.filter (fun r => bool_decide (RunRow.status r = s)) rows)).

Definition getStatistics (dateRange : option DateRange) : DB RunStatistics :=
  let where_ :=
    match dateRange with
    | Some dr => fun r => Z.leb (dr_start dr) (RunRow.start_time r)
                          && Z.leb (RunRow.start_time r) (dr_end dr)
    | None => fun _ => true
    end in
  let* rows := select test_runs where_ in
  let total_passed := sum_of RunRow.passed rows in
  let total_tests := sum_of RunRow.total_tests rows in
  db_ret (mkRunStatistics
            (Z.of_nat (length rows))
            (count_status Completed rows)
            (count_status Failed rows)
            (rounded_avg (non_null RunRow.duration rows))
            (if Z.ltb 0 total_tests
             then (inject_Z total_passed / inject_Z total_tests * 100)%Q
             else 0%Q)).

(** [DATE(start_time)]. *)
Definition date_of (t : Timestamp) : Z := t / day_ms.

Definition trend_point (rows : list RunRow.t) (date : Z) : TrendPoint :=
  let group := List.filter (fun r => Z.eqb (date_of (RunRow.start_time r)) date) rows in
  mkTrendPoint date
    (Z.of_nat (length group))
    (sum_of RunRow.passed group)
    (sum_of RunRow.failed group)
    (rounded_avg (non_null RunRow.duration group)).

(** [getTrendData(days)] for a whole number of days; [now] is the clock
    SQLite reads.  [DATE('now', '-N days')] is a day without a time, so
    the window starts when that day begins. *)
Definition getTrendData (days : nat) (now : Timestamp) : DB (list TrendPoint) :=
  let since := date_of (now - Z.of_nat days * day_ms) * day_ms in
  let* rows := select test_runs (fun r => Z.leb since (RunRow.start_time r)) in
  let dates := unique (map (fun r => date_of (RunRow.start_time r)) rows) in
  db_ret (map (trend_point rows) (order_by Z.leb dates)).

(** The text of the [spec_files] column. *)
Definition spec_files_text (row : RunRow.t) : option string :=
  option_map JSON_stringify_strings (RunRow.spec_files row).

(** [search(query, limit = 50)]. *)
Definition search (query : string) (limit : option Z) : DB (list TestRun.t) :=
  let* rows :=
    select test_runs
      (fun r => like_contains query (Some (RunRow.browser_name r))
                || like_contains query (spec_files_text r)) in
  db_ret (map TestRunRepositoryImpl.mapRowToTestRun
            (sql_limit (default 50 limit)
               (order_by TestRunRepositoryImpl.start_time_desc rows))).

End TestRunReports.

Record ResultStatistics := mkResultStatistics {
  rs_total : Z;
  rs_passed : Z;
  rs_failed : Z;
  rs_skipped : Z;
  rs_pending : Z;
  rs_averageDuration : Z;
  rs_totalDuration : Z }.

(** [getStatistics] and [search] of [TestResultRepositoryImpl]
    ([src/database/index.ts]). *)
Module TestResultReports.

Definition count_state (s : TestStatus) (rows : list ResultRow.t) : Z :=
  Z.of_nat (length (List.filter (fun r => bool_decide (ResultRow.state r = s)) rows)).

(** [getStatistics(runId?)]: [if (runId)] is false for the empty string
    too. *)
Definition getStatistics (runId : option string) : DB ResultStatistics :=
  let where_ :=
    match string_or_null runId with
    | Some id => fun r => bool_decide (ResultRow.run_id r = id)
    | None => fun _ => true
    end in
  let* rows := select test_results where_ in
  db_ret (mkResultStatistics
            (Z.of_nat (length rows))
            (count_state PASSED rows)
            (count_state FAILED rows)
            (count_state SKIPPED rows)
            (count_state PENDING rows)
            (rounded_avg (map ResultRow.duration rows))
            (sum_of ResultRow.duration rows)).

(** [search(query, limit = 50)]. *)
Definition search (query : string) (limit : option Z) : DB (list TestResult.t) :=
  let* rows :=
    select test_results
      (fun r => like_contains query (Some (ResultRow.title r))
                || like_contains query (Some (ResultRow.full_title r))
                || like_contains query (ResultRow.error_message r)
                || like_contains query (Some (ResultRow.file r))) in
  db_ret (map TestResultRepositoryImpl.mapRowToTestResult
            (sql_limit (default 50 limit)
               (order_by TestResultRepositoryImpl.start_time_desc rows))).

End TestResultReports.

(** ** Vocabulary of the further properties *)

(** The conjunction of the predicates [findAll] reads from a filter. *)
Definition run_satisfies (f : TestFilter.t) (r : RunRow.t) : Prop :=
  (forall dr, TestFilter.dateRange f = Some dr ->
     dr_start dr <= RunRow.start_time r <= dr_end dr)
  /\ (forall names, TestFilter.browser f = Some names -> names <> [] ->
        In (RunRow.browser_name r) names)
  /\ (forall sts, TestFilter.status f = Some sts ->
        In FAILED sts \/ In PASSED sts ->
        (RunRow.status r = Failed /\ In FAILED sts)
        \/ (RunRow.status r = Completed /\ In PASSED sts)).

Definition runs_by_start_time_desc (a b : RunRow.t) : Prop :=
  RunRow.start_time b <= RunRow.start_time a.

Definition by_start_time_asc (a b : ResultRow.t) : Prop :=
  ResultRow.start_time a <= ResultRow.start_time b.

(** A property that [create] stores and [mapRowToTestResult] reads back
    as it was: [null], or a value that is not falsy.  An absent property,
    an empty text and zero are all stored as [NULL] and read as [null]. *)
Definition kept_text (o : Optional string) : Prop :=
  o = Null \/ exists s, o = Defined s /\ s <> "".

Definition kept_number (o : Optional Z) : Prop :=
  o = Null \/ exists n, o = Defined n /\ n <> 0.

(** A result all of whose properties are kept: the error and the browser
    carry nothing but what has a column. *)
Definition survives_storage (r : TestResult.t) : Prop :=
  (forall e, TestResult.error r = Some e ->
     err_name e <> "" /\ kept_text (err_message e) /\ kept_text (err_stack e)
     /\ err_codeFrame e = None /\ kept_text (err_diff e))
  /\ kept_text (TestResult.screenshot r)
  /\ kept_text (TestResult.context r)
  /\ (forall b, TestResult.browser r = Some b ->
        br_name b <> "" /\ kept_text (br_version b)
        /\ br_family b = None /\ br_channel b = None /\ br_displayName b = None
        /\ br_majorVersion b = None /\ br_path b = None
        /\ br_isHeadless b = None /\ br_isHeaded b = None)
  /\ (forall v, TestResult.viewport r = Some v ->
        vp_width v <> 0 /\ kept_number (vp_height v)).

(** A failed result all of whose properties are kept. *)
Definition kept_result : TestResult.t :=
  TestResult.mk "" "run-1" "logs in @smoke" "suite logs in @smoke" FAILED 340
    (Some (mkTestError "AssertionError" (Defined "expected true") Null None
             (Defined "- true + false")))
    Null 1 1 (FlagBool false) "a.cy.ts" "suite" (Defined "login page")
    (Some ["smoke"]) 1100 (Some 1440)
    (Some (mkBrowserInfo "chrome" (Defined "100.0.0") None None None None None None None))
    (Some (mkViewportInfo 1280 (Defined 720))).

(** A result with its [pending] flag as the number SQLite keeps. *)
Definition pending_as_number (r : TestResult.t) : TestResult.t :=
  TestResult.mk (TestResult.id r) (TestResult.runId r) (TestResult.title r)
    (TestResult.fullTitle r) (TestResult.state r) (TestResult.duration r)
    (TestResult.error r) (TestResult.screenshot r) (TestResult.retries r)
    (TestResult.currentRetry r) (FlagBit (truthy (TestResult.pending r)))
    (TestResult.file r) (TestResult.parent r)
    (TestResult.context r) (TestResult.tags r) (TestResult.startTime r)
    (TestResult.endTime r) (TestResult.browser r) (TestResult.viewport r).

(** What [search] matches a run and a result on. *)
Definition run_matches (query : string) (r : RunRow.t) : Prop :=
  like_match query (Some (RunRow.browser_name r))
  \/ like_match query (TestRunReports.spec_files_text r).

Definition result_matches (query : string) (r : ResultRow.t) : Prop :=
  like_match query (Some (ResultRow.title r))
  \/ like_match query (Some (ResultRow.full_title r))
  \/ like_match query (ResultRow.error_message r)
  \/ like_match query (Some (ResultRow.file r)).

(** "[page] is the first [limit] rows of [page ++ rest]", where a
    negative limit takes them all. *)
Definition first_rows {A} (limit : Z) (page rest : list A) : Prop :=
  (limit < 0 -> rest = [])
  /\ (0 <= limit -> Z.of_nat (length page) = Z.min limit (Z.of_nat (length (page ++ rest)))).

(** ** Vocabulary of names *)

Fixpoint no_upper (s : string) : bool :=
  match s with
  | EmptyString => true
  | String c rest => negb (is_upper c) && no_upper rest
  end.

Fixpoint no_underscore (s : string) : bool :=
  match s with
  | EmptyString => true
  | String c rest => negb (bool_decide (c = "_"%char)) && no_underscore rest
  end.

Fixpoint count_upper (s : string) : nat :=
  match s with
  | EmptyString => 0
  | String c rest => (if is_upper c then 1 else 0) + count_upper rest
  end.

(** * Vocabulary of the reporter *)

(** The full title under which an event stores a new result. *)
Definition collects (ev : MochaEvent) : option string :=
  match ev with
  | EvTest test _ _ | EvPending test _ _ => Some (mt_fullTitle test)
  | _ => None
  end.

Definition is_retry (ev : MochaEvent) : bool :=
  match ev with
  | EvRetry _ => true
  | _ => false
  end.

Definition is_run_start (ev : MochaEvent) : bool :=
  match ev with
  | EvStart _ _ => true
  | _ => false
  end.

(** The states the reporter gives a result. *)
Definition reported_state (s : TestStatus) : bool :=
  match s with
  | PENDING | PASSED | FAILED => true
  | SKIPPED | RETRIED => false
  end.

(** A repository call of the reporter with the id the repository
    generates for it and the time it runs at. *)
Record StampedCall := mkStampedCall {
  sc_call : RepositoryCall;
  sc_generateId : string;
  sc_now : Timestamp }.

(** A call as the reporter issues it: the promise is not awaited and a
    rejection is logged ([.catch]), so a failed call leaves the store as
    it was and the next call runs all the same. *)
Definition perform (c : StampedCall) (db : Store) : Store :=
  match sc_call c with
  | CreateRun run =>
      snd (TestRunRepositoryImpl.create (sc_generateId c) (sc_now c) run db)
  | UpdateRun id updates =>
      snd (TestRunRepositoryImpl.update id updates (sc_now c) db)
  | CreateResult result =>
      snd (TestResultRepositoryImpl.create (sc_generateId c) (sc_now c) result db)
  end.

Definition replay (calls : list StampedCall) (db : Store) : Store :=
  fold_left (fun db c => perform c db) calls db.

Fixpoint count_char (c : ascii) (s : string) : nat :=
  match s with
  | EmptyString => 0
  | String d rest => (if bool_decide (d = c) then 1 else 0) + count_char c rest
  end.

Fixpoint all_chars (p : ascii -> bool) (s : string) : bool :=
  match s with
  | EmptyString => true
  | String c rest => p c && all_chars p rest
  end.

(** [Map.prototype.set] on the keys of the map: a new key goes last. *)
Definition add_key (keys : list string) (key : string) : list string :=
  if includes keys key then keys else keys ++ [key].

(** Every collected result sits under its own full title and is pending,
    passed or failed. *)
Definition well_collected (kv : string * TestResult.t) : Prop :=
  TestResult.fullTitle (snd kv) = fst kv
  /\ reported_state (TestResult.state (snd kv)) = true.

(** What a repository call of the reporter looks like during the run
    [runId]: a finished result of that run, or the whole run passed as
    its own patch. *)
Definition sent_during (runId : string) (call : RepositoryCall) : Prop :=
  match call with
  | CreateResult result =>
      TestResult.runId result = runId
      /\ TestResult.endTime result <> None
      /\ reported_state (TestResult.state result) = true
  | UpdateRun id updates =>
      id = runId /\ TestRunPatch.results updates <> None
  | CreateRun _ => False
  end.

(** The reporter between the start of the run [runId] and the next
    start. *)
Definition reporting (runId : string) (run : TestRun.t) (st : AuroraReporter.t) : Prop :=
  AuroraReporter.current_run_id st = runId
  /\ Forall (fun kv => TestResult.runId (snd kv) = runId) (AuroraReporter.testResults st)
  /\ exists sent,
       AuroraReporter.calls st = CreateRun run :: sent
       /\ Forall (sent_during runId) sent.

(** * Vocabulary of the hub: broadcasts *)

(** What socket [s] was handed by broadcast ([io.emit]), in order. *)
Definition inbox (s : string) (st : WebSocketManager.t) : list WebSocketMessage :=
  map message
    (List.filter (fun d => bool_decide (dest d = s) && bool_decide (via d = None))
       (WebSocketManager.delivered st)).

(** Everything socket [s] was handed, by broadcast or through a room. *)
Definition deliveries_to (s : string) (st : WebSocketManager.t) : list Delivery :=
  List.filter (fun d => bool_decide (dest d = s)) (WebSocketManager.delivered st).

(** The messages an action broadcasts. *)
Definition broadcasts (a : HubAction) : list WebSocketMessage :=
  match a with
  | Emit event data now => [mkMessage event data now]
  | EmitTestRunStarted testRun now => [mkMessage "test-run:started" (PRun testRun) now]
  | EmitTestRunCompleted testRun now => [mkMessage "test-run:completed" (PRun testRun) now]
  | EmitStatisticsUpdate statistics now =>
      [mkMessage "statistics:update" (PAny statistics) now]
  | _ => []
  end.

(** The broadcasts of [trace] that occur while [s] is connected. *)
Fixpoint seen (s : string) (sub : Subscription) (trace : list HubAction)
  : list WebSocketMessage :=
  match trace with
  | [] => []
  | a :: rest =>
      (if online sub then broadcasts a else []) ++ seen s (track s "" sub a) rest
  end.

(** Every member of a room is connected. *)
Definition members_are_connected (st : WebSocketManager.t) : Prop :=
  forall room s,
    s ∈ WebSocketManager.members room st -> s ∈ WebSocketManager.connectedClients st.

Definition one_if (b : bool) : nat := if b then 1 else 0.

(** * The routes of the test runs ([src/server/routes/testRuns.ts]) *)

(** A JavaScript number that holds an integer, or [NaN] ([None]): what
    [parseInt] returns. *)
Definition JsInt := option Z.

Definition js_add (a b : JsInt) : JsInt :=
  match a, b with
  | Some x, Some y => Some (x + y)
  | _, _ => None
  end.

(** [a < n]: false when [a] is [NaN]. *)
Definition js_lt (a : JsInt) (n : Z) : bool :=
  match a with
  | Some x => Z.ltb x n
  | None => false
  end.

(** The index [Array.prototype.slice] makes of an argument: [NaN] is 0,
    a negative number counts from the end. *)
Definition relative_index (len : Z) (i : JsInt) : Z :=
  let n := default 0 i in
  if Z.ltb n 0 then Z.max (len + n) 0 else Z.min n len.

(** [l.slice(start, end)]. *)
Definition slice {A} (l : list A) (start end_ : JsInt) : list A :=
  let len := Z.of_nat (length l) in
  let k := relative_index len start in
  let final := relative_index len end_ in
  firstn (Z.to_nat (final - k)) (skipn (Z.to_nat k) l).

Inductive Response (A : Type) :=
| Success (data : A)
| Status404 (error : string) (message : option string)
| Status500 (error : string) (message : string).

Arguments Success {A} data.
Arguments Status404 {A} error message.
Arguments Status500 {A} error message.

Record Pagination := mkPagination {
  pg_total : Z;
  pg_limit : JsInt;
  pg_offset : JsInt;
  pg_hasMore : bool }.

Inductive Method := GET | POST | DELETE.

#[global] Instance Method_eq_dec : EqDecision Method.
Proof. solve_decision. Defined.

(** A segment of a route path: a literal, or a parameter ([:id]). *)
Inductive Segment :=
| Lit (text : string)
| Param (name : string).

Inductive Handler :=
| ListRuns
| GetRun
| DeleteRun
| RunStatisticsOf
| StatisticsOverview
| StatisticsTrends
| SearchRuns
| Cleanup.

Module TestRunsRouter.

(** The handler of [GET /], after the filter is built from the query;
    [limitNum] and [offsetNum] are [parseInt] of the parameters or of
    their defaults 50 and 0. *)
Definition listRuns (filter : TestFilter.t) (limitNum offsetNum : JsInt)
  : DB (Response (list TestRun.t * Pagination)) :=
  fun st =>
    match TestRunRepositoryImpl.findAll (Some filter) st with
    | (Ok testRuns, st') =>
        let paginatedRuns := slice testRuns offsetNum (js_add offsetNum limitNum) in
        (Ok (Success (paginatedRuns,
                      mkPagination (Z.of_nat (length testRuns)) limitNum offsetNum
                        (js_lt (js_add offsetNum limitNum) (Z.of_nat (length testRuns))))),
         st')
    | (Err (NotFound message), st') | (Err (SqliteError message), st') =>
        (Ok (Status500 "Failed to retrieve test runs" message), st')
    end.

Definition with_results (run : TestRun.t) (results : list TestResult.t) : TestRun.t :=
  TestRun.mk (TestRun.id run) (TestRun.startTime run) (TestRun.endTime run)
    (TestRun.duration run) (TestRun.totalTests run) (TestRun.passed run)
    (TestRun.failed run) (TestRun.skipped run) (TestRun.pending run)
    (TestRun.retries run) (TestRun.browserName run) (TestRun.browserVersion run)
    (TestRun.cypressVersion run) (TestRun.specFiles run) (TestRun.config run)
    (TestRun.ciInfo run) (TestRun.status run) results.

Definition failure {A} (error : string) (e : DbError) : Response A :=
  match e with
  | NotFound message | SqliteError message => Status500 error message
  end.

(** The handler of [GET /:id].  [includeResults] is the query parameter,
    a string when it is given; its default is the boolean [true], which
    is not [=== 'true']. *)
Definition getRun (id : string) (includeResults : option string)
  : DB (Response TestRun.t) :=
  fun st =>
    match TestRunRepositoryImpl.findById id st with
    | (Ok None, st') =>
        (Ok (Status404 "Test run not found"
               (Some ("No test run found with ID: " +:+ id))), st')
    | (Ok (Some testRun), st') =>
        if bool_decide (includeResults = Some "true") then
          match TestResultRepositoryImpl.findByRunId id st' with
          | (Ok testResults, st'') =>
              (Ok (Success (with_results testRun testResults)), st'')
          | (Err e, st'') => (Ok (failure "Failed to retrieve test run" e), st'')
          end
        else (Ok (Success testRun), st')
    | (Err e, st') => (Ok (failure "Failed to retrieve test run" e), st')
    end.

Definition error_message (e : DbError) : string :=
  match e with
  | NotFound message | SqliteError message => message
  end.

(** The handler of [DELETE /:id]. *)
Definition deleteRun (id : string) : DB (Response string) :=
  fun st =>
    match TestRunRepositoryImpl.delete id st with
    | (Ok _, st') => (Ok (Success "Test run deleted successfully"), st')
    | (Err e, st') =>
        if is_substring "not found" (error_message e)
        then (Ok (Status404 "Test run not found" (Some (error_message e))), st')
        else (Ok (Status500 "Failed to delete test run" (error_message e)), st')
    end.

(** The routes in the order in which they are registered. *)
Definition routes : list (Method * list Segment * Handler) :=
  [(GET, [], ListRuns);
   (GET, [Param "id"], GetRun);
   (DELETE, [Param "id"], DeleteRun);
   (GET, [Param "id"; Lit "statistics"], RunStatisticsOf);
   (GET, [Lit "statistics"; Lit "overview"], StatisticsOverview);
   (GET, [Lit "statistics"; Lit "trends"], StatisticsTrends);
   (POST, [Lit "search"], SearchRuns);
   (DELETE, [Lit "cleanup"], Cleanup)].

(** Express matches a path segment by segment: a literal up to letter
    case, a parameter against any segment. *)
Fixpoint matches (pattern : list Segment) (path : list string) : bool :=
  match pattern, path with
  | [], [] => true
  | Lit text :: pattern', segment :: path' =>
      bool_decide (lower text = lower segment) && matches pattern' path'
  | Param _ :: pattern', _ :: path' => matches pattern' path'
  | _, _ => false
  end.

(** The first route registered for the method whose path matches: its
    handler answers the request and the later routes are not tried. *)
Definition dispatch (method : Method) (path : list string) : option Handler :=
  match List.filter
          (fun route => bool_decide (fst (fst route) = method)
                        && matches (snd (fst route)) path)
          routes with
  | route :: _ => Some (snd route)
  | [] => None
  end.

End TestRunsRouter.

(** * Schema versions ([DatabaseSchema] of [src/database/DatabaseSchema.ts]) *)

(** [n.toString()] of an integer: its decimal text. *)
Definition toString (n : Z) : string := pretty n.

Definition is_space (c : ascii) : bool :=
  let n := nat_of_ascii c in
  ((9 <=? n)%nat && (n <=? 13)%nat) || (n =? 32)%nat.

Fixpoint skip_spaces (s : string) : string :=
  match s with
  | String c rest => if is_space c then skip_spaces rest else s
  | EmptyString => EmptyString
  end.

Definition digit_value (c : ascii) : option Z :=
  let n := nat_of_ascii c in
  if ((48 <=? n)%nat && (n <=? 57)%nat) then Some (Z.of_nat (n - 48)) else None.

(** The value of the longest run of digits [s] starts with; [seen]
    tells that a digit was read. *)
Fixpoint leading_digits (s : string) (acc : Z) (seen : bool) : JsInt :=
  match s with
  | String c rest =>
      match digit_value c with
      | Some d => leading_digits rest (10 * acc + d) true
      | None => if seen then Some acc else None
      end
  | EmptyString => if seen then Some acc else None
  end.

(** [parseInt(s, 10)] on a text without white space beyond ASCII. *)
Definition parseInt (s : string) : JsInt :=
  match skip_spaces s with
  | String "-" rest => option_map Z.opp (leading_digits rest 0 false)
  | String "+" rest => leading_digits rest 0 false
  | s' => leading_digits s' 0 false
  end.

(** The [metadata] table: [value] by [key]; a value may be [NULL]. *)
Definition Metadata := gmap string (option string).

Inductive MigrationResult :=
| MigrationsDone
| MigrationError (message : string).

Module DatabaseSchema.

Definition getCurrentSchemaVersion (metadata : Metadata) : JsInt :=
  match metadata !! "schema_version" with
  | Some (Some value) => parseInt value
  | Some None => None
  | None => Some 0
  end.

(** [INSERT OR REPLACE INTO metadata (key, value)]. *)
Definition setSchemaVersion (version : Z) (metadata : Metadata) : Metadata :=
  <["schema_version" := Some (toString version)]> metadata.

Definition getTargetSchemaVersion : Z := 1.

Definition runMigration (version : Z) : MigrationResult :=
  if Z.eqb version 1 then MigrationsDone
  else MigrationError ("Unknown migration version: " +:+ toString version).

(** The loop of [runMigrations] from [version] on; [steps] bounds the
    versions left. *)
Fixpoint migrate_from (steps : nat) (version : Z) (metadata : Metadata)
  : MigrationResult * Metadata :=
  match steps with
  | O => (MigrationsDone, metadata)
  | S steps' =>
      if Z.leb version getTargetSchemaVersion then
        match runMigration version with
        | MigrationsDone =>
            migrate_from steps' (version + 1) (setSchemaVersion version metadata)
        | MigrationError message => (MigrationError message, metadata)
        end
      else (MigrationsDone, metadata)
  end.

Definition runMigrations (metadata : Metadata) : MigrationResult * Metadata :=
  let currentVersion := getCurrentSchemaVersion metadata in
  let targetVersion := getTargetSchemaVersion in
  match currentVersion with
  | Some current =>
      if Z.ltb current targetVersion
      then migrate_from (Z.to_nat (targetVersion - current)) (current + 1) metadata
      else (MigrationsDone, metadata)
  | None => (MigrationsDone, metadata)
  end.

End DatabaseSchema.

(** * The HTML report ([buildSimpleHtmlReport] of [src/reporter/index.ts]) *)

(** [s.replace(/c/g, by_)] for a single character [c]. *)
Fixpoint replace_char (c : ascii) (by_ : string) (s : string) : string :=
  match s with
  | EmptyString => EmptyString
  | String d rest =>
      if bool_decide (d = c) then by_ +:+ replace_char c by_ rest
      else String d (replace_char c by_ rest)
  end.

(** [esc]: the text as it is written between tags. *)
Definition esc (s : string) : string :=
  replace_char ">" "&gt;" (replace_char "<" "&lt;" (replace_char "&" "&amp;" s)).

(** What [esc] writes for one character. *)
Definition esc_char (c : ascii) : string :=
  if bool_decide (c = "&"%char) then "&amp;"
  else if bool_decide (c = "<"%char) then "&lt;"
  else if bool_decide (c = ">"%char) then "&gt;"
  else String c EmptyString.

(** * Properties *)

(** ** [ORDER BY] *)

Section OrderBy.
Context {A : Type} (before : A -> A -> bool).

Lemma insert_by_perm (x : A) (l : list A) :
  Permutation (insert_by before x l) (x :: l).
Proof.
  induction l as [|y l IH]; simpl.
  - reflexivity.
  - destruct (before x y).
    + reflexivity.
    + rewrite IH. apply perm_swap.
Qed.

Lemma order_by_perm (l : list A) : Permutation (order_by before l) l.
Proof.
  induction l as [|x l IH]; simpl.
  - reflexivity.
  - unfold order_by in *. simpl. rewrite insert_by_perm. now constructor.
Qed.

Lemma order_by_In (x : A) (l : list A) : In x (order_by before l) <-> In x l.
Proof.
  split; apply Permutation_in; [|symmetry]; apply order_by_perm.
Qed.

Lemma order_by_length (l : list A) : length (order_by before l) = length l.
Proof. apply Permutation_length, order_by_perm. Qed.

Hypothesis before_total : forall a b, before a b = true \/ before b a = true.
Hypothesis before_trans :
  forall a b c, before a b = true -> before b c = true -> before a c = true.

Lemma insert_by_sorted (x : A) (l : list A) :
  StronglySorted (fun a b => before a b = true) l ->
  StronglySorted (fun a b => before a b = true) (insert_by before x l).
Proof.
  induction 1 as [|y l Hs IH Hy]; simpl.
  - repeat constructor.
  - destruct (before x y) eqn:Hxy.
    + constructor.
      * now constructor.
      * constructor; [assumption|].
        rewrite List.Forall_forall in *. intros z Hz. eauto.
    + constructor; [assumption|].
      rewrite List.Forall_forall in *. intros z Hz.
      apply (Permutation_in _ (insert_by_perm x l)) in Hz.
      destruct Hz as [<-|Hz]; [|auto].
      destruct (before_total x y) as [H|H]; congruence.
Qed.

Lemma order_by_sorted (l : list A) :
  StronglySorted (fun a b => before a b = true) (order_by before l).
Proof.
  induction l as [|x l IH]; simpl.
  - constructor.
  - apply insert_by_sorted, IH.
Qed.

End OrderBy.

(** ** Filtering helpers *)

Lemma filter_none {A} (f : A -> bool) (l : list A) :
  (forall x, In x l -> f x = false) -> List.filter f l = [].
Proof.
  induction l as [|x l IH]; simpl; intros H; [reflexivity|].
  rewrite (H x) by auto. apply IH. auto.
Qed.

Lemma filter_all {A} (f : A -> bool) (l : list A) :
  (forall x, In x l -> f x = true) -> List.filter f l = l.
Proof.
  induction l as [|x l IH]; simpl; intros H; [reflexivity|].
  rewrite (H x) by auto. f_equal. apply IH. auto.
Qed.

Lemma filter_length_zero {A} (f : A -> bool) (l : list A) :
  length (List.filter f l) = 0%nat -> forall x, In x l -> f x = false.
Proof.
  induction l as [|y l IH]; simpl; intros H x Hx; [contradiction|].
  destruct (f y) eqn:Hy; [discriminate|].
  destruct Hx as [<-|Hx]; auto.
Qed.

Lemma includes_In {A} `{EqDecision A} (l : list A) (x : A) :
  includes l x = true <-> In x l.
Proof.
  unfold includes. rewrite existsb_exists. split.
  - intros [y [Hy Heq]]. apply bool_decide_eq_true in Heq. now subst.
  - intros H. exists x. split; [assumption|]. now apply bool_decide_eq_true.
Qed.

Lemma has_run_In (id : string) (st : Store) :
  has_run id st = true <-> exists r, In r (test_runs st) /\ RunRow.id r = id.
Proof.
  unfold has_run. rewrite existsb_exists.
  split; intros [r [Hr H]]; exists r; split; try assumption.
  - now apply bool_decide_eq_true in H.
  - now apply bool_decide_eq_true.
Qed.

Lemma has_result_In (id : string) (st : Store) :
  has_result id st = true <-> exists r, In r (test_results st) /\ ResultRow.id r = id.
Proof.
  unfold has_result. rewrite existsb_exists.
  split; intros [r [Hr H]]; exists r; split; try assumption.
  - now apply bool_decide_eq_true in H.
  - now apply bool_decide_eq_true.
Qed.

Lemma referential_integrityb_spec (st : Store) :
  referential_integrityb st = true <-> referential_integrity st.
Proof.
  unfold referential_integrityb, referential_integrity.
  rewrite andb_true_iff, !forallb_forall.
  split; intros [H1 H2]; split; intros x Hx.
  - apply has_run_In. auto.
  - apply has_result_In. auto.
  - apply has_run_In. auto.
  - apply has_result_In. auto.
Qed.

(** ** Deleting a run *)

Lemma owned_by_run_spec (gone : list RunRow.t) (r : ResultRow.t) :
  owned_by_run gone r = true
  <-> exists g, In g gone /\ RunRow.id g = ResultRow.run_id r.
Proof.
  unfold owned_by_run. rewrite existsb_exists.
  split; intros [g [Hg H]]; exists g; split; try assumption.
  - now apply bool_decide_eq_true in H.
  - now apply bool_decide_eq_true.
Qed.

Lemma owned_by_result_spec (gone : list ResultRow.t) (s : ScreenshotRow.t) :
  owned_by_result gone s = true
  <-> exists r, In r gone /\ ResultRow.id r = ScreenshotRow.test_result_id s.
Proof.
  unfold owned_by_result. rewrite existsb_exists.
  split; intros [g [Hg H]]; exists g; split; try assumption.
  - now apply bool_decide_eq_true in H.
  - now apply bool_decide_eq_true.
Qed.

Lemma negb_true_not (b : bool) (P : Prop) : (b = true <-> P) -> (negb b = true <-> ~ P).
Proof. destruct b; simpl; intuition congruence. Qed.

(** What [DELETE FROM test_runs WHERE ...] leaves in each table. *)
Lemma delete_test_runs_spec (where_ : RunRow.t -> bool) (st : Store) :
  exists st',
    delete_test_runs where_ st
    = (Ok (Z.of_nat (length (List.filter where_ (test_runs st)))), st')
    /\ test_runs st' = List.filter (fun r => negb (where_ r)) (test_runs st)
    /\ (forall r, In r (test_results st') <->
          In r (test_results st)
          /\ ~ exists run, In run (test_runs st) /\ where_ run = true
                           /\ RunRow.id run = ResultRow.run_id r)
    /\ (forall s, In s (screenshots st') <->
          In s (screenshots st)
          /\ ~ exists r run, In r (test_results st)
                             /\ ResultRow.id r = ScreenshotRow.test_result_id s
                             /\ In run (test_runs st) /\ where_ run = true
                             /\ RunRow.id run = ResultRow.run_id r).
Proof.
  eexists. split; [reflexivity|]. simpl. split; [reflexivity|]. split.
  - intros r. rewrite filter_In. apply and_iff_compat_l.
    apply negb_true_not. rewrite owned_by_run_spec.
    split; intros [g H]; exists g; rewrite filter_In in *; tauto.
  - intros s. rewrite filter_In. apply and_iff_compat_l.
    apply negb_true_not. rewrite owned_by_result_spec. split.
    + intros [r [Hr Hid]]. apply filter_In in Hr. destruct Hr as [Hr Ho].
      apply owned_by_run_spec in Ho. destruct Ho as [g [Hg Hgid]].
      apply filter_In in Hg. exists r, g. tauto.
    + intros [r [g H]]. exists r. split; [|tauto].
      apply filter_In. split; [tauto|].
      apply owned_by_run_spec. exists g. rewrite filter_In. tauto.
Qed.

Lemma delete_test_runs_preserves_integrity (where_ : RunRow.t -> bool) (st : Store) :
  referential_integrity st ->
  referential_integrity (snd (delete_test_runs where_ st)).
Proof.
  intros [Hres Hshot].
  destruct (delete_test_runs_spec where_ st) as [st' [Heq [Hruns [Hr Hs]]]].
  rewrite Heq. simpl. split.
  - intros r Hin. apply Hr in Hin. destruct Hin as [Hin Hkeep].
    destruct (Hres r Hin) as [run [Hrun Hid]].
    exists run. split; [|assumption].
    rewrite Hruns. apply filter_In. split; [assumption|].
    destruct (where_ run) eqn:Hw; [|reflexivity].
    exfalso. apply Hkeep. exists run. tauto.
  - intros s Hin. apply Hs in Hin. destruct Hin as [Hin Hkeep].
    destruct (Hshot s Hin) as [r [Hrin Hid]].
    exists r. split; [|assumption].
    apply Hr. split; [assumption|].
    intros [run H]. apply Hkeep. exists r, run. tauto.
Qed.

Lemma delete_test_runs_nothing (where_ : RunRow.t -> bool) (st : Store) :
  (forall r, In r (test_runs st) -> where_ r = false) ->
  delete_test_runs where_ st = (Ok 0, st).
Proof.
  intros H. unfold delete_test_runs.
  rewrite (filter_none where_) by assumption. simpl.
  rewrite (filter_all (fun r => negb (where_ r))).
  2:{ intros r Hr. now rewrite H. }
  rewrite (filter_none (owned_by_run [])) by reflexivity.
  rewrite !filter_all by reflexivity.
  now destruct st.
Qed.

Lemma has_run_false (id : string) (st : Store) :
  has_run id st = false ->
  forall r, In r (test_runs st) -> bool_decide (RunRow.id r = id) = false.
Proof.
  intros H r Hr. destruct (bool_decide (RunRow.id r = id)) eqn:E; [|reflexivity].
  apply bool_decide_eq_true in E.
  assert (has_run id st = true) by (apply has_run_In; eauto). congruence.
Qed.

Lemma has_run_count (id : string) (st : Store) :
  has_run id st = true ->
  Z.of_nat (length (List.filter (fun r => bool_decide (RunRow.id r = id)) (test_runs st))) <> 0.
Proof.
  intros H Hz. apply has_run_In in H. destruct H as [r [Hr Hid]].
  assert (Hn : length (List.filter (fun r => bool_decide (RunRow.id r = id)) (test_runs st)) = 0%nat)
    by lia.
  pose proof (filter_length_zero _ _ Hn r Hr) as Hf. simpl in Hf.
  apply bool_decide_eq_false in Hf. contradiction.
Qed.

(** C2.  [TestRunRepositoryImpl.delete(id)] fails with NotFound and leaves
    the store unchanged when no run has that id; otherwise it removes the
    run, every result of the run and every screenshot of those results,
    and nothing else, so that a store in which every result and
    screenshot has its parent stays so. *)
Theorem delete_run_cascades :
  forall (id : string) (st : Store),
    (has_run id st = false ->
     exists message,
       TestRunRepositoryImpl.delete id st = (Err (NotFound message), st))
    /\ (has_run id st = true ->
        exists st',
          TestRunRepositoryImpl.delete id st = (Ok tt, st')
          /\ (forall r, In r (test_runs st') <->
                In r (test_runs st) /\ RunRow.id r <> id)
          /\ (forall r, In r (test_results st') <->
                In r (test_results st) /\ ResultRow.run_id r <> id)
          /\ (forall s, In s (screenshots st') <->
                In s (screenshots st)
                /\ ~ exists r, In r (test_results st)
                               /\ ResultRow.run_id r = id
                               /\ ResultRow.id r = ScreenshotRow.test_result_id s)
          /\ (referential_integrity st -> referential_integrity st')).
Proof.
  intros id st. split; intros Hrun.
  - eexists. unfold TestRunRepositoryImpl.delete, db_bind.
    rewrite delete_test_runs_nothing by now apply has_run_false.
    reflexivity.
  - pose proof (delete_test_runs_preserves_integrity
                  (fun r => bool_decide (RunRow.id r = id)) st) as Hint.
    destruct (delete_test_runs_spec (fun r => bool_decide (RunRow.id r = id)) st)
      as [st' [Heq [Hruns [Hr Hs]]]].
    exists st'. unfold TestRunRepositoryImpl.delete, db_bind.
    rewrite Heq in *. simpl in Hint.
    destruct (Z.eqb_spec
                (Z.of_nat (length (List.filter (fun r => bool_decide (RunRow.id r = id))
                                     (test_runs st)))) 0) as [Hz|Hz].
    { exfalso. now apply (has_run_count id st). }
    split; [reflexivity|].
    apply has_run_In in Hrun. destruct Hrun as [run0 [Hrun0 Hid0]].
    split; [|split; [|split; [|exact Hint]]].
    + intros r. rewrite Hruns, filter_In, negb_true_iff, bool_decide_eq_false.
      reflexivity.
    + intros r. rewrite Hr. apply and_iff_compat_l. split.
      * intros H Heq'. apply H. exists run0.
        split; [assumption|]. split; [now apply bool_decide_eq_true|]. congruence.
      * intros Hne [run [_ [Hw Hrid]]]. apply bool_decide_eq_true in Hw. congruence.
    + intros s. rewrite Hs. apply and_iff_compat_l. split.
      * intros H [r [Hrin [Hrid Hsid]]]. apply H.
        exists r, run0. repeat split; try assumption.
        -- now apply bool_decide_eq_true.
        -- congruence.
      * intros Hne [r [run [Hrin [Hsid [_ [Hw Hrid]]]]]]. apply Hne.
        apply bool_decide_eq_true in Hw. exists r. repeat split; congruence.
Qed.

Lemma delete_run_cascades_witness :
  exists st',
    TestRunRepositoryImpl.delete "run-1" sample_store = (Ok tt, st')
    /\ map RunRow.id (test_runs st') = ["run-2"]
    /\ map ResultRow.id (test_results st') = ["t-3"]
    /\ map ScreenshotRow.id (screenshots st') = ["s-2"]
    /\ referential_integrity st'.
Proof.
  destruct (delete_run_cascades "run-1" sample_store) as [_ H].
  destruct (H eq_refl) as [st' [Heq [_ [_ [_ Hint]]]]].
  exists st'. split; [exact Heq|].
  assert (Hst : st' = snd (TestRunRepositoryImpl.delete "run-1" sample_store))
    by (rewrite Heq; reflexivity).
  vm_compute in Hst. subst st'.
  repeat (split; [reflexivity|]).
  apply Hint, referential_integrityb_spec. reflexivity.
Defined.

(** ** Updates that set no column *)

Lemma build_set_clause_nothing (rule : string -> JsValue -> list (string * SqlValue))
    (entries : list (string * option JsValue)) :
  defines_a_field entries = false -> build_set_clause rule entries = [].
Proof.
  unfold defines_a_field, build_set_clause.
  induction entries as [|[key [value|]] rest IH]; simpl; intros H.
  - reflexivity.
  - apply orb_false_iff in H. destruct H as [Hk Hrest].
    apply negb_false_iff, bool_decide_eq_true in Hk. subst key.
    rewrite IH by assumption. reflexivity.
  - apply IH. assumption.
Qed.

(** C9.  For both repositories, [update(id, patch)] with a patch that
    defines no field other than [id] returns successfully and leaves the
    store as it is, whether or not a row with that id exists: no statement
    is executed and the not-found check is not reached. *)
Theorem update_without_fields_is_noop :
  forall (id : string) (now : Timestamp) (st : Store),
    (forall p, defines_a_field (TestRunPatch.entries p) = false ->
               TestRunRepositoryImpl.update id p now st = (Ok tt, st))
    /\ (forall p, defines_a_field (TestResultPatch.entries p) = false ->
                  TestResultRepositoryImpl.update id p now st = (Ok tt, st)).
Proof.
  intros id now st. split; intros p Hp.
  - unfold TestRunRepositoryImpl.update.
    rewrite build_set_clause_nothing by assumption. reflexivity.
  - unfold TestResultRepositoryImpl.update.
    rewrite build_set_clause_nothing by assumption. reflexivity.
Qed.

Lemma update_without_fields_is_noop_witness :
  has_run "run-9" sample_store = false
  /\ TestRunRepositoryImpl.update "run-9" id_only_run_patch 5000 sample_store
     = (Ok tt, sample_store)
  /\ TestRunRepositoryImpl.update "run-9" TestRunPatch.empty 5000 sample_store
     = (Ok tt, sample_store)
  /\ has_result "t-9" sample_store = false
  /\ TestResultRepositoryImpl.update "t-9" id_only_result_patch 5000 sample_store
     = (Ok tt, sample_store).
Proof.
  destruct (update_without_fields_is_noop "run-9" 5000 sample_store) as [Hrun _].
  destruct (update_without_fields_is_noop "t-9" 5000 sample_store) as [_ Hres].
  split; [reflexivity|].
  split; [apply Hrun; reflexivity|].
  split; [apply Hrun; reflexivity|].
  split; [reflexivity|].
  apply Hres; reflexivity.
Defined.

(** ** Retention cleanup *)

Lemma filter_split_length {A} (f : A -> bool) (l : list A) :
  (length (List.filter f l) + length (List.filter (fun x => negb (f x)) l))%nat = length l.
Proof.
  induction l as [|x l IH]; simpl; [reflexivity|].
  destruct (f x); simpl; lia.
Qed.

Lemma cutoffDate_fixed (offset : Z) (now : Timestamp) (retentionDays : Z) :
  DatabaseManager.cutoffDate (fixed_zone offset) now retentionDays
  = now - retentionDays * day_ms.
Proof.
  unfold DatabaseManager.cutoffDate, DatabaseManager.UTC, DatabaseManager.LocalTime,
    DatabaseManager.MakeDate, DatabaseManager.Day, DatabaseManager.TimeWithinDay,
    fixed_zone.
  pose proof (Z.div_mod (now + offset) day_ms) as H.
  assert (Hd : day_ms <> 0) by (unfold day_ms; lia).
  specialize (H Hd). nia.
Qed.

Lemma screenshots_follow_runsb_spec (st : Store) :
  screenshots_follow_runsb st = true -> screenshots_follow_runs st.
Proof.
  unfold screenshots_follow_runsb, screenshots_follow_runs.
  intros H s r run Hs Hr Hrun Hid Hrid.
  rewrite forallb_forall in H. specialize (H s Hs).
  rewrite forallb_forall in H. specialize (H r Hr).
  rewrite forallb_forall in H. specialize (H run Hrun).
  rewrite !bool_decide_eq_true_2 in H by assumption.
  simpl in H. now apply Z.leb_le.
Qed.

(** What the cleanup removes on any store: the old runs with their
    results and the screenshots of those, and besides every screenshot
    taken before the cutoff. *)
Lemma cleanup_on_any_store (tz : DatabaseManager.TimeZone) (retentionDays : Z)
    (now : Timestamp) (st : Store) :
  cleanup_spec (fun cutoff s => ScreenshotRow.taken_at s < cutoff)
    tz retentionDays now st.
Proof.
  unfold cleanup_spec.
  set (cutoff := DatabaseManager.cutoffDate tz now retentionDays).
  destruct (delete_test_runs_spec (fun r => Z.ltb (RunRow.start_time r) cutoff) st)
    as [st1 [Heq [Hruns [Hr Hs]]]].
  eexists. eexists.
  unfold DatabaseManager.cleanupOldData,
    DatabaseManager.count, TestRunRepositoryImpl.deleteOlderThan,
    db_bind, select, db_ret.
  fold cutoff. rewrite Heq. split; [reflexivity|]. simpl.
  split; [|split; [|split]].
  - intros r. rewrite Hruns, filter_In, negb_true_iff, Z.ltb_ge. reflexivity.
  - intros r. rewrite Hr. apply and_iff_compat_l. unfold of_old_run.
    split; intros H [run Hrun]; apply H; exists run;
      rewrite Z.ltb_lt in *; tauto.
  - intros s. rewrite filter_In, Hs, negb_true_iff, Z.ltb_ge.
    unfold of_old_result, of_old_run. split.
    + intros [[Hin Hno] Hge]. split; [assumption|]. split; [|lia].
      intros [r [Hrin [Hid [run [Hrun [Hlt Hrid]]]]]]. apply Hno.
      exists r, run. rewrite Z.ltb_lt. tauto.
    + intros [Hin [Hno Hge]]. split; [|lia]. split; [assumption|].
      intros [r [run [Hrin [Hid [Hrun [Hlt Hrid]]]]]]. apply Hno.
      exists r. split; [assumption|]. split; [assumption|].
      exists run. rewrite Z.ltb_lt in Hlt. tauto.
  - rewrite Hruns.
    pose proof (filter_split_length (fun r => Z.ltb (RunRow.start_time r) cutoff)
                  (test_runs st)).
    lia.
Qed.

(** C6.  For every [retentionDays], on a store in which every result has
    its run and every screenshot its result (the foreign keys) and no
    screenshot was taken before its run started, the cleanup deletes
    exactly the runs that started before the cutoff, the results of those
    runs and the screenshots of those results, and no other row;
    [deletedRuns] is the number of runs removed.  The cutoff is the
    instant [retentionDays] calendar days before now at the same local
    time of day, which is now minus [retentionDays] times 24 hours when
    the clocks of the zone do not change. *)
Theorem cleanup_removes_old_runs_and_dependents :
  forall (tz : DatabaseManager.TimeZone) (retentionDays : Z) (now : Timestamp)
         (st : Store),
    referential_integrity st ->
    screenshots_follow_runs st ->
    cleanup_spec (fun _ _ => False) tz retentionDays now st
    /\ (forall offset,
          DatabaseManager.cutoffDate (fixed_zone offset) now retentionDays
          = now - retentionDays * day_ms).
Proof.
  intros tz d now st [Hresults Hshots] Hfollow.
  split; [|intros offset; apply cutoffDate_fixed].
  destruct (cleanup_on_any_store tz d now st)
    as [report [st' [Heq [Hruns [Hres [Hs Hcount]]]]]].
  exists report, st'. split; [exact Heq|]. split; [exact Hruns|].
  split; [exact Hres|]. split; [|exact Hcount].
  intros s. rewrite Hs. split.
  - intros [Hin [Hno _]]. tauto.
  - intros [Hin [Hno _]]. split; [exact Hin|]. split; [exact Hno|].
    intros Hold. apply Hno.
    destruct (Hshots s Hin) as [r [Hr Hid]].
    destruct (Hresults r Hr) as [run [Hrun Hrid]].
    exists r. split; [exact Hr|]. split; [exact Hid|].
    exists run. split; [exact Hrun|]. split; [|exact Hrid].
    pose proof (Hfollow s r run Hin Hr Hrun Hid Hrid). lia.
Qed.

Lemma cleanup_removes_old_runs_and_dependents_witness :
  cleanup_spec (fun _ _ => False) summer_zone 30 (101 * day_ms) retention_store
  /\ DatabaseManager.cutoffDate summer_zone (101 * day_ms) 30 = 71 * day_ms + 3600000
  /\ snd (DatabaseManager.cleanupOldData summer_zone 30 (101 * day_ms) retention_store)
     = mkStore
         [sample_run "run-2" (100 * day_ms) Completed]
         [sample_result "t-2" "run-2" "logs in" FAILED (100 * day_ms + 5)]
         [sample_screenshot "s-2" "t-2" (100 * day_ms + 9)].
Proof.
  split; [|split; vm_compute; reflexivity].
  apply (cleanup_removes_old_runs_and_dependents summer_zone 30 (101 * day_ms)
           retention_store).
  - apply referential_integrityb_spec. vm_compute. reflexivity.
  - apply screenshots_follow_runsb_spec. vm_compute. reflexivity.
Defined.

(** On a store in which a screenshot is older than the run of its
    result, the statement that follows the cascading delete ("additional
    cleanup for orphaned records") removes that screenshot although its
    run is kept. *)
Lemma cleanup_removes_more_than_cascade :
  ~ screenshots_follow_runs old_screenshot_store
  /\ ~ cleanup_spec (fun _ _ => False) (fixed_zone 0) 30 (101 * day_ms)
         old_screenshot_store.
Proof.
  split.
  - intros H.
    specialize (H (sample_screenshot "s-1" "t-1" (10 * day_ms))
                  (sample_result "t-1" "run-1" "logs in" FAILED (100 * day_ms + 5))
                  (sample_run "run-1" (100 * day_ms) Completed)).
    vm_compute in H.
    specialize (H (or_introl eq_refl) (or_introl eq_refl) (or_introl eq_refl)
                  eq_refl eq_refl).
    apply H. reflexivity.
  - intros [report [st' [Heq [_ [_ [Hs _]]]]]].
    assert (Hst : st' = snd (DatabaseManager.cleanupOldData (fixed_zone 0) 30
                               (101 * day_ms) old_screenshot_store))
      by (rewrite Heq; reflexivity).
    vm_compute in Hst. subst st'.
    apply (proj2 (Hs (sample_screenshot "s-1" "t-1" (10 * day_ms)))).
    split; [left; reflexivity|]. split; [|tauto].
    intros [r [_ [_ [run [Hrun [Hlt _]]]]]].
    destruct Hrun as [<-|[]]. vm_compute in Hlt. discriminate.
Qed.


(** ** JSON text *)

Lemma string_app_assoc (a b c : string) : (a +:+ b) +:+ c = a +:+ (b +:+ c).
Proof.
  induction a as [|x a IH]; [reflexivity|].
  change (String x ((a +:+ b) +:+ c) = String x (a +:+ (b +:+ c))). now rewrite IH.
Qed.

Lemma string_app_nil_r (a : string) : a +:+ "" = a.
Proof.
  induction a as [|x a IH]; [reflexivity|].
  change (String x (a +:+ "") = String x a). now rewrite IH.
Qed.

Lemma string_length_app (a b : string) :
  String.length (a +:+ b) = (String.length a + String.length b)%nat.
Proof.
  induction a as [|x a IH]; [reflexivity|].
  change (S (String.length (a +:+ b)) = S (String.length a + String.length b)).
  now rewrite IH.
Qed.

Lemma parse_chars_escape_char (c : ascii) (tail : string) :
  parse_chars (JSON_escape_char c +:+ tail)
  = prepend (String c EmptyString) (parse_chars tail).
Proof.
  destruct c as [[] [] [] [] [] [] [] []]; reflexivity.
Qed.

Lemma parse_chars_escape (s rest : string) :
  parse_chars (JSON_escape s +:+ String dquote rest) = Some (s, rest).
Proof.
  induction s as [|c s IH].
  - reflexivity.
  - cbn [JSON_escape]. rewrite string_app_assoc, parse_chars_escape_char, IH.
    reflexivity.
Qed.

Lemma pretty_N_go_app (x : N) (s rest : string) :
  pretty_N_go x s +:+ rest = pretty_N_go x (s +:+ rest).
Proof.
  revert s. induction (N.lt_wf_0 x) as [x _ IH]. intros s.
  destruct (N.eq_dec x 0%N) as [->|Hx].
  - now rewrite !pretty_N_go_0.
  - rewrite (pretty_N_go_step x s), (pretty_N_go_step x (s +:+ rest)) by lia.
    rewrite IH by (apply N.div_lt; lia). reflexivity.
Qed.

Lemma digit_of_pretty_N_char (d : N) :
  (d < 10)%N -> digit_of (pretty_N_char d) = Some d.
Proof.
  intros H.
  assert (d = 0 \/ d = 1 \/ d = 2 \/ d = 3 \/ d = 4 \/ d = 5 \/ d = 6 \/ d = 7
          \/ d = 8 \/ d = 9)%N as Hd by lia.
  repeat (destruct Hd as [->|Hd]; [reflexivity|]). now subst.
Qed.

Lemma take_digits_pretty (x : N) :
  exists k : N,
    forall s acc,
      take_digits (pretty_N_go x s) acc = take_digits s (acc * 10 ^ k + x)%N.
Proof.
  induction (N.lt_wf_0 x) as [x _ IH].
  destruct (N.eq_dec x 0%N) as [->|Hx].
  - exists 0%N. intros s acc. rewrite pretty_N_go_0. f_equal. simpl. lia.
  - destruct (IH (x / 10)%N) as [k Hk]; [apply N.div_lt; lia|].
    exists (k + 1)%N. intros s acc.
    rewrite pretty_N_go_step, Hk by lia. cbn [take_digits].
    rewrite digit_of_pretty_N_char by (apply N.mod_lt; lia).
    f_equal. rewrite N.pow_add_r.
    pose proof (N.div_mod x 10 ltac:(lia)). nia.
Qed.

Lemma take_digits_delimited (rest : string) (acc : N) :
  delimited rest -> take_digits rest acc = (acc, rest).
Proof.
  destruct rest as [|c rest]; [reflexivity|]. simpl. now intros ->.
Qed.

(** The text of a positive number begins with a digit that is not 0. *)
Lemma pretty_N_go_head (x : N) (s : string) :
  (0 < x)%N ->
  exists c t d, pretty_N_go x s = String c t /\ digit_of c = Some d /\ d <> 0%N.
Proof.
  revert s. induction (N.lt_wf_0 x) as [x _ IH]. intros s Hx.
  rewrite pretty_N_go_step by assumption.
  destruct (N.eq_dec (x / 10)%N 0%N) as [Hz|Hz].
  - rewrite Hz, pretty_N_go_0.
    exists (pretty_N_char (x mod 10)), s, (x mod 10)%N.
    split; [reflexivity|]. split.
    + apply digit_of_pretty_N_char, N.mod_lt. lia.
    + pose proof (N.div_mod x 10 ltac:(lia)) as E. rewrite Hz in E. lia.
  - apply IH; [apply N.div_lt; lia|].
    destruct (x / 10)%N; [congruence | lia].
Qed.

Lemma parse_natural_pretty (n : N) (rest : string) :
  delimited rest -> parse_natural (pretty n +:+ rest) = Some (n, rest).
Proof.
  intros Hrest. unfold pretty, pretty_N.
  destruct (decide (n = 0%N)) as [->|Hn]; [reflexivity|].
  rewrite pretty_N_go_app.
  destruct (pretty_N_go_head n ("" +:+ rest)) as [c [t [d [Heq [Hc Hd]]]]]; [lia|].
  unfold parse_natural. rewrite Heq, Hc.
  rewrite (proj2 (N.eqb_neq d 0%N)) by assumption.
  rewrite <- Heq. destruct (take_digits_pretty n) as [k Hk]. rewrite Hk.
  change ("" +:+ rest) with rest. rewrite take_digits_delimited by assumption.
  reflexivity.
Qed.

Lemma parse_number_pretty (z : Z) (rest : string) :
  delimited rest -> parse_number (pretty z +:+ rest) = Some (z, rest).
Proof.
  intros Hrest. unfold pretty, pretty_Z. destruct z as [|p|p].
  - reflexivity.
  - change (pretty p) with (pretty (N.pos p)).
    pose proof (parse_natural_pretty (N.pos p) rest Hrest) as H.
    unfold pretty, pretty_N in *. destruct (decide (N.pos p = 0%N)); [discriminate|].
    rewrite pretty_N_go_app in *.
    destruct (pretty_N_go_head (N.pos p) ("" +:+ rest)) as [c [t [d [Heq [Hc Hd]]]]];
      [lia|].
    rewrite Heq in *. unfold parse_number.
    assert (Hm : bool_decide (c = "-"%char) = false).
    { apply bool_decide_eq_false_2. intros ->. discriminate Hc. }
    rewrite Hm, H. reflexivity.
  - change (pretty p) with (pretty (N.pos p)).
    change (("-" +:+ pretty (N.pos p)) +:+ rest)
      with (String "-" (pretty (N.pos p) +:+ rest)).
    unfold parse_number. rewrite bool_decide_eq_true_2 by reflexivity.
    rewrite parse_natural_pretty by assumption. reflexivity.
Qed.

Lemma Json_induction (P : Json -> Prop) :
  P JNull ->
  (forall b, P (JBool b)) ->
  (forall n, P (JNum n)) ->
  (forall s, P (JStr s)) ->
  (forall items, Forall P items -> P (JArr items)) ->
  (forall members, Forall (fun kv => P (snd kv)) members -> P (JObj members)) ->
  forall j, P j.
Proof.
  intros Hnull Hbool Hnum Hstr Harr Hobj.
  fix IH 1. intros [| b | n | s | items | members].
  - exact Hnull.
  - apply Hbool.
  - apply Hnum.
  - apply Hstr.
  - apply Harr. induction items as [|v items IHitems]; constructor.
    + apply IH.
    + exact IHitems.
  - apply Hobj. induction members as [|[k v] members IHmembers]; constructor.
    + apply IH.
    + exact IHmembers.
Qed.

(** The first character of a number. *)
Lemma number_head (c : ascii) :
  (exists d, digit_of c = Some d) \/ c = "-"%char ->
  is_ws c = false
  /\ c <> "{"%char /\ c <> "["%char /\ c <> dquote
  /\ c <> "]"%char /\ c <> "}"%char
  /\ forall x, parse_keyword (String c x) = None.
Proof.
  destruct c as [[] [] [] [] [] [] [] []];
    (intros [[d H]|H]; [cbv in H|]; try discriminate H;
     repeat split; try discriminate; reflexivity).
Qed.

Lemma pretty_Z_head (z : Z) :
  exists c t, pretty z = String c t
              /\ ((exists d, digit_of c = Some d) \/ c = "-"%char).
Proof.
  unfold pretty, pretty_Z. destruct z as [|p|p].
  - exists "0"%char, EmptyString. split; [reflexivity|]. left. now exists 0%N.
  - change (pretty p) with (pretty (N.pos p)). unfold pretty, pretty_N.
    destruct (decide (N.pos p = 0%N)); [discriminate|].
    destruct (pretty_N_go_head (N.pos p) "") as [c [t [d [Heq [Hc _]]]]]; [lia|].
    exists c, t. split; [exact Heq|]. left. now exists d.
  - exists "-"%char, (pretty p). split; [reflexivity|]. now right.
Qed.

Lemma parse_value_number (fuel : nat) (z : Z) (rest : string) :
  delimited rest ->
  parse_value (S fuel) (pretty z +:+ rest) = Some (JNum z, rest).
Proof.
  intros Hrest.
  pose proof (parse_number_pretty z rest Hrest) as Hparse.
  destruct (pretty_Z_head z) as [c [t [Heq Hc]]].
  rewrite Heq in *.
  destruct (number_head c Hc) as [Hws [H1 [H2 [H3 [_ [_ Hkey]]]]]].
  change (String c t +:+ rest) with (String c (t +:+ rest)) in *.
  cbn [parse_value skip_ws]. rewrite Hws.
  rewrite !bool_decide_eq_false_2 by assumption.
  now rewrite Hkey, Hparse.
Qed.

Lemma JSON_text_head (j : Json) :
  exists c t, JSON_text j = String c t
              /\ is_ws c = false /\ c <> "]"%char /\ c <> "}"%char.
Proof.
  destruct j as [| [|] | n | s | items | members];
    try (eexists; eexists; split; [reflexivity|]; repeat split; discriminate).
  destruct (pretty_Z_head n) as [c [t [Heq Hc]]].
  destruct (number_head c Hc) as [Hws [_ [_ [_ [H1 [H2 _]]]]]].
  exists c, t. cbn [JSON_text]. tauto.
Qed.

Lemma join_two (sep x y : string) (l : list string) :
  join sep (x :: y :: l) = x +:+ sep +:+ join sep (y :: l).
Proof. reflexivity. Qed.

Lemma parse_elements_text (items : list Json) :
  Forall parses_back items ->
  items <> [] ->
  forall fuel rest,
    (2 * String.length (join "," (map JSON_text items)) + 1 <= fuel)%nat ->
    parse_elements fuel (join "," (map JSON_text items) +:+ String "]" rest)
    = Some (map normalize items, rest).
Proof.
  induction 1 as [|v items Hv _ IH]; intros Hne fuel rest Hfuel; [congruence|].
  destruct fuel as [|fuel]; [lia|].
  destruct items as [|v' items].
  - cbn [map join] in *. cbn [parse_elements].
    rewrite Hv by (reflexivity || lia).
    cbn. reflexivity.
  - cbn [map] in *. rewrite join_two in *.
    rewrite !string_length_app in Hfuel. cbn [String.length] in Hfuel.
    rewrite !string_app_assoc.
    change ("," +:+ ?x) with (String "," x).
    cbn [parse_elements].
    rewrite Hv by (reflexivity || lia).
    cbn [skip_ws]. change (is_ws ",") with false. cbn iota.
    rewrite bool_decide_eq_true_2 by reflexivity.
    rewrite IH by (congruence || lia). reflexivity.
Qed.

Lemma parse_members_text (members : list (string * Json)) :
  Forall (fun kv => parses_back (snd kv)) members ->
  members <> [] ->
  forall fuel rest,
    (2 * String.length
           (join "," (map (fun kv => JSON_quote (fst kv) +:+ ":" +:+ JSON_text (snd kv))
                        members)) + 1 <= fuel)%nat ->
    parse_members fuel
      (join "," (map (fun kv => JSON_quote (fst kv) +:+ ":" +:+ JSON_text (snd kv))
                   members)
       +:+ String "}" rest)
    = Some (map (fun kv => (fst kv, normalize (snd kv))) members, rest).
Proof.
  induction 1 as [|[k v] members Hv _ IH]; intros Hne fuel rest Hfuel; [congruence|].
  destruct fuel as [|fuel]; [lia|].
  cbn [fst snd] in Hv.
  destruct members as [|kv' members].
  - cbn [map join fst snd] in *.
    rewrite !string_length_app in Hfuel. cbn [String.length] in Hfuel.
    unfold JSON_quote. rewrite !string_app_assoc.
    change (String dquote ?x +:+ ?y) with (String dquote (x +:+ y)).
    rewrite !string_app_assoc.
    change (String dquote "" +:+ ?x) with (String dquote x).
    change (":" +:+ ?x) with (String ":" x).
    cbn [parse_members skip_ws]. change (is_ws dquote) with false. cbn iota.
    rewrite bool_decide_eq_true_2 by reflexivity.
    rewrite parse_chars_escape.
    cbn [skip_ws]. change (is_ws ":") with false. cbn iota.
    rewrite bool_decide_eq_true_2 by reflexivity.
    rewrite Hv by (reflexivity || lia).
    cbn. reflexivity.
  - cbn [map] in *. rewrite join_two in *. cbn [fst snd] in *.
    rewrite !string_length_app in Hfuel. cbn [String.length] in Hfuel.
    unfold JSON_quote at 1. rewrite !string_app_assoc.
    change (String dquote ?x +:+ ?y) with (String dquote (x +:+ y)).
    rewrite !string_app_assoc.
    change (String dquote "" +:+ ?x) with (String dquote x).
    change (":" +:+ ?x) with (String ":" x).
    change ("," +:+ ?x) with (String "," x).
    cbn [parse_members skip_ws]. change (is_ws dquote) with false. cbn iota.
    rewrite bool_decide_eq_true_2 by reflexivity.
    rewrite parse_chars_escape.
    cbn [skip_ws]. change (is_ws ":") with false. cbn iota.
    rewrite bool_decide_eq_true_2 by reflexivity.
    rewrite Hv by (reflexivity || lia).
    cbn [skip_ws]. change (is_ws ",") with false. cbn iota.
    rewrite bool_decide_eq_true_2 by reflexivity.
    rewrite IH by (congruence || lia). reflexivity.
Qed.

Lemma parses_back_all (j : Json) : parses_back j.
Proof.
  induction j as [| b | n | s | items IH | members IH] using Json_induction;
    intros fuel rest Hrest Hfuel.
  - destruct fuel as [|fuel]; [cbn in Hfuel; lia|]. reflexivity.
  - destruct fuel as [|fuel]; [destruct b; cbn in Hfuel; lia|]. now destruct b.
  - destruct fuel as [|fuel].
    + cbn [JSON_text] in Hfuel. destruct (pretty_Z_head n) as [c [t [Heq _]]].
      rewrite Heq in Hfuel. cbn in Hfuel. lia.
    + now apply parse_value_number.
  - destruct fuel as [|fuel]; [cbn in Hfuel; lia|].
    cbn [JSON_text normalize]. unfold JSON_quote.
    change (String dquote ?x +:+ ?y) with (String dquote (x +:+ y)).
    rewrite string_app_assoc.
    change (String dquote "" +:+ ?x) with (String dquote x).
    cbn [parse_value skip_ws]. change (is_ws dquote) with false. cbn iota.
    rewrite (bool_decide_eq_false_2 (dquote = "{"%char)) by discriminate.
    rewrite (bool_decide_eq_false_2 (dquote = "["%char)) by discriminate.
    rewrite bool_decide_eq_true_2 by reflexivity.
    now rewrite parse_chars_escape.
  - cbn [JSON_text normalize] in *.
    rewrite !string_length_app in Hfuel. cbn [String.length] in Hfuel.
    destruct fuel as [|fuel]; [lia|].
    rewrite !string_app_assoc.
    change ("[" +:+ ?x) with (String "[" x).
    change ("]" +:+ ?x) with (String "]" x).
    cbn [parse_value skip_ws]. change (is_ws "[") with false. cbn iota.
    rewrite (bool_decide_eq_false_2 ("["%char = "{"%char)) by discriminate.
    rewrite bool_decide_eq_true_2 by reflexivity.
    destruct items as [|v items]; [reflexivity|].
    rewrite parse_elements_text by (assumption || congruence || (cbn [String.length] in *; lia)).
    assert (Hhead : exists c t,
               join "," (map JSON_text (v :: items)) +:+ String "]" rest = String c t
               /\ is_ws c = false /\ c <> "]"%char).
    { destruct (JSON_text_head v) as [c [t [Heq [Hws [Hc _]]]]].
      destruct items as [|v' items]; cbn [map]; [cbn [join]|rewrite join_two];
        rewrite Heq; eexists; eexists; (split; [reflexivity|tauto]). }
    destruct Hhead as [c [t [-> [Hws Hc]]]].
    cbn [skip_ws]. rewrite Hws.
    now rewrite (bool_decide_eq_false_2 (c = "]"%char)) by assumption.
  - cbn [JSON_text normalize] in *.
    rewrite !string_length_app in Hfuel. cbn [String.length] in Hfuel.
    destruct fuel as [|fuel]; [lia|].
    rewrite !string_app_assoc.
    change ("{" +:+ ?x) with (String "{" x).
    change ("}" +:+ ?x) with (String "}" x).
    cbn [parse_value skip_ws]. change (is_ws "{") with false. cbn iota.
    rewrite bool_decide_eq_true_2 by reflexivity.
    destruct members as [|kv members]; [reflexivity|].
    rewrite parse_members_text by (assumption || congruence || (cbn [String.length] in *; lia)).
    assert (Hhead : exists t,
               join "," (map (fun kv => JSON_quote (fst kv) +:+ ":" +:+ JSON_text (snd kv))
                           (kv :: members)) +:+ String "}" rest
               = String dquote t).
    { destruct members as [|kv' members]; cbn [map]; [cbn [join]|rewrite join_two];
        eexists; reflexivity. }
    destruct Hhead as [t ->].
    cbn [skip_ws]. change (is_ws dquote) with false. cbn iota.
    now rewrite (bool_decide_eq_false_2 (dquote = "}"%char)) by discriminate.
Qed.

(** For every document, [JSON.parse] accepts the text [JSON.stringify]
    writes for it. *)
Lemma JSON_parse_text_total (j : Json) :
  JSON_parse (JSON_text j) = Some (normalize j).
Proof.
  unfold JSON_parse.
  pose proof (parses_back_all j (2 * String.length (JSON_text j))%nat "" I (le_n _)) as H.
  rewrite string_app_nil_r in H. rewrite H. reflexivity.
Qed.

Lemma keys_ok_earlier (a b : list string) (k : string) :
  keys_ok (a ++ k :: b) = true ->
  forall k', In k' a -> k <> k' /\ comes_before k k' = false.
Proof.
  induction a as [|x a IH]; intros H k' Hin; [destruct Hin|].
  cbn [app keys_ok] in H. apply andb_true_iff in H. destruct H as [Hx Ha].
  destruct Hin as [<-|Hin]; [|now apply IH].
  rewrite forallb_forall in Hx. specialize (Hx k).
  rewrite in_app_iff in Hx. specialize (Hx (or_intror (or_introl eq_refl))).
  apply andb_true_iff in Hx. destruct Hx as [H1 H2].
  apply negb_true_iff in H1, H2. apply bool_decide_eq_false_1 in H1. tauto.
Qed.

Lemma object_set_new (k : string) (v : Json) (object : list (string * Json)) :
  (forall kv, In kv object -> k <> fst kv /\ comes_before k (fst kv) = false) ->
  object_set k v object = object ++ [(k, v)].
Proof.
  intros H. unfold object_set.
  assert (Hhas : has_key k object = false).
  { unfold has_key. apply not_true_is_false. intros Hex.
    apply existsb_exists in Hex. destruct Hex as [kv [Hin Heq]].
    apply bool_decide_eq_true_1 in Heq. destruct (H kv Hin) as [Hne _]. congruence. }
  rewrite Hhas. clear Hhas.
  induction object as [|[k' v'] object IH]; [reflexivity|].
  cbn [insert_key app].
  destruct (H (k', v') (or_introl eq_refl)) as [_ Hb]. cbn [fst] in Hb. rewrite Hb.
  rewrite IH; [reflexivity|]. intros kv Hin. apply H. now right.
Qed.

Lemma object_of_ok (members : list (string * Json)) :
  keys_ok (map fst members) = true -> object_of members = members.
Proof.
  unfold object_of.
  enough (forall object,
            keys_ok (map fst (object ++ members)) = true ->
            fold_left (fun o kv => object_set (fst kv) (snd kv) o) members object
            = object ++ members) as H by (intros Hk; now apply (H [])).
  induction members as [|[k v] members IH]; intros object Hk.
  - now rewrite app_nil_r.
  - cbn [fold_left fst snd]. rewrite object_set_new.
    + rewrite IH; rewrite <- app_assoc; [reflexivity | exact Hk].
    + intros kv Hin. rewrite map_app in Hk. cbn [map fst] in Hk.
      apply (keys_ok_earlier _ _ _ Hk). now apply in_map.
Qed.

Lemma map_id_Forall {A} (f : A -> A) (l : list A) :
  Forall (fun x => f x = x) l -> map f l = l.
Proof.
  induction 1 as [|x l Hx _ IH]; [reflexivity|]. cbn. now rewrite Hx, IH.
Qed.

(** A document that JavaScript can hold is read back as it is. *)
Lemma normalize_ok (j : Json) : json_ok j = true -> normalize j = j.
Proof.
  induction j as [| b | n | s | items IH | members IH] using Json_induction;
    intros Hok; try reflexivity.
  - cbn [normalize json_ok] in *. f_equal. apply map_id_Forall.
    rewrite forallb_forall in Hok. rewrite List.Forall_forall in *.
    intros v Hv. apply IH; [exact Hv | now apply Hok].
  - cbn [normalize json_ok] in *. apply andb_true_iff in Hok.
    destruct Hok as [Hkeys Hok].
    assert (Hsame : map (fun kv => (fst kv, normalize (snd kv))) members = members).
    { apply map_id_Forall. rewrite forallb_forall in Hok.
      rewrite List.Forall_forall in *. intros [k v] Hkv. cbn [fst snd].
      f_equal. apply (IH (k, v) Hkv). apply (Hok (k, v) Hkv). }
    rewrite Hsame. f_equal. now apply object_of_ok.
Qed.

Lemma JSON_parse_text (j : Json) :
  json_ok j = true -> JSON_parse (JSON_text j) = Some j.
Proof.
  intros Hok. rewrite JSON_parse_text_total. now rewrite normalize_ok.
Qed.

Lemma JSON_text_not_empty (j : Json) : JSON_text j <> "".
Proof.
  destruct (JSON_text_head j) as [c [t [-> _]]]. discriminate.
Qed.

(** Lists of strings. *)
Lemma JSON_text_strings (l : list string) :
  JSON_text (json_of_strings l) = JSON_stringify_strings l.
Proof.
  unfold json_of_strings, JSON_stringify_strings. cbn [JSON_text].
  now rewrite map_map.
Qed.

Lemma normalize_strings (l : list string) :
  normalize (json_of_strings l) = json_of_strings l.
Proof.
  unfold json_of_strings. cbn [normalize]. f_equal.
  rewrite map_map. reflexivity.
Qed.

Lemma strings_of_json_of_strings (l : list string) :
  strings_of_json (json_of_strings l) = Some l.
Proof.
  unfold strings_of_json, json_of_strings.
  induction l as [|s l IH]; [reflexivity|]. cbn. now rewrite IH.
Qed.

Lemma JSON_parse_strings (l : list string) :
  JSON_parse (JSON_stringify_strings l) = Some (json_of_strings l).
Proof.
  now rewrite <- JSON_text_strings, JSON_parse_text_total, normalize_strings.
Qed.

(** The [CIInfo] of a run. *)
Lemma json_ok_CIInfo (c : CIInfo) : json_ok (json_of_CIInfo c) = true.
Proof.
  destruct c as [[?|] [?|] [?|] [?|] [?|] [?|] [?|]]; reflexivity.
Qed.

Lemma CIInfo_of_json_of_CIInfo (c : CIInfo) :
  CIInfo_of_json (json_of_CIInfo c) = Some c.
Proof.
  destruct c as [[?|] [?|] [?|] [?|] [?|] [?|] [?|]]; reflexivity.
Qed.

(** ** Round trip of a run *)

Lemma string_or_null_text (text : string) :
  text <> "" -> string_or_null (Some text) = Some text.
Proof.
  intros H. unfold string_or_null. now rewrite bool_decide_eq_false_2.
Qed.

Lemma JSON_stringify_strings_not_empty (l : list string) :
  JSON_stringify_strings l <> "".
Proof. rewrite <- JSON_text_strings. apply JSON_text_not_empty. Qed.

Lemma kept_number_stored (o : Optional Z) :
  kept_number o -> nullable (number_or_null (defined o)) = o.
Proof.
  intros [->|[n [-> Hn]]]; [reflexivity|]. cbn.
  now rewrite (proj2 (Z.eqb_neq n 0) Hn).
Qed.

(** What [mapRowToTestRun] reads from the three JSON columns. *)
Lemma read_spec_files (l : list string) :
  JSON_parse_as strings_of_json [] (JSON_stringify_strings l) = l.
Proof.
  unfold JSON_parse_as. rewrite JSON_parse_strings.
  change (default [] (strings_of_json (json_of_strings l)) = l).
  now rewrite strings_of_json_of_strings.
Qed.

Lemma read_config (j : Json) :
  JSON_parse_as Some (JObj []) (JSON_text j) = normalize j.
Proof. unfold JSON_parse_as. now rewrite JSON_parse_text_total. Qed.

Lemma read_ci_info (c : CIInfo) :
  JSON_parse_as (fun j => Some (CIInfo_of_json j)) None (JSON_text (json_of_CIInfo c))
  = Some c.
Proof.
  unfold JSON_parse_as. rewrite JSON_parse_text by apply json_ok_CIInfo.
  change (CIInfo_of_json (json_of_CIInfo c) = Some c).
  apply CIInfo_of_json_of_CIInfo.
Qed.

(** The run that [findById] returns for a row that [create] wrote. *)
Lemma mapRowToTestRun_created (row : RunRow.t) (specFiles : list string) (config : Json) :
  RunRow.spec_files row = Some specFiles ->
  RunRow.config row = Some config ->
  TestRunRepositoryImpl.mapRowToTestRun row
  = TestRun.mk (RunRow.id row) (RunRow.start_time row) (RunRow.end_time row)
      (nullable (RunRow.duration row)) (RunRow.total_tests row) (RunRow.passed row)
      (RunRow.failed row) (RunRow.skipped row) (RunRow.pending row)
      (RunRow.retries row) (RunRow.browser_name row) (RunRow.browser_version row)
      (RunRow.cypress_version row) specFiles (normalize config) (RunRow.ci_info row)
      (RunRow.status row) [].
Proof.
  intros Hs Hc. unfold TestRunRepositoryImpl.mapRowToTestRun,
    TestRunRepositoryImpl.spec_files_text, TestRunRepositoryImpl.config_text,
    TestRunRepositoryImpl.ci_info_text.
  rewrite Hs, Hc. cbn [option_map].
  rewrite (string_or_null_text _ (JSON_stringify_strings_not_empty specFiles)).
  rewrite (string_or_null_text _ (JSON_text_not_empty config)).
  rewrite read_spec_files, read_config.
  destruct (RunRow.ci_info row) as [c|]; cbn [option_map]; [|reflexivity].
  rewrite (string_or_null_text _ (JSON_text_not_empty (json_of_CIInfo c))).
  now rewrite read_ci_info.
Qed.

(** The claim C5 as it is stated fails: the fetched run has no results
    where the created one has one; it has the duration [null] where the
    created one has duration zero; and it has the duration [null] where
    the created one, like every run the reporter creates at the start,
    has none. *)
Lemma round_trip_is_not_exact :
  ~ round_trip (fun created => created) "run-1" 5000 finished_run empty_store
  /\ ~ round_trip (fun created => without_results created) "run-1" 5000 instant_run
         empty_store
  /\ ~ round_trip (fun created => without_results created) "run-1" 5000 started_run
         empty_store.
Proof.
  split; [|split]; intros H.
  - specialize (H _ _ eq_refl). vm_compute in H. discriminate H.
  - specialize (H _ _ eq_refl). vm_compute in H. discriminate H.
  - specialize (H _ _ eq_refl). vm_compute in H. discriminate H.
Qed.

(** C5, amended.  For every run [e] whose duration is [null] or a number
    other than zero and whose [config] is a JSON document, and every
    generated id that is not taken: [create(e)] stores the run, and
    [findById] with the id of the created run then yields the created
    run field for field (timestamps to the millisecond; duration,
    endTime, specFiles, config and ciInfo included, the last three read
    back from their JSON text), except that [results] is empty. *)
Theorem create_then_findById :
  forall (generateId : string) (now : Timestamp) (e : TestRun.t) (st : Store),
    has_run generateId st = false ->
    kept_number (TestRun.duration e) ->
    json_ok (TestRun.config e) = true ->
    exists created st',
      TestRunRepositoryImpl.create generateId now e st = (Ok created, st')
      /\ created = TestRunRepositoryImpl.with_id generateId e
      /\ TestRunRepositoryImpl.findById (TestRun.id created) st'
         = (Ok (Some (without_results created)), st')
      /\ round_trip without_results generateId now e st.
Proof.
  intros gen now e st Hfresh Hd Hok.
  assert (Hcreate : exists st',
             TestRunRepositoryImpl.create gen now e st
             = (Ok (TestRunRepositoryImpl.with_id gen e), st')
             /\ TestRunRepositoryImpl.findById gen st'
                = (Ok (Some (without_results (TestRunRepositoryImpl.with_id gen e))), st')).
  { unfold TestRunRepositoryImpl.create, db_bind, insert_test_run, db_ret.
    cbn [RunRow.id TestRun.id TestRunRepositoryImpl.with_id]. rewrite Hfresh.
    eexists. split; [reflexivity|].
    unfold TestRunRepositoryImpl.findById, db_bind, select, db_ret.
    cbn [test_runs].
    rewrite List.filter_app, (filter_none _ (test_runs st)) by now apply has_run_false.
    cbn [List.filter app RunRow.id]. rewrite bool_decide_eq_true_2 by reflexivity.
    cbn [head option_map].
    erewrite mapRowToTestRun_created by reflexivity.
    cbn [RunRow.duration RunRow.id RunRow.start_time RunRow.end_time
         RunRow.total_tests RunRow.passed RunRow.failed RunRow.skipped
         RunRow.pending RunRow.retries RunRow.browser_name RunRow.browser_version
         RunRow.cypress_version RunRow.ci_info RunRow.status
         TestRunRepositoryImpl.with_id TestRun.duration TestRun.config].
    rewrite (kept_number_stored _ Hd), (normalize_ok _ Hok). reflexivity. }
  destruct Hcreate as [st' [Hc Hf]].
  exists (TestRunRepositoryImpl.with_id gen e), st'.
  split; [exact Hc|]. split; [reflexivity|]. split; [exact Hf|].
  intros created st'' Heq. rewrite Hc in Heq. injection Heq as <- <-. exact Hf.
Qed.

Lemma create_then_findById_witness :
  exists created st',
    TestRunRepositoryImpl.create "run-3" 5000 archived_run sample_store = (Ok created, st')
    /\ TestRunRepositoryImpl.findById "run-3" st'
       = (Ok (Some (without_results created)), st')
    /\ TestRun.specFiles created = TestRun.specFiles archived_run
    /\ RunRow.spec_files <$> last (test_runs st')
       = Some (Some (TestRun.specFiles archived_run)).
Proof.
  destruct (create_then_findById "run-3" 5000 archived_run sample_store)
    as [created [st' [Hc [Hcreated [Hf _]]]]].
  - reflexivity.
  - right. exists 1200. split; [reflexivity | discriminate].
  - reflexivity.
  - exists created, st'. split; [exact Hc|]. rewrite Hcreated in Hf. cbn in Hf.
    split; [rewrite Hcreated; exact Hf|].
    split; [now rewrite Hcreated|].
    assert (Hst : st' = snd (TestRunRepositoryImpl.create "run-3" 5000 archived_run
                               sample_store)) by now rewrite Hc.
    rewrite Hst. reflexivity.
Defined.

(** ** Updates, column by column *)

Section ColumnUpdates.
Context {C R : Type} `{EqDecision C}.
Variable get : C -> R -> SqlValue.
Variable set : C -> SqlValue -> R -> R.
Variable accepts : C -> SqlValue -> bool.
Variable of_name : string -> option C.
Variable rule : string -> JsValue -> list (string * SqlValue).

Hypothesis get_set :
  forall c c' v r,
    accepts c' v = true ->
    get c (set c' v r) = if bool_decide (c = c') then v else get c r.


Lemma resolve_sets_unknown (sets : list (string * SqlValue)) :
  resolvable of_name sets = false ->
  exists message, resolve_sets of_name sets = Err (SqliteError message).
Proof.
  induction sets as [|[n v] rest IH]; simpl; intros H; [discriminate|].
  destruct (of_name n); simpl in H.
  - destruct (IH H) as [m ->]. eauto.
  - eauto.
Qed.

Lemma resolvable_app (a b : list (string * SqlValue)) :
  resolvable of_name (a ++ b) = resolvable of_name a && resolvable of_name b.
Proof. apply forallb_app. Qed.










End ColumnUpdates.











Lemma has_result_false (id : string) (st : Store) :
  has_result id st = false ->
  forall r, In r (test_results st) -> bool_decide (ResultRow.id r = id) = false.
Proof.
  intros H r Hr. destruct (bool_decide (ResultRow.id r = id)) eqn:E; [|reflexivity].
  apply bool_decide_eq_true in E.
  assert (has_result id st = true) by (apply has_result_In; eauto). congruence.
Qed.

Lemma has_result_count (id : string) (st : Store) :
  has_result id st = true ->
  Z.of_nat (length (List.filter (fun r => bool_decide (ResultRow.id r = id))
                      (test_results st))) <> 0.
Proof.
  intros H Hz. apply has_result_In in H. destruct H as [r [Hr Hid]].
  assert (Hn : length (List.filter (fun r => bool_decide (ResultRow.id r = id))
                         (test_results st)) = 0%nat) by lia.
  pose proof (filter_length_zero _ _ Hn r Hr) as Hf. simpl in Hf.
  apply bool_decide_eq_false in Hf. contradiction.
Qed.




(** Two keys have no column of their name: [results] of a run and
    [screenshot] of a result (the column is [screenshot_path]).  A patch
    that defines one of them is rejected by the engine, whatever the
    rows. *)
Lemma update_with_results_is_rejected (id : string) (p : TestRunPatch.t)
    (now : Timestamp) (st : Store) :
  TestRunPatch.results p <> None ->
  exists message,
    TestRunRepositoryImpl.update id p now st = (Err (SqliteError message), st).
Proof.
  destruct p. simpl. intros Hr.
  destruct results as [l|]; [clear Hr|congruence].
  unfold TestRunRepositoryImpl.update, build_set_clause, TestRunPatch.entries.
  cbn [flat_map].
  match goal with
  | |- context [match ?sets with [] => _ | _ :: _ => _ end] =>
      assert (Hun : resolvable run_col_of_name sets = false)
        by (rewrite !resolvable_app; cbn; now rewrite ?andb_false_r);
      destruct sets as [|s0 sets'] eqn:Hsets; [discriminate Hun|]
  end.
  destruct (resolve_sets_unknown run_col_of_name _ Hun) as [message Hm].
  exists message. unfold db_bind, update_test_runs. now rewrite Hm.
Qed.

Lemma update_with_screenshot_is_rejected (id : string) (p : TestResultPatch.t)
    (now : Timestamp) (st : Store) :
  TestResultPatch.screenshot p <> None ->
  exists message,
    TestResultRepositoryImpl.update id p now st = (Err (SqliteError message), st).
Proof.
  destruct p. simpl. intros Hs.
  destruct screenshot as [path|]; [clear Hs|congruence].
  unfold TestResultRepositoryImpl.update, build_set_clause, TestResultPatch.entries.
  cbn [flat_map].
  match goal with
  | |- context [match ?sets with [] => _ | _ :: _ => _ end] =>
      assert (Hun : resolvable res_col_of_name sets = false)
        by (rewrite !resolvable_app; cbn; now rewrite ?andb_false_r, ?andb_false_l);
      destruct sets as [|s0 sets'] eqn:Hsets; [discriminate Hun|]
  end.
  destruct (resolve_sets_unknown res_col_of_name _ Hun) as [message Hm].
  exists message. unfold db_bind, update_test_results. now rewrite Hm.
Qed.

(** ** Flaky tests *)

Lemma unique_In {A} `{EqDecision A} (l : list A) (x : A) :
  In x (unique l) <-> In x l.
Proof.
  induction l as [|y l IH]; [reflexivity|].
  change (unique (y :: l))
    with (y :: List.filter (fun z => negb (bool_decide (z = y))) (unique l)).
  split.
  - intros [->|H]; [now left|].
    apply filter_In in H. right. apply IH. tauto.
  - intros [->|H]; [now left|].
    destruct (decide (x = y)) as [->|Hne]; [now left|].
    right. apply filter_In. split; [now apply IH|].
    now apply negb_true_iff, bool_decide_eq_false.
Qed.

Lemma unique_NoDup {A} `{EqDecision A} (l : list A) : List.NoDup (unique l).
Proof.
  induction l as [|y l IH]; [constructor|].
  change (unique (y :: l))
    with (y :: List.filter (fun z => negb (bool_decide (z = y))) (unique l)).
  constructor.
  - intros H. apply filter_In in H. destruct H as [_ H].
    apply negb_true_iff, bool_decide_eq_false in H. congruence.
  - now apply List.NoDup_filter.
Qed.

Lemma filter_filter {A} (f g : A -> bool) (l : list A) :
  List.filter f (List.filter g l) = List.filter (fun x => g x && f x) l.
Proof.
  induction l as [|x l IH]; simpl; [reflexivity|].
  destruct (g x); simpl; [destruct (f x)|]; now rewrite IH.
Qed.

Lemma filter_ext_eq {A} (f g : A -> bool) (l : list A) :
  (forall x, f x = g x) -> List.filter f l = List.filter g l.
Proof. intros H. apply filter_ext. exact H. Qed.

Lemma group_key_eqb (r : ResultRow.t) (title file : string) :
  bool_decide (TestResultRepositoryImpl.group_key r = (title, file))
  = bool_decide (ResultRow.full_title r = title) && bool_decide (ResultRow.file r = file).
Proof.
  unfold TestResultRepositoryImpl.group_key.
  destruct (decide (ResultRow.full_title r = title)) as [Ht|Ht],
           (decide (ResultRow.file r = file)) as [Hf|Hf].
  - rewrite (bool_decide_eq_true_2 (ResultRow.full_title r = title)) by assumption.
    rewrite (bool_decide_eq_true_2 (ResultRow.file r = file)) by assumption.
    apply bool_decide_eq_true_2. congruence.
  - rewrite (bool_decide_eq_false_2 (ResultRow.file r = file)) by assumption.
    rewrite andb_false_r. apply bool_decide_eq_false_2. congruence.
  - rewrite (bool_decide_eq_false_2 (ResultRow.full_title r = title)) by assumption.
    apply bool_decide_eq_false_2. congruence.
  - rewrite (bool_decide_eq_false_2 (ResultRow.full_title r = title)) by assumption.
    apply bool_decide_eq_false_2. congruence.
Qed.

Lemma members_group_rows (now : Timestamp) (st : Store) (title file : string) :
  List.filter (fun r => bool_decide (TestResultRepositoryImpl.group_key r = (title, file)))
    (recent_rows now st)
  = group_rows (since_day_30_back now) title file st.
Proof.
  unfold recent_rows, group_rows. rewrite filter_filter.
  apply filter_ext_eq. intros r. rewrite group_key_eqb.
  unfold since_day_30_back, TestResultRepositoryImpl.window_start.
  now rewrite andb_assoc.
Qed.

Lemma aggregate_summary (now : Timestamp) (st : Store) (title file : string) :
  TestResultRepositoryImpl.aggregate (title, file) (recent_rows now st)
  = summary (since_day_30_back now) title file st.
Proof.
  unfold TestResultRepositoryImpl.aggregate, summary, group_ratio, group_total,
    group_failed, TestResultRepositoryImpl.count_failed.
  now rewrite members_group_rows.
Qed.

Lemma flaky_order_before (a b : FlakyGroup) :
  TestResultRepositoryImpl.flaky_order a b = true <-> flaky_before a b.
Proof.
  unfold TestResultRepositoryImpl.flaky_order, flaky_before.
  destruct (Qeq_bool (flaky_rate a) (flaky_rate b)) eqn:E.
  - apply Qeq_bool_iff in E. rewrite Z.leb_le. split.
    + intros H. right. split; assumption.
    + intros [H|[_ H]]; [|assumption]. exfalso. lra.
  - rewrite Qle_bool_iff.
    assert (Hne : ~ (flaky_rate a == flaky_rate b)%Q).
    { intros H. apply Qeq_bool_iff in H. congruence. }
    split.
    + intros H. left. apply Qle_lt_or_eq in H. destruct H as [H|H]; [assumption|].
      exfalso. apply Hne. symmetry. assumption.
    + intros [H|[H _]]; [apply Qlt_le_weak; assumption | contradiction].
Qed.

Lemma flaky_before_total (a b : FlakyGroup) : flaky_before a b \/ flaky_before b a.
Proof.
  unfold flaky_before.
  destruct (Q_dec (flaky_rate a) (flaky_rate b)) as [[H|H]|H].
  - right. left. assumption.
  - left. left. assumption.
  - destruct (Z.le_ge_cases (total_runs a) (total_runs b)).
    + right. right. split; [symmetry; assumption | assumption].
    + left. right. split; assumption.
Qed.

Lemma flaky_before_trans (a b c : FlakyGroup) :
  flaky_before a b -> flaky_before b c -> flaky_before a c.
Proof.
  unfold flaky_before. intros [H1|[H1 L1]] [H2|[H2 L2]].
  - left. lra.
  - left. lra.
  - left. lra.
  - right. split; [lra | lia].
Qed.

Lemma StronglySorted_impl {A} (P Q : A -> A -> Prop) (l : list A) :
  (forall a b, P a b -> Q a b) -> StronglySorted P l -> StronglySorted Q l.
Proof.
  intros H. induction 1 as [|x l Hs IH Hx]; constructor; [assumption|].
  eapply List.Forall_impl; [|exact Hx]. intros y. apply H.
Qed.

Lemma flaky_groups_sorted (t : Q) (now : Timestamp) (st : Store) :
  StronglySorted flaky_before (TestResultRepositoryImpl.flaky_groups t now st).
Proof.
  unfold TestResultRepositoryImpl.flaky_groups.
  eapply StronglySorted_impl; [|apply order_by_sorted].
  - intros a b. apply flaky_order_before.
  - intros a b. rewrite !flaky_order_before. apply flaky_before_total.
  - intros a b c. rewrite !flaky_order_before. apply flaky_before_trans.
Qed.

Lemma having_summary (t : Q) (window : ResultRow.t -> bool) (title file : string)
    (st : Store) :
  TestResultRepositoryImpl.having t (summary window title file st) = true
  <-> 5 <= group_total window title file st
      /\ (t <= group_ratio window title file st)%Q
      /\ (group_ratio window title file st < 1)%Q.
Proof.
  unfold TestResultRepositoryImpl.having, summary. simpl.
  rewrite !andb_true_iff, Z.leb_le, Qle_bool_iff, negb_true_iff.
  split.
  - intros [[H1 H2] H3]. repeat split; try assumption.
    apply Qnot_le_lt. intros H. apply Qle_bool_iff in H. congruence.
  - intros [H1 [H2 H3]]. repeat split; try assumption.
    destruct (Qle_bool 1 (group_ratio window title file st)) eqn:E; [|reflexivity].
    apply Qle_bool_iff in E. exfalso. lra.
Qed.

Lemma flaky_groups_In (t : Q) (now : Timestamp) (st : Store) (g : FlakyGroup) :
  In g (TestResultRepositoryImpl.flaky_groups t now st)
  <-> (exists r, In r (recent_rows now st)
                 /\ g = summary (since_day_30_back now) (ResultRow.full_title r)
                          (ResultRow.file r) st)
      /\ TestResultRepositoryImpl.having t g = true.
Proof.
  unfold TestResultRepositoryImpl.flaky_groups,
    TestResultRepositoryImpl.group_by_title_file.
  fold (recent_rows now st).
  rewrite order_by_In, filter_In, in_map_iff.
  apply and_iff_compat_r. split.
  - intros [[title file] [Hagg Hkey]].
    apply unique_In, in_map_iff in Hkey. destruct Hkey as [r [Hr Hin]].
    exists r. split; [assumption|].
    unfold TestResultRepositoryImpl.group_key in Hr. injection Hr as -> ->.
    rewrite <- Hagg. apply aggregate_summary.
  - intros [r [Hin ->]].
    exists (TestResultRepositoryImpl.group_key r). split.
    + apply aggregate_summary.
    + apply unique_In, in_map_iff. exists r. split; [reflexivity|assumption].
Qed.

Lemma group_rows_recent (now : Timestamp) (st : Store) (title file : string)
    (r : ResultRow.t) :
  In r (group_rows (since_day_30_back now) title file st)
  <-> In r (recent_rows now st)
      /\ ResultRow.full_title r = title /\ ResultRow.file r = file.
Proof.
  rewrite <- members_group_rows, filter_In, bool_decide_eq_true.
  unfold TestResultRepositoryImpl.group_key.
  split; intros [H1 H2]; split; try assumption.
  - injection H2 as -> ->. split; reflexivity.
  - destruct H2 as [-> ->]. reflexivity.
Qed.

Lemma NoDup_map_injective {A B} (f : A -> B) (l : list A) :
  (forall x y, f x = f y -> x = y) -> List.NoDup l -> List.NoDup (map f l).
Proof.
  intros Hf. induction 1 as [|x l Hx Hl IH]; simpl; constructor; [|assumption].
  intros H. apply in_map_iff in H. destruct H as [y [Hy Hin]].
  apply Hf in Hy. subst y. contradiction.
Qed.

Lemma flaky_groups_NoDup (t : Q) (now : Timestamp) (st : Store) :
  List.NoDup (TestResultRepositoryImpl.flaky_groups t now st).
Proof.
  unfold TestResultRepositoryImpl.flaky_groups,
    TestResultRepositoryImpl.group_by_title_file.
  eapply Permutation_NoDup; [symmetry; apply order_by_perm|].
  apply List.NoDup_filter.
  apply NoDup_map_injective; [|apply unique_NoDup].
  intros [t1 f1] [t2 f2] H.
  unfold TestResultRepositoryImpl.aggregate in H. simpl in H.
  injection H as -> ->. reflexivity.
Qed.

Lemma flaky_spec_holds (t : Q) (now : Timestamp) (st : Store) :
  flaky_spec since_day_30_back t now st.
Proof.
  exists (TestResultRepositoryImpl.flaky_groups t now st).
  split; [reflexivity|]. split; [|split; [|split]].
  - intros g Hg. apply flaky_groups_In in Hg.
    destruct Hg as [[r [_ ->]] _]. reflexivity.
  - intros title file. rewrite flaky_groups_In, having_summary.
    split; [tauto|]. intros H. split; [|assumption].
    destruct H as [H5 _]. unfold group_total in H5.
    destruct (group_rows (since_day_30_back now) title file st) as [|r rows] eqn:Hrows;
      [simpl in H5; lia|].
    assert (Hr : In r (group_rows (since_day_30_back now) title file st))
      by (rewrite Hrows; now left).
    apply group_rows_recent in Hr. destruct Hr as [Hr [<- <-]].
    exists r. split; [assumption|reflexivity].
  - apply flaky_groups_sorted.
  - apply flaky_groups_NoDup.
Qed.

Lemma reports_iff (t : Q) (now : Timestamp) (st : Store) (title file : string) :
  reports t now st title file
  <-> 5 <= group_total (since_day_30_back now) title file st
      /\ (t <= group_ratio (since_day_30_back now) title file st)%Q
      /\ (group_ratio (since_day_30_back now) title file st < 1)%Q.
Proof.
  destruct (flaky_spec_holds t now st) as [groups [Heq [Hsum [Hiff _]]]].
  rewrite <- Hiff. unfold reports. rewrite Heq. split.
  - intros [tests [ft [Ht [Hin [Htitle Hfile]]]]].
    injection Ht as <-. apply in_map_iff in Hin. destruct Hin as [g [<- Hg]].
    simpl in Htitle, Hfile. rewrite (Hsum g Hg) in Hg. now subst.
  - intros Hin. eexists. eexists. split; [reflexivity|].
    split; [apply in_map; exact Hin|]. split; reflexivity.
Qed.

(** The claim C1 as it is stated fails: the five results of
    [day_30_back_store] started more than thirty days before [flaky_now],
    and the test is reported. *)
Lemma findFlaky_window_is_by_calendar_day :
  (forall r, In r (test_results day_30_back_store) ->
             ResultRow.start_time r < flaky_now - 30 * day_ms)
  /\ ~ flaky_spec last_30_days (1 # 10) flaky_now day_30_back_store.
Proof.
  split.
  - intros r Hr. simpl in Hr.
    repeat (destruct Hr as [<-|Hr]; [reflexivity|]). contradiction.
  - intros [groups [Heq [Hsum _]]].
    assert (Hc : match fst (TestResultRepositoryImpl.findFlaky (Some (1 # 10)%Q) flaky_now
                               day_30_back_store) with
                 | Ok tests => map FlakyTest.totalRuns tests
                 | Err _ => []
                 end = [5]) by (vm_compute; reflexivity).
    rewrite Heq in Hc. simpl in Hc. rewrite map_map in Hc. simpl in Hc.
    destruct groups as [|g groups]; [discriminate|].
    injection Hc as Hc _.
    rewrite (Hsum g (or_introl eq_refl)) in Hc. simpl in Hc.
    unfold group_total, group_rows in Hc.
    rewrite filter_none in Hc; [discriminate|].
    intros r Hr. simpl in Hr.
    repeat (destruct Hr as [<-|Hr]; [reflexivity|]). contradiction.
Qed.

(** C1, amended.  For every threshold [t], [findFlaky(t)] returns exactly
    the groups of stored results keyed by (full title, file), among the
    results that started on or after the beginning (UTC) of the calendar
    day thirty days before now, whose total is at least 5 and whose
    failure ratio satisfies t <= ratio < 1, each once, sorted by ratio
    descending then by total descending; the default threshold is 0.1; a
    test with 10 such results of which 2 failed is reported at 0.1 and not
    at 0.3, and a test all of whose results failed is never reported. *)
Theorem findFlaky_reports_flaky_groups :
  (forall t now st, flaky_spec since_day_30_back t now st)
  /\ (forall now st,
        TestResultRepositoryImpl.findFlaky None now st
        = TestResultRepositoryImpl.findFlaky (Some (1 # 10)%Q) now st)
  /\ (forall now st title file,
        group_total (since_day_30_back now) title file st = 10 ->
        group_failed (since_day_30_back now) title file st = 2 ->
        reports (1 # 10) now st title file /\ ~ reports (3 # 10) now st title file)
  /\ (forall t now st title file,
        group_failed (since_day_30_back now) title file st
        = group_total (since_day_30_back now) title file st ->
        ~ reports t now st title file).
Proof.
  split; [exact flaky_spec_holds|]. split; [reflexivity|]. split.
  - intros now st title file Htotal Hfailed.
    rewrite !reports_iff. unfold group_ratio. rewrite Htotal, Hfailed.
    split.
    + split; [lia|]. split; [discriminate | reflexivity].
    + intros [_ [H _]]. apply H. reflexivity.
  - intros t now st title file Hall.
    rewrite reports_iff. unfold group_ratio. rewrite Hall.
    intros [H5 [_ Hlt]].
    apply (Qlt_irrefl 1). eapply Qle_lt_trans; [|exact Hlt].
    unfold Qdiv. rewrite Qmult_inv_r; [apply Qle_refl|].
    intros H0. unfold Qeq in H0. simpl in H0. lia.
Qed.

Lemma findFlaky_reports_flaky_groups_witness :
  (reports (1 # 10) flaky_now ten_two_store "suite logs in" "a.cy.ts"
   /\ ~ reports (3 # 10) flaky_now ten_two_store "suite logs in" "a.cy.ts")
  /\ ~ reports (1 # 10) flaky_now ten_two_store "suite pays" "a.cy.ts".
Proof.
  destruct findFlaky_reports_flaky_groups as [_ [_ [Hten Hall]]].
  split.
  - apply Hten; reflexivity.
  - apply Hall; reflexivity.
Defined.

(** ** [LIKE] *)

Lemma like_chars_percent (p t : list string) :
  like_chars ("%" :: p) t
  = like_chars p t
    || match t with
       | [] => false
       | _ :: t' => like_chars ("%" :: p) t'
       end.
Proof. destruct t; reflexivity. Qed.

Lemma like_chars_other (p0 : string) (p t : list string) :
  p0 <> "%" ->
  like_chars (p0 :: p) t
  = match t with
    | [] => false
    | c :: t' => (bool_decide (p0 = "_") || like_char_eq p0 c) && like_chars p t'
    end.
Proof.
  intros H. cbn [like_chars]. now rewrite bool_decide_eq_false_2 by assumption.
Qed.

Lemma like_chars_skip (skipped p t : list string) :
  like_chars p t = true -> like_chars ("%" :: p) (skipped ++ t) = true.
Proof.
  intros H. induction skipped as [|c skipped IH]; rewrite like_chars_percent.
  - simpl. now rewrite H.
  - cbn [app]. rewrite IH. apply orb_true_r.
Qed.

(** The matcher decides [instance_of]. *)
Lemma like_chars_instance (p t : list string) :
  like_chars p t = true <-> instance_of p t.
Proof.
  split.
  - revert t. induction p as [|p0 p IH]; intros t H.
    + destruct t; [constructor | discriminate].
    + destruct (decide (p0 = "%")) as [->|Hp].
      * induction t as [|c t IHt]; rewrite like_chars_percent in H.
        -- rewrite orb_false_r in H. apply (instance_run [] p []). now apply IH.
        -- apply orb_true_iff in H. destruct H as [H|H].
           ++ apply (instance_run [] p (c :: t)). now apply IH.
           ++ specialize (IHt H).
              inversion IHt as [|skipped p' t' Hi| |]; subst; [|congruence..].
              apply (instance_run (c :: skipped) p t'). exact Hi.
      * rewrite like_chars_other in H by assumption.
        destruct t as [|c t]; [discriminate|].
        apply andb_true_iff in H. destruct H as [Hc H].
        apply orb_true_iff in Hc. destruct Hc as [Hc|Hc].
        -- apply bool_decide_eq_true_1 in Hc. subst p0. constructor. now apply IH.
        -- destruct (decide (p0 = "_")) as [->|Hu]; [constructor; now apply IH|].
           apply instance_same; try assumption.
           ++ apply bool_decide_eq_true_1 in Hc. exact Hc.
           ++ now apply IH.
  - induction 1 as [|skipped p t _ IH|ch p t _ IH|a b p t Ha Hu Hab _ IH].
    + reflexivity.
    + now apply like_chars_skip.
    + rewrite like_chars_other by discriminate. rewrite IH. reflexivity.
    + rewrite like_chars_other by assumption. rewrite IH.
      unfold like_char_eq. rewrite (bool_decide_eq_true_2 _ Hab).
      now rewrite orb_true_r.
Qed.

Lemma instance_of_percent (t : list string) : instance_of ["%"] t.
Proof.
  rewrite <- (app_nil_r t). apply instance_run. constructor.
Qed.

Lemma instance_of_app (p q t : list string) :
  instance_of (p ++ q) t
  <-> exists t1 t2, t = t1 ++ t2 /\ instance_of p t1 /\ instance_of q t2.
Proof.
  split.
  - revert t. induction p as [|p0 p IH]; intros t H.
    + exists [], t. repeat split; [constructor | assumption].
    + cbn [app] in H.
      inversion H as [|skipped p' t' Hi|ch p' t' Hi|a b p' t' Ha Hu Hab Hi]; subst.
      * destruct (IH _ Hi) as [t1 [t2 [-> [H1 H2]]]].
        exists (skipped ++ t1), t2. rewrite app_assoc.
        repeat split; [now constructor | assumption].
      * destruct (IH _ Hi) as [t1 [t2 [-> [H1 H2]]]].
        exists (ch :: t1), t2. repeat split; [now constructor | assumption].
      * destruct (IH _ Hi) as [t1 [t2 [-> [H1 H2]]]].
        exists (b :: t1), t2. repeat split; [now constructor | assumption].
  - intros [t1 [t2 [-> [H1 H2]]]].
    induction H1 as [|skipped p t _ IH|ch p t _ IH|a b p t Ha Hu Hab _ IH]; cbn [app].
    + assumption.
    + rewrite <- app_assoc. now constructor.
    + now constructor.
    + now constructor.
Qed.

(** Between two [%], a pattern matches a text when an instance of it
    occurs in the text. *)
Lemma like_chars_between (p t : list string) :
  like_chars ("%" :: p ++ ["%"]) t = true
  <-> exists before mid after, t = before ++ mid ++ after /\ instance_of p mid.
Proof.
  rewrite like_chars_instance. split.
  - intros H.
    inversion H as [|skipped p' t' Hi| |]; subst; [|congruence..].
    apply instance_of_app in Hi. destruct Hi as [mid [after [-> [Hmid _]]]].
    now exists skipped, mid, after.
  - intros [before [mid [after [-> Hmid]]]].
    apply instance_run. apply instance_of_app.
    exists mid, after. repeat split; [assumption | apply instance_of_percent].
Qed.

Lemma continuation_run_snoc (chars : list string) (x : string) :
  (forall d, x = String d EmptyString -> is_continuation d = false) ->
  continuation_run (chars ++ [x])
  = (fst (continuation_run chars), snd (continuation_run chars) ++ [x]).
Proof.
  intros Hx. induction chars as [|ch chars IH].
  - cbn [app continuation_run].
    destruct x as [|d [|? ?]]; try reflexivity.
    now rewrite (Hx d eq_refl).
  - cbn [app continuation_run].
    destruct ch as [|d [|? ?]]; try reflexivity.
    destruct (is_continuation d); [|reflexivity].
    rewrite IH. now destruct (continuation_run chars).
Qed.

Lemma characters_snoc (s : string) (c : ascii) :
  is_lead c = false -> is_continuation c = false ->
  characters (s +:+ String c EmptyString) = characters s ++ [String c EmptyString].
Proof.
  intros Hl Hc. induction s as [|d s IH].
  - change (characters (String c EmptyString) = [String c EmptyString]).
    cbn [characters]. now rewrite Hl.
  - change (String d s +:+ String c EmptyString)
      with (String d (s +:+ String c EmptyString)).
    cbn [characters]. rewrite IH.
    destruct (is_lead d); [|reflexivity].
    rewrite continuation_run_snoc by (intros ? [= <-]; exact Hc).
    now destruct (continuation_run (characters s)).
Qed.

Lemma characters_between (needle : string) :
  characters ("%" +:+ needle +:+ "%") = "%" :: characters needle ++ ["%"].
Proof.
  change ("%" +:+ needle +:+ "%") with (String "%" (needle +:+ "%")).
  cbn [characters]. change (is_lead "%") with false. cbn iota.
  now rewrite characters_snoc.
Qed.

(** What the query computes is the containment of an instance. *)
Lemma like_match_wildcard (needle : string) (column : option string) :
  like_match needle column <-> wildcard_match needle column.
Proof.
  unfold like_match, wildcard_match, like_contains, sql_like.
  destruct column as [text|].
  - rewrite characters_between, like_chars_between. split.
    + intros [before [mid [after [Heq H]]]]. now exists text, before, mid, after.
    + intros [text' [before [mid [after [[= <-] [Heq H]]]]]]. now exists before, mid, after.
  - split; [discriminate|]. intros [text [before [mid [after [Heq _]]]]]. discriminate.
Qed.

(** Without wildcards an instance is the pattern itself up to letter
    case. *)
Lemma instance_of_literal (p t : list string) :
  Forall literal p -> (instance_of p t <-> Forall2 same_letter p t).
Proof.
  intros Hp. split.
  - induction 1 as [|skipped p t _ IH|ch p t _ IH|a b p t Ha Hu Hab _ IH].
    + constructor.
    + inversion Hp as [|? ? [Hx _] ?]; congruence.
    + inversion Hp as [|? ? [_ Hx] ?]; congruence.
    + inversion Hp; subst. constructor; [exact Hab | now apply IH].
  - intros H. induction H as [|a b p t Hab _ IH].
    + constructor.
    + inversion Hp as [|? ? [Ha Hu] Hp']; subst.
      apply instance_same; try assumption. now apply IH.
Qed.

(** ** Filtering results *)

Lemma conditions_spec (f : TestFilter.t) (r : ResultRow.t) :
  forallb (fun c => c r) (TestResultRepositoryImpl.conditions f) = true
  <-> satisfies like_match f r.
Proof.
  destruct f as [status specFiles dateRange duration search tags browser retries shots].
  unfold TestResultRepositoryImpl.conditions, satisfies. simpl.
  rewrite !forallb_app, !andb_true_iff.
  assert (H1 : forallb (fun c : ResultRow.t -> bool => c r)
                 match status with
                 | Some (s :: ss) => [fun r0 => includes (s :: ss) (ResultRow.state r0)]
                 | _ => []
                 end = true
               <-> (forall sts, status = Some sts -> sts <> [] -> In (ResultRow.state r) sts)).
  { destruct status as [[|s ss]|]; cbn [forallb].
    - split; [|reflexivity]. intros _ sts H. injection H as <-. congruence.
    - rewrite andb_true_r, includes_In. split.
      + intros H sts Hs _. injection Hs as <-. assumption.
      + intros H. apply (H _ eq_refl). discriminate.
    - split; [|reflexivity]. intros _ sts H. discriminate. }
  assert (H2 : forallb (fun c : ResultRow.t -> bool => c r)
                 match specFiles with
                 | Some (s :: ss) => [fun r0 => includes (s :: ss) (ResultRow.file r0)]
                 | _ => []
                 end = true
               <-> (forall files, specFiles = Some files -> files <> [] ->
                                  In (ResultRow.file r) files)).
  { destruct specFiles as [[|s ss]|]; cbn [forallb].
    - split; [|reflexivity]. intros _ sts H. injection H as <-. congruence.
    - rewrite andb_true_r, includes_In. split.
      + intros H sts Hs _. injection Hs as <-. assumption.
      + intros H. apply (H _ eq_refl). discriminate.
    - split; [|reflexivity]. intros _ sts H. discriminate. }
  assert (H3 : forallb (fun c : ResultRow.t -> bool => c r)
                 match duration with
                 | Some d =>
                     match df_min d with
                     | Some lo => [fun r0 => Z.leb lo (ResultRow.duration r0)]
                     | None => []
                     end
                     ++ match df_max d with
                        | Some hi => [fun r0 => Z.leb (ResultRow.duration r0) hi]
                        | None => []
                        end
                 | None => []
                 end = true
               <-> (forall d lo, duration = Some d -> df_min d = Some lo ->
                                 lo <= ResultRow.duration r)
                   /\ (forall d hi, duration = Some d -> df_max d = Some hi ->
                                    ResultRow.duration r <= hi)).
  { destruct duration as [[[lo|] [hi|]]|]; simpl;
      rewrite ?andb_true_r, ?andb_true_iff, ?Z.leb_le.
    - split.
      + intros [Hl Hh]. split; intros d x Hd Hx; injection Hd as <-;
          simpl in Hx; injection Hx as <-; assumption.
      + intros [Hl Hh]. split; [eapply Hl | eapply Hh]; reflexivity.
    - split.
      + intros Hl. split; intros d x Hd Hx; injection Hd as <-;
          simpl in Hx; [injection Hx as <-; assumption | discriminate].
      + intros [Hl _]. eapply Hl; reflexivity.
    - split.
      + intros Hh. split; intros d x Hd Hx; injection Hd as <-;
          simpl in Hx; [discriminate | injection Hx as <-; assumption].
      + intros [_ Hh]. eapply Hh; reflexivity.
    - split; [|reflexivity]. intros _.
      split; intros d x Hd Hx; injection Hd as <-; discriminate.
    - split; [|reflexivity]. intros _. split; intros d x Hd; discriminate. }
  assert (H4 : forallb (fun c : ResultRow.t -> bool => c r)
                 match string_or_null search with
                 | Some term =>
                     [fun r0 => like_contains term (Some (ResultRow.title r0))
                                || like_contains term (Some (ResultRow.full_title r0))
                                || like_contains term (ResultRow.error_message r0)]
                 | None => []
                 end = true
               <-> (forall term, search = Some term -> term <> "" ->
                      like_match term (Some (ResultRow.title r))
                      \/ like_match term (Some (ResultRow.full_title r))
                      \/ like_match term (ResultRow.error_message r))).
  { unfold like_match. destruct search as [term|]; simpl.
    - destruct (decide (term = "")) as [->|Hne].
      + simpl. split; [|reflexivity]. intros _ term H. injection H as <-. congruence.
      + rewrite bool_decide_eq_false_2 by assumption. simpl.
        rewrite andb_true_r, !orb_true_iff. split.
        * intros H t Ht _. injection Ht as <-. tauto.
        * intros H. specialize (H _ eq_refl Hne). tauto.
    - split; [|reflexivity]. intros _ term H. discriminate. }
  assert (H5 : forallb (fun c : ResultRow.t -> bool => c r)
                 match tags with
                 | Some (t :: ts) =>
                     [fun r0 =>
                        existsb (fun tag =>
                                   like_contains (TestResultRepositoryImpl.quoted_tag tag)
                                     (TestResultRepositoryImpl.tags_text r0)) (t :: ts)]
                 | _ => []
                 end = true
               <-> (forall tags0, tags = Some tags0 -> tags0 <> [] ->
                      exists tag, In tag tags0
                                  /\ like_match (TestResultRepositoryImpl.quoted_tag tag)
                                       (TestResultRepositoryImpl.tags_text r))).
  { unfold like_match. destruct tags as [[|t ts]|].
    - simpl. split; [|reflexivity]. intros _ l H. injection H as <-. congruence.
    - cbn [forallb]. rewrite andb_true_r, existsb_exists. split.
      + intros H l Hl _. injection Hl as <-. assumption.
      + intros H. apply (H _ eq_refl). discriminate.
    - simpl. split; [|reflexivity]. intros _ l H. discriminate. }
  assert (H6 : forallb (fun c : ResultRow.t -> bool => c r)
                 match browser with
                 | Some (b :: bs) =>
                     [fun r0 => match ResultRow.browser_name r0 with
                                | Some name => includes (b :: bs) name
                                | None => false
                                end]
                 | _ => []
                 end = true
               <-> (forall names, browser = Some names -> names <> [] ->
                      exists name, ResultRow.browser_name r = Some name /\ In name names)).
  { destruct browser as [[|b bs]|].
    - simpl. split; [|reflexivity]. intros _ l H. injection H as <-. congruence.
    - cbn [forallb]. rewrite andb_true_r. split.
      + intros H l Hl _. injection Hl as <-.
        destruct (ResultRow.browser_name r) as [name|]; [|discriminate].
        exists name. split; [reflexivity|]. now apply includes_In.
      + intros H. destruct (H _ eq_refl) as [name [-> Hin]]; [discriminate|].
        now apply includes_In.
    - simpl. split; [|reflexivity]. intros _ l H. discriminate. }
  assert (H7 : forallb (fun c : ResultRow.t -> bool => c r)
                 match retries with
                 | Some true => [fun r0 => Z.ltb 0 (ResultRow.retries r0)]
                 | _ => []
                 end = true
               <-> (retries = Some true -> 0 < ResultRow.retries r)).
  { destruct retries as [[|]|]; simpl; rewrite ?andb_true_r, ?Z.ltb_lt.
    - split; auto.
    - split; [discriminate|reflexivity].
    - split; [discriminate|reflexivity]. }
  assert (H8 : forallb (fun c : ResultRow.t -> bool => c r)
                 match shots with
                 | Some true =>
                     [fun r0 => bool_decide (ResultRow.screenshot_path r0 <> None)]
                 | Some false =>
                     [fun r0 => bool_decide (ResultRow.screenshot_path r0 = None)]
                 | None => []
                 end = true
               <-> (shots = Some true -> ResultRow.screenshot_path r <> None)
                   /\ (shots = Some false -> ResultRow.screenshot_path r = None)).
  { destruct shots as [[|]|]; simpl; rewrite ?andb_true_r, ?bool_decide_eq_true.
    - split; [intros H; split; [auto|discriminate] | intros [H _]; auto].
    - split; [intros H; split; [discriminate|auto] | intros [_ H]; auto].
    - split; [intros _; split; discriminate | reflexivity]. }
  assert (H9 : forallb (fun c : ResultRow.t -> bool => c r)
                 match dateRange with
                 | Some dr =>
                     [fun r0 => Z.leb (dr_start dr) (ResultRow.start_time r0)
                                && Z.leb (ResultRow.start_time r0) (dr_end dr)]
                 | None => []
                 end = true
               <-> (forall dr, dateRange = Some dr ->
                      dr_start dr <= ResultRow.start_time r <= dr_end dr)).
  { destruct dateRange as [dr|]; simpl.
    - rewrite andb_true_r, andb_true_iff, !Z.leb_le. split.
      + intros H dr' Hd. injection Hd as <-. assumption.
      + intros H. apply H. reflexivity.
    - split; [|reflexivity]. intros _ dr H. discriminate. }
  rewrite H1, H2, H3, H4, H5, H6, H7, H8, H9. tauto.
Qed.

Lemma results_desc_sorted (rows : list ResultRow.t) :
  StronglySorted by_start_time_desc
    (order_by TestResultRepositoryImpl.start_time_desc rows).
Proof.
  eapply StronglySorted_impl; [|apply order_by_sorted].
  - intros a b H. unfold TestResultRepositoryImpl.start_time_desc in H.
    apply Z.leb_le in H. exact H.
  - intros a b. unfold TestResultRepositoryImpl.start_time_desc.
    rewrite !Z.leb_le. lia.
  - intros a b c. unfold TestResultRepositoryImpl.start_time_desc.
    rewrite !Z.leb_le. lia.
Qed.

Lemma filter_spec_like (f : TestFilter.t) (st : Store) : filter_spec like_match f st.
Proof.
  exists (order_by TestResultRepositoryImpl.start_time_desc
            (List.filter (fun r => forallb (fun c => c r)
                                     (TestResultRepositoryImpl.conditions f))
               (test_results st))).
  split; [reflexivity|]. split; [|split].
  - intros r. rewrite order_by_In, filter_In, conditions_spec. reflexivity.
  - exists (fun r => forallb (fun c => c r) (TestResultRepositoryImpl.conditions f)).
    split; [intros r; apply conditions_spec | apply order_by_perm].
  - apply results_desc_sorted.
Qed.

(** A search that returns the only stored result although the term
    matches none of its texts under the given reading. *)
Ltac refute_search term :=
  intros [rows [Heq [Hin _]]];
  assert (Hlen : match fst (TestResultRepositoryImpl.findWithFilters (search_filter term)
                              None None login_store) with
                 | Ok found => length found
                 | Err _ => 0%nat
                 end = 1%nat) by (vm_compute; reflexivity);
  rewrite Heq in Hlen; simpl in Hlen; rewrite length_map in Hlen;
  destruct rows as [|r rows]; [discriminate|];
  destruct (proj1 (Hin r) (or_introl eq_refl)) as [Hr Hsat];
  destruct Hr as [<-|[]];
  destruct Hsat as [_ [_ [_ [_ [Hsearch _]]]]];
  destruct (Hsearch term eq_refl) as [H|[H|H]]; [discriminate| | |];
    destruct H as [text [Htext Hsub]]; try discriminate Htext;
    injection Htext as <-; vm_compute in Hsub; discriminate Hsub.

(** The claim C4 as it is stated fails: the only stored result is titled
    "Login works"; "LOGIN" is no substring of any of its texts, and the
    search for it returns that result; "L_gin" is no substring of them
    even up to letter case, and the search for it returns that result
    too. *)
Lemma search_is_not_substring_search :
  ~ filter_spec substring_match (search_filter "LOGIN") login_store
  /\ ~ filter_spec substring_match_ci (search_filter "L_gin") login_store.
Proof.
  split.
  - refute_search "LOGIN".
  - refute_search "L_gin".
Qed.

Lemma status_failed_condition (r : ResultRow.t) :
  forallb (fun c => c r) (TestResultRepositoryImpl.conditions (status_filter [FAILED]))
  = bool_decide (ResultRow.state r = FAILED).
Proof.
  unfold TestResultRepositoryImpl.conditions. simpl.
  now destruct (ResultRow.state r).
Qed.

Lemma satisfies_iff (tm1 tm2 : string -> option string -> Prop)
    (f : TestFilter.t) (r : ResultRow.t) :
  (forall needle column, tm1 needle column <-> tm2 needle column) ->
  satisfies tm1 f r <-> satisfies tm2 f r.
Proof.
  intros H. unfold satisfies. now setoid_rewrite H.
Qed.

Lemma filter_spec_wildcard (f : TestFilter.t) (st : Store) :
  filter_spec wildcard_match f st.
Proof.
  destruct (filter_spec_like f st) as [rows [Heq [Hin [[selected [Hsel Hperm]] Hsorted]]]].
  pose proof (fun r => satisfies_iff like_match wildcard_match f r like_match_wildcard)
    as Hiff.
  exists rows. split; [exact Heq|]. split; [|split].
  - intros r. rewrite Hin, Hiff. reflexivity.
  - exists selected. split; [|exact Hperm].
    intros r. rewrite Hsel, Hiff. reflexivity.
  - exact Hsorted.
Qed.

(** C4, amended.  For every filter, [findWithFilters] without a page
    limit returns exactly the stored results that satisfy the conjunction
    of the supplied predicates, ordered by start time descending.  The
    search term, and each tag between double quotes against the
    serialized tag array (one matching tag suffices), is matched as a
    [LIKE] pattern between [%] signs: the text must contain a run of
    characters that is an instance of the term, in which [_] stands for
    any one character, [%] for any run of characters, and every other
    character for itself up to ASCII letter case.  For a term without
    [%] and [_] that is containment of the term up to ASCII letter case.
    In particular, filtering by status=[failed] returns exactly the
    failed results, ordered by start time descending. *)
Theorem findWithFilters_selects_and_orders :
  (forall f st, filter_spec wildcard_match f st)
  /\ (forall needle text,
        Forall literal (characters needle) ->
        wildcard_match needle (Some text)
        <-> exists before mid after,
              characters text = before ++ mid ++ after
              /\ Forall2 same_letter (characters needle) mid)
  /\ (forall st,
        exists rows,
          TestResultRepositoryImpl.findWithFilters (status_filter [FAILED]) None None st
          = (Ok (map TestResultRepositoryImpl.mapRowToTestResult rows), st)
          /\ Permutation rows
               (List.filter (fun r => bool_decide (ResultRow.state r = FAILED))
                  (test_results st))
          /\ StronglySorted by_start_time_desc rows).
Proof.
  split; [exact filter_spec_wildcard|]. split.
  - intros needle text Hlit. unfold wildcard_match. split.
    + intros [text' [before [mid [after [[= <-] [Heq H]]]]]].
      exists before, mid, after. split; [exact Heq|].
      now apply instance_of_literal.
    + intros [before [mid [after [Heq H]]]].
      exists text, before, mid, after. split; [reflexivity|]. split; [exact Heq|].
      now apply instance_of_literal.
  - intros st.
    exists (order_by TestResultRepositoryImpl.start_time_desc
              (List.filter (fun r => bool_decide (ResultRow.state r = FAILED))
                 (test_results st))).
    split; [|split].
    + unfold TestResultRepositoryImpl.findWithFilters, db_bind, select, db_ret.
      unfold TestResultRepositoryImpl.paginate.
      rewrite (filter_ext_eq _ (fun r => bool_decide (ResultRow.state r = FAILED)))
        by apply status_failed_condition.
      reflexivity.
    + apply order_by_perm.
    + apply results_desc_sorted.
Qed.

(** The search for [L_gin] among a result titled "Logout works" and a
    later one whose title is "L", a two-byte letter, "gin works": the
    second is returned, [_] standing for the one character of two
    bytes; and the search for [login] in "User Login Works". *)
Lemma findWithFilters_selects_and_orders_witness :
  filter_spec wildcard_match (search_filter "L_gin") accent_store
  /\ fst (TestResultRepositoryImpl.findWithFilters (search_filter "L_gin") None None
            accent_store)
     = Ok [TestResultRepositoryImpl.mapRowToTestResult
             (sample_result "t-2" "run-1" accented_title PASSED 1200)]
  /\ (wildcard_match "login" (Some "User Login Works")
      <-> exists before mid after,
            characters "User Login Works" = before ++ mid ++ after
            /\ Forall2 same_letter (characters "login") mid).
Proof.
  destruct findWithFilters_selects_and_orders as [Hspec [Hliteral _]].
  split; [apply Hspec|]. split; [vm_compute; reflexivity|].
  apply Hliteral. repeat constructor; discriminate.
Defined.

(** Three passed and two failed results filtered by status=[failed]: the
    two failed ones, the later first. *)
Example findWithFilters_three_passed_two_failed :
  fst (TestResultRepositoryImpl.findWithFilters (status_filter [FAILED]) None None
         three_two_store)
  = Ok (map TestResultRepositoryImpl.mapRowToTestResult
          [sample_result "t-4" "run-1" "refunds" FAILED 1400;
           sample_result "t-2" "run-1" "logs out" FAILED 1200]).
Proof. vm_compute. reflexivity. Qed.

(** ** The reporter *)

Lemma count_state_positive (s : TestStatus) (results : list TestResult.t) :
  0 < AuroraReporter.count_state s results
  <-> exists r, In r results /\ TestResult.state r = s.
Proof.
  unfold AuroraReporter.count_state. split.
  - intros H.
    destruct (List.filter (fun r => bool_decide (TestResult.state r = s)) results)
      as [|r rest] eqn:E; [simpl in H; lia|].
    assert (Hr : In r (List.filter (fun r => bool_decide (TestResult.state r = s)) results))
      by (rewrite E; now left).
    apply filter_In in Hr. destruct Hr as [Hr Hs].
    apply bool_decide_eq_true in Hs. eauto.
  - intros [r [Hr Hs]].
    assert (Hin : In r (List.filter (fun r => bool_decide (TestResult.state r = s)) results)).
    { apply filter_In. split; [assumption|]. now apply bool_decide_eq_true. }
    destruct (List.filter (fun r => bool_decide (TestResult.state r = s)) results);
      [contradiction|]. simpl. lia.
Qed.


Lemma step_keeps_running (env : Env) (st : AuroraReporter.t) (ev : MochaEvent) :
  AuroraReporter.is_run_end ev = false ->
  still_running st -> still_running (AuroraReporter.step env st ev).
Proof.
  unfold still_running. intros Hev H.
  destruct ev; simpl in *; try discriminate Hev; try assumption.
  - unfold AuroraReporter.handleRunStart.
    destruct (AuroraReporter.getRunConfig env); simpl; [reflexivity|assumption].
  - unfold AuroraReporter.handleTestPass.
    destruct (AuroraReporter.map_get _ _); assumption.
  - unfold AuroraReporter.handleTestFail.
    destruct (AuroraReporter.map_get _ _); assumption.
  - destruct (AuroraReporter.currentRun st); simpl; assumption.
Qed.

Lemma events_keep_running (env : Env) (evs : list MochaEvent) (st : AuroraReporter.t) :
  existsb AuroraReporter.is_run_end evs = false ->
  still_running st -> still_running (AuroraReporter.run_events env st evs).
Proof.
  revert st. induction evs as [|ev evs IH]; intros st Hevs H; [assumption|].
  simpl in Hevs. apply orb_false_iff in Hevs. destruct Hevs as [Hev Hevs].
  simpl. apply IH; [assumption|]. now apply step_keeps_running.
Qed.

Lemma step_in_progress (env : Env) (st : AuroraReporter.t) (ev : MochaEvent) :
  AuroraReporter.is_run_boundary ev = false ->
  run_in_progress st -> run_in_progress (AuroraReporter.step env st ev).
Proof.
  unfold run_in_progress. intros Hev [run [Hrun Hs]].
  destruct ev; simpl in *; try discriminate Hev; eauto.
  - unfold AuroraReporter.handleTestPass.
    destruct (AuroraReporter.map_get _ _); eauto.
  - unfold AuroraReporter.handleTestFail.
    destruct (AuroraReporter.map_get _ _); eauto.
  - rewrite Hrun. simpl. eauto.
Qed.

Lemma status_trace_app (env : Env) (a b : list MochaEvent) (st : AuroraReporter.t) :
  AuroraReporter.status_trace env st (a ++ b)
  = AuroraReporter.status_trace env st a
    ++ AuroraReporter.status_trace env (AuroraReporter.run_events env st a) b.
Proof.
  revert st. induction a as [|ev a IH]; intros st; simpl; [reflexivity|].
  now rewrite IH.
Qed.

Lemma status_trace_in_progress (env : Env) (evs : list MochaEvent) (st : AuroraReporter.t) :
  existsb AuroraReporter.is_run_boundary evs = false ->
  run_in_progress st ->
  AuroraReporter.status_trace env st evs = repeat (Some Running) (length evs)
  /\ run_in_progress (AuroraReporter.run_events env st evs).
Proof.
  revert st. induction evs as [|ev evs IH]; intros st Hevs H; [split; [reflexivity|assumption]|].
  simpl in Hevs. apply orb_false_iff in Hevs. destruct Hevs as [Hev Hevs].
  pose proof (step_in_progress env st ev Hev H) as Hstep.
  destruct (IH _ Hevs Hstep) as [Htrace Hfinal].
  simpl. rewrite Htrace. split; [|assumption].
  destruct Hstep as [run [Hr Hs]]. rewrite Hr. simpl. now rewrite Hs.
Qed.

Lemma handleRunEnd_finalizes (now : Timestamp) (st : AuroraReporter.t) (run : TestRun.t) :
  AuroraReporter.currentRun st = Some run ->
  exists run',
    AuroraReporter.currentRun (AuroraReporter.handleRunEnd now st) = Some run'
    /\ TestRun.id run' = TestRun.id run
    /\ TestRun.results run' = AuroraReporter.map_values (AuroraReporter.testResults st)
    /\ TestRun.totalTests run' = Z.of_nat (length (AuroraReporter.testResults st))
    /\ TestRun.passed run' = AuroraReporter.count_state PASSED (TestRun.results run')
    /\ TestRun.failed run' = AuroraReporter.count_state FAILED (TestRun.results run')
    /\ TestRun.skipped run' = AuroraReporter.count_state SKIPPED (TestRun.results run')
    /\ TestRun.pending run' = AuroraReporter.count_state PENDING (TestRun.results run')
    /\ (TestRun.status run' = Failed <-> some_failed st)
    /\ (TestRun.status run' = Completed <-> ~ some_failed st)
    /\ AuroraReporter.terminal (TestRun.status run') = true.
Proof.
  intros Hrun. unfold AuroraReporter.handleRunEnd. rewrite Hrun. simpl.
  eexists. split; [reflexivity|]. simpl.
  repeat (split; [reflexivity|]).
  unfold some_failed. rewrite <- count_state_positive.
  destruct (Z.ltb_spec 0
              (AuroraReporter.count_state FAILED
                 (AuroraReporter.map_values (AuroraReporter.testResults st)))) as [H|H].
  - split; [|split]; [split|split|]; intros;
      try reflexivity; try assumption; try discriminate; lia.
  - split; [|split]; [split|split|]; intros;
      try reflexivity; try assumption; try discriminate; lia.
Qed.

(** C7.  When the run-end event fires for a current run, that run gets
    totalTests equal to the number of collected results and
    passed/failed/skipped/pending equal to the number of collected results
    in each state, and its status becomes 'failed' if a collected result
    failed and 'completed' otherwise.  From construction, as long as no
    run-end event has fired, the current run is still running.  Over a run
    (start, events other than start and end, end) the status is 'running'
    after every event but the last and terminal after the last: one
    transition. *)
Theorem run_end_finalizes_the_run :
  (forall now st run,
     AuroraReporter.currentRun st = Some run ->
     exists run',
       AuroraReporter.currentRun (AuroraReporter.handleRunEnd now st) = Some run'
       /\ TestRun.id run' = TestRun.id run
       /\ TestRun.results run' = AuroraReporter.map_values (AuroraReporter.testResults st)
       /\ TestRun.totalTests run' = Z.of_nat (length (AuroraReporter.testResults st))
       /\ TestRun.passed run' = AuroraReporter.count_state PASSED (TestRun.results run')
       /\ TestRun.failed run' = AuroraReporter.count_state FAILED (TestRun.results run')
       /\ TestRun.skipped run' = AuroraReporter.count_state SKIPPED (TestRun.results run')
       /\ TestRun.pending run' = AuroraReporter.count_state PENDING (TestRun.results run')
       /\ (TestRun.status run' = Failed <-> some_failed st)
       /\ (TestRun.status run' = Completed <-> ~ some_failed st)
       /\ AuroraReporter.terminal (TestRun.status run') = true)
  /\ (forall env constructed evs,
        existsb AuroraReporter.is_run_end evs = false ->
        still_running (AuroraReporter.run_events env (AuroraReporter.init constructed) evs))
  /\ (forall env st runId now evs now',
        AuroraReporter.getRunConfig env <> None ->
        existsb AuroraReporter.is_run_boundary evs = false ->
        exists final,
          AuroraReporter.status_trace env st (EvStart runId now :: evs ++ [EvEnd now'])
          = repeat (Some Running) (S (length evs)) ++ [Some final]
          /\ AuroraReporter.terminal final = true
          /\ (final = Failed <->
              some_failed (AuroraReporter.run_events env st (EvStart runId now :: evs)))).
Proof.
  split; [exact handleRunEnd_finalizes|]. split.
  - intros env constructed evs Hevs. apply events_keep_running; [assumption|].
    exact I.
  - intros env st runId now evs now' Hconfig Hevs.
    set (st1 := AuroraReporter.step env st (EvStart runId now)).
    assert (Hstart : run_in_progress st1).
    { subst st1. simpl. unfold AuroraReporter.handleRunStart.
      destruct (AuroraReporter.getRunConfig env) as [config|]; [|congruence].
      eexists. split; reflexivity. }
    destruct (status_trace_in_progress env evs _ Hevs Hstart) as [Htrace Hfinal].
    destruct Hfinal as [run [Hrun Hstatus]].
    destruct (handleRunEnd_finalizes now' _ run Hrun)
      as [run' [Hrun' [_ [_ [_ [_ [_ [_ [_ [Hfailed [_ Hterminal]]]]]]]]]]].
    exists (TestRun.status run').
    split; [|split].
    + assert (E : AuroraReporter.status_trace env st
                    (EvStart runId now :: evs ++ [EvEnd now'])
                  = option_map TestRun.status (AuroraReporter.currentRun st1)
                    :: AuroraReporter.status_trace env st1 (evs ++ [EvEnd now']))
        by reflexivity.
      rewrite E, status_trace_app, Htrace.
      assert (E' : AuroraReporter.status_trace env
                     (AuroraReporter.run_events env st1 evs) [EvEnd now']
                   = [option_map TestRun.status
                        (AuroraReporter.currentRun
                           (AuroraReporter.handleRunEnd now'
                              (AuroraReporter.run_events env st1 evs)))])
        by reflexivity.
      rewrite E', Hrun'.
      destruct Hstart as [run0 [Hrun0 Hstatus0]]. rewrite Hrun0. simpl.
      now rewrite Hstatus0.
    + exact Hterminal.
    + exact Hfailed.
Qed.

Lemma run_end_finalizes_the_run_witness :
  exists final,
    AuroraReporter.status_trace sample_env (AuroraReporter.init 900)
      (EvStart "run-1" 1000 :: sample_events ++ [EvEnd 1500])
    = repeat (Some Running) 8 ++ [Some final]
    /\ final = Failed.
Proof.
  destruct run_end_finalizes_the_run as [_ [_ H]].
  assert (Hconfig : AuroraReporter.getRunConfig sample_env <> None) by discriminate.
  destruct (H sample_env (AuroraReporter.init 900) "run-1" 1000 sample_events 1500
              Hconfig eq_refl) as [final [Htrace [_ Hfailed]]].
  exists final. split; [exact Htrace|].
  apply Hfailed. unfold some_failed. eexists. split.
  - vm_compute. right. left. reflexivity.
  - reflexivity.
Defined.

(** The run of [sample_events]: two results, one passed, one failed. *)
Example sample_run_is_finalized :
  option_map
    (fun run => (TestRun.totalTests run, TestRun.passed run, TestRun.failed run,
                 TestRun.skipped run, TestRun.pending run, TestRun.retries run,
                 TestRun.duration run, TestRun.status run))
    (AuroraReporter.currentRun
       (AuroraReporter.run_events sample_env (AuroraReporter.init 900)
          (EvStart "run-1" 1000 :: sample_events ++ [EvEnd 1500])))
  = Some (2, 1, 1, 0, 0, 1, Defined 500, Failed).
Proof. vm_compute. reflexivity. Qed.

(** The update [handleRunEnd] issues carries the [results] array, so the
    engine rejects it on every store: the finalized run stays in the
    reporter. *)
Lemma run_end_update_is_rejected (now : Timestamp) (st : AuroraReporter.t)
    (run : TestRun.t) :
  AuroraReporter.currentRun st = Some run ->
  exists id updates,
    AuroraReporter.calls (AuroraReporter.handleRunEnd now st)
    = AuroraReporter.calls st ++ [UpdateRun id updates]
    /\ forall at_ db, exists message,
         TestRunRepositoryImpl.update id updates at_ db = (Err (SqliteError message), db).
Proof.
  intros Hrun. unfold AuroraReporter.handleRunEnd. rewrite Hrun. simpl.
  eexists. eexists. split; [reflexivity|].
  intros at_ db. apply update_with_results_is_rejected. discriminate.
Qed.

(** ** The room hub *)

#[local] Set Warnings "-clear-no-such-hyp".

Lemma filter_one_of_NoDup (s : string) (l : list string) :
  NoDup l ->
  List.filter (fun x => bool_decide (x = s)) l = if bool_decide (s ∈ l) then [s] else [].
Proof.
  induction 1 as [|x l Hx Hl IH]; cbn [List.filter].
  - case_bool_decide as H; [|reflexivity]. now apply elem_of_nil in H.
  - rewrite IH.
    repeat case_bool_decide; subst; try reflexivity; exfalso; set_solver.
Qed.

Lemma received_send (s room : string) (recipients : gset string) (v : option string)
    (e : string) (m : WebSocketMessage) (st : WebSocketManager.t) :
  WebSocketManager.received s room (WebSocketManager.send recipients v e m st)
  = WebSocketManager.received s room st
    ++ (if bool_decide (v = Some room) && bool_decide (s ∈ recipients) then [m] else []).
Proof.
  unfold WebSocketManager.received, WebSocketManager.send. simpl.
  rewrite List.filter_app, map_app. f_equal.
  destruct (decide (v = Some room)) as [->|Hv].
  - rewrite bool_decide_eq_true_2 by reflexivity. simpl.
    assert (E : forall l : list string,
               map message
                 (List.filter (fun d => bool_decide (dest d = s)
                                        && bool_decide (via d = Some room))
                    (map (fun s' => mkDelivery s' (Some room) e m) l))
               = map (fun _ => m) (List.filter (fun x => bool_decide (x = s)) l)).
    { induction l as [|x l IH]; simpl; [reflexivity|].
      rewrite (bool_decide_eq_true_2 (Some room = Some room)) by reflexivity.
      rewrite andb_true_r. destruct (bool_decide (x = s)); simpl; now rewrite IH. }
    rewrite E, filter_one_of_NoDup by apply NoDup_elements.
    destruct (decide (s ∈ recipients)) as [Hin|Hin].
    + rewrite !bool_decide_eq_true_2; [reflexivity|assumption|].
      now apply elem_of_elements.
    + rewrite !bool_decide_eq_false_2; [reflexivity|assumption|].
      now rewrite elem_of_elements.
  - rewrite bool_decide_eq_false_2 by assumption. simpl.
    induction (elements recipients) as [|x l IH]; simpl; [reflexivity|].
    rewrite (bool_decide_eq_false_2 (v = Some room)) by assumption.
    now rewrite andb_false_r.
Qed.

Lemma members_join (s' r' room : string) (st : WebSocketManager.t) :
  WebSocketManager.members room (WebSocketManager.join s' r' st)
  = if bool_decide (r' = room)
    then {[s']} ∪ WebSocketManager.members room st
    else WebSocketManager.members room st.
Proof.
  unfold WebSocketManager.members, WebSocketManager.join. simpl.
  case_bool_decide as H.
  - subst. now rewrite lookup_insert_eq.
  - now rewrite lookup_insert_ne.
Qed.

Lemma members_leave (s' r' room : string) (st : WebSocketManager.t) :
  WebSocketManager.members room (WebSocketManager.leave s' r' st)
  = if bool_decide (r' = room)
    then WebSocketManager.members room st ∖ {[s']}
    else WebSocketManager.members room st.
Proof.
  unfold WebSocketManager.members, WebSocketManager.leave. simpl.
  case_bool_decide as H.
  - subst. now rewrite lookup_insert_eq.
  - now rewrite lookup_insert_ne.
Qed.

Lemma members_disconnect (s' room : string) (st : WebSocketManager.t) :
  WebSocketManager.members room (WebSocketManager.handleClientDisconnection s' st)
  = WebSocketManager.members room st ∖ {[s']}.
Proof.
  unfold WebSocketManager.members, WebSocketManager.handleClientDisconnection. simpl.
  rewrite lookup_fmap. destruct (WebSocketManager.rooms st !! room); simpl.
  - reflexivity.
  - set_solver.
Qed.

Lemma members_emit (room event : string) (data : Payload) (now : Timestamp)
    (st : WebSocketManager.t) :
  WebSocketManager.members room (WebSocketManager.emit event data now st)
  = WebSocketManager.members room st.
Proof. reflexivity. Qed.

Lemma members_emitToRoom (room room' event : string) (data : Payload) (now : Timestamp)
    (st : WebSocketManager.t) :
  WebSocketManager.members room (WebSocketManager.emitToRoom room' event data now st)
  = WebSocketManager.members room st.
Proof. reflexivity. Qed.

Lemma received_emitToRoom (s room room' event : string) (data : Payload)
    (now : Timestamp) (st : WebSocketManager.t) :
  WebSocketManager.received s room (WebSocketManager.emitToRoom room' event data now st)
  = WebSocketManager.received s room st
    ++ (if bool_decide (room' = room) && bool_decide (s ∈ WebSocketManager.members room st)
        then [mkMessage event data now] else []).
Proof.
  unfold WebSocketManager.emitToRoom. rewrite received_send. f_equal.
  destruct (decide (room' = room)) as [->|Hne].
  - rewrite (bool_decide_eq_true_2 (Some room = Some room)) by reflexivity.
    now rewrite (bool_decide_eq_true_2 (room = room)) by reflexivity.
  - rewrite (bool_decide_eq_false_2 (room' = room)) by assumption.
    rewrite (bool_decide_eq_false_2 (Some room' = Some room)) by congruence.
    reflexivity.
Qed.

Lemma received_emit (s room event : string) (data : Payload) (now : Timestamp)
    (st : WebSocketManager.t) :
  WebSocketManager.received s room (WebSocketManager.emit event data now st)
  = WebSocketManager.received s room st.
Proof.
  unfold WebSocketManager.emit. rewrite received_send.
  rewrite bool_decide_eq_false_2 by discriminate. apply app_nil_r.
Qed.

Lemma published_one (room room' : string) (m : WebSocketMessage) (b : bool) :
  (if bool_decide (room' = room) && b then [m] else [])
  = if b then map snd (List.filter (fun p => bool_decide (fst p = room)) [(room', m)])
    else [].
Proof.
  simpl. destruct b, (bool_decide (room' = room)); reflexivity.
Qed.

Lemma received_on_message (s room s' : string) (handler : WebSocketManager.t -> WebSocketManager.t)
    (st : WebSocketManager.t) :
  WebSocketManager.delivered (handler st) = WebSocketManager.delivered st ->
  WebSocketManager.received s room (WebSocketManager.on_message s' handler st)
  = WebSocketManager.received s room st.
Proof.
  intros H. unfold WebSocketManager.on_message, WebSocketManager.received.
  destruct (bool_decide (s' ∈ WebSocketManager.connectedClients st)); now rewrite ?H.
Qed.

Lemma tracked_subscribed (s room : string) (st : WebSocketManager.t) (sub : Subscription) :
  tracked s room st sub ->
  subscribed sub = bool_decide (s ∈ WebSocketManager.members room st).
Proof.
  intros [_ H]. destruct (subscribed sub); case_bool_decide; try reflexivity;
    exfalso; intuition congruence.
Qed.

Ltac decide_iff :=
  match goal with
  | |- true = true <-> _ => split; [intros _; set_solver | reflexivity]
  | |- false = true <-> _ => split; [discriminate | intros ?; exfalso; set_solver]
  end.

(** Case analysis on whether the socket is connected and subscribed, then
    on every comparison of the goal. *)
Ltac solve_tracked s room st sub :=
  let Hon := fresh "Hon" in
  let Hsub := fresh "Hsub" in
  intros [Hon Hsub];
  destruct sub as [on subd]; simpl in Hon, Hsub |- *;
  destruct (decide (s ∈ WebSocketManager.connectedClients st)),
           (decide (s ∈ WebSocketManager.members room st));
  destruct on, subd; try (exfalso; intuition congruence);
  clear Hon Hsub;
  repeat (case_bool_decide; simpl); subst;
  unfold tracked; simpl; split; decide_iff.

(** One action: the status keeps agreeing with the hub, and the socket
    is handed what the action publishes to the room if it is subscribed. *)
Lemma step_tracked (s room : string) (st : WebSocketManager.t) (sub : Subscription)
    (a : HubAction) :
  tracked s room st sub ->
  tracked s room (WebSocketManager.step st a) (track s room sub a)
  /\ WebSocketManager.received s room (WebSocketManager.step st a)
     = WebSocketManager.received s room st
       ++ (if subscribed sub then published_to room a else []).
Proof.
  intros Htracked.
  pose proof (tracked_subscribed s room st sub Htracked) as Hb.
  destruct a; simpl.
  - (* Connect *)
    split; [|destruct (subscribed sub); symmetry; apply app_nil_r].
    clear Hb. revert Htracked.
    change (WebSocketManager.members room
              (WebSocketManager.handleClientConnection socketId st))
      with (WebSocketManager.members room st).
    unfold tracked at 2, WebSocketManager.handleClientConnection.
    change (WebSocketManager.members room _) with (WebSocketManager.members room st).
    solve_tracked s room st sub.
  - (* Disconnect *)
    split; [|destruct (subscribed sub); symmetry; apply app_nil_r].
    clear Hb. revert Htracked.
    unfold tracked at 2. rewrite members_disconnect.
    unfold WebSocketManager.handleClientDisconnection.
    solve_tracked s room st sub.
  - (* SubscribeTestRuns *)
    split; [|rewrite received_on_message by reflexivity;
             destruct (subscribed sub); symmetry; apply app_nil_r].
    clear Hb. revert Htracked.
    unfold tracked at 2, WebSocketManager.on_message.
    destruct (bool_decide_reflect (socketId ∈ WebSocketManager.connectedClients st)) as [Hc|Hc];
      [rewrite members_join; unfold WebSocketManager.join|];
      solve_tracked s room st sub.
  - (* SubscribeTestRun *)
    split; [|rewrite received_on_message by reflexivity;
             destruct (subscribed sub); symmetry; apply app_nil_r].
    clear Hb. revert Htracked.
    unfold tracked at 2, WebSocketManager.on_message.
    destruct (bool_decide_reflect (socketId ∈ WebSocketManager.connectedClients st)) as [Hc|Hc];
      [rewrite members_join; unfold WebSocketManager.join|];
      solve_tracked s room st sub.
  - (* UnsubscribeTestRun *)
    split; [|rewrite received_on_message by reflexivity;
             destruct (subscribed sub); symmetry; apply app_nil_r].
    clear Hb. revert Htracked.
    unfold tracked at 2, WebSocketManager.on_message.
    destruct (bool_decide_reflect (socketId ∈ WebSocketManager.connectedClients st)) as [Hc|Hc];
      [rewrite members_leave; unfold WebSocketManager.leave|];
      solve_tracked s room st sub.
  - (* Emit *)
    split; [exact Htracked|].
    rewrite received_emit. destruct (subscribed sub); symmetry; apply app_nil_r.
  - (* EmitToRoom *)
    split; [exact Htracked|].
    rewrite received_emitToRoom, Hb. f_equal. apply published_one.
  - (* EmitTestRunStarted *)
    split; [exact Htracked|].
    unfold WebSocketManager.emitTestRunStarted.
    rewrite received_emitToRoom, received_emit, members_emit, Hb. f_equal.
    apply published_one.
  - (* EmitTestRunCompleted *)
    split; [exact Htracked|].
    unfold WebSocketManager.emitTestRunCompleted.
    rewrite !received_emitToRoom, received_emit, <- app_assoc.
    rewrite ?members_emitToRoom, ?members_emit, Hb. f_equal.
    unfold published_to. simpl.
    destruct (bool_decide (s ∈ WebSocketManager.members room st));
      repeat case_bool_decide; reflexivity.
  - (* EmitTestStarted *)
    split; [exact Htracked|].
    unfold WebSocketManager.emitTestStarted.
    rewrite received_emitToRoom, Hb. f_equal. apply published_one.
  - (* EmitTestCompleted *)
    split; [exact Htracked|].
    unfold WebSocketManager.emitTestCompleted.
    rewrite !received_emitToRoom, <- app_assoc.
    rewrite ?members_emitToRoom, ?members_emit, Hb. f_equal.
    unfold published_to. simpl.
    destruct (bool_decide (s ∈ WebSocketManager.members room st));
      repeat case_bool_decide; reflexivity.
  - (* EmitScreenshotTaken *)
    split; [exact Htracked|].
    unfold WebSocketManager.emitScreenshotTaken.
    rewrite received_emitToRoom, Hb. f_equal. apply published_one.
  - (* EmitStatisticsUpdate *)
    split; [exact Htracked|].
    unfold WebSocketManager.emitStatisticsUpdate.
    rewrite received_emit. destruct (subscribed sub); symmetry; apply app_nil_r.
Qed.

(** A status that agrees with any given state. *)
Lemma tracked_exists (s room : string) (st : WebSocketManager.t) :
  tracked s room st
    (mkSubscription (bool_decide (s ∈ WebSocketManager.connectedClients st))
                    (bool_decide (s ∈ WebSocketManager.members room st))).
Proof.
  split; simpl; case_bool_decide; intuition congruence.
Qed.

(** A trace: the socket is handed, in order, what is published to the
    room while it is subscribed. *)
Lemma run_tracked (s room : string) (trace : list HubAction) :
  forall (st : WebSocketManager.t) (sub : Subscription),
    tracked s room st sub ->
    WebSocketManager.received s room (WebSocketManager.run st trace)
    = WebSocketManager.received s room st ++ heard s room sub trace.
Proof.
  induction trace as [|a trace IH]; intros st sub Htracked; simpl.
  - symmetry. apply app_nil_r.
  - destruct (step_tracked s room st sub a Htracked) as [Hnext Hstep].
    unfold WebSocketManager.run in *. simpl.
    rewrite (IH _ _ Hnext), Hstep. now rewrite <- app_assoc.
Qed.

Lemma track_emission (s room : string) (sub : Subscription) (a : HubAction) :
  is_emission a = true -> track s room sub a = sub.
Proof. destruct a; simpl; intros H; try discriminate; reflexivity. Qed.

Lemma bool_decide_refl `{EqDecision A} (x : A) : bool_decide (x = x) = true.
Proof. now apply bool_decide_eq_true_2. Qed.

(** ** What a socket observes *)

Lemma observed_send (s : string) (recipients : gset string) (v : option string)
    (e : string) (m : WebSocketMessage) (st : WebSocketManager.t) :
  observed s (WebSocketManager.send recipients v e m st)
  = observed s st ++ (if bool_decide (s ∈ recipients) then [m] else []).
Proof.
  unfold observed, WebSocketManager.send. simpl.
  rewrite List.filter_app, map_app. f_equal.
  assert (E : forall l : list string,
             map message
               (List.filter (fun d => bool_decide (dest d = s))
                  (map (fun s' => mkDelivery s' v e m) l))
             = map (fun _ => m) (List.filter (fun x => bool_decide (x = s)) l)).
  { induction l as [|x l IH]; simpl; [reflexivity|].
    destruct (bool_decide (x = s)); simpl; now rewrite IH. }
  rewrite E, filter_one_of_NoDup by apply NoDup_elements.
  rewrite (bool_decide_ext (s ∈ elements recipients) (s ∈ recipients))
    by apply elem_of_elements.
  now destruct (bool_decide (s ∈ recipients)).
Qed.

Lemma session_connected (s : string) (st : WebSocketManager.t) (ses : Session) :
  session_of s st ses ->
  bool_decide (s ∈ WebSocketManager.connectedClients st) = connected ses.
Proof.
  intros [H _]. destruct (connected ses).
  - apply bool_decide_eq_true_2. now apply H.
  - apply bool_decide_eq_false_2. intros Hin. apply H in Hin. discriminate.
Qed.

Lemma session_joined (s room : string) (st : WebSocketManager.t) (ses : Session) :
  session_of s st ses ->
  bool_decide (s ∈ WebSocketManager.members room st) = bool_decide (room ∈ joined ses).
Proof.
  intros [_ H]. apply bool_decide_ext. symmetry. apply H.
Qed.

Lemma observed_emit (s event : string) (data : Payload) (now : Timestamp)
    (st : WebSocketManager.t) (ses : Session) :
  session_of s st ses ->
  observed s (WebSocketManager.emit event data now st)
  = observed s st ++ (if connected ses then [mkMessage event data now] else []).
Proof.
  intros H. unfold WebSocketManager.emit.
  now rewrite observed_send, (session_connected s st ses H).
Qed.

Lemma observed_emitToRoom (s room event : string) (data : Payload) (now : Timestamp)
    (st : WebSocketManager.t) (ses : Session) :
  session_of s st ses ->
  observed s (WebSocketManager.emitToRoom room event data now st)
  = observed s st
    ++ (if bool_decide (room ∈ joined ses) then [mkMessage event data now] else []).
Proof.
  intros H. unfold WebSocketManager.emitToRoom.
  now rewrite observed_send, (session_joined s room st ses H).
Qed.

Lemma observed_on_message (s s' : string)
    (handler : WebSocketManager.t -> WebSocketManager.t) (st : WebSocketManager.t) :
  (forall st0, WebSocketManager.delivered (handler st0) = WebSocketManager.delivered st0) ->
  observed s (WebSocketManager.on_message s' handler st) = observed s st.
Proof.
  intros H. unfold WebSocketManager.on_message, observed.
  destruct (bool_decide (s' ∈ WebSocketManager.connectedClients st)); [|reflexivity].
  now rewrite H.
Qed.

(** One action: what the socket is handed, and its session afterwards. *)
Lemma step_observed (s : string) (st : WebSocketManager.t) (ses : Session)
    (a : HubAction) :
  session_of s st ses ->
  observed s (WebSocketManager.step st a) = observed s st ++ arrivals ses a.
Proof.
  intros H. unfold arrivals.
  destruct a; cbn [WebSocketManager.step sends List.filter map reaches fst snd].
  - now rewrite app_nil_r.
  - now rewrite app_nil_r.
  - rewrite app_nil_r. now apply observed_on_message.
  - rewrite app_nil_r. now apply observed_on_message.
  - rewrite app_nil_r. now apply observed_on_message.
  - rewrite (observed_emit _ _ _ _ _ ses H). now destruct (connected ses).
  - rewrite (observed_emitToRoom _ _ _ _ _ _ ses H).
    now destruct (bool_decide (room ∈ joined ses)).
  - unfold WebSocketManager.emitTestRunStarted.
    rewrite (observed_emitToRoom _ _ _ _ _ _ ses), (observed_emit _ _ _ _ _ ses)
      by exact H.
    rewrite <- app_assoc.
    destruct (connected ses), (bool_decide ("test-runs" ∈ joined ses)); reflexivity.
  - unfold WebSocketManager.emitTestRunCompleted.
    rewrite !(observed_emitToRoom _ _ _ _ _ _ ses), (observed_emit _ _ _ _ _ ses)
      by exact H.
    rewrite <- !app_assoc.
    destruct (connected ses), (bool_decide ("test-runs" ∈ joined ses)),
      (bool_decide (WebSocketManager.run_room (TestRun.id testRun) ∈ joined ses));
      reflexivity.
  - unfold WebSocketManager.emitTestStarted.
    rewrite (observed_emitToRoom _ _ _ _ _ _ ses H).
    now destruct (bool_decide (_ ∈ joined ses)).
  - unfold WebSocketManager.emitTestCompleted.
    rewrite !(observed_emitToRoom _ _ _ _ _ _ ses) by exact H.
    rewrite <- !app_assoc.
    destruct (bool_decide (WebSocketManager.run_room _ ∈ joined ses)),
      (bool_decide ("test-updates" ∈ joined ses)); reflexivity.
  - unfold WebSocketManager.emitScreenshotTaken.
    rewrite (observed_emitToRoom _ _ _ _ _ _ ses H).
    now destruct (bool_decide (_ ∈ joined ses)).
  - unfold WebSocketManager.emitStatisticsUpdate.
    rewrite (observed_emit _ _ _ _ _ ses H). now destruct (connected ses).
Qed.

Lemma step_session (s : string) (st : WebSocketManager.t) (ses : Session)
    (a : HubAction) :
  session_of s st ses -> session_of s (WebSocketManager.step st a) (follow s ses a).
Proof.
  intros [Hon Hin].
  assert (Hc : connected ses = bool_decide (s ∈ WebSocketManager.connectedClients st)).
  { destruct (connected ses); case_bool_decide; try reflexivity; exfalso;
      intuition congruence. }
  destruct a; cbn [WebSocketManager.step follow]; try (split; assumption).
  - (* Connect *)
    unfold WebSocketManager.handleClientConnection, session_of, WebSocketManager.members.
    simpl. destruct (bool_decide_reflect (socketId = s)) as [->|Hne]; simpl; split;
      try assumption.
    + split; [set_solver | reflexivity].
    + rewrite Hon. set_solver.
  - (* Disconnect *)
    unfold session_of. setoid_rewrite members_disconnect.
    unfold WebSocketManager.handleClientDisconnection. simpl.
    destruct (bool_decide_reflect (socketId = s)) as [->|Hne]; simpl; split.
    + split; [discriminate | set_solver].
    + intros room. set_solver.
    + rewrite Hon. set_solver.
    + intros room. rewrite Hin. set_solver.
  - (* SubscribeTestRuns *)
    unfold WebSocketManager.on_message.
    destruct (bool_decide_reflect (socketId = s)) as [->|Hne]; cbn [andb].
    + rewrite Hc. case_bool_decide as Hs; [|split; assumption].
      unfold session_of. setoid_rewrite members_join. simpl. split.
      * split; [intros _; exact Hs | reflexivity].
      * intros room. case_bool_decide; subst; rewrite <- ?Hin; set_solver.
    + clear Hc. case_bool_decide; [|split; assumption].
      unfold session_of. setoid_rewrite members_join. simpl. split; [assumption|].
      intros room. rewrite Hin. case_bool_decide; set_solver.
  - (* SubscribeTestRun *)
    unfold WebSocketManager.on_message.
    destruct (bool_decide_reflect (socketId = s)) as [->|Hne]; cbn [andb].
    + rewrite Hc. case_bool_decide as Hs; [|split; assumption].
      unfold session_of. setoid_rewrite members_join. simpl. split.
      * split; [intros _; exact Hs | reflexivity].
      * intros room. case_bool_decide; subst; rewrite <- ?Hin; set_solver.
    + clear Hc. case_bool_decide; [|split; assumption].
      unfold session_of. setoid_rewrite members_join. simpl. split; [assumption|].
      intros room. rewrite Hin. case_bool_decide; set_solver.
  - (* UnsubscribeTestRun *)
    unfold WebSocketManager.on_message.
    destruct (bool_decide_reflect (socketId = s)) as [->|Hne]; cbn [andb].
    + rewrite Hc. case_bool_decide as Hs; [|split; assumption].
      unfold session_of. setoid_rewrite members_leave. simpl. split.
      * split; [intros _; exact Hs | reflexivity].
      * intros room. case_bool_decide; subst; rewrite <- ?Hin; set_solver.
    + clear Hc. case_bool_decide; [|split; assumption].
      unfold session_of. setoid_rewrite members_leave. simpl. split; [assumption|].
      intros room. rewrite Hin. case_bool_decide; set_solver.
Qed.

(** The session of a socket in a state agrees with the state. *)
Lemma session_at_agrees (s : string) (st : WebSocketManager.t) :
  session_of s st (session_at s st).
Proof.
  split; simpl.
  - case_bool_decide; intuition congruence.
  - intros room. unfold WebSocketManager.members.
    rewrite elem_of_dom. unfold is_Some.
    setoid_rewrite map_lookup_filter_Some. simpl.
    destruct (WebSocketManager.rooms st !! room) as [ms|] eqn:E; simpl.
    + split; [intros [x [Hx Hs]]; congruence | intros Hs; exists ms; auto].
    + split; [intros [x [Hx _]]; discriminate | set_solver].
Qed.

(** A trace: the socket is handed, in order, what each action sends to
    it in the session it has when the action occurs. *)
Lemma run_observed (s : string) (trace : list HubAction) :
  forall (st : WebSocketManager.t) (ses : Session),
    session_of s st ses ->
    observed s (WebSocketManager.run st trace) = observed s st ++ expected s ses trace.
Proof.
  induction trace as [|a trace IH]; intros st ses H; simpl.
  - symmetry. apply app_nil_r.
  - unfold WebSocketManager.run in *. simpl.
    rewrite (IH _ _ (step_session s st ses a H)), (step_observed s st ses a H).
    now rewrite <- app_assoc.
Qed.

Lemma session_of_init (s : string) : session_of s WebSocketManager.init signed_off.
Proof.
  split; simpl.
  - split; [discriminate | set_solver].
  - intros room. unfold WebSocketManager.members. simpl. rewrite lookup_empty. simpl.
    set_solver.
Qed.

Lemma follow_emission (s : string) (ses : Session) (a : HubAction) :
  is_emission a = true -> follow s ses a = ses.
Proof. destruct a; simpl; intros H; try discriminate; reflexivity. Qed.

Lemma arrivals_not_joined (ses : Session) (room : string) (a : HubAction) :
  room ∉ joined ses -> sends_to_only room a -> arrivals ses a = [].
Proof.
  intros Hout [_ Hroom]. unfold arrivals.
  induction (sends a) as [|cm l IH]; simpl; [reflexivity|].
  rewrite (Hroom cm (or_introl eq_refl)) at 1. simpl.
  rewrite (bool_decide_eq_false_2 _ Hout). apply IH.
  intros cm' Hin. apply Hroom. now right.
Qed.

Lemma arrivals_signed_off (a : HubAction) : arrivals signed_off a = [].
Proof.
  unfold arrivals. induction (sends a) as [|[[room|] m] l IH]; simpl; auto.
Qed.

(** A socket that is not in the room misses what is sent to the room
    only. *)
Lemma expected_not_joined (s room : string) (ses : Session)
    (missed later : list HubAction) :
  room ∉ joined ses ->
  Forall (sends_to_only room) missed ->
  expected s ses (missed ++ later) = expected s ses later.
Proof.
  intros Hout. induction 1 as [|a missed Ha _ IH]; simpl; [reflexivity|].
  rewrite (arrivals_not_joined ses room a Hout Ha).
  now rewrite (follow_emission s ses a (proj1 Ha)).
Qed.

(** A socket that is not connected misses every emission. *)
Lemma expected_signed_off (s : string) (missed later : list HubAction) :
  forallb is_emission missed = true ->
  expected s signed_off (missed ++ later) = expected s signed_off later.
Proof.
  induction missed as [|a missed IH]; simpl; intros H; [reflexivity|].
  apply andb_prop in H as [Ha Hrest].
  rewrite arrivals_signed_off, (follow_emission _ _ _ Ha). now apply IH.
Qed.

Lemma session_at_connected (s : string) (st : WebSocketManager.t) :
  s ∈ WebSocketManager.connectedClients st -> connected (session_at s st) = true.
Proof. intros H. now apply bool_decide_eq_true_2. Qed.

Lemma session_at_joined (s room : string) (st : WebSocketManager.t) :
  room ∈ joined (session_at s st) <-> s ∈ WebSocketManager.members room st.
Proof. apply (session_at_agrees s st). Qed.

(** C8, amended.  For every socket [s] and every run room, [s] is handed
    the events published to the room while it is a member, and an event
    sent to the room only never reaches [s] when it is emitted before
    [s] subscribes or after [s] unsubscribes or disconnects; the
    completion of a run, which [emitTestRunCompleted] also sends to
    every connected socket, reaches [s] while it is connected, member
    or not, and a member is handed it twice.  On every trace of the hub
    what [s] is handed, in order and whatever the path, is what each
    action sends in the session [s] has at that time; of an event
    emitted before [s] subscribes and one emitted after, only the second
    reaches [s]; a socket that disconnected is handed no emission; and a
    socket that disconnects, connects again and subscribes again is
    handed nothing of what was emitted in between. *)
Theorem room_events_reach_current_members (s runId : string) :
  let room := WebSocketManager.run_room runId in
  (forall trace,
     observed s (WebSocketManager.run WebSocketManager.init trace)
     = expected s signed_off trace)
  /\ (forall st trace,
        observed s (WebSocketManager.run st trace)
        = observed s st ++ expected s (session_at s st) trace)
  /\ (forall st e1 e2,
        s ∈ WebSocketManager.connectedClients st ->
        s ∉ WebSocketManager.members room st ->
        sends_to_only room e1 ->
        let trace := [e1; SubscribeTestRun s runId; e2] in
        observed s (WebSocketManager.run st trace)
        = observed s st
          ++ arrivals (mkSession true ({[room]} ∪ joined (session_at s st))) e2
        /\ (forall m2,
              sends e2 = [(Some room, m2)] ->
              observed s (WebSocketManager.run st trace) = observed s st ++ [m2]))
  /\ (forall st missed,
        forallb is_emission missed = true ->
        observed s (WebSocketManager.run st (Disconnect s :: missed)) = observed s st)
  /\ (forall st missed,
        s ∈ WebSocketManager.connectedClients st ->
        Forall (sends_to_only room) missed ->
        observed s (WebSocketManager.run st (UnsubscribeTestRun s runId :: missed))
        = observed s st)
  /\ (forall st missed later,
        forallb is_emission missed = true ->
        observed s
          (WebSocketManager.run st
             (Disconnect s :: missed ++ Connect s :: SubscribeTestRun s runId :: later))
        = observed s st ++ expected s (mkSession true {[room]}) later)
  /\ (forall st testRun now,
        let completed := mkMessage "test-run:completed" (PRun testRun) now in
        observed s (WebSocketManager.step st (EmitTestRunCompleted testRun now))
        = observed s st
          ++ (if bool_decide (s ∈ WebSocketManager.connectedClients st)
              then [completed] else [])
          ++ (if bool_decide (s ∈ WebSocketManager.members "test-runs" st)
              then [mkMessage "test-runs:update" (PRun testRun) now] else [])
          ++ (if bool_decide
                   (s ∈ WebSocketManager.members
                          (WebSocketManager.run_room (TestRun.id testRun)) st)
              then [completed] else [])).
Proof.
  intros room. repeat apply conj.
  - intros trace.
    now rewrite (run_observed s trace WebSocketManager.init signed_off (session_of_init s)).
  - intros st trace. apply run_observed, session_at_agrees.
  - intros st e1 e2 Hon Hout He1 trace.
    assert (E : observed s (WebSocketManager.run st trace)
                = observed s st
                  ++ arrivals (mkSession true ({[room]} ∪ joined (session_at s st))) e2).
    { rewrite (run_observed s _ st _ (session_at_agrees s st)). f_equal.
      assert (Hroom : room ∉ joined (session_at s st)) by now rewrite session_at_joined.
      change trace with ([e1] ++ [SubscribeTestRun s runId; e2]).
      rewrite (expected_not_joined s room) by (assumption || now constructor).
      cbn [expected follow]. rewrite bool_decide_refl, (session_at_connected s st Hon).
      cbn [andb]. unfold arrivals at 1. cbn [sends List.filter map app].
      apply app_nil_r. }
    split; [exact E|].
    intros m2 He2. rewrite E. f_equal. unfold arrivals. rewrite He2.
    cbn [List.filter reaches fst joined map snd].
    rewrite bool_decide_eq_true_2 by set_solver. reflexivity.
  - intros st missed Hmissed.
    rewrite (run_observed s _ st _ (session_at_agrees s st)).
    rewrite <- (app_nil_r (observed s st)) at 2. f_equal.
    cbn [expected follow arrivals sends List.filter map]. rewrite bool_decide_refl.
    rewrite <- (app_nil_r missed). now rewrite expected_signed_off.
  - intros st missed Hon Hmissed.
    rewrite (run_observed s _ st _ (session_at_agrees s st)).
    rewrite <- (app_nil_r (observed s st)) at 2. f_equal.
    cbn [expected follow arrivals sends List.filter map].
    rewrite bool_decide_refl, (session_at_connected s st Hon). cbn [andb app].
    rewrite <- (app_nil_r missed).
    rewrite (expected_not_joined s room); [reflexivity| |assumption].
    simpl. set_solver.
  - intros st missed later Hmissed.
    rewrite (run_observed s _ st _ (session_at_agrees s st)). f_equal.
    cbn [expected follow arrivals sends List.filter map app].
    rewrite bool_decide_refl, expected_signed_off by assumption.
    cbn [expected follow arrivals sends List.filter map app signed_off connected joined].
    rewrite !bool_decide_refl. cbn [andb].
    cbn [connected joined]. now rewrite (right_id_L ∅ (∪)).
  - intros st testRun now completed. cbn [WebSocketManager.step].
    unfold WebSocketManager.emitTestRunCompleted, WebSocketManager.emitToRoom,
      WebSocketManager.emit.
    rewrite !observed_send, <- !app_assoc. reflexivity.
Qed.

Lemma room_events_reach_current_members_witness :
  observed "socket-1"
    (WebSocketManager.run (WebSocketManager.run WebSocketManager.init [Connect "socket-1"])
       [event_1; SubscribeTestRun "socket-1" "run-1"; event_2])
  = [mkMessage "test:completed" (PResult collected_result) 1110].
Proof.
  destruct (room_events_reach_current_members "socket-1" "run-1") as [_ [_ [H _]]].
  destruct (H (WebSocketManager.run WebSocketManager.init [Connect "socket-1"])
              event_1 event_2) as [E _].
  - vm_compute. reflexivity.
  - vm_compute. discriminate.
  - split; [reflexivity|]. intros cm [<-|[]]. reflexivity.
  - rewrite E. vm_compute. reflexivity.
Defined.

(** A connected socket that never subscribed is handed the completion of
    a run, which is also published to the room of the run. *)
Lemma completed_run_reaches_every_socket :
  ~ delivered_as_member_only "socket-1" (WebSocketManager.run_room "run-1")
      [Connect "socket-1"; EmitTestRunCompleted completed_run 1200].
Proof.
  intros H.
  specialize (H (mkMessage "test-run:completed" (PRun completed_run) 1200)).
  simpl in H. apply H.
  - right. right. left. reflexivity.
  - vm_compute. left. reflexivity.
Qed.

(** A socket connects, misses [event_1], subscribes, is handed
    [event_2], disconnects, misses a second [event_1], connects and
    subscribes again, and is handed the last [event_2] only. *)
Example no_replay_after_reconnect :
  observed "socket-1"
    (WebSocketManager.run WebSocketManager.init
       [Connect "socket-1"; event_1; SubscribeTestRun "socket-1" "run-1"; event_2;
        Disconnect "socket-1"; event_1;
        Connect "socket-1"; SubscribeTestRun "socket-1" "run-1"; event_2])
  = [mkMessage "test:completed" (PResult collected_result) 1110;
     mkMessage "test:completed" (PResult collected_result) 1110].
Proof.
  rewrite (run_observed "socket-1" _ _ _ (session_of_init "socket-1")).
  vm_compute. reflexivity.
Qed.

(** Besides the copy for the room of the run, [emitTestRunCompleted]
    sends the event to every connected socket, subscribed or not: that
    copy does not go through the room. *)
Lemma run_completed_is_also_broadcast (s : string) (testRun : TestRun.t)
    (now : Timestamp) (st : WebSocketManager.t) :
  s ∈ WebSocketManager.connectedClients st ->
  In (mkDelivery s None "test-run:completed"
        (mkMessage "test-run:completed" (PRun testRun) now))
     (WebSocketManager.delivered (WebSocketManager.emitTestRunCompleted testRun now st)).
Proof.
  intros Hs. unfold WebSocketManager.emitTestRunCompleted, WebSocketManager.emitToRoom,
    WebSocketManager.emit, WebSocketManager.send. simpl.
  rewrite !in_app_iff. left. left. right.
  apply in_map_iff. exists s. split; [reflexivity|].
  apply list_elem_of_In, elem_of_elements, Hs.
Qed.

(** ** The status filter of [findAll] *)

Lemma mapTestStatusToRunStatus_cases (sts : list TestStatus) :
  TestRunRepositoryImpl.mapTestStatusToRunStatus sts
  = (if includes sts FAILED then [Failed] else [])
    ++ (if includes sts PASSED then [Completed] else []).
Proof.
  unfold TestRunRepositoryImpl.mapTestStatusToRunStatus.
  destruct (includes sts FAILED), (includes sts PASSED); reflexivity.
Qed.

Lemma and_iff_both (A B C D : Prop) : (A <-> B) -> (C <-> D) -> (A /\ C <-> B /\ D).
Proof. tauto. Qed.

Lemma run_conditions_spec (f : TestFilter.t) (r : RunRow.t) :
  forallb (fun c => c r) (TestRunRepositoryImpl.conditions (Some f)) = true
  <-> run_satisfies f r.
Proof.
  unfold TestRunRepositoryImpl.conditions, run_satisfies.
  rewrite !forallb_app, !andb_true_iff.
  apply and_iff_both; [|apply and_iff_both].
  - destruct (TestFilter.dateRange f) as [dr|]; cbn [forallb].
    + rewrite andb_true_r, andb_true_iff, !Z.leb_le. split.
      * intros H dr' [= <-]. exact H.
      * intros H. now apply H.
    + split; [intros _ dr [=] | reflexivity].
  - destruct (TestFilter.browser f) as [[|b bs]|]; cbn [forallb].
    + split; [intros _ names [= <-] Hne; now contradiction Hne | reflexivity].
    + rewrite andb_true_r, includes_In. split.
      * intros H names [= <-] _. exact H.
      * intros H. apply H; [reflexivity | discriminate].
    + split; [intros _ names [=] | reflexivity].
  - destruct (TestFilter.status f) as [[|s ss]|]; cbn [forallb].
    + split; [intros _ sts [= <-] [[]|[]] | reflexivity].
    + rewrite mapTestStatusToRunStatus_cases.
      pose proof (includes_In (s :: ss) FAILED) as Hf.
      pose proof (includes_In (s :: ss) PASSED) as Hp.
      destruct (includes (s :: ss) FAILED), (includes (s :: ss) PASSED);
        cbn [app forallb]; rewrite ?andb_true_r, ?includes_In.
      * split.
        -- intros [<-|[<-|[]]] sts [= <-] _; [left|right]; split; tauto.
        -- intros H. destruct (H _ eq_refl) as [[-> _]|[-> _]]; simpl; tauto.
      * split.
        -- intros [<-|[]] sts [= <-] _. left. split; tauto.
        -- intros H. destruct (H _ eq_refl) as [[-> _]|[_ Hin]]; simpl; [tauto..|].
           apply Hp in Hin. discriminate.
      * split.
        -- intros [<-|[]] sts [= <-] _. right. split; tauto.
        -- intros H. destruct (H _ eq_refl) as [[_ Hin]|[-> _]]; simpl; [tauto| |tauto].
           apply Hf in Hin. discriminate.
      * split; [|reflexivity]. intros _ sts [= <-] [Hin|Hin];
          [apply Hf in Hin | apply Hp in Hin]; discriminate.
    + split; [intros _ sts [=] | reflexivity].
Qed.

Lemma runs_desc_sorted (rows : list RunRow.t) :
  StronglySorted runs_by_start_time_desc
    (order_by TestRunRepositoryImpl.start_time_desc rows).
Proof.
  eapply StronglySorted_impl; [|apply order_by_sorted].
  - intros a b H. apply Z.leb_le in H. exact H.
  - intros a b. unfold TestRunRepositoryImpl.start_time_desc.
    rewrite !Z.leb_le. lia.
  - intros a b c. unfold TestRunRepositoryImpl.start_time_desc.
    rewrite !Z.leb_le. lia.
Qed.

(** What the conditions of a status filter select. *)
Lemma status_conditions_requested (sts : list TestStatus) (r : RunRow.t) :
  forallb (fun c => c r) (TestRunRepositoryImpl.conditions (Some (status_filter sts)))
  = requested sts (RunRow.status r).
Proof.
  unfold TestRunRepositoryImpl.conditions, requested. cbn [TestFilter.dateRange
    TestFilter.browser TestFilter.status status_filter app].
  destruct sts as [|s ss]; [reflexivity|].
  rewrite mapTestStatusToRunStatus_cases.
  destruct (includes (s :: ss) FAILED), (includes (s :: ss) PASSED);
    cbn [app forallb includes existsb orb andb];
    destruct (RunRow.status r); reflexivity.
Qed.

Lemma requested_conditions (f : TestFilter.t) (sts : list TestStatus) (r : RunRow.t) :
  TestFilter.status f = Some sts ->
  forallb (fun c => c r) (TestRunRepositoryImpl.conditions (Some f))
  = forallb (fun c => c r) (TestRunRepositoryImpl.conditions (Some (without_status f)))
    && requested sts (RunRow.status r).
Proof.
  intros Hs. rewrite <- status_conditions_requested.
  unfold TestRunRepositoryImpl.conditions.
  cbn [TestFilter.dateRange TestFilter.browser TestFilter.status status_filter
       without_status].
  rewrite Hs, !forallb_app. cbn [forallb]. rewrite <- !andb_assoc. cbn [andb].
  reflexivity.
Qed.

(** C10.  [findAll] maps the requested test statuses to run statuses by
    'failed' to 'failed' and 'passed' to 'completed' only, and the rows
    it returns follow the mapping: with a status list it returns, newest
    first, the stored runs that pass the other predicates of the filter
    and whose status is 'failed' if 'failed' is requested or 'completed'
    if 'passed' is requested; a status list with neither contributes no
    condition, so the filter behaves as if it had no status list, and
    alone it returns every stored run, of every status. *)
Theorem findAll_status_mapping :
  (forall sts rs,
     In rs (TestRunRepositoryImpl.mapTestStatusToRunStatus sts)
     <-> (rs = Failed /\ In FAILED sts) \/ (rs = Completed /\ In PASSED sts))
  /\ (forall f sts st,
        TestFilter.status f = Some sts ->
        includes sts FAILED = false -> includes sts PASSED = false ->
        TestRunRepositoryImpl.findAll (Some f) st
        = TestRunRepositoryImpl.findAll (Some (without_status f)) st)
  /\ (forall sts st,
        includes sts FAILED = false -> includes sts PASSED = false ->
        exists rows,
          TestRunRepositoryImpl.findAll (Some (status_filter sts)) st
          = (Ok (map TestRunRepositoryImpl.mapRowToTestRun rows), st)
          /\ Permutation rows (test_runs st))
  /\ (forall sts st,
        exists rows,
          TestRunRepositoryImpl.findAll (Some (status_filter sts)) st
          = (Ok (map TestRunRepositoryImpl.mapRowToTestRun rows), st)
          /\ Permutation rows
               (List.filter (fun r => requested sts (RunRow.status r)) (test_runs st))
          /\ StronglySorted runs_by_start_time_desc rows)
  /\ (forall f sts st,
        TestFilter.status f = Some sts ->
        exists rows,
          TestRunRepositoryImpl.findAll (Some f) st
          = (Ok (map TestRunRepositoryImpl.mapRowToTestRun rows), st)
          /\ (forall r,
                In r rows
                <-> In r (test_runs st)
                    /\ run_satisfies (without_status f) r
                    /\ requested sts (RunRow.status r) = true)
          /\ (exists others,
                (forall r, others r = true <-> run_satisfies (without_status f) r)
                /\ Permutation rows
                     (List.filter
                        (fun r => others r && requested sts (RunRow.status r))
                        (test_runs st)))
          /\ StronglySorted runs_by_start_time_desc rows)
  /\ (forall sts status,
        requested sts status = true
        <-> (status = Failed /\ In FAILED sts)
            \/ (status = Completed /\ In PASSED sts)
            \/ (~ In FAILED sts /\ ~ In PASSED sts)).
Proof.
  repeat apply conj.
  - intros sts rs. rewrite mapTestStatusToRunStatus_cases, in_app_iff.
    pose proof (includes_In sts FAILED) as Hf.
    pose proof (includes_In sts PASSED) as Hp.
    destruct (includes sts FAILED), (includes sts PASSED), rs; simpl;
      intuition (try discriminate; try congruence; auto).
  - intros f sts st Hs Hf Hp.
    unfold TestRunRepositoryImpl.findAll, TestRunRepositoryImpl.conditions.
    rewrite Hs. simpl.
    destruct sts as [|s ss]; [reflexivity|].
    rewrite mapTestStatusToRunStatus_cases, Hf, Hp. reflexivity.
  - intros sts st Hf Hp.
    exists (order_by TestRunRepositoryImpl.start_time_desc (test_runs st)).
    split; [|apply order_by_perm].
    assert (Hc : TestRunRepositoryImpl.conditions (Some (status_filter sts)) = []).
    { unfold TestRunRepositoryImpl.conditions. simpl.
      destruct sts as [|s ss]; [reflexivity|].
      rewrite mapTestStatusToRunStatus_cases, Hf, Hp. reflexivity. }
    unfold TestRunRepositoryImpl.findAll. rewrite Hc.
    unfold db_bind, select, db_ret. simpl.
    rewrite filter_all by reflexivity. reflexivity.
  - intros sts st.
    exists (order_by TestRunRepositoryImpl.start_time_desc
              (List.filter (fun r => requested sts (RunRow.status r)) (test_runs st))).
    split; [|split; [apply order_by_perm | apply runs_desc_sorted]].
    unfold TestRunRepositoryImpl.findAll, db_bind, select, db_ret. cbn [fst snd].
    do 4 f_equal. apply filter_ext_eq. intros r. apply status_conditions_requested.
  - intros f sts st Hs.
    exists (order_by TestRunRepositoryImpl.start_time_desc
              (List.filter
                 (fun r => forallb (fun c => c r)
                             (TestRunRepositoryImpl.conditions (Some (without_status f)))
                           && requested sts (RunRow.status r))
                 (test_runs st))).
    split; [|split; [|split]].
    + unfold TestRunRepositoryImpl.findAll, db_bind, select, db_ret. cbn [fst snd].
      do 4 f_equal. apply filter_ext_eq. intros r. now apply requested_conditions.
    + intros r. rewrite order_by_In, filter_In, andb_true_iff, run_conditions_spec.
      reflexivity.
    + exists (fun r => forallb (fun c => c r)
                         (TestRunRepositoryImpl.conditions (Some (without_status f)))).
      split; [intros r; apply run_conditions_spec | apply order_by_perm].
    + apply runs_desc_sorted.
  - intros sts status. unfold requested.
    pose proof (includes_In sts FAILED) as Hf.
    pose proof (includes_In sts PASSED) as Hp.
    destruct (includes sts FAILED), (includes sts PASSED), status; simpl;
      intuition (try discriminate; try congruence; auto).
Qed.

Lemma findAll_status_mapping_witness :
  (exists rows,
     TestRunRepositoryImpl.findAll (Some (status_filter [SKIPPED])) four_runs
     = (Ok (map TestRunRepositoryImpl.mapRowToTestRun rows), four_runs)
     /\ Permutation rows (test_runs four_runs))
  /\ (exists rows,
        TestRunRepositoryImpl.findAll (Some (status_filter [FAILED; SKIPPED])) four_runs
        = (Ok (map TestRunRepositoryImpl.mapRowToTestRun rows), four_runs)
        /\ Permutation rows [sample_run "run-3" 3000 Failed]).
Proof.
  destruct findAll_status_mapping as [_ [_ [H [H' _]]]].
  split.
  - apply (H [SKIPPED] four_runs); reflexivity.
  - destruct (H' [FAILED; SKIPPED] four_runs) as [rows [E [P _]]].
    exists rows. split; assumption.
Defined.

(** Asked for failed and passed tests, [findAll] returns the failed and
    the completed runs, newest first, and leaves out the running and the
    cancelled ones. *)
Example findAll_failed_and_passed :
  TestRunRepositoryImpl.findAll (Some (status_filter [PASSED; FAILED])) four_runs
  = (Ok (map TestRunRepositoryImpl.mapRowToTestRun
           [sample_run "run-3" 3000 Failed; sample_run "run-1" 1000 Completed]),
     four_runs).
Proof. reflexivity. Qed.

(** * Further properties of the persistence layer *)

(** ** Deleting a result *)

Lemma delete_test_results_nothing (where_ : ResultRow.t -> bool) (st : Store) :
  (forall r, In r (test_results st) -> where_ r = false) ->
  delete_test_results where_ st = (Ok 0, st).
Proof.
  intros H. unfold delete_test_results.
  rewrite (filter_none where_) by assumption. simpl.
  rewrite (filter_all (fun r => negb (where_ r))).
  2:{ intros r Hr. now rewrite H. }
  rewrite filter_all by reflexivity.
  now destruct st.
Qed.

(** X1.  [TestResultRepositoryImpl.delete(id)] fails with NotFound and
    leaves the store unchanged when no result has that id; otherwise it
    removes the result and its screenshots and nothing else: the runs are
    untouched, and a store in which every result and screenshot has its
    parent stays so. *)
Theorem delete_result_cascades :
  forall (id : string) (st : Store),
    (has_result id st = false ->
     exists message,
       TestResultRepositoryImpl.delete id st = (Err (NotFound message), st))
    /\ (has_result id st = true ->
        exists st',
          TestResultRepositoryImpl.delete id st = (Ok tt, st')
          /\ test_runs st' = test_runs st
          /\ (forall r, In r (test_results st') <->
                In r (test_results st) /\ ResultRow.id r <> id)
          /\ (forall s, In s (screenshots st') <->
                In s (screenshots st) /\ ScreenshotRow.test_result_id s <> id)
          /\ (referential_integrity st -> referential_integrity st')).
Proof.
  intros id st. split; intros Hhas.
  - eexists. unfold TestResultRepositoryImpl.delete, db_bind.
    rewrite delete_test_results_nothing; [reflexivity|].
    now apply has_result_false.
  - unfold TestResultRepositoryImpl.delete, db_bind, delete_test_results.
    pose proof (has_result_count id st Hhas) as Hcount.
    apply Z.eqb_neq in Hcount. rewrite Hcount.
    eexists. split; [reflexivity|]. simpl.
    assert (Hres : forall r,
               In r (List.filter (fun r => negb (bool_decide (ResultRow.id r = id)))
                       (test_results st))
               <-> In r (test_results st) /\ ResultRow.id r <> id).
    { intros r. rewrite filter_In. apply and_iff_compat_l.
      apply negb_true_not. apply bool_decide_eq_true. }
    assert (Hshot : forall s,
               In s (List.filter
                       (fun s => negb (owned_by_result
                                         (List.filter (fun r => bool_decide (ResultRow.id r = id))
                                            (test_results st)) s))
                       (screenshots st))
               <-> In s (screenshots st) /\ ScreenshotRow.test_result_id s <> id).
    { intros s. rewrite filter_In. apply and_iff_compat_l.
      apply negb_true_not. rewrite owned_by_result_spec. split.
      - intros [r [Hr Hid]]. apply filter_In in Hr. destruct Hr as [_ Hr].
        apply bool_decide_eq_true in Hr. congruence.
      - intros Hid. apply has_result_In in Hhas. destruct Hhas as [r [Hr Hrid]].
        exists r. split; [|congruence].
        apply filter_In. split; [assumption|]. now apply bool_decide_eq_true. }
    split; [reflexivity|]. split; [exact Hres|]. split; [exact Hshot|].
    intros [Hruns Hshots]. split; simpl.
    + intros r Hr. apply Hres in Hr. now apply Hruns.
    + intros s Hs. apply Hshot in Hs. destruct Hs as [Hs Hne].
      destruct (Hshots s Hs) as [r [Hr Hid]]. exists r. split; [|assumption].
      apply Hres. split; [assumption|]. congruence.
Qed.

Lemma delete_result_cascades_witness :
  exists st',
    TestResultRepositoryImpl.delete "t-1" sample_store = (Ok tt, st')
    /\ referential_integrity st'.
Proof.
  destruct (delete_result_cascades "t-1" sample_store) as [_ H].
  destruct (H eq_refl) as [st' [Heq [_ [_ [_ Hint]]]]].
  exists st'. split; [exact Heq|].
  apply Hint. apply referential_integrityb_spec. reflexivity.
Defined.

(** ** Creating a result *)

Lemma select_appended_result (id : string) (row : ResultRow.t) (st : Store) :
  has_result id st = false ->
  ResultRow.id row = id ->
  List.filter (fun r => bool_decide (ResultRow.id r = id)) (test_results st ++ [row])
  = [row].
Proof.
  intros Hfresh Hid. rewrite List.filter_app.
  rewrite (filter_none _ (test_results st)) by now apply has_result_false.
  simpl. now rewrite bool_decide_eq_true_2.
Qed.

Lemma kept_text_stored (o : Optional string) :
  nullable (string_or_null (defined o)) = o <-> kept_text o.
Proof.
  unfold kept_text. destruct o as [| |s]; cbn.
  - split; [discriminate|]. intros [H|[s [H _]]]; discriminate H.
  - split; [now left | reflexivity].
  - destruct (decide (s = "")) as [->|Hs].
    + rewrite bool_decide_eq_true_2 by reflexivity. cbn.
      split; [discriminate|]. intros [H|[s [[= <-] H]]]; [discriminate | congruence].
    + rewrite bool_decide_eq_false_2 by assumption. cbn.
      split; [|reflexivity]. intros _. right. now exists s.
Qed.

Lemma kept_number_stored_iff (o : Optional Z) :
  nullable (number_or_null (defined o)) = o <-> kept_number o.
Proof.
  unfold kept_number. destruct o as [| |n]; cbn.
  - split; [discriminate|]. intros [H|[n [H _]]]; discriminate H.
  - split; [now left | reflexivity].
  - destruct (Z.eqb_spec n 0) as [->|Hn]; cbn.
    + split; [discriminate|]. intros [H|[n [[= <-] H]]]; [discriminate | congruence].
    + split; [|reflexivity]. intros _. right. now exists n.
Qed.

Lemma read_tags (l : list string) :
  JSON_parse_as (fun j => Some (strings_of_json j)) None (JSON_stringify_strings l)
  = Some l.
Proof.
  unfold JSON_parse_as. rewrite JSON_parse_strings.
  change (strings_of_json (json_of_strings l) = Some l).
  apply strings_of_json_of_strings.
Qed.

(** The error, the browser and the viewport of a result, written to
    their columns and read back. *)
Lemma error_stored (error : option TestError) :
  match string_or_null (string_or_null (option_map err_name error)) with
  | Some name =>
      Some (mkTestError name
              (nullable (string_or_null (error ≫= fun e => defined (err_message e))))
              (nullable (string_or_null (error ≫= fun e => defined (err_stack e))))
              None
              (nullable (string_or_null (error ≫= fun e => defined (err_diff e)))))
  | None => None
  end = error
  <-> forall e, error = Some e ->
        err_name e <> "" /\ kept_text (err_message e) /\ kept_text (err_stack e)
        /\ err_codeFrame e = None /\ kept_text (err_diff e).
Proof.
  destruct error as [[name message stack frame diff]|]; cbn.
  - destruct (decide (name = "")) as [->|Hname].
    + rewrite bool_decide_eq_true_2 by reflexivity. cbn. split; [discriminate|].
      intros H. destruct (H _ eq_refl) as [Hn _]. now contradiction Hn.
    + rewrite bool_decide_eq_false_2 by assumption. cbn.
      rewrite bool_decide_eq_false_2 by assumption.
      split.
      * intros [= H1 H2 H3 H4] e [= <-]. cbn.
        rewrite <- !kept_text_stored. intuition congruence.
      * intros H. destruct (H _ eq_refl) as [_ [H1 [H2 [H3 H4]]]]. cbn in *.
        apply kept_text_stored in H1, H2, H4.
        now rewrite H1, H2, H4, H3.
  - split; [intros _ e [=] | reflexivity].
Qed.

Lemma browser_stored (browser : option BrowserInfo) :
  match string_or_null (string_or_null (option_map br_name browser)) with
  | Some name =>
      Some (mkBrowserInfo name
              (nullable (string_or_null (browser ≫= fun b => defined (br_version b))))
              None None None None None None None)
  | None => None
  end = browser
  <-> forall b, browser = Some b ->
        br_name b <> "" /\ kept_text (br_version b)
        /\ br_family b = None /\ br_channel b = None /\ br_displayName b = None
        /\ br_majorVersion b = None /\ br_path b = None
        /\ br_isHeadless b = None /\ br_isHeaded b = None.
Proof.
  destruct browser as [[name version f1 f2 f3 f4 f5 f6 f7]|]; cbn.
  - destruct (decide (name = "")) as [->|Hname].
    + rewrite bool_decide_eq_true_2 by reflexivity. cbn. split; [discriminate|].
      intros H. destruct (H _ eq_refl) as [Hn _]. now contradiction Hn.
    + rewrite bool_decide_eq_false_2 by assumption. cbn.
      rewrite bool_decide_eq_false_2 by assumption.
      split.
      * intros [= H1 <- <- <- <- <- <- <-] b [= <-]. cbn.
        rewrite <- kept_text_stored. intuition congruence.
      * intros H.
        destruct (H _ eq_refl) as [_ [H1 [H2 [H3 [H4 [H5 [H6 [H7 H8]]]]]]]].
        cbn in *. apply kept_text_stored in H1.
        now rewrite H1, H2, H3, H4, H5, H6, H7, H8.
  - split; [intros _ b [=] | reflexivity].
Qed.

Lemma viewport_stored (viewport : option ViewportInfo) :
  match number_or_null (number_or_null (option_map vp_width viewport)) with
  | Some width =>
      Some (mkViewportInfo width
              (nullable (number_or_null (viewport ≫= fun v => defined (vp_height v)))))
  | None => None
  end = viewport
  <-> forall v, viewport = Some v -> vp_width v <> 0 /\ kept_number (vp_height v).
Proof.
  destruct viewport as [[width height]|]; cbn.
  - destruct (Z.eqb_spec width 0) as [->|Hw]; cbn.
    + split; [discriminate|].
      intros H. destruct (H _ eq_refl) as [Hn _]. now contradiction Hn.
    + rewrite (proj2 (Z.eqb_neq width 0) Hw).
      split.
      * intros [= H1] v [= <-]. cbn. rewrite <- kept_number_stored_iff. intuition congruence.
      * intros H. destruct (H _ eq_refl) as [_ H1]. cbn in *.
        apply kept_number_stored_iff in H1. now rewrite H1.
  - split; [intros _ v [=] | reflexivity].
Qed.

Lemma tags_stored (tags : option (list string)) :
  match string_or_null (option_map JSON_stringify_strings tags) with
  | Some text => JSON_parse_as (fun j => Some (strings_of_json j)) None text
  | None => None
  end = tags.
Proof.
  destruct tags as [l|]; cbn [option_map]; [|reflexivity].
  rewrite (string_or_null_text _ (JSON_stringify_strings_not_empty l)).
  apply read_tags.
Qed.

(** X2.  [TestResultRepositoryImpl.create] is rejected, and the store left
    as it was, when the generated id is taken or when no run has the
    [runId] of the result (foreign key).  Otherwise it returns the result
    under the generated id and appends one row to [test_results],
    touching no other table, and [findById] with that id then finds a
    result.  What it finds is the created result, with [pending] as the
    number 1 or 0, exactly when every optional text of the result
    (screenshot, context, the message, stack and diff of the error, the
    version of the browser) and the height of the viewport is [null] or
    a value that is not falsy, the names of the error and of the browser
    are not empty, the width of the viewport is not zero, and the error
    and the browser carry no property without a column (code frame,
    family, channel and so on); the tags are read back from their JSON
    text. *)
Theorem create_result_outcomes :
  forall (generateId : string) (now : Timestamp) (result : TestResult.t) (st : Store),
    (has_result generateId st = true ->
     exists message,
       TestResultRepositoryImpl.create generateId now result st
       = (Err (SqliteError message), st))
    /\ (has_run (TestResult.runId result) st = false ->
        exists message,
          TestResultRepositoryImpl.create generateId now result st
          = (Err (SqliteError message), st))
    /\ (has_result generateId st = false ->
        has_run (TestResult.runId result) st = true ->
        let created := TestResultRepositoryImpl.with_id generateId result in
        exists row st' fetched,
          TestResultRepositoryImpl.create generateId now result st = (Ok created, st')
          /\ st' = mkStore (test_runs st) (test_results st ++ [row]) (screenshots st)
          /\ TestResultRepositoryImpl.findById generateId st' = (Ok (Some fetched), st')
          /\ (fetched = pending_as_number created <-> survives_storage result)).
Proof.
  intros generateId now result st. split; [|split].
  - intros Htaken. eexists.
    unfold TestResultRepositoryImpl.create, db_bind, insert_test_result. simpl.
    rewrite Htaken. reflexivity.
  - intros Hrun.
    unfold TestResultRepositoryImpl.create, db_bind, insert_test_result. simpl.
    rewrite Hrun. simpl. destruct (has_result generateId st); eexists; reflexivity.
  - intros Hfresh Hrun created.
    unfold TestResultRepositoryImpl.create, db_bind, insert_test_result.
    cbn [ResultRow.id ResultRow.run_id TestResult.id TestResult.runId
         TestResultRepositoryImpl.with_id].
    rewrite Hfresh, Hrun. cbn [negb].
    eexists. eexists. eexists. split; [reflexivity|]. split; [reflexivity|].
    split.
    { unfold TestResultRepositoryImpl.findById, db_bind, select.
      cbn [test_results].
      rewrite select_appended_result by (assumption || reflexivity).
      reflexivity. }
    unfold TestResultRepositoryImpl.mapRowToTestResult,
      TestResultRepositoryImpl.tags_text, pending_as_number, created,
      TestResultRepositoryImpl.with_id, survives_storage.
    cbn [ResultRow.id ResultRow.run_id ResultRow.title ResultRow.full_title
         ResultRow.state ResultRow.duration ResultRow.error_name
         ResultRow.error_message ResultRow.error_stack ResultRow.error_diff
         ResultRow.screenshot_path ResultRow.retries ResultRow.current_retry
         ResultRow.pending ResultRow.file ResultRow.parent ResultRow.context
         ResultRow.tags ResultRow.start_time ResultRow.end_time
         ResultRow.browser_name ResultRow.browser_version ResultRow.viewport_width
         ResultRow.viewport_height
         TestResult.id TestResult.runId TestResult.title TestResult.fullTitle
         TestResult.state TestResult.duration TestResult.error TestResult.screenshot
         TestResult.retries TestResult.currentRetry TestResult.pending
         TestResult.file TestResult.parent TestResult.context TestResult.tags
         TestResult.startTime TestResult.endTime TestResult.browser
         TestResult.viewport].
    rewrite tags_stored.
    rewrite <- error_stored, <- browser_stored, <- viewport_stored,
      <- !kept_text_stored.
    split.
    + intros [= He Hs Hc Hb Hv]. tauto.
    + intros [He [Hs [Hc [Hb Hv]]]]. now rewrite He, Hs, Hc, Hb, Hv.
Qed.

Lemma kept_result_survives : survives_storage kept_result.
Proof.
  assert (Htext : forall s, s <> "" -> kept_text (Defined s))
    by (intros s Hs; right; now exists s).
  unfold survives_storage, kept_result. cbn. split; [|split; [|split; [|split]]].
  - intros e [= <-]. cbn. repeat split; try discriminate; try (now left);
      apply Htext; discriminate.
  - now left.
  - apply Htext. discriminate.
  - intros b [= <-]. cbn. repeat split; try discriminate. apply Htext. discriminate.
  - intros v [= <-]. cbn. split; [discriminate|]. right. now exists 720.
Qed.

Lemma create_result_outcomes_witness :
  exists st',
    TestResultRepositoryImpl.findById "t-9" st'
    = (Ok (Some (pending_as_number
                   (TestResultRepositoryImpl.with_id "t-9" kept_result))), st')
    /\ test_results st' <> test_results sample_store.
Proof.
  destruct (create_result_outcomes "t-9" 5000 kept_result sample_store)
    as [_ [_ H]].
  destruct (H eq_refl eq_refl) as [row [st' [fetched [Hc [Hst [Hfind Hiff]]]]]].
  exists st'. rewrite <- (proj2 Hiff kept_result_survives). split; [exact Hfind|].
  rewrite Hst. cbn [test_results]. intros Heq.
  apply (f_equal (@length _)) in Heq. rewrite length_app in Heq. cbn in Heq. lia.
Defined.

(** A result as the reporter collects it has neither screenshot nor
    context, and is read back with [null] for both. *)
Example collected_result_is_read_back_with_null :
  ~ survives_storage collected_result
  /\ (TestResultRepositoryImpl.findById "t-9"
        (snd (TestResultRepositoryImpl.create "t-9" 5000 collected_result sample_store)))
     = (Ok (option_map
              (fun r => TestResult.mk (TestResult.id r) (TestResult.runId r)
                          (TestResult.title r) (TestResult.fullTitle r)
                          (TestResult.state r) (TestResult.duration r)
                          (TestResult.error r) Null (TestResult.retries r)
                          (TestResult.currentRetry r) (FlagBit false)
                          (TestResult.file r) (TestResult.parent r) Null
                          (TestResult.tags r) (TestResult.startTime r)
                          (TestResult.endTime r) (TestResult.browser r)
                          (TestResult.viewport r))
              (Some (TestResultRepositoryImpl.with_id "t-9" collected_result))),
        snd (TestResultRepositoryImpl.create "t-9" 5000 collected_result sample_store)).
Proof.
  split; [|vm_compute; reflexivity].
  intros [_ [[H|[s [H _]]] _]]; discriminate H.
Qed.

(** ** Queries over runs and results *)

(** X3.  [findByRunId(runId)] returns the stored results whose run is
    [runId], each once and no others, oldest first; the store is left as
    it is. *)
Theorem findByRunId_selects_and_orders :
  forall (runId : string) (st : Store),
    exists rows,
      TestResultRepositoryImpl.findByRunId runId st
      = (Ok (map TestResultRepositoryImpl.mapRowToTestResult rows), st)
      /\ Permutation rows
           (List.filter (fun r => bool_decide (ResultRow.run_id r = runId))
              (test_results st))
      /\ (forall r, In r rows <-> In r (test_results st) /\ ResultRow.run_id r = runId)
      /\ StronglySorted by_start_time_asc rows.
Proof.
  intros runId st.
  exists (order_by TestResultRepositoryImpl.start_time_asc
            (List.filter (fun r => bool_decide (ResultRow.run_id r = runId))
               (test_results st))).
  split; [reflexivity|]. split; [apply order_by_perm|]. split.
  - intros r. rewrite order_by_In, filter_In.
    apply and_iff_compat_l. apply bool_decide_eq_true.
  - eapply StronglySorted_impl; [|apply order_by_sorted].
    + intros a b H. apply Z.leb_le in H. exact H.
    + intros a b. unfold TestResultRepositoryImpl.start_time_asc.
      rewrite !Z.leb_le. lia.
    + intros a b c. unfold TestResultRepositoryImpl.start_time_asc.
      rewrite !Z.leb_le. lia.
Qed.

(** X4.  [findAll(filters)] returns the stored runs that satisfy the date
    range, the browser list and the mapped status list of the filter,
    each once and no others, newest first; it reads no other field of
    the filter (search, spec files, tags, duration, retries,
    screenshots), and without a filter it returns every run. *)
Theorem findAll_selects_and_orders :
  (forall f st,
     exists rows,
       TestRunRepositoryImpl.findAll (Some f) st
       = (Ok (map TestRunRepositoryImpl.mapRowToTestRun rows), st)
       /\ (forall r, In r rows <-> In r (test_runs st) /\ run_satisfies f r)
       /\ (exists selected,
             (forall r, selected r = true <-> run_satisfies f r)
             /\ Permutation rows (List.filter selected (test_runs st)))
       /\ StronglySorted runs_by_start_time_desc rows)
  /\ (forall f f' st,
        TestFilter.dateRange f = TestFilter.dateRange f' ->
        TestFilter.browser f = TestFilter.browser f' ->
        TestFilter.status f = TestFilter.status f' ->
        TestRunRepositoryImpl.findAll (Some f) st
        = TestRunRepositoryImpl.findAll (Some f') st)
  /\ (forall st,
        exists rows,
          TestRunRepositoryImpl.findAll None st
          = (Ok (map TestRunRepositoryImpl.mapRowToTestRun rows), st)
          /\ Permutation rows (test_runs st)
          /\ StronglySorted runs_by_start_time_desc rows).
Proof.
  split; [|split].
  - intros f st.
    exists (order_by TestRunRepositoryImpl.start_time_desc
              (List.filter (fun r => forallb (fun c => c r)
                                       (TestRunRepositoryImpl.conditions (Some f)))
                 (test_runs st))).
    split; [reflexivity|]. split; [|split].
    + intros r. rewrite order_by_In, filter_In, run_conditions_spec. reflexivity.
    + exists (fun r => forallb (fun c => c r) (TestRunRepositoryImpl.conditions (Some f))).
      split; [intros r; apply run_conditions_spec | apply order_by_perm].
    + apply runs_desc_sorted.
  - intros f f' st Hd Hb Hs.
    unfold TestRunRepositoryImpl.findAll, TestRunRepositoryImpl.conditions.
    now rewrite Hd, Hb, Hs.
  - intros st.
    exists (order_by TestRunRepositoryImpl.start_time_desc (test_runs st)).
    split; [|split].
    + unfold TestRunRepositoryImpl.findAll, db_bind, select. simpl.
      now rewrite filter_all by reflexivity.
    + apply order_by_perm.
    + apply runs_desc_sorted.
Qed.

Lemma findAll_selects_and_orders_witness :
  TestRunRepositoryImpl.findAll (Some (search_filter "firefox")) sample_store
  = TestRunRepositoryImpl.findAll (Some TestFilter.empty) sample_store.
Proof.
  destruct findAll_selects_and_orders as [_ [H _]].
  apply H; reflexivity.
Defined.

(** ** Retention *)

(** X5.  [deleteOlderThan(date)] returns the number of runs that started
    before [date] and removes them; afterwards no stored run started
    before [date], and deleting again with the same or an earlier date
    removes nothing and returns 0. *)
Theorem deleteOlderThan_is_idempotent :
  forall (date : Timestamp) (st : Store),
    exists st',
      TestRunRepositoryImpl.deleteOlderThan date st
      = (Ok (Z.of_nat (length (List.filter
                                 (fun r => Z.ltb (RunRow.start_time r) date)
                                 (test_runs st)))), st')
      /\ (forall r, In r (test_runs st') <->
            In r (test_runs st) /\ date <= RunRow.start_time r)
      /\ (forall earlier, earlier <= date ->
            TestRunRepositoryImpl.deleteOlderThan earlier st' = (Ok 0, st')).
Proof.
  intros date st. unfold TestRunRepositoryImpl.deleteOlderThan.
  destruct (delete_test_runs_spec (fun r => Z.ltb (RunRow.start_time r) date) st)
    as [st' [Heq [Hruns _]]].
  exists st'. split; [exact Heq|].
  assert (Hkept : forall r, In r (test_runs st') <->
                    In r (test_runs st) /\ date <= RunRow.start_time r).
  { intros r. rewrite Hruns, filter_In. apply and_iff_compat_l.
    rewrite negb_true_iff, Z.ltb_ge. reflexivity. }
  split; [exact Hkept|].
  intros earlier Hle. apply delete_test_runs_nothing.
  intros r Hr. apply Hkept in Hr. apply Z.ltb_ge. lia.
Qed.

Lemma deleteOlderThan_is_idempotent_witness :
  exists st',
    TestRunRepositoryImpl.deleteOlderThan 1500 sample_store = (Ok 1, st')
    /\ TestRunRepositoryImpl.deleteOlderThan 1200 st' = (Ok 0, st').
Proof.
  destruct (deleteOlderThan_is_idempotent 1500 sample_store) as [st' [Heq [_ H]]].
  exists st'. split; [exact Heq|]. apply H. lia.
Defined.

Lemma filter_and_length {A} (g h : A -> bool) (l : list A) :
  (length (List.filter (fun x => g x && h x) l) <= length (List.filter h l))%nat.
Proof.
  induction l as [|x l IH]; simpl; [lia|].
  destruct (g x), (h x); simpl; lia.
Qed.

(** X6.  The report of [cleanupOldData]: [deletedResults] and
    [deletedScreenshots] are the numbers of results that started, and of
    screenshots that were taken, before the cutoff, counted before
    anything is deleted.  Every such screenshot is removed, so
    [deletedScreenshots] never exceeds the number of screenshots
    removed; results are removed with their runs only, whatever
    [deletedResults] says. *)
Theorem cleanup_report_counts_by_age :
  forall (tz : DatabaseManager.TimeZone) (retentionDays : Z) (now : Timestamp)
         (st : Store),
    let cutoff := DatabaseManager.cutoffDate tz now retentionDays in
    exists report st',
      DatabaseManager.cleanupOldData tz retentionDays now st = (Ok report, st')
      /\ deletedResults report
         = Z.of_nat (length (List.filter
                               (fun r => Z.ltb (ResultRow.start_time r) cutoff)
                               (test_results st)))
      /\ deletedScreenshots report
         = Z.of_nat (length (List.filter
                               (fun s => Z.ltb (ScreenshotRow.taken_at s) cutoff)
                               (screenshots st)))
      /\ (forall s, In s (screenshots st') -> cutoff <= ScreenshotRow.taken_at s)
      /\ deletedScreenshots report
         <= Z.of_nat (length (screenshots st)) - Z.of_nat (length (screenshots st')).
Proof.
  intros tz retentionDays now st cutoff.
  unfold DatabaseManager.cleanupOldData, DatabaseManager.count, db_bind, select,
    TestRunRepositoryImpl.deleteOlderThan, delete_test_runs, delete_screenshots.
  fold cutoff. simpl.
  eexists. eexists. split; [reflexivity|]. simpl.
  split; [reflexivity|]. split; [reflexivity|]. split.
  - intros s Hs. apply filter_In in Hs. destruct Hs as [_ Hs].
    apply negb_true_iff, Z.ltb_ge in Hs. exact Hs.
  - set (old := fun s => Z.ltb (ScreenshotRow.taken_at s) cutoff).
    rewrite filter_filter.
    pose proof (filter_split_length old (screenshots st)) as Hsplit.
    match goal with
    | |- context [List.filter (fun x => negb (@?g x) && _) _] =>
        pose proof (filter_and_length (fun x => negb (g x)) (fun x => negb (old x))
                      (screenshots st)) as Hle
    end.
    cbv beta in Hle. unfold old in *. lia.
Qed.

Lemma cleanup_report_counts_by_age_witness :
  exists report st',
    DatabaseManager.cleanupOldData summer_zone 30 (101 * day_ms) old_screenshot_store
    = (Ok report, st')
    /\ deletedScreenshots report
       <= Z.of_nat (length (screenshots old_screenshot_store))
          - Z.of_nat (length (screenshots st')).
Proof.
  destruct (cleanup_report_counts_by_age summer_zone 30 (101 * day_ms)
              old_screenshot_store)
    as [report [st' [Heq [_ [_ [_ Hle]]]]]].
  exists report, st'. split; [exact Heq | exact Hle].
Defined.

(** ** Text search *)

Lemma sql_limit_first_rows {A} (limit : Z) (l : list A) :
  exists rest, l = sql_limit limit l ++ rest /\ first_rows limit (sql_limit limit l) rest.
Proof.
  unfold sql_limit, first_rows. destruct (Z.ltb_spec limit 0) as [Hneg|Hpos].
  - exists []. rewrite app_nil_r. split; [reflexivity|]. split; [reflexivity|lia].
  - exists (skipn (Z.to_nat limit) l). rewrite firstn_skipn.
    split; [reflexivity|]. split; [lia|]. intros _.
    rewrite length_firstn. lia.
Qed.

Lemma like_contains_everything (text : string) : like_contains "" (Some text) = true.
Proof.
  unfold like_contains, sql_like.
  change (characters ("%" +:+ "" +:+ "%")) with ("%" :: [] ++ ["%"]).
  apply like_chars_between. exists [], [], (characters text).
  split; [reflexivity | constructor].
Qed.

(** X7.  [search(query, limit)] of both repositories returns the newest
    [limit] rows (50 by default, all of them for a negative limit) among
    those in which [query] matches, by SQLite [LIKE] between [%] signs,
    the browser name or the spec-file list of a run, or the title, full
    title, error message or file of a result: the rows left out are not
    newer than the rows returned.  The empty query matches every row. *)
Theorem search_returns_newest_matches :
  (forall query limit st,
     exists page rest,
       TestRunReports.search query limit st
       = (Ok (map TestRunRepositoryImpl.mapRowToTestRun page), st)
       /\ (forall r, In r (page ++ rest) <-> In r (test_runs st) /\ run_matches query r)
       /\ length (page ++ rest)
          = length (List.filter
                      (fun r => like_contains query (Some (RunRow.browser_name r))
                                || like_contains query (TestRunReports.spec_files_text r))
                      (test_runs st))
       /\ StronglySorted runs_by_start_time_desc (page ++ rest)
       /\ first_rows (default 50 limit) page rest)
  /\ (forall query limit st,
        exists page rest,
          TestResultReports.search query limit st
          = (Ok (map TestResultRepositoryImpl.mapRowToTestResult page), st)
          /\ (forall r, In r (page ++ rest) <->
                In r (test_results st) /\ result_matches query r)
          /\ length (page ++ rest)
             = length (List.filter
                         (fun r => like_contains query (Some (ResultRow.title r))
                                   || like_contains query (Some (ResultRow.full_title r))
                                   || like_contains query (ResultRow.error_message r)
                                   || like_contains query (Some (ResultRow.file r)))
                         (test_results st))
          /\ StronglySorted by_start_time_desc (page ++ rest)
          /\ first_rows (default 50 limit) page rest)
  /\ (forall r, run_matches "" r)
  /\ (forall r, result_matches "" r).
Proof.
  split; [|split; [|split]].
  - intros query limit st.
    unfold TestRunReports.search, db_bind, select. simpl.
    set (found := List.filter _ (test_runs st)).
    destruct (sql_limit_first_rows (default 50 limit)
                (order_by TestRunRepositoryImpl.start_time_desc found))
      as [rest [Hsplit Hfirst]].
    exists (sql_limit (default 50 limit)
              (order_by TestRunRepositoryImpl.start_time_desc found)), rest.
    split; [reflexivity|]. rewrite <- Hsplit. split; [|split; [|split]].
    + intros r. rewrite order_by_In. unfold found. rewrite filter_In.
      apply and_iff_compat_l. rewrite orb_true_iff. reflexivity.
    + apply order_by_length.
    + apply runs_desc_sorted.
    + exact Hfirst.
  - intros query limit st.
    unfold TestResultReports.search, db_bind, select. simpl.
    set (found := List.filter _ (test_results st)).
    destruct (sql_limit_first_rows (default 50 limit)
                (order_by TestResultRepositoryImpl.start_time_desc found))
      as [rest [Hsplit Hfirst]].
    exists (sql_limit (default 50 limit)
              (order_by TestResultRepositoryImpl.start_time_desc found)), rest.
    split; [reflexivity|]. rewrite <- Hsplit. split; [|split; [|split]].
    + intros r. rewrite order_by_In. unfold found. rewrite filter_In.
      apply and_iff_compat_l. rewrite !orb_true_iff. unfold result_matches, like_match.
      tauto.
    + apply order_by_length.
    + apply results_desc_sorted.
    + exact Hfirst.
  - intros r. left. apply like_contains_everything.
  - intros r. left. apply like_contains_everything.
Qed.

(** ** Statistics *)

Lemma sum_of_nonneg {A} (column : A -> Z) (rows : list A) :
  (forall r, In r rows -> 0 <= column r) -> 0 <= sum_of column rows.
Proof.
  induction rows as [|r rows IH]; simpl; intros H; [lia|].
  assert (0 <= column r) by auto. assert (0 <= sum_of column rows) by auto. lia.
Qed.

Lemma sum_of_le {A} (f g : A -> Z) (rows : list A) :
  (forall r, In r rows -> f r <= g r) -> sum_of f rows <= sum_of g rows.
Proof.
  induction rows as [|r rows IH]; simpl; intros H; [lia|].
  assert (f r <= g r) by auto. assert (sum_of f rows <= sum_of g rows) by auto. lia.
Qed.

Lemma sum_of_map {A} (column : A -> Z) (rows : list A) :
  sum_of (fun v => v) (map column rows) = sum_of column rows.
Proof. induction rows as [|r rows IH]; simpl; congruence. Qed.

(** [Math.round] of a ratio of integers is the nearest integer. *)
Lemma Math_round_ratio (s n : Z) :
  0 < n ->
  2 * n * Math_round (inject_Z s / inject_Z n) <= 2 * s + n
  /\ 2 * s + n < 2 * n * (Math_round (inject_Z s / inject_Z n) + 1).
Proof.
  intros Hn. unfold Math_round.
  set (x := (inject_Z s / inject_Z n + (1 # 2))%Q).
  pose proof (Qfloor_le x) as Hlo. pose proof (Qlt_floor x) as Hhi.
  assert (Hx : (x * inject_Z (2 * n) == inject_Z (2 * s + n))%Q).
  { unfold x. rewrite !inject_Z_plus, !inject_Z_mult. field.
    intros H. apply (Qeq_bool_neq (inject_Z n) 0); [|exact H].
    unfold Qeq_bool, inject_Z. simpl. apply Z.eqb_neq. lia. }
  assert (Hpos : (0 < inject_Z (2 * n))%Q) by (unfold Qlt, inject_Z; simpl; lia).
  split.
  - apply (Qmult_le_compat_r _ _ (inject_Z (2 * n))) in Hlo; [|now apply Qlt_le_weak].
    rewrite Hx, <- inject_Z_mult, <- Zle_Qle in Hlo. lia.
  - apply (Qmult_lt_compat_r _ _ (inject_Z (2 * n))) in Hhi; [|assumption].
    rewrite Hx, <- inject_Z_mult, <- Zlt_Qlt in Hhi. lia.
Qed.

Lemma rounded_avg_nearest (values : list Z) :
  values <> [] ->
  let n := Z.of_nat (length values) in
  let s := sum_of (fun v => v) values in
  2 * n * rounded_avg values <= 2 * s + n < 2 * n * (rounded_avg values + 1).
Proof.
  intros Hne n s. unfold rounded_avg, avg_of.
  destruct values as [|v values]; [contradiction|].
  cbn [default]. apply Math_round_ratio. unfold n. simpl. lia.
Qed.

Lemma states_partition (rows : list ResultRow.t) :
  Z.of_nat (length rows)
  = TestResultReports.count_state PASSED rows
    + TestResultReports.count_state FAILED rows
    + TestResultReports.count_state SKIPPED rows
    + TestResultReports.count_state PENDING rows
    + TestResultReports.count_state RETRIED rows.
Proof.
  unfold TestResultReports.count_state.
  induction rows as [|r rows IH]; simpl; [reflexivity|].
  destruct (ResultRow.state r); simpl; lia.
Qed.

(** X8.  [TestResultRepositoryImpl.getStatistics(runId)] counts the
    results of the run, or of every run when [runId] is absent or
    empty.  The four counts and the number of retried results add up to
    [total]; [totalDuration] is the sum of the durations and
    [averageDuration] is the integer nearest to their mean (halves
    upwards); with no result every figure is zero. *)
Theorem result_statistics_add_up :
  forall (runId : option string) (st : Store),
    exists stats rows,
      TestResultReports.getStatistics runId st = (Ok stats, st)
      /\ rows = match runId with
                | Some id =>
                    if bool_decide (id = "") then test_results st
                    else List.filter (fun r => bool_decide (ResultRow.run_id r = id))
                           (test_results st)
                | None => test_results st
                end
      /\ rs_total stats = Z.of_nat (length rows)
      /\ rs_total stats
         = rs_passed stats + rs_failed stats + rs_skipped stats + rs_pending stats
           + TestResultReports.count_state RETRIED rows
      /\ rs_totalDuration stats = sum_of ResultRow.duration rows
      /\ (rows <> [] ->
          2 * rs_total stats * rs_averageDuration stats
          <= 2 * rs_totalDuration stats + rs_total stats
          < 2 * rs_total stats * (rs_averageDuration stats + 1))
      /\ (rows = [] -> stats = mkResultStatistics 0 0 0 0 0 0 0).
Proof.
  intros runId st.
  unfold TestResultReports.getStatistics, db_bind, select. simpl.
  set (rows := List.filter _ (test_results st)).
  eexists. exists rows. split; [reflexivity|]. split.
  { unfold rows. destruct runId as [id|]; simpl.
    - case_bool_decide; [apply filter_all|]; reflexivity.
    - apply filter_all. reflexivity. }
  simpl.
  split; [reflexivity|]. split; [apply states_partition|]. split; [reflexivity|].
  split.
  - intros Hne.
    pose proof (rounded_avg_nearest (map ResultRow.duration rows)) as H.
    rewrite length_map, sum_of_map in H. apply H.
    destruct rows; [contradiction|discriminate].
  - intros ->. reflexivity.
Qed.

Lemma result_statistics_add_up_witness :
  exists stats,
    TestResultReports.getStatistics (Some "run-1") sample_store = (Ok stats, sample_store)
    /\ 2 * rs_total stats * rs_averageDuration stats
       <= 2 * rs_totalDuration stats + rs_total stats
       < 2 * rs_total stats * (rs_averageDuration stats + 1).
Proof.
  destruct (result_statistics_add_up (Some "run-1") sample_store)
    as [stats [rows [Heq [Hrows [_ [_ [_ [Havg _]]]]]]]].
  exists stats. split; [exact Heq|].
  apply Havg. rewrite Hrows. vm_compute. discriminate.
Defined.

Lemma ratio_percent_bounds (p t : Z) :
  0 <= p <= t -> 0 < t ->
  (0 <= inject_Z p / inject_Z t * 100 <= 100)%Q.
Proof.
  intros Hp Ht.
  assert (Htq : (0 < inject_Z t)%Q) by (rewrite <- (Zlt_Qlt 0); lia).
  assert (Hlo : (0 <= inject_Z p / inject_Z t)%Q).
  { apply Qle_shift_div_l; [assumption|]. rewrite Qmult_0_l.
    rewrite <- (Zle_Qle 0). lia. }
  assert (Hhi : (inject_Z p / inject_Z t <= 1)%Q).
  { apply Qle_shift_div_r; [assumption|]. rewrite Qmult_1_l.
    rewrite <- Zle_Qle. lia. }
  split.
  - apply Qmult_le_0_compat; [assumption|discriminate].
  - apply Qle_trans with (1 * 100)%Q; [|discriminate].
    apply Qmult_le_compat_r; [assumption|discriminate].
Qed.

Lemma count_status_disjoint (rows : list RunRow.t) :
  0 <= TestRunReports.count_status Completed rows
  /\ 0 <= TestRunReports.count_status Failed rows
  /\ TestRunReports.count_status Completed rows + TestRunReports.count_status Failed rows
     <= Z.of_nat (length rows).
Proof.
  unfold TestRunReports.count_status.
  induction rows as [|r rows IH]; simpl; [lia|].
  destruct (RunRow.status r); simpl; lia.
Qed.

(** X9.  [TestRunRepositoryImpl.getStatistics(dateRange)] counts the runs
    that started within the range, or all runs without a range:
    completed and failed runs together never exceed [totalRuns];
    [passRate] is 100 times the passed tests over the total tests of
    those runs, between 0 and 100 when every run has no more passed
    tests than tests, and 0 when the runs hold no test; with no run
    every figure is zero. *)
Theorem run_statistics_bounds :
  forall (dateRange : option DateRange) (st : Store),
    exists stats rows,
      TestRunReports.getStatistics dateRange st = (Ok stats, st)
      /\ (forall r, In r rows <->
            In r (test_runs st)
            /\ forall dr, dateRange = Some dr ->
                 dr_start dr <= RunRow.start_time r <= dr_end dr)
      /\ totalRuns stats = Z.of_nat (length rows)
      /\ 0 <= completedRuns stats
      /\ 0 <= failedRuns stats
      /\ completedRuns stats + failedRuns stats <= totalRuns stats
      /\ (0 < sum_of RunRow.total_tests rows ->
          (passRate stats
           == inject_Z (sum_of RunRow.passed rows)
              / inject_Z (sum_of RunRow.total_tests rows) * 100)%Q)
      /\ (sum_of RunRow.total_tests rows <= 0 -> passRate stats = 0%Q)
      /\ ((forall r, In r rows -> 0 <= RunRow.passed r <= RunRow.total_tests r) ->
          (0 <= passRate stats <= 100)%Q)
      /\ (rows = [] -> stats = mkRunStatistics 0 0 0 0 0).
Proof.
  intros dateRange st.
  unfold TestRunReports.getStatistics, db_bind, select. simpl.
  set (rows := List.filter _ (test_runs st)).
  eexists. exists rows. split; [reflexivity|]. simpl.
  destruct (count_status_disjoint rows) as [Hc [Hf Hcf]].
  split; [|split; [reflexivity|]; split; [exact Hc|]; split; [exact Hf|];
           split; [exact Hcf|]; split; [|split; [|split]]].
  - intros r. unfold rows. rewrite filter_In. apply and_iff_compat_l.
    destruct dateRange as [dr|].
    + rewrite andb_true_iff, !Z.leb_le. split.
      * intros H dr' [= <-]. exact H.
      * intros H. now apply H.
    + split; [intros _ dr [=] | reflexivity].
  - intros Hpos. apply Z.ltb_lt in Hpos. rewrite Hpos. reflexivity.
  - intros Hle. apply Z.ltb_ge in Hle. rewrite Hle. reflexivity.
  - intros Hrows.
    destruct (Z.ltb_spec 0 (sum_of RunRow.total_tests rows)) as [Hpos|Hle].
    + apply ratio_percent_bounds; [|assumption]. split.
      * apply sum_of_nonneg. intros r Hr. now apply Hrows.
      * apply sum_of_le. intros r Hr. now apply Hrows.
    + split; discriminate.
  - intros ->. reflexivity.
Qed.

Lemma run_statistics_bounds_witness :
  exists stats,
    TestRunReports.getStatistics None four_runs = (Ok stats, four_runs)
    /\ (0 <= passRate stats <= 100)%Q.
Proof.
  destruct (run_statistics_bounds None four_runs)
    as [stats [rows [Heq [Hrows [_ [_ [_ [_ [_ [_ [Hrate _]]]]]]]]]]].
  exists stats. split; [exact Heq|].
  apply Hrate. intros r Hr. apply Hrows in Hr. destruct Hr as [Hr _].
  vm_compute in Hr.
  repeat (destruct Hr as [<-|Hr]; [vm_compute; split; discriminate|]).
  contradiction.
Defined.

(** ** Trend data *)

Lemma sum_indicator (a : Z) (ds : list Z) :
  List.NoDup ds ->
  sum_of (fun d => if Z.eqb a d then 1 else 0) ds = if includes ds a then 1 else 0.
Proof.
  induction 1 as [|d ds Hd Hnd IH]; [reflexivity|].
  cbn [sum_of fold_right]. fold (sum_of (fun d => if Z.eqb a d then 1 else 0) ds).
  rewrite IH. unfold includes. cbn [existsb]. fold (includes ds a).
  destruct (Z.eqb_spec a d) as [->|Hne].
  - rewrite bool_decide_eq_true_2 by reflexivity. simpl.
    destruct (includes ds d) eqn:E; [|reflexivity].
    apply includes_In in E. contradiction.
  - rewrite bool_decide_eq_false_2 by congruence. simpl. lia.
Qed.

(** Counting the rows of each key over keys that cover the rows counts
    every row once. *)
Lemma count_by_key {A} (key : A -> Z) (ds : list Z) (rows : list A) :
  List.NoDup ds ->
  (forall r, In r rows -> In (key r) ds) ->
  sum_of (fun d => Z.of_nat (length (List.filter (fun r => Z.eqb (key r) d) rows))) ds
  = Z.of_nat (length rows).
Proof.
  intros Hnd. induction rows as [|r rows IH]; intros Hcover.
  - clear. induction ds as [|d ds IHd]; [reflexivity|].
    simpl in *. now rewrite IHd.
  - assert (Hsplit : forall l,
              sum_of (fun d => Z.of_nat (length (List.filter (fun r => Z.eqb (key r) d)
                                                   (r :: rows)))) l
              = sum_of (fun d => if Z.eqb (key r) d then 1 else 0) l
                + sum_of (fun d => Z.of_nat (length (List.filter
                                                       (fun r => Z.eqb (key r) d) rows))) l).
    { induction l as [|d l IHl]; [reflexivity|].
      cbn [sum_of fold_right]. fold (sum_of (fun d => Z.of_nat (length (List.filter (fun r => Z.eqb (key r) d) (r :: rows)))) l).
      fold (sum_of (fun d => if Z.eqb (key r) d then 1 else 0) l).
      fold (sum_of (fun d => Z.of_nat (length (List.filter (fun r => Z.eqb (key r) d) rows))) l).
      rewrite IHl. cbn [List.filter]. destruct (Z.eqb (key r) d); simpl length; lia. }
    rewrite Hsplit, sum_indicator by assumption.
    rewrite IH by (intros x Hx; apply Hcover; right; exact Hx).
    assert (Hin : includes ds (key r) = true) by (apply includes_In, Hcover; now left).
    rewrite Hin. simpl length. lia.
Qed.

Lemma sum_of_map_compose {A B} (f : A -> B) (g : B -> Z) (l : list A) :
  sum_of g (map f l) = sum_of (fun x => g (f x)) l.
Proof. induction l as [|x l IH]; simpl; congruence. Qed.

Lemma sum_of_perm {A} (column : A -> Z) (l l' : list A) :
  Permutation l l' -> sum_of column l = sum_of column l'.
Proof. induction 1; simpl; lia. Qed.

Lemma sorted_NoDup_strict (l : list Z) :
  StronglySorted Z.le l -> List.NoDup l -> StronglySorted Z.lt l.
Proof.
  induction 1 as [|x l Hs IH Hall]; intros Hnd; constructor.
  - apply IH. now inversion Hnd.
  - inversion Hnd as [|? ? Hx _]; subst.
    rewrite List.Forall_forall in *. intros y Hy.
    assert (x <= y) by now apply Hall.
    assert (x <> y) by (intros ->; contradiction). lia.
Qed.

(** X10.  [getTrendData(days)] returns one point per calendar day (UTC)
    on which a run of the window started, in increasing order of day;
    the window starts with the day [days] days before now.  Every point
    counts at least one run and aggregates the runs of its day, and the
    run counts of the points add up to the number of runs of the
    window. *)
Theorem trend_points_partition_the_window :
  forall (days : nat) (now : Timestamp) (st : Store),
    exists points rows,
      TestRunReports.getTrendData days now st = (Ok points, st)
      /\ (forall r, In r rows <->
            In r (test_runs st)
            /\ TestRunReports.date_of (now - Z.of_nat days * day_ms)
               <= TestRunReports.date_of (RunRow.start_time r))
      /\ (forall d, In d (map trend_date points) <->
            exists r, In r rows /\ TestRunReports.date_of (RunRow.start_time r) = d)
      /\ StronglySorted Z.lt (map trend_date points)
      /\ (forall p, In p points -> 1 <= trend_runs p)
      /\ sum_of trend_runs points = Z.of_nat (length rows)
      /\ (forall p, In p points ->
            p = TestRunReports.trend_point rows (trend_date p)).
Proof.
  intros days now st.
  unfold TestRunReports.getTrendData, db_bind, select. simpl.
  set (since := TestRunReports.date_of (now - Z.of_nat days * day_ms)).
  set (rows := List.filter _ (test_runs st)).
  set (dates := unique (map (fun r => TestRunReports.date_of (RunRow.start_time r)) rows)).
  eexists. exists rows. split; [reflexivity|].
  assert (Hdates : map trend_date (map (TestRunReports.trend_point rows)
                                     (order_by Z.leb dates))
                   = order_by Z.leb dates).
  { rewrite map_map. simpl. apply map_id. }
  assert (Hin : forall d, In d (order_by Z.leb dates) <->
                  exists r, In r rows /\ TestRunReports.date_of (RunRow.start_time r) = d).
  { intros d. rewrite order_by_In. unfold dates. rewrite unique_In, in_map_iff.
    split; intros [r [H1 H2]]; exists r; tauto. }
  split; [|split; [|split; [|split; [|split]]]].
  - intros r. unfold rows. rewrite filter_In. apply and_iff_compat_l.
    rewrite Z.leb_le. unfold since, TestRunReports.date_of, day_ms.
    split; intros H.
    + apply Z.div_le_lower_bound; [lia|]. lia.
    + pose proof (Z.mul_div_le (RunRow.start_time r) (24 * 60 * 60 * 1000)). lia.
  - intros d. rewrite Hdates. apply Hin.
  - rewrite Hdates. apply sorted_NoDup_strict.
    + eapply StronglySorted_impl; [|apply order_by_sorted].
      * intros a b H. apply Z.leb_le in H. exact H.
      * intros a b. rewrite !Z.leb_le. lia.
      * intros a b c. rewrite !Z.leb_le. lia.
    + eapply Permutation_NoDup; [symmetry; apply order_by_perm|].
      apply unique_NoDup.
  - intros p Hp. apply in_map_iff in Hp. destruct Hp as [d [<- Hd]].
    apply Hin in Hd. destruct Hd as [r [Hr Hd]].
    unfold TestRunReports.trend_point. simpl.
    assert (In r (List.filter
                    (fun r => Z.eqb (TestRunReports.date_of (RunRow.start_time r)) d)
                    rows)).
    { apply filter_In. split; [assumption|]. now apply Z.eqb_eq. }
    destruct (List.filter _ rows); [contradiction|]. simpl. lia.
  - rewrite sum_of_map_compose. simpl.
    rewrite (sum_of_perm _ _ _ (order_by_perm Z.leb dates)).
    apply (count_by_key (fun r => TestRunReports.date_of (RunRow.start_time r))).
    + apply unique_NoDup.
    + intros r Hr. unfold dates. apply unique_In.
      apply (in_map (fun r => TestRunReports.date_of (RunRow.start_time r))). exact Hr.
  - intros p Hp. apply in_map_iff in Hp. destruct Hp as [d [<- _]]. reflexivity.
Qed.

Lemma trend_points_partition_the_window_witness :
  exists point,
    TestRunReports.getTrendData 30 5000 four_runs = (Ok [point], four_runs)
    /\ 1 <= trend_runs point.
Proof.
  destruct (trend_points_partition_the_window 30 5000 four_runs)
    as [points [rows [Heq [_ [_ [_ [Hruns _]]]]]]].
  assert (Hpoints : points = [mkTrendPoint 0 4 0 0 0]).
  { vm_compute in Heq. now injection Heq as <-. }
  subst points. eexists. split; [exact Heq|].
  apply Hruns. now left.
Defined.

(** * Names of columns *)

Lemma to_lower_not_upper (c : ascii) : is_upper (to_lower c) = false.
Proof.
  unfold to_lower. destruct (is_upper c) eqn:E; [|exact E].
  unfold is_upper in *. apply andb_true_iff in E. destruct E as [H1 H2].
  apply Nat.leb_le in H1, H2.
  rewrite nat_ascii_embedding by lia.
  apply andb_false_iff. right. apply Nat.leb_gt. lia.
Qed.

Lemma to_lower_upper_inj (c d : ascii) :
  is_upper c = true -> is_upper d = true -> to_lower c = to_lower d -> c = d.
Proof.
  unfold to_lower. intros Hc Hd. rewrite Hc, Hd. intros H.
  unfold is_upper in *. apply andb_true_iff in Hc, Hd.
  destruct Hc as [Hc1 Hc2], Hd as [Hd1 Hd2]. apply Nat.leb_le in Hc1, Hc2, Hd1, Hd2.
  apply (f_equal nat_of_ascii) in H.
  rewrite !nat_ascii_embedding in H by lia.
  rewrite <- (ascii_nat_embedding c), <- (ascii_nat_embedding d). f_equal. lia.
Qed.

(** X11.  [camelToSnakeCase] writes each ASCII capital as an underscore
    and its small letter and keeps every other character: the result
    holds no capital and is longer by the number of capitals; a name
    without capitals is unchanged; and two names without underscores
    that differ give different column names. *)
Theorem camelToSnakeCase_properties :
  (forall s, no_upper (camelToSnakeCase s) = true)
  /\ (forall s, String.length (camelToSnakeCase s)
                = (String.length s + count_upper s)%nat)
  /\ (forall s, no_upper s = true -> camelToSnakeCase s = s)
  /\ (forall s t,
        no_underscore s = true -> no_underscore t = true ->
        camelToSnakeCase s = camelToSnakeCase t -> s = t).
Proof.
  split; [|split; [|split]].
  - induction s as [|c s IH]; [reflexivity|]. simpl.
    destruct (is_upper c) eqn:E; simpl.
    + now rewrite to_lower_not_upper, IH.
    + now rewrite E, IH.
  - induction s as [|c s IH]; [reflexivity|]. simpl.
    destruct (is_upper c); simpl; rewrite IH; lia.
  - induction s as [|c s IH]; [reflexivity|]. simpl. intros H.
    apply andb_true_iff in H. destruct H as [Hc Hs].
    apply negb_true_iff in Hc. rewrite Hc. f_equal. now apply IH.
  - induction s as [|c s IH]; intros [|d t] Hs Ht Heq; simpl in *.
    + reflexivity.
    + destruct (is_upper d); discriminate.
    + destruct (is_upper c); discriminate.
    + apply andb_true_iff in Hs, Ht. destruct Hs as [Hc Hs], Ht as [Hd Ht].
      apply negb_true_iff, bool_decide_eq_false in Hc, Hd.
      destruct (is_upper c) eqn:Ec, (is_upper d) eqn:Ed.
      * injection Heq as Hl Hrest.
        f_equal; [now apply to_lower_upper_inj | now apply IH].
      * injection Heq as Hl _. congruence.
      * injection Heq as Hl _. congruence.
      * injection Heq as -> Hrest. f_equal. now apply IH.
Qed.

Lemma camelToSnakeCase_properties_witness :
  camelToSnakeCase "browser_name" = "browser_name"
  /\ (camelToSnakeCase "startTime" = camelToSnakeCase "endTime" -> "startTime" = "endTime").
Proof.
  destruct camelToSnakeCase_properties as [_ [_ [Hid Hinj]]].
  split.
  - apply Hid. reflexivity.
  - apply Hinj; reflexivity.
Defined.

(** * Further properties of the reporter *)

(** ** The map of collected results *)

Lemma map_set_keys {V} (key : string) (value : V) (m : list (string * V)) :
  map fst (AuroraReporter.map_set key value m) = add_key (map fst m) key.
Proof.
  unfold add_key, includes. induction m as [|[k v] m IH]; [reflexivity|].
  simpl. case_bool_decide; simpl; [reflexivity|].
  rewrite IH. now destruct (existsb _ (map fst m)).
Qed.

Lemma map_get_In {V} (key : string) (m : list (string * V)) (v : V) :
  AuroraReporter.map_get key m = Some v -> In (key, v) m.
Proof.
  induction m as [|[k w] m IH]; simpl; [discriminate|].
  case_bool_decide as Hk; [intros [= <-]; subst; now left | intros Hget; right; auto].
Qed.

Lemma map_get_includes {V} (key : string) (m : list (string * V)) (v : V) :
  AuroraReporter.map_get key m = Some v -> includes (map fst m) key = true.
Proof.
  intros H. apply includes_In. apply map_get_In in H.
  apply (in_map fst) in H. exact H.
Qed.

Lemma map_set_In {V} (key : string) (value : V) (m : list (string * V)) (kv : string * V) :
  In kv (AuroraReporter.map_set key value m) -> kv = (key, value) \/ In kv m.
Proof.
  induction m as [|[k v] m IH]; simpl.
  - intros [<-|[]]. now left.
  - case_bool_decide as Hk; simpl.
    + intros [<-|Hin]; [left; now subst | right; now right].
    + intros [<-|Hin]; [right; now left|].
      destruct (IH Hin); [now left | right; now right].
Qed.

Lemma add_key_present (keys : list string) (key : string) :
  includes keys key = true -> add_key keys key = keys.
Proof. unfold add_key. now intros ->. Qed.

(** Adding keys one by one keeps first occurrences, in order. *)
Lemma fold_add_key (l acc : list string) :
  fold_left add_key l acc
  = acc ++ List.filter (fun k => negb (includes acc k)) (unique l).
Proof.
  revert acc. induction l as [|x l IH]; intros acc.
  - simpl. now rewrite app_nil_r.
  - cbn [fold_left]. rewrite IH.
    change (unique (x :: l))
      with (x :: List.filter (fun y => negb (bool_decide (y = x))) (unique l)).
    cbn [List.filter]. unfold add_key.
    destruct (includes acc x) eqn:E; cbn [negb].
    + f_equal. rewrite filter_filter. apply filter_ext_eq.
      intros k. destruct (bool_decide (k = x)) eqn:Ek; simpl; [|reflexivity].
      apply bool_decide_eq_true in Ek. subst. now rewrite E.
    + rewrite <- app_assoc. f_equal. simpl. f_equal.
      rewrite filter_filter. apply filter_ext_eq.
      intros k. unfold includes. rewrite existsb_app. simpl.
      rewrite orb_false_r, negb_orb.
      rewrite (bool_decide_ext (x = k) (k = x)) by (split; congruence).
      apply andb_comm.
Qed.

Lemma step_keys (env : Env) (st : AuroraReporter.t) (ev : MochaEvent) :
  map fst (AuroraReporter.testResults (AuroraReporter.step env st ev))
  = match collects ev with
    | Some key => add_key (map fst (AuroraReporter.testResults st)) key
    | None => map fst (AuroraReporter.testResults st)
    end.
Proof.
  destruct ev; simpl; try reflexivity.
  - unfold AuroraReporter.handleRunStart.
    now destruct (AuroraReporter.getRunConfig env).
  - unfold AuroraReporter.handleRunEnd.
    now destruct (AuroraReporter.currentRun st).
  - apply map_set_keys.
  - unfold AuroraReporter.handleTestPass.
    destruct (AuroraReporter.map_get _ _) eqn:E; [|reflexivity]. simpl.
    rewrite map_set_keys. apply add_key_present. eapply map_get_includes, E.
  - unfold AuroraReporter.handleTestFail.
    destruct (AuroraReporter.map_get _ _) eqn:E; [|reflexivity]. simpl.
    rewrite map_set_keys. apply add_key_present. eapply map_get_includes, E.
  - apply map_set_keys.
  - unfold AuroraReporter.handleTestRetry. simpl.
    destruct (AuroraReporter.map_get _ _) eqn:E; [|reflexivity].
    rewrite map_set_keys. apply add_key_present. eapply map_get_includes, E.
Qed.

Lemma run_events_keys (env : Env) (evs : list MochaEvent) (st : AuroraReporter.t) :
  map fst (AuroraReporter.testResults (AuroraReporter.run_events env st evs))
  = fold_left add_key (omap collects evs) (map fst (AuroraReporter.testResults st)).
Proof.
  revert st. induction evs as [|ev evs IH]; intros st; [reflexivity|].
  unfold AuroraReporter.run_events in *. cbn [fold_left]. rewrite IH, step_keys.
  change (omap collects (ev :: evs))
    with (match collects ev with
          | Some key => key :: omap collects evs
          | None => omap collects evs
          end).
  destruct (collects ev); reflexivity.
Qed.

Lemma step_well_collected (env : Env) (st : AuroraReporter.t) (ev : MochaEvent) :
  Forall well_collected (AuroraReporter.testResults st) ->
  Forall well_collected (AuroraReporter.testResults (AuroraReporter.step env st ev)).
Proof.
  intros H. rewrite List.Forall_forall in *.
  assert (Hget : forall key r,
             AuroraReporter.map_get key (AuroraReporter.testResults st) = Some r ->
             TestResult.fullTitle r = key).
  { intros key r Hr. apply map_get_In in Hr. apply H in Hr. apply Hr. }
  destruct ev; simpl; try exact H.
  - unfold AuroraReporter.handleRunStart.
    now destruct (AuroraReporter.getRunConfig env).
  - unfold AuroraReporter.handleRunEnd.
    now destruct (AuroraReporter.currentRun st).
  - intros kv Hkv. apply map_set_In in Hkv. destruct Hkv as [->|Hkv]; [|auto].
    split; reflexivity.
  - unfold AuroraReporter.handleTestPass.
    destruct (AuroraReporter.map_get _ _) as [r|] eqn:E; [|exact H]. simpl.
    intros kv Hkv. apply map_set_In in Hkv. destruct Hkv as [->|Hkv]; [|auto].
    split; [apply (Hget _ _ E) | reflexivity].
  - unfold AuroraReporter.handleTestFail.
    destruct (AuroraReporter.map_get _ _) as [r|] eqn:E; [|exact H]. simpl.
    intros kv Hkv. apply map_set_In in Hkv. destruct Hkv as [->|Hkv]; [|auto].
    split; [apply (Hget _ _ E) | reflexivity].
  - intros kv Hkv. apply map_set_In in Hkv. destruct Hkv as [->|Hkv]; [|auto].
    split; reflexivity.
  - unfold AuroraReporter.handleTestRetry. simpl.
    destruct (AuroraReporter.map_get _ _) as [r|] eqn:E; [|exact H].
    intros kv Hkv. apply map_set_In in Hkv. destruct Hkv as [->|Hkv]; [|auto].
    pose proof (map_get_In _ _ _ E) as Hr. apply H in Hr. destruct Hr as [Ht Hs].
    split; [apply (Hget _ _ E) | exact Hs].
Qed.

Lemma run_events_well_collected (env : Env) (evs : list MochaEvent) (st : AuroraReporter.t) :
  Forall well_collected (AuroraReporter.testResults st) ->
  Forall well_collected
    (AuroraReporter.testResults (AuroraReporter.run_events env st evs)).
Proof.
  revert st. induction evs as [|ev evs IH]; intros st H; [exact H|].
  apply IH, step_well_collected, H.
Qed.

Lemma count_reported_states (results : list TestResult.t) :
  Forall (fun r => reported_state (TestResult.state r) = true) results ->
  AuroraReporter.count_state SKIPPED results = 0
  /\ AuroraReporter.count_state PASSED results
     + AuroraReporter.count_state FAILED results
     + AuroraReporter.count_state PENDING results
     = Z.of_nat (length results).
Proof.
  unfold AuroraReporter.count_state.
  induction 1 as [|r results Hr _ IH]; simpl; [lia|].
  destruct (TestResult.state r); try discriminate; simpl; lia.
Qed.

(** X12.  The reporter keeps one result per full title, in the order in
    which the titles first started: a test that starts again under a
    title already seen replaces the earlier result in place.  Every
    collected result is pending, passed or failed, so the run that
    [handleRunEnd] finalizes counts no skipped test, its passed, failed
    and pending counts add up to [totalTests], and [totalTests] is the
    number of distinct full titles started. *)
Theorem reporter_keeps_one_result_per_title :
  forall (env : Env) (constructed : Timestamp) (evs : list MochaEvent),
    let st := AuroraReporter.run_events env (AuroraReporter.init constructed) evs in
    map fst (AuroraReporter.testResults st) = unique (omap collects evs)
    /\ Forall (fun kv => TestResult.fullTitle (snd kv) = fst kv
                         /\ reported_state (TestResult.state (snd kv)) = true)
         (AuroraReporter.testResults st)
    /\ (forall now run',
          AuroraReporter.currentRun (AuroraReporter.handleRunEnd now st) = Some run' ->
          TestRun.totalTests run' = Z.of_nat (length (unique (omap collects evs)))
          /\ TestRun.skipped run' = 0
          /\ TestRun.passed run' + TestRun.failed run' + TestRun.pending run'
             = TestRun.totalTests run').
Proof.
  intros env constructed evs st.
  assert (Hkeys : map fst (AuroraReporter.testResults st) = unique (omap collects evs)).
  { unfold st. rewrite run_events_keys, fold_add_key. simpl.
    apply filter_all. reflexivity. }
  assert (Hwell : Forall well_collected (AuroraReporter.testResults st)).
  { apply run_events_well_collected. constructor. }
  split; [exact Hkeys|]. split; [exact Hwell|].
  intros now run'. unfold AuroraReporter.handleRunEnd.
  destruct (AuroraReporter.currentRun st) as [run|] eqn:Hrun.
  - intros [= <-]. simpl.
    assert (Hstates : Forall (fun r => reported_state (TestResult.state r) = true)
                        (AuroraReporter.map_values (AuroraReporter.testResults st))).
    { unfold AuroraReporter.map_values. rewrite List.Forall_forall in *.
      intros r Hr. apply in_map_iff in Hr. destruct Hr as [kv [<- Hkv]].
      apply Hwell in Hkv. apply Hkv. }
    destruct (count_reported_states _ Hstates) as [Hskipped Hsum].
    unfold AuroraReporter.map_values in *. rewrite length_map in Hsum.
    rewrite <- Hkeys, length_map. auto.
  - rewrite Hrun. discriminate.
Qed.

Lemma reporter_keeps_one_result_per_title_witness :
  exists run',
    AuroraReporter.currentRun
      (AuroraReporter.run_events sample_env (AuroraReporter.init 900)
         (EvStart "run-1" 1000 :: sample_events ++ [EvEnd 1500])) = Some run'
    /\ TestRun.skipped run' = 0
    /\ TestRun.passed run' + TestRun.failed run' + TestRun.pending run'
       = TestRun.totalTests run'.
Proof.
  pose proof (reporter_keeps_one_result_per_title sample_env 900
                (EvStart "run-1" 1000 :: sample_events)) as [_ [_ H]].
  eexists. split; [vm_compute; reflexivity|].
  refine (proj2 (H 1500 _ _)). vm_compute. reflexivity.
Defined.

(** ** The repository calls of a run *)

Lemma step_reporting (env : Env) (runId : string) (run : TestRun.t)
    (st : AuroraReporter.t) (ev : MochaEvent) :
  is_run_start ev = false ->
  reporting runId run st ->
  reporting runId run (AuroraReporter.step env st ev).
Proof.
  intros Hev [Hid [Hresults [sent [Hcalls Hsent]]]].
  rewrite List.Forall_forall in Hresults.
  assert (Hget : forall key r,
             AuroraReporter.map_get key (AuroraReporter.testResults st) = Some r ->
             TestResult.runId r = runId).
  { intros key r Hr. apply map_get_In in Hr. apply (Hresults _ Hr). }
  assert (Hset : forall key r,
             TestResult.runId r = runId ->
             Forall (fun kv => TestResult.runId (snd kv) = runId)
               (AuroraReporter.map_set key r (AuroraReporter.testResults st))).
  { intros key r Hr. apply List.Forall_forall. intros kv Hkv.
    apply map_set_In in Hkv. destruct Hkv as [->|Hkv]; [exact Hr | now apply Hresults]. }
  assert (Hkeep : Forall (fun kv => TestResult.runId (snd kv) = runId)
                    (AuroraReporter.testResults st))
    by now apply List.Forall_forall.
  destruct ev; simpl; try discriminate Hev;
    try (split; [exact Hid|]; split; [exact Hkeep|]; exists sent; now split).
  - (* end *)
    unfold AuroraReporter.handleRunEnd.
    destruct (AuroraReporter.currentRun st) as [current|] eqn:Hrun.
    + assert (Hcurrent : TestRun.id current = runId).
      { unfold AuroraReporter.current_run_id in Hid. now rewrite Hrun in Hid. }
      split; [exact Hcurrent|]. split; [exact Hkeep|]. simpl.
      eexists. split; [rewrite Hcalls, app_comm_cons; reflexivity|].
      apply Forall_app. split; [exact Hsent|].
      constructor; [|constructor]. split; [exact Hcurrent | discriminate].
    + split; [exact Hid|]. split; [exact Hkeep|]. exists sent. now split.
  - (* test *)
    split; [exact Hid|]. split; [|exists sent; now split].
    apply Hset. simpl. exact Hid.
  - (* pass *)
    unfold AuroraReporter.handleTestPass.
    destruct (AuroraReporter.map_get _ _) as [r|] eqn:E;
      [|split; [exact Hid|]; split; [exact Hkeep|]; exists sent; now split].
    simpl. split; [exact Hid|]. split; [apply Hset; simpl; eapply Hget, E|].
    eexists. split; [rewrite Hcalls; rewrite app_comm_cons; reflexivity|].
    apply Forall_app. split; [exact Hsent|]. constructor; [|constructor].
    simpl. split; [eapply Hget, E|]. split; [discriminate|reflexivity].
  - (* fail *)
    unfold AuroraReporter.handleTestFail.
    destruct (AuroraReporter.map_get _ _) as [r|] eqn:E;
      [|split; [exact Hid|]; split; [exact Hkeep|]; exists sent; now split].
    simpl. split; [exact Hid|]. split; [apply Hset; simpl; eapply Hget, E|].
    eexists. split; [rewrite Hcalls; rewrite app_comm_cons; reflexivity|].
    apply Forall_app. split; [exact Hsent|]. constructor; [|constructor].
    simpl. split; [eapply Hget, E|]. split; [discriminate|reflexivity].
  - (* pending *)
    split; [exact Hid|]. split; [apply Hset; simpl; exact Hid|].
    eexists. split; [simpl; rewrite Hcalls; rewrite app_comm_cons; reflexivity|].
    apply Forall_app. split; [exact Hsent|]. constructor; [|constructor].
    simpl. split; [exact Hid|]. split; [discriminate|reflexivity].
  - (* retry *)
    unfold AuroraReporter.handleTestRetry, AuroraReporter.current_run_id in *. simpl.
    split; [now destruct (AuroraReporter.currentRun st)|].
    split; [|exists sent; now split].
    destruct (AuroraReporter.map_get _ _) as [r|] eqn:E; [|exact Hkeep].
    apply Hset. simpl. eapply Hget, E.
Qed.

Lemma run_events_reporting (env : Env) (runId : string) (run : TestRun.t)
    (evs : list MochaEvent) (st : AuroraReporter.t) :
  existsb is_run_start evs = false ->
  reporting runId run st ->
  reporting runId run (AuroraReporter.run_events env st evs).
Proof.
  revert st. induction evs as [|ev evs IH]; intros st Hevs Hst; [exact Hst|].
  simpl in Hevs. apply orb_false_iff in Hevs. destruct Hevs as [Hev Hevs].
  apply IH; [exact Hevs|]. now apply step_reporting.
Qed.

Lemma reporting_after_start (env : Env) (constructed : Timestamp) (runId : string)
    (now : Timestamp) (evs : list MochaEvent) :
  AuroraReporter.getRunConfig env <> None ->
  existsb is_run_start evs = false ->
  exists run,
    TestRun.id run = runId /\ TestRun.status run = Running /\ TestRun.results run = []
    /\ reporting runId run
         (AuroraReporter.run_events env (AuroraReporter.init constructed)
            (EvStart runId now :: evs)).
Proof.
  intros Hconfig Hevs.
  unfold AuroraReporter.run_events. cbn [fold_left AuroraReporter.step].
  unfold AuroraReporter.handleRunStart.
  destruct (AuroraReporter.getRunConfig env) as [config|]; [|congruence].
  eexists. split; [|split; [|split]]; [| |
    | apply run_events_reporting; [exact Hevs|];
      split; [reflexivity|]; split; [constructor|]; exists []; split;
      [reflexivity | constructor]]; reflexivity.
Qed.

(** X13.  From the start of a run to the next start, the first
    repository call of the reporter creates the run, in status
    'running' and without results, and every later call either creates
    a result that carries the id of the run, has an end time and is
    pending, passed or failed, or updates the run with the whole run
    object, results included.  Every collected result carries the id of
    the run. *)
Theorem reporter_calls_of_a_run :
  forall (env : Env) (constructed : Timestamp) (runId : string) (now : Timestamp)
         (evs : list MochaEvent),
    AuroraReporter.getRunConfig env <> None ->
    existsb is_run_start evs = false ->
    let st := AuroraReporter.run_events env (AuroraReporter.init constructed)
                (EvStart runId now :: evs) in
    (exists run sent,
       AuroraReporter.calls st = CreateRun run :: sent
       /\ TestRun.id run = runId
       /\ TestRun.status run = Running
       /\ TestRun.results run = []
       /\ Forall (sent_during runId) sent)
    /\ Forall (fun kv => TestResult.runId (snd kv) = runId)
         (AuroraReporter.testResults st).
Proof.
  intros env constructed runId now evs Hconfig Hevs st.
  destruct (reporting_after_start env constructed runId now evs Hconfig Hevs)
    as [run [Hid [Hstatus [Hres [_ [Hresults [sent [Hcalls Hsent]]]]]]]].
  split; [|exact Hresults].
  exists run, sent. auto.
Qed.

Lemma reporter_calls_of_a_run_witness :
  exists run sent,
    AuroraReporter.calls
      (AuroraReporter.run_events sample_env (AuroraReporter.init 900)
         (EvStart "run-1" 1000 :: sample_events ++ [EvEnd 1500]))
    = CreateRun run :: sent
    /\ Forall (sent_during "run-1") sent.
Proof.
  destruct (reporter_calls_of_a_run sample_env 900 "run-1" 1000
              (sample_events ++ [EvEnd 1500]))
    as [[run [sent [Hcalls [_ [_ [_ Hsent]]]]]] _].
  - discriminate.
  - reflexivity.
  - exists run, sent. split; assumption.
Defined.

(** ** What the repository calls of a run leave in the store *)

Lemma has_run_app (id : string) (runs : list RunRow.t) (row : RunRow.t)
    (results : list ResultRow.t) (shots : list ScreenshotRow.t) :
  has_run id (mkStore (runs ++ [row]) results shots)
  = has_run id (mkStore runs results shots) || bool_decide (RunRow.id row = id).
Proof.
  unfold has_run. simpl. rewrite existsb_app. simpl. now rewrite orb_false_r.
Qed.

Lemma perform_keeps_results (runId : string) (run : TestRun.t) (c : StampedCall)
    (db : Store) :
  sc_call c = CreateRun run \/ sent_during runId (sc_call c) ->
  sc_generateId c <> runId ->
  has_run runId db = false ->
  has_run runId (perform c db) = false
  /\ test_results (perform c db) = test_results db
  /\ screenshots (perform c db) = screenshots db.
Proof.
  intros Hcall Hgen Hdb. unfold perform.
  destruct (sc_call c) as [created|id updates|result].
  - unfold TestRunRepositoryImpl.create, db_bind, insert_test_run. simpl.
    destruct (has_run (sc_generateId c) db); simpl; [auto|].
    destruct db as [runs results shots]. simpl.
    rewrite has_run_app, Hdb, bool_decide_eq_false_2 by assumption. auto.
  - destruct Hcall as [Hcall|[_ Hresults]]; [discriminate|].
    destruct (update_with_results_is_rejected id updates (sc_now c) db Hresults)
      as [message ->].
    auto.
  - destruct Hcall as [Hcall|[Hid _]]; [discriminate|].
    unfold TestResultRepositoryImpl.create, db_bind, insert_test_result. simpl.
    rewrite Hid, Hdb. simpl.
    destruct (has_result (sc_generateId c) db); auto.
Qed.

(** X14.  The results of a run never reach the store.  The repository
    stores the run under an id it generates itself, and every result
    the reporter sends names the id the reporter gave the run: as long
    as no generated id equals that id and the store holds no run under
    it, each of the reporter's calls, in whatever order and however
    often they run, leaves [test_results] and [screenshots] as they
    were and adds no run with the reporter's id. *)
Theorem reporter_results_are_not_stored :
  forall (env : Env) (constructed : Timestamp) (runId : string) (now : Timestamp)
         (evs : list MochaEvent) (stamped : list StampedCall) (db : Store),
    AuroraReporter.getRunConfig env <> None ->
    existsb is_run_start evs = false ->
    (forall c, In c stamped ->
       In (sc_call c)
          (AuroraReporter.calls
             (AuroraReporter.run_events env (AuroraReporter.init constructed)
                (EvStart runId now :: evs)))
       /\ sc_generateId c <> runId) ->
    has_run runId db = false ->
    test_results (replay stamped db) = test_results db
    /\ screenshots (replay stamped db) = screenshots db
    /\ has_run runId (replay stamped db) = false.
Proof.
  intros env constructed runId now evs stamped db Hconfig Hevs Hstamped Hdb.
  destruct (reporting_after_start env constructed runId now evs Hconfig Hevs)
    as [run [_ [_ [_ [_ [_ [sent [Hcalls Hsent]]]]]]]].
  rewrite Hcalls in Hstamped. clear Hcalls.
  rewrite List.Forall_forall in Hsent.
  revert db Hdb. unfold replay.
  induction stamped as [|c stamped IH]; intros db Hdb; [auto|].
  cbn [fold_left].
  destruct (Hstamped c (or_introl eq_refl)) as [Hin Hgen].
  destruct (perform_keeps_results runId run c db) as [Hrun [Hres Hshots]];
    [|exact Hgen|exact Hdb|].
  { destruct Hin as [Hin|Hin]; [left; now symmetry | right; now apply Hsent]. }
  destruct (IH (fun c' Hc' => Hstamped c' (or_intror Hc')) _ Hrun) as [H1 [H2 H3]].
  rewrite H1, H2. auto.
Qed.

Lemma reporter_results_are_not_stored_witness :
  test_results
    (replay
       (map (fun call => mkStampedCall call "lx2k9f3a7" 2000)
          (AuroraReporter.calls
             (AuroraReporter.run_events sample_env (AuroraReporter.init 900)
                (EvStart "run-1" 1000 :: sample_events ++ [EvEnd 1500]))))
       empty_store)
  = [].
Proof.
  refine (proj1 (reporter_results_are_not_stored sample_env 900 "run-1" 1000
                   (sample_events ++ [EvEnd 1500]) _ empty_store _ _ _ _)).
  - discriminate.
  - reflexivity.
  - intros c Hc. apply in_map_iff in Hc. destruct Hc as [call [<- Hcall]].
    split; [exact Hcall | discriminate].
  - reflexivity.
Defined.

(** The run of [sample_events], its calls replayed in order on an empty
    store: the run is stored under the generated id, still running, and
    no result is. *)
Example sample_run_as_stored :
  let db :=
    replay
      (map (fun call => mkStampedCall call "lx2k9f3a7" 2000)
         (AuroraReporter.calls
            (AuroraReporter.run_events sample_env (AuroraReporter.init 900)
               (EvStart "run-1" 1000 :: sample_events ++ [EvEnd 1500]))))
      empty_store in
  map (fun r => (RunRow.id r, RunRow.status r, RunRow.total_tests r)) (test_runs db)
  = [("lx2k9f3a7", Running, 0)]
  /\ test_results db = [].
Proof. vm_compute. split; reflexivity. Qed.

(** ** Tags and spec files *)

Lemma take_word_word (s : string) :
  all_chars AuroraReporter.is_word_char (AuroraReporter.take_word s) = true.
Proof.
  induction s as [|c s IH]; [reflexivity|]. simpl.
  destruct (AuroraReporter.is_word_char c) eqn:E; [|reflexivity].
  simpl. now rewrite E.
Qed.

Lemma take_word_prefix (s : string) :
  String.prefix (AuroraReporter.take_word s) s = true.
Proof.
  induction s as [|c s IH]; [reflexivity|]. simpl.
  destruct (AuroraReporter.is_word_char c); [|reflexivity].
  simpl. destruct (ascii_dec c c); [exact IH|contradiction].
Qed.

Lemma extractTags_In (title tag : string) :
  In tag (AuroraReporter.extractTags title) ->
  tag <> ""
  /\ all_chars AuroraReporter.is_word_char tag = true
  /\ is_substring (String "@" tag) title = true.
Proof.
  induction title as [|c title IH]; [contradiction|].
  cbn [AuroraReporter.extractTags].
  assert (Hrest : In tag (AuroraReporter.extractTags title) ->
                  tag <> ""
                  /\ all_chars AuroraReporter.is_word_char tag = true
                  /\ is_substring (String "@" tag) (String c title) = true).
  { intros H. destruct (IH H) as [H1 [H2 H3]]. split; [exact H1|]. split; [exact H2|].
    cbn [is_substring]. rewrite H3. apply orb_true_r. }
  case_bool_decide as Hc; [|exact Hrest].
  destruct (AuroraReporter.take_word title) as [|w word] eqn:E; [exact Hrest|].
  intros [<-|H]; [|exact (Hrest H)].
  split; [discriminate|]. split.
  - rewrite <- E. apply take_word_word.
  - subst c. cbn [is_substring]. apply orb_true_iff. left.
    change (String.prefix (String "@" (String w word)) (String "@" title))
      with (if ascii_dec "@" "@" then String.prefix (String w word) title else false).
    destruct (ascii_dec "@" "@"); [|contradiction].
    rewrite <- E. apply take_word_prefix.
Qed.

Lemma extractTags_length (title : string) :
  (length (AuroraReporter.extractTags title) <= count_char "@" title)%nat.
Proof.
  induction title as [|c title IH]; [constructor|].
  cbn [AuroraReporter.extractTags count_char].
  case_bool_decide; [|simpl; lia].
  destruct (AuroraReporter.take_word title); simpl; lia.
Qed.

(** X15.  The tags [extractTags] reads from a title are the words that
    follow an [@]: every tag is a non-empty run of letters, digits and
    underscores that occurs in the title right after an [@]; there are
    no more tags than [@] signs, and a title without [@] has none. *)
Theorem extractTags_reads_words_after_at :
  forall (title : string),
    (forall tag, In tag (AuroraReporter.extractTags title) ->
       tag <> ""
       /\ all_chars AuroraReporter.is_word_char tag = true
       /\ is_substring (String "@" tag) title = true)
    /\ (length (AuroraReporter.extractTags title) <= count_char "@" title)%nat
    /\ (count_char "@" title = 0%nat -> AuroraReporter.extractTags title = []).
Proof.
  intros title. split; [intros tag; apply extractTags_In|].
  split; [apply extractTags_length|].
  intros H. pose proof (extractTags_length title) as Hlen. rewrite H in Hlen.
  destruct (AuroraReporter.extractTags title); [reflexivity|simpl in Hlen; lia].
Qed.

Lemma extractTags_reads_words_after_at_witness :
  is_substring "@smoke" "logs in @smoke" = true
  /\ AuroraReporter.extractTags "pays" = [].
Proof.
  split.
  - refine (proj2 (proj2 (proj1 (extractTags_reads_words_after_at "logs in @smoke")
                             "smoke" _))).
    vm_compute. left. reflexivity.
  - apply (proj2 (proj2 (extractTags_reads_words_after_at "pays"))). reflexivity.
Defined.

Lemma split_comma_nonempty (s : string) : AuroraReporter.split_comma s <> [].
Proof.
  destruct s as [|c s]; simpl; [discriminate|].
  case_bool_decide; [discriminate|].
  destruct (AuroraReporter.split_comma s); discriminate.
Qed.

Lemma join_cons (sep x : string) (l : list string) :
  l <> [] -> join sep (x :: l) = x +:+ sep +:+ join sep l.
Proof. destruct l; [contradiction|reflexivity]. Qed.

(** X16.  [getSpecFiles] splits [CYPRESS_SPEC_FILES] at its commas:
    joining the parts with commas gives the text back, no part holds a
    comma, and there is one part more than commas; an unset or empty
    variable gives no spec file. *)
Theorem getSpecFiles_splits_at_commas :
  (forall s,
     join "," (AuroraReporter.split_comma s) = s
     /\ Forall (fun part => count_char "," part = 0%nat) (AuroraReporter.split_comma s)
     /\ length (AuroraReporter.split_comma s) = S (count_char "," s))
  /\ (forall env s,
        CYPRESS_SPEC_FILES env = Some s -> s <> "" ->
        join "," (AuroraReporter.getSpecFiles env) = s)
  /\ (forall env,
        CYPRESS_SPEC_FILES env = None \/ CYPRESS_SPEC_FILES env = Some "" ->
        AuroraReporter.getSpecFiles env = []).
Proof.
  assert (Hsplit : forall s,
             join "," (AuroraReporter.split_comma s) = s
             /\ Forall (fun part => count_char "," part = 0%nat)
                  (AuroraReporter.split_comma s)
             /\ length (AuroraReporter.split_comma s) = S (count_char "," s)).
  { induction s as [|c s [IHjoin [IHparts IHlen]]].
    - repeat split. constructor; [reflexivity|constructor].
    - cbn [AuroraReporter.split_comma count_char].
      pose proof (split_comma_nonempty s) as Hne.
      case_bool_decide as Hc.
      + subst c. rewrite join_cons by assumption. simpl. rewrite IHjoin.
        split; [reflexivity|]. split; [|simpl; lia].
        constructor; [reflexivity|assumption].
      + destruct (AuroraReporter.split_comma s) as [|w ws]; [contradiction|].
        split; [|split].
        * destruct ws as [|w' ws]; simpl in *; now rewrite <- IHjoin.
        * inversion IHparts; subst. constructor; [|assumption].
          simpl. now rewrite bool_decide_eq_false_2.
        * simpl in *. lia. }
  split; [exact Hsplit|]. split.
  - intros env s Hs Hne. unfold AuroraReporter.getSpecFiles. rewrite Hs. simpl.
    rewrite bool_decide_eq_false_2 by assumption. apply Hsplit.
  - intros env [H|H]; unfold AuroraReporter.getSpecFiles; rewrite H; reflexivity.
Qed.

Lemma getSpecFiles_splits_at_commas_witness :
  join "," (AuroraReporter.getSpecFiles sample_env) = "a.cy.ts,b.cy.ts".
Proof.
  apply (proj1 (proj2 getSpecFiles_splits_at_commas) sample_env).
  - reflexivity.
  - discriminate.
Defined.

(** * Further properties of the hub *)

Lemma inbox_send (s : string) (recipients : gset string) (v : option string)
    (e : string) (m : WebSocketMessage) (st : WebSocketManager.t) :
  inbox s (WebSocketManager.send recipients v e m st)
  = inbox s st
    ++ (if bool_decide (v = None) && bool_decide (s ∈ recipients) then [m] else []).
Proof.
  unfold inbox, WebSocketManager.send. simpl.
  rewrite List.filter_app, map_app. f_equal.
  destruct (decide (v = None)) as [->|Hv].
  - rewrite bool_decide_eq_true_2 by reflexivity. simpl.
    assert (E : forall l : list string,
               map message
                 (List.filter (fun d => bool_decide (dest d = s)
                                        && bool_decide (via d = None))
                    (map (fun s' => mkDelivery s' None e m) l))
               = map (fun _ => m) (List.filter (fun x => bool_decide (x = s)) l)).
    { induction l as [|x l IH]; simpl; [reflexivity|].
      rewrite ?andb_true_r. destruct (bool_decide (x = s)); simpl; now rewrite IH. }
    rewrite E, filter_one_of_NoDup by apply NoDup_elements.
    rewrite (bool_decide_ext (s ∈ elements recipients) (s ∈ recipients))
      by apply elem_of_elements.
    now destruct (bool_decide (s ∈ recipients)).
  - rewrite (bool_decide_eq_false_2 (v = None)) by assumption. simpl.
    induction (elements recipients) as [|x l IH]; simpl; [reflexivity|].
    rewrite (bool_decide_eq_false_2 (v = None)) by assumption.
    now rewrite andb_false_r.
Qed.

Lemma inbox_emit (s event : string) (data : Payload) (now : Timestamp)
    (st : WebSocketManager.t) :
  inbox s (WebSocketManager.emit event data now st)
  = inbox s st
    ++ (if bool_decide (s ∈ WebSocketManager.connectedClients st)
        then [mkMessage event data now] else []).
Proof.
  unfold WebSocketManager.emit. rewrite inbox_send.
  now rewrite bool_decide_eq_true_2 by reflexivity.
Qed.

Lemma inbox_emitToRoom (s room event : string) (data : Payload) (now : Timestamp)
    (st : WebSocketManager.t) :
  inbox s (WebSocketManager.emitToRoom room event data now st) = inbox s st.
Proof.
  unfold WebSocketManager.emitToRoom. rewrite inbox_send.
  rewrite bool_decide_eq_false_2 by discriminate. apply app_nil_r.
Qed.

Lemma inbox_on_message (s s' : string) (handler : WebSocketManager.t -> WebSocketManager.t)
    (st : WebSocketManager.t) :
  WebSocketManager.delivered (handler st) = WebSocketManager.delivered st ->
  inbox s (WebSocketManager.on_message s' handler st) = inbox s st.
Proof.
  intros H. unfold WebSocketManager.on_message, inbox.
  destruct (bool_decide (s' ∈ WebSocketManager.connectedClients st)); now rewrite ?H.
Qed.

Lemma tracked_online (s room : string) (st : WebSocketManager.t) (sub : Subscription) :
  tracked s room st sub ->
  online sub = bool_decide (s ∈ WebSocketManager.connectedClients st).
Proof.
  intros [H _]. destruct (online sub); case_bool_decide; try reflexivity;
    exfalso; intuition congruence.
Qed.

Lemma step_inbox (s : string) (st : WebSocketManager.t) (sub : Subscription)
    (a : HubAction) :
  tracked s "" st sub ->
  inbox s (WebSocketManager.step st a)
  = inbox s st ++ (if online sub then broadcasts a else []).
Proof.
  intros Htracked. pose proof (tracked_online _ _ _ _ Htracked) as Hon.
  assert (Hnil : forall l : list WebSocketMessage, l = l ++ (if online sub then [] else []))
    by (intros l; destruct (online sub); now rewrite app_nil_r).
  destruct a; cbn [WebSocketManager.step broadcasts].
  - apply Hnil.
  - apply Hnil.
  - rewrite inbox_on_message by reflexivity. apply Hnil.
  - rewrite inbox_on_message by reflexivity. apply Hnil.
  - rewrite inbox_on_message by reflexivity. apply Hnil.
  - now rewrite inbox_emit, Hon.
  - rewrite inbox_emitToRoom. apply Hnil.
  - unfold WebSocketManager.emitTestRunStarted.
    rewrite inbox_emitToRoom, inbox_emit, Hon. reflexivity.
  - unfold WebSocketManager.emitTestRunCompleted.
    rewrite !inbox_emitToRoom, inbox_emit, Hon. reflexivity.
  - unfold WebSocketManager.emitTestStarted. rewrite inbox_emitToRoom. apply Hnil.
  - unfold WebSocketManager.emitTestCompleted. rewrite !inbox_emitToRoom. apply Hnil.
  - unfold WebSocketManager.emitScreenshotTaken. rewrite inbox_emitToRoom. apply Hnil.
  - unfold WebSocketManager.emitStatisticsUpdate. now rewrite inbox_emit, Hon.
Qed.

Lemma run_inbox (s : string) (trace : list HubAction) :
  forall (st : WebSocketManager.t) (sub : Subscription),
    tracked s "" st sub ->
    inbox s (WebSocketManager.run st trace) = inbox s st ++ seen s sub trace.
Proof.
  induction trace as [|a trace IH]; intros st sub Htracked; simpl.
  - symmetry. apply app_nil_r.
  - destruct (step_tracked s "" st sub a Htracked) as [Hnext _].
    unfold WebSocketManager.run in *. simpl.
    rewrite (IH _ _ Hnext), (step_inbox s st sub a Htracked).
    now rewrite <- app_assoc.
Qed.

(** X17.  A broadcast ([emit], and the broadcast copies of
    [emitTestRunStarted], [emitTestRunCompleted] and
    [emitStatisticsUpdate]) reaches exactly the sockets connected when
    it is sent: on every trace of the hub, what a socket was handed by
    broadcast is what the trace broadcasts while the socket is
    connected, in order; rooms play no part, and what was broadcast
    while the socket was away is not handed over when it connects
    again. *)
Theorem broadcasts_reach_connected_sockets (s : string) :
  (forall trace,
     inbox s (WebSocketManager.run WebSocketManager.init trace) = seen s offline trace)
  /\ (forall st sub trace,
        tracked s "" st sub ->
        inbox s (WebSocketManager.run st trace) = inbox s st ++ seen s sub trace)
  /\ (forall st missed later,
        forallb is_emission missed = true ->
        inbox s (WebSocketManager.run st (Disconnect s :: missed ++ Connect s :: later))
        = inbox s st ++ seen s (mkSubscription true false) later).
Proof.
  split; [|split].
  - intros trace. rewrite (run_inbox s trace WebSocketManager.init offline).
    + reflexivity.
    + split; simpl; split; try discriminate; unfold WebSocketManager.members; set_solver.
  - intros st sub trace. apply run_inbox.
  - intros st missed later Hmissed.
    rewrite (run_inbox s _ st _ (tracked_exists s "" st)). f_equal.
    cbn [seen track broadcasts]. rewrite bool_decide_refl.
    assert (Haway : forall sub l,
               online sub = false -> forallb is_emission l = true ->
               seen s sub (l ++ Connect s :: later)
               = seen s (mkSubscription true (subscribed sub)) later).
    { intros sub l Hoff. induction l as [|a l IHl]; intros Hl.
      - cbn [app seen track broadcasts]. rewrite Hoff, bool_decide_refl. reflexivity.
      - simpl in Hl. apply andb_prop in Hl. destruct Hl as [Ha Hl].
        cbn [app seen]. rewrite Hoff, (track_emission _ _ _ _ Ha). now apply IHl. }
    destruct (bool_decide (s ∈ WebSocketManager.connectedClients st));
      cbn [online app]; now rewrite Haway.
Qed.

Lemma broadcasts_reach_connected_sockets_witness :
  inbox "socket-1"
    (WebSocketManager.run WebSocketManager.init
       [Connect "socket-1"; Disconnect "socket-1"; EmitTestRunStarted started_run 1000;
        Connect "socket-1"; EmitTestRunCompleted started_run 1500])
  = [mkMessage "test-run:completed" (PRun started_run) 1500].
Proof.
  destruct (broadcasts_reach_connected_sockets "socket-1") as [_ [_ H]].
  etransitivity.
  - exact (H (WebSocketManager.run WebSocketManager.init [Connect "socket-1"])
             [EmitTestRunStarted started_run 1000]
             [EmitTestRunCompleted started_run 1500] eq_refl).
  - vm_compute. reflexivity.
Defined.

Lemma step_members_are_connected (st : WebSocketManager.t) (a : HubAction) :
  members_are_connected st -> members_are_connected (WebSocketManager.step st a).
Proof.
  intros H room s. specialize (H room s).
  destruct a; cbn [WebSocketManager.step];
    try (unfold WebSocketManager.on_message;
         destruct (bool_decide_reflect
                     (socketId ∈ WebSocketManager.connectedClients st)) as [Hc|Hc];
         [|exact H]).
  - unfold WebSocketManager.handleClientConnection, WebSocketManager.members in *.
    simpl. set_solver.
  - rewrite members_disconnect.
    unfold WebSocketManager.handleClientDisconnection. simpl. set_solver.
  - rewrite members_join. unfold WebSocketManager.join. simpl.
    case_bool_decide; set_solver.
  - rewrite members_join. unfold WebSocketManager.join. simpl.
    case_bool_decide; set_solver.
  - rewrite members_leave. unfold WebSocketManager.leave. simpl.
    case_bool_decide; set_solver.
  - exact H.
  - exact H.
  - exact H.
  - exact H.
  - exact H.
  - exact H.
  - exact H.
  - exact H.
Qed.

(** X18.  In every state the hub reaches, every member of a room is a
    connected socket: a socket joins a room only through a handler it
    has while connected, and a disconnect takes it out of every room.
    A subscription message for a socket that is not connected changes
    nothing. *)
Theorem rooms_hold_connected_sockets :
  (forall trace,
     members_are_connected (WebSocketManager.run WebSocketManager.init trace))
  /\ (forall st trace,
        members_are_connected st ->
        members_are_connected (WebSocketManager.run st trace))
  /\ (forall st s room,
        s ∉ WebSocketManager.members room (WebSocketManager.step st (Disconnect s)))
  /\ (forall st s runId,
        s ∉ WebSocketManager.connectedClients st ->
        WebSocketManager.step st (SubscribeTestRun s runId) = st
        /\ WebSocketManager.step st (SubscribeTestRuns s) = st
        /\ WebSocketManager.step st (UnsubscribeTestRun s runId) = st).
Proof.
  assert (Hrun : forall st trace,
             members_are_connected st ->
             members_are_connected (WebSocketManager.run st trace)).
  { intros st trace. revert st. unfold WebSocketManager.run.
    induction trace as [|a trace IH]; intros st H; [exact H|].
    simpl. apply IH, step_members_are_connected, H. }
  split; [|split; [exact Hrun|split]].
  - intros trace. apply Hrun. intros room s.
    unfold WebSocketManager.members. simpl. set_solver.
  - intros st s room. cbn [WebSocketManager.step]. rewrite members_disconnect.
    set_solver.
  - intros st s runId Hs. cbn [WebSocketManager.step].
    unfold WebSocketManager.on_message.
    now rewrite bool_decide_eq_false_2 by assumption.
Qed.

Lemma rooms_hold_connected_sockets_witness :
  WebSocketManager.step WebSocketManager.init (SubscribeTestRun "socket-1" "run-1")
  = WebSocketManager.init.
Proof.
  destruct rooms_hold_connected_sockets as [_ [_ [_ H]]].
  apply (H WebSocketManager.init "socket-1" "run-1"). set_solver.
Defined.

Lemma deliveries_to_send (s : string) (recipients : gset string) (v : option string)
    (e : string) (m : WebSocketMessage) (st : WebSocketManager.t) :
  deliveries_to s (WebSocketManager.send recipients v e m st)
  = deliveries_to s st
    ++ (if bool_decide (s ∈ recipients) then [mkDelivery s v e m] else []).
Proof.
  unfold deliveries_to, WebSocketManager.send. simpl.
  rewrite List.filter_app. f_equal.
  assert (E : forall l : list string,
             List.filter (fun d => bool_decide (dest d = s))
               (map (fun s' => mkDelivery s' v e m) l)
             = map (fun s' => mkDelivery s' v e m)
                 (List.filter (fun x => bool_decide (x = s)) l)).
  { induction l as [|x l IH]; simpl; [reflexivity|].
    destruct (bool_decide (x = s)); simpl; now rewrite IH. }
  rewrite E, filter_one_of_NoDup by apply NoDup_elements.
  rewrite (bool_decide_ext (s ∈ elements recipients) (s ∈ recipients))
    by apply elem_of_elements.
  now destruct (bool_decide (s ∈ recipients)).
Qed.

(** X19.  [emitTestRunCompleted] hands a socket the completed run once
    by broadcast if it is connected, once more if it is in the room
    [test-runs] and once more if it is in the room of the run, in that
    order: up to three messages for one event.  [emitTestCompleted]
    hands it the result once for the room of the run and once for the
    room [test-updates]. *)
Theorem completion_events_are_sent_once_per_channel :
  forall (s : string) (now : Timestamp) (st : WebSocketManager.t),
    (forall testRun,
       deliveries_to s (WebSocketManager.emitTestRunCompleted testRun now st)
       = deliveries_to s st
         ++ (if bool_decide (s ∈ WebSocketManager.connectedClients st)
             then [mkDelivery s None "test-run:completed"
                     (mkMessage "test-run:completed" (PRun testRun) now)]
             else [])
         ++ (if bool_decide (s ∈ WebSocketManager.members "test-runs" st)
             then [mkDelivery s (Some "test-runs") "test-runs:update"
                     (mkMessage "test-runs:update" (PRun testRun) now)]
             else [])
         ++ (if bool_decide
                  (s ∈ WebSocketManager.members
                         (WebSocketManager.run_room (TestRun.id testRun)) st)
             then [mkDelivery s (Some (WebSocketManager.run_room (TestRun.id testRun)))
                     "test-run:completed"
                     (mkMessage "test-run:completed" (PRun testRun) now)]
             else []))
    /\ (forall testResult,
          deliveries_to s (WebSocketManager.emitTestCompleted testResult now st)
          = deliveries_to s st
            ++ (if bool_decide
                     (s ∈ WebSocketManager.members
                            (WebSocketManager.run_room (TestResult.runId testResult)) st)
                then [mkDelivery s
                        (Some (WebSocketManager.run_room (TestResult.runId testResult)))
                        "test:completed"
                        (mkMessage "test:completed" (PResult testResult) now)]
                else [])
            ++ (if bool_decide (s ∈ WebSocketManager.members "test-updates" st)
                then [mkDelivery s (Some "test-updates") "test:update"
                        (mkMessage "test:update" (PResult testResult) now)]
                else [])).
Proof.
  intros s now st. split.
  - intros testRun.
    unfold WebSocketManager.emitTestRunCompleted, WebSocketManager.emitToRoom,
      WebSocketManager.emit.
    rewrite !deliveries_to_send, <- !app_assoc. reflexivity.
  - intros testResult.
    unfold WebSocketManager.emitTestCompleted, WebSocketManager.emitToRoom.
    rewrite !deliveries_to_send, <- !app_assoc. reflexivity.
Qed.

(** * Properties of the routes *)

Lemma slice_page {A} (l : list A) (offset limit : Z) :
  0 <= offset -> 0 <= limit ->
  slice l (Some offset) (js_add (Some offset) (Some limit))
  = firstn (Z.to_nat limit) (skipn (Z.to_nat offset) l).
Proof.
  intros Ho Hl. unfold slice, relative_index, js_add, default. cbn [from_option id].
  destruct (Z.ltb_spec offset 0) as [?|_]; [lia|].
  destruct (Z.ltb_spec (offset + limit) 0) as [?|_]; [lia|].
  remember (Z.of_nat (length l)) as len eqn:Hlen.
  destruct (Z.le_gt_cases len offset) as [Hout|Hin].
  - rewrite (Z.min_r offset len) by lia.
    rewrite !(skipn_all2 l) by lia. now rewrite !firstn_nil.
  - rewrite (Z.min_l offset len) by lia.
    destruct (Z.le_gt_cases (offset + limit) len) as [Hfull|Hshort].
    + rewrite Z.min_l by lia. f_equal. lia.
    + rewrite Z.min_r by lia.
      rewrite !firstn_all2; [reflexivity| |]; rewrite length_skipn; lia.
Qed.

Lemma relative_index_nonneg (len : Z) (i : JsInt) :
  0 <= len -> 0 <= relative_index len i.
Proof.
  intros Hlen. unfold relative_index.
  destruct (Z.ltb_spec (default 0 i) 0); lia.
Qed.

Lemma slice_not_a_number {A} (l : list A) (start : JsInt) : slice l start None = [].
Proof.
  unfold slice.
  pose proof (relative_index_nonneg (Z.of_nat (length l)) start ltac:(lia)) as Hk.
  assert (Hend : relative_index (Z.of_nat (length l)) None = 0).
  { unfold relative_index. simpl. lia. }
  rewrite Hend, Z2Nat.nonpos by lia. reflexivity.
Qed.

(** X20.  [GET /] pages the runs [findAll] returns with
    [slice(offset, offset + limit)]: for a non-negative limit and
    offset the page is the [limit] runs that follow the first [offset];
    [total] is the number of runs found; [hasMore] holds exactly when
    runs remain behind the page, and then the page is full; a page and
    the page that starts where it ends make the page of their joint
    size.  A limit that is not a number gives an empty page and no
    [hasMore]. *)
Theorem listRuns_pages_the_runs :
  forall (filter : TestFilter.t) (st : Store),
    exists found,
      TestRunRepositoryImpl.findAll (Some filter) st = (Ok found, st)
      /\ (forall limit offset,
            0 <= limit -> 0 <= offset ->
            let page := firstn (Z.to_nat limit) (skipn (Z.to_nat offset) found) in
            exists hasMore,
              TestRunsRouter.listRuns filter (Some limit) (Some offset) st
              = (Ok (Success (page,
                              mkPagination (Z.of_nat (length found))
                                (Some limit) (Some offset) hasMore)), st)
              /\ (hasMore = true <-> offset + limit < Z.of_nat (length found))
              /\ (hasMore = true -> Z.of_nat (length page) = limit)
              /\ (hasMore = false -> page = skipn (Z.to_nat offset) found))
      /\ (forall a b offset,
            0 <= a -> 0 <= b -> 0 <= offset ->
            slice found (Some offset) (Some (offset + a))
            ++ slice found (Some (offset + a)) (Some (offset + a + b))
            = slice found (Some offset) (Some (offset + (a + b))))
      /\ (forall offset,
            exists pagination,
              TestRunsRouter.listRuns filter None offset st
              = (Ok (Success ([], pagination)), st)
              /\ pg_hasMore pagination = false).
Proof.
  intros filter st.
  unfold TestRunsRouter.listRuns.
  change (TestRunRepositoryImpl.findAll (Some filter) st)
    with (Ok (map TestRunRepositoryImpl.mapRowToTestRun
                (order_by TestRunRepositoryImpl.start_time_desc
                   (List.filter
                      (fun r => forallb (fun c => c r)
                                  (TestRunRepositoryImpl.conditions (Some filter)))
                      (test_runs st)))), st).
  set (found := map TestRunRepositoryImpl.mapRowToTestRun _).
  exists found. split; [reflexivity|]. split; [|split].
  - intros limit offset Hl Ho.
    exists (Z.ltb (offset + limit) (Z.of_nat (length found))).
    rewrite slice_page by assumption. split; [reflexivity|].
    rewrite Z.ltb_lt. split; [reflexivity|]. split.
    + intros H. rewrite length_firstn, length_skipn. lia.
    + intros H. apply Z.ltb_ge in H.
      apply firstn_all2. rewrite length_skipn. lia.
  - intros a b offset Ha Hb Ho.
    pose proof (slice_page found offset a Ho Ha) as H1.
    pose proof (slice_page found (offset + a) b ltac:(lia) Hb) as H2.
    pose proof (slice_page found offset (a + b) Ho ltac:(lia)) as H3.
    cbn [js_add] in H1, H2, H3. rewrite H1, H2, H3.
    rewrite !Z2Nat.inj_add by lia.
    rewrite <- (firstn_skipn (Z.to_nat a)
                  (firstn (Z.to_nat a + Z.to_nat b) (skipn (Z.to_nat offset) found))).
    f_equal.
    + rewrite firstn_firstn. f_equal. lia.
    + rewrite skipn_firstn_comm. rewrite skipn_skipn. f_equal; [lia|].
      f_equal. lia.
  - intros offset. eexists. split.
    + replace (js_add offset None) with (@None Z) by now destruct offset.
      rewrite slice_not_a_number. reflexivity.
    + simpl. now destruct offset.
Qed.

Lemma listRuns_pages_the_runs_witness :
  exists page pagination,
    TestRunsRouter.listRuns TestFilter.empty (Some 2) (Some 1) four_runs
    = (Ok (Success (page, pagination)), four_runs)
    /\ map TestRun.id page = ["run-3"; "run-2"]
    /\ pg_hasMore pagination = true.
Proof.
  destruct (listRuns_pages_the_runs TestFilter.empty four_runs)
    as [found [Hfound [Hpage _]]].
  destruct (Hpage 2 1 ltac:(lia) ltac:(lia)) as [hasMore [Heq [Hmore _]]].
  injection Hfound as <-.
  eexists. eexists. split; [exact Heq|]. split; [reflexivity|].
  apply Hmore. vm_compute. reflexivity.
Defined.

Lemma matches_param_first (name : string) (path : list string) :
  TestRunsRouter.matches [Lit name] path = true ->
  TestRunsRouter.matches [Param "id"] path = true.
Proof.
  destruct path as [|segment [|more path]]; simpl; try discriminate.
  - reflexivity.
  - now rewrite andb_false_r.
Qed.

Lemma delete_missing_run (id : string) (st : Store) :
  has_run id st = false ->
  TestRunRepositoryImpl.delete id st
  = (Err (NotFound ("Test run not found: " +:+ id)), st).
Proof.
  intros H. unfold TestRunRepositoryImpl.delete, db_bind.
  rewrite delete_test_runs_nothing; [reflexivity|].
  now apply has_run_false.
Qed.

(** X21.  The routes are tried in the order in which they are
    registered, and [DELETE /:id] is registered before
    [DELETE /cleanup]: no request reaches the cleanup handler, and a
    [DELETE] of any single segment, [cleanup] included, is answered by
    the handler that deletes the run of that id.  That handler answers
    404 with the repository's message when no run has the id, and
    deletes the run otherwise.  The statistics routes have two
    segments and are reached. *)
Theorem delete_by_id_shadows_cleanup :
  (forall path, TestRunsRouter.dispatch DELETE path <> Some Cleanup)
  /\ (forall segment, TestRunsRouter.dispatch DELETE [segment] = Some DeleteRun)
  /\ (forall id st,
        has_run id st = false ->
        TestRunsRouter.deleteRun id st
        = (Ok (Status404 "Test run not found" (Some ("Test run not found: " +:+ id))), st))
  /\ (forall id st,
        has_run id st = true ->
        exists st',
          TestRunsRouter.deleteRun id st = (Ok (Success "Test run deleted successfully"), st')
          /\ TestRunRepositoryImpl.delete id st = (Ok tt, st')
          /\ has_run id st' = false)
  /\ TestRunsRouter.dispatch GET ["statistics"; "overview"] = Some StatisticsOverview
  /\ TestRunsRouter.dispatch GET ["statistics"; "trends"] = Some StatisticsTrends.
Proof.
  split; [|split; [|split; [|split; [|split]]]]; try reflexivity.
  - intros path. unfold TestRunsRouter.dispatch, TestRunsRouter.routes.
    cbn [List.filter fst snd].
    rewrite !(bool_decide_eq_false_2 (GET = DELETE)) by discriminate.
    rewrite !(bool_decide_eq_false_2 (POST = DELETE)) by discriminate.
    rewrite !(bool_decide_eq_true_2 (DELETE = DELETE)) by reflexivity.
    cbn [andb].
    destruct (TestRunsRouter.matches [Param "id"] path) eqn:Hid; [discriminate|].
    destruct (TestRunsRouter.matches [Lit "cleanup"] path) eqn:Hcleanup; [|discriminate].
    apply (matches_param_first "cleanup" path) in Hcleanup. congruence.
  - intros id st Hmissing. unfold TestRunsRouter.deleteRun.
    rewrite delete_missing_run by assumption. reflexivity.
  - intros id st Hrun. unfold TestRunsRouter.deleteRun.
    unfold TestRunRepositoryImpl.delete, db_bind.
    destruct (delete_test_runs_spec (fun r => bool_decide (RunRow.id r = id)) st)
      as [st' [Heq [Hruns _]]].
    rewrite Heq. pose proof (has_run_count id st Hrun) as Hcount.
    apply Z.eqb_neq in Hcount. rewrite Hcount. simpl.
    exists st'. split; [reflexivity|]. split; [reflexivity|].
    destruct (has_run id st') eqn:E; [|reflexivity].
    apply has_run_In in E. destruct E as [r [Hr Hid]].
    rewrite Hruns in Hr. apply filter_In in Hr. destruct Hr as [_ Hr].
    apply negb_true_iff, bool_decide_eq_false in Hr. contradiction.
Qed.

Lemma delete_by_id_shadows_cleanup_witness :
  TestRunsRouter.deleteRun "cleanup" sample_store
  = (Ok (Status404 "Test run not found" (Some "Test run not found: cleanup")),
     sample_store).
Proof.
  destruct delete_by_id_shadows_cleanup as [_ [_ [H _]]].
  apply (H "cleanup" sample_store). reflexivity.
Defined.

Lemma select_stored_run (id : string) (st : Store) :
  has_run id st = true ->
  exists row,
    head (List.filter (fun r => bool_decide (RunRow.id r = id)) (test_runs st)) = Some row
    /\ In row (test_runs st) /\ RunRow.id row = id.
Proof.
  intros H. unfold has_run in H.
  induction (test_runs st) as [|r rows IH]; simpl in *; [discriminate|].
  destruct (bool_decide (RunRow.id r = id)) eqn:E; simpl in *.
  - exists r. apply bool_decide_eq_true in E. auto.
  - destruct (IH H) as [row [H1 [H2 H3]]]. exists row. auto.
Qed.

(** X22.  [GET /:id] answers 404 when no run has the id.  For a stored
    run it answers the run, and includes the results of the run, oldest
    first, only when the query says [includeResults=true] in so many
    words: without the parameter (its default is the boolean [true],
    which the handler compares with the text ['true']) or with any
    other value, the run comes with an empty result list. *)
Theorem getRun_includes_results_on_request :
  forall (id : string) (st : Store),
    (has_run id st = false ->
     forall includeResults,
       TestRunsRouter.getRun id includeResults st
       = (Ok (Status404 "Test run not found"
                (Some ("No test run found with ID: " +:+ id))), st))
    /\ (has_run id st = true ->
        exists row,
          In row (test_runs st) /\ RunRow.id row = id
          /\ (forall includeResults,
                includeResults <> Some "true" ->
                TestRunsRouter.getRun id includeResults st
                = (Ok (Success (TestRunRepositoryImpl.mapRowToTestRun row)), st))
          /\ exists results,
               TestRunsRouter.getRun id (Some "true") st
               = (Ok (Success
                        (TestRunsRouter.with_results
                           (TestRunRepositoryImpl.mapRowToTestRun row)
                           (map TestResultRepositoryImpl.mapRowToTestResult results))), st)
               /\ Permutation results
                    (List.filter (fun r => bool_decide (ResultRow.run_id r = id))
                       (test_results st))
               /\ StronglySorted by_start_time_asc results).
Proof.
  intros id st. split.
  - intros Hmissing includeResults.
    unfold TestRunsRouter.getRun, TestRunRepositoryImpl.findById, db_bind, select.
    rewrite filter_none by now apply has_run_false. reflexivity.
  - intros Hrun. destruct (select_stored_run id st Hrun) as [row [Hhead [Hin Hid]]].
    exists row. split; [exact Hin|]. split; [exact Hid|]. split.
    + intros includeResults Hno.
      unfold TestRunsRouter.getRun, TestRunRepositoryImpl.findById, db_bind, select.
      rewrite Hhead. simpl. now rewrite bool_decide_eq_false_2.
    + exists (order_by TestResultRepositoryImpl.start_time_asc
                (List.filter (fun r => bool_decide (ResultRow.run_id r = id))
                   (test_results st))).
      split; [|split].
      * unfold TestRunsRouter.getRun, TestRunRepositoryImpl.findById, db_bind, select.
        rewrite Hhead. simpl. reflexivity.
      * apply order_by_perm.
      * eapply StronglySorted_impl; [|apply order_by_sorted].
        -- intros a b H. apply Z.leb_le in H. exact H.
        -- intros a b. unfold TestResultRepositoryImpl.start_time_asc.
           rewrite !Z.leb_le. lia.
        -- intros a b c. unfold TestResultRepositoryImpl.start_time_asc.
           rewrite !Z.leb_le. lia.
Qed.

Lemma getRun_includes_results_on_request_witness :
  exists run,
    TestRunsRouter.getRun "run-1" None sample_store = (Ok (Success run), sample_store)
    /\ TestRun.results run = [].
Proof.
  destruct (getRun_includes_results_on_request "run-1" sample_store) as [_ H].
  destruct (H eq_refl) as [row [_ [_ [Hplain _]]]].
  eexists. split; [apply Hplain; discriminate | reflexivity].
Defined.

(** * Schema versions *)

(** X23.  [runMigrations] brings a database without a stored schema
    version, or with version 0, to version 1 and records it; it leaves
    the table as it is when the stored version is 1 or more, or is no
    number; and it fails with 'Unknown migration version', recording
    nothing, when the stored version is negative.  After a run that
    succeeded a second run changes nothing. *)
Theorem runMigrations_reaches_the_target :
  forall (metadata : Metadata),
    (DatabaseSchema.getCurrentSchemaVersion metadata = Some 0 ->
     DatabaseSchema.runMigrations metadata
     = (MigrationsDone, <["schema_version" := Some "1"]> metadata)
     /\ DatabaseSchema.getCurrentSchemaVersion
          (<["schema_version" := Some "1"]> metadata) = Some 1)
    /\ (metadata !! "schema_version" = None ->
        DatabaseSchema.getCurrentSchemaVersion metadata = Some 0)
    /\ (forall version,
          DatabaseSchema.getCurrentSchemaVersion metadata = Some version ->
          1 <= version ->
          DatabaseSchema.runMigrations metadata = (MigrationsDone, metadata))
    /\ (DatabaseSchema.getCurrentSchemaVersion metadata = None ->
        DatabaseSchema.runMigrations metadata = (MigrationsDone, metadata))
    /\ (forall version,
          DatabaseSchema.getCurrentSchemaVersion metadata = Some version ->
          version < 0 ->
          DatabaseSchema.runMigrations metadata
          = (MigrationError ("Unknown migration version: " +:+ toString (version + 1)),
             metadata))
    /\ (forall metadata',
          DatabaseSchema.runMigrations metadata = (MigrationsDone, metadata') ->
          DatabaseSchema.runMigrations metadata' = (MigrationsDone, metadata')).
Proof.
  intros metadata.
  assert (Hzero : DatabaseSchema.getCurrentSchemaVersion metadata = Some 0 ->
                  DatabaseSchema.runMigrations metadata
                  = (MigrationsDone, <["schema_version" := Some "1"]> metadata)).
  { intros H. unfold DatabaseSchema.runMigrations. rewrite H. reflexivity. }
  assert (Hread : forall m : Metadata,
             DatabaseSchema.getCurrentSchemaVersion (<["schema_version" := Some "1"]> m)
             = Some 1).
  { intros m. unfold DatabaseSchema.getCurrentSchemaVersion, Metadata in *.
    rewrite (lookup_insert_eq m "schema_version"). reflexivity. }
  assert (Hdone : forall (m : Metadata) version,
             DatabaseSchema.getCurrentSchemaVersion m = Some version ->
             1 <= version ->
             DatabaseSchema.runMigrations m = (MigrationsDone, m)).
  { intros m version H Hle. unfold DatabaseSchema.runMigrations. rewrite H.
    unfold DatabaseSchema.getTargetSchemaVersion.
    destruct (Z.ltb_spec version 1); [lia|reflexivity]. }
  assert (Hnan : forall m : Metadata,
             DatabaseSchema.getCurrentSchemaVersion m = None ->
             DatabaseSchema.runMigrations m = (MigrationsDone, m)).
  { intros m H. unfold DatabaseSchema.runMigrations. now rewrite H. }
  assert (Hneg : forall version,
             DatabaseSchema.getCurrentSchemaVersion metadata = Some version ->
             version < 0 ->
             DatabaseSchema.runMigrations metadata
             = (MigrationError ("Unknown migration version: " +:+ toString (version + 1)),
                metadata)).
  { intros version H Hlt. unfold DatabaseSchema.runMigrations. rewrite H.
    unfold DatabaseSchema.getTargetSchemaVersion.
    destruct (Z.ltb_spec version 1); [|lia].
    destruct (Z.to_nat (1 - version)) as [|steps] eqn:E; [lia|].
    cbn [DatabaseSchema.migrate_from]. unfold DatabaseSchema.getTargetSchemaVersion.
    destruct (Z.leb_spec (version + 1) 1); [|lia].
    unfold DatabaseSchema.runMigration.
    destruct (Z.eqb_spec (version + 1) 1); [lia|reflexivity]. }
  split; [intros H; split; [now apply Hzero | apply Hread]|].
  split; [intros H; unfold DatabaseSchema.getCurrentSchemaVersion; now rewrite H|].
  split; [apply Hdone|]. split; [apply Hnan|]. split; [exact Hneg|].
  intros metadata' Hrun.
  destruct (DatabaseSchema.getCurrentSchemaVersion metadata) as [version|] eqn:Hv.
  - destruct (Z.lt_trichotomy version 0) as [Hlt|[->|Hgt]].
    + rewrite (Hneg version eq_refl Hlt) in Hrun. discriminate.
    + rewrite (Hzero eq_refl) in Hrun. injection Hrun as <-.
      apply (Hdone _ 1); [apply Hread|lia].
    + rewrite (Hdone metadata version Hv) in Hrun by lia. injection Hrun as <-.
      apply (Hdone metadata version Hv). lia.
  - rewrite (Hnan metadata Hv) in Hrun. injection Hrun as <-. now apply Hnan.
Qed.

Lemma runMigrations_reaches_the_target_witness :
  DatabaseSchema.runMigrations ∅
  = (MigrationsDone, <["schema_version" := Some "1"]> ∅)
  /\ DatabaseSchema.runMigrations (<["schema_version" := Some "-3"]> ∅)
     = (MigrationError "Unknown migration version: -2",
        <["schema_version" := Some "-3"]> ∅).
Proof.
  split.
  - apply (proj1 (runMigrations_reaches_the_target ∅)). reflexivity.
  - refine (proj1 (proj2 (proj2 (proj2 (proj2
             (runMigrations_reaches_the_target (<["schema_version" := Some "-3"]> ∅))))))
             (-3) _ _).
    + reflexivity.
    + lia.
Defined.

(** * The HTML report *)

Lemma replace_char_app (c : ascii) (by_ a b : string) :
  replace_char c by_ (a +:+ b) = replace_char c by_ a +:+ replace_char c by_ b.
Proof.
  induction a as [|d a IH]; [reflexivity|]. simpl.
  case_bool_decide; rewrite IH; [|reflexivity].
  symmetry. apply string_app_assoc.
Qed.

Lemma esc_cons (c : ascii) (s : string) : esc (String c s) = esc_char c +:+ esc s.
Proof.
  unfold esc, esc_char. cbn [replace_char].
  destruct (bool_decide_reflect (c = "&"%char)) as [->|Hamp].
  - rewrite !replace_char_app. reflexivity.
  - cbn [replace_char].
    destruct (bool_decide_reflect (c = "<"%char)) as [->|Hlt].
    + rewrite !replace_char_app. reflexivity.
    + cbn [replace_char].
      destruct (bool_decide_reflect (c = ">"%char)) as [->|Hgt]; reflexivity.
Qed.

Lemma count_char_app (c : ascii) (a b : string) :
  count_char c (a +:+ b) = (count_char c a + count_char c b)%nat.
Proof. induction a as [|d a IH]; simpl; [reflexivity|]. rewrite IH. lia. Qed.

Lemma esc_char_no_bracket (c : ascii) :
  count_char "<" (esc_char c) = 0%nat /\ count_char ">" (esc_char c) = 0%nat.
Proof.
  unfold esc_char. repeat case_bool_decide; try (split; reflexivity).
  simpl. rewrite !bool_decide_eq_false_2 by assumption. split; reflexivity.
Qed.

(** X24.  [esc], which writes the texts of the HTML report, leaves no
    [<] and no [>] in a text, so no text of a run can open or close a
    tag; it changes nothing in a text without [&], [<] and [>]; and it
    loses nothing: different texts are written differently. *)
Theorem esc_keeps_text_out_of_tags :
  (forall s, count_char "<" (esc s) = 0%nat /\ count_char ">" (esc s) = 0%nat)
  /\ (forall s,
        count_char "&" s = 0%nat -> count_char "<" s = 0%nat -> count_char ">" s = 0%nat ->
        esc s = s)
  /\ (forall s t, esc s = esc t -> s = t).
Proof.
  split; [|split].
  - induction s as [|c s [IH1 IH2]]; [split; reflexivity|].
    rewrite esc_cons, !count_char_app, IH1, IH2.
    destruct (esc_char_no_bracket c) as [-> ->]. split; reflexivity.
  - induction s as [|c s IH]; [reflexivity|].
    cbn [count_char]. intros Hamp Hlt Hgt.
    rewrite esc_cons. unfold esc_char.
    destruct (bool_decide (c = "&"%char)); [discriminate|].
    destruct (bool_decide (c = "<"%char)); [discriminate|].
    destruct (bool_decide (c = ">"%char)); [discriminate|].
    simpl. f_equal. now apply IH.
  - induction s as [|c s IH]; intros [|d t].
    + reflexivity.
    + rewrite esc_cons. unfold esc_char. change (esc "") with "".
      repeat case_bool_decide; discriminate.
    + rewrite esc_cons. unfold esc_char. change (esc "") with "".
      repeat case_bool_decide; discriminate.
    + rewrite !esc_cons. unfold esc_char.
      destruct (bool_decide_reflect (c = "&"%char)) as [->|Hc1];
        [|destruct (bool_decide_reflect (c = "<"%char)) as [->|Hc2];
          [|destruct (bool_decide_reflect (c = ">"%char)) as [->|Hc3]]];
      (destruct (bool_decide_reflect (d = "&"%char)) as [->|Hd1];
        [|destruct (bool_decide_reflect (d = "<"%char)) as [->|Hd2];
          [|destruct (bool_decide_reflect (d = ">"%char)) as [->|Hd3]]]);
      simpl; intros H; try discriminate H;
        try (injection H as H; f_equal; now apply IH);
        try (injection H as Hhead _; congruence).
      injection H as -> H. f_equal. now apply IH.
Qed.

Lemma esc_keeps_text_out_of_tags_witness :
  esc "logs in" = "logs in"
  /\ (esc "a<b" = esc "a&lt;b" -> "a<b" = "a&lt;b").
Proof.
  destruct esc_keeps_text_out_of_tags as [_ [Hplain Hinj]].
  split.
  - apply Hplain; reflexivity.
  - apply Hinj.
Defined.
